(** * SenhasGF4: the ticket distributor of [event_utils.py]

    A shallow embedding of the Python module [event_utils.py] (ticket
    numbering over a Google Sheets row store, attendee normalisers, area
    configuration, ticket rendering) and of the form of [streamlit_app.py],
    together with the properties of their functions.

    Conventions of the embedding.
    - A Python [str] is the list of its Unicode code points, [str]; a text
      literal is read as UTF-8.  What the runtime knows about characters
      ([str.isspace], the decimal digits, the case mappings, the
      compatibility decomposition, the combining classes) is the Unicode
      Character Database 14.0.0 of CPython 3.11, in [Unicode].
    - A Python [int] is a [Z].
    - An argument that the code reads as [(x or "")] is an [option str],
      [None] standing for Python's [None].
    - A raised exception is the [Raise] branch of [result]. *)

From Stdlib Require Import ZArith NArith Lia List Bool Decimal DecimalPos.
From Stdlib Require Import Strings.Byte.
From stdpp Require Import base option list gmap.

Import ListNotations.
Local Open Scope list_scope.
Local Open Scope Z_scope.

(** ** Text *)

(** A Python [str]: the sequence of its code points. *)
Abbreviation str := (list N).

(** Text literals are written in UTF-8. *)
Module Utf8.
Local Open Scope N_scope.

Inductive literal : Type :=
| LNil
| LCons (c : N) (r : literal).

(** The six payload bits of a continuation byte. *)
Definition continuation (b : N) : option N :=
  if (128 <=? b) && (b <? 192) then Some (b - 128) else None.

Fixpoint decode (fuel : nat) (bytes : list N) : option literal :=
  match fuel with
  | O => None
  | S fuel =>
      match bytes with
      | [] => Some LNil
      | b :: r =>
          if b <? 128 then LCons b <$> decode fuel r
          else if b <? 192 then None
          else if b <? 224 then
            match r with
            | b1 :: r =>
                x1 ← continuation b1;
                LCons ((b - 192) * 64 + x1) <$> decode fuel r
            | _ => None
            end
          else if b <? 240 then
            match r with
            | b1 :: b2 :: r =>
                x1 ← continuation b1; x2 ← continuation b2;
                LCons ((b - 224) * 4096 + x1 * 64 + x2) <$> decode fuel r
            | _ => None
            end
          else if b <? 248 then
            match r with
            | b1 :: b2 :: b3 :: r =>
                x1 ← continuation b1; x2 ← continuation b2; x3 ← continuation b3;
                LCons ((b - 240) * 262144 + x1 * 4096 + x2 * 64 + x3)
                  <$> decode fuel r
            | _ => None
            end
          else None
      end
  end.

Definition parse (bytes : list byte) : option literal :=
  decode (S (length bytes)) (map Byte.to_N bytes).

Definition encode (c : N) : list N :=
  if c <? 128 then [c]
  else if c <? 2048 then [192 + c / 64; 128 + c mod 64]
  else if c <? 65536 then
    [224 + c / 4096; 128 + (c / 64) mod 64; 128 + c mod 64]
  else
    [240 + c / 262144; 128 + (c / 4096) mod 64; 128 + (c / 64) mod 64;
     128 + c mod 64].

Fixpoint bytes_of (l : list N) : option (list byte) :=
  match l with
  | [] => Some []
  | b :: r => x ← Byte.of_N b; (cons x) <$> bytes_of r
  end.

Fixpoint print (s : literal) : option (list byte) :=
  match s with
  | LNil => Some []
  | LCons c r =>
      if c <? 1114112 then
        x ← bytes_of (encode c); (app x) <$> print r
      else None
  end.

End Utf8.

Declare Scope str_scope.
Delimit Scope str_scope with str.
#[warnings="-via-type-remapping,-via-type-mismatch"]
String Notation list Utf8.parse Utf8.print
  (via Utf8.literal mapping [[nil] => Utf8.LNil, [cons] => Utf8.LCons])
  : str_scope.
Local Open Scope str_scope.

(** ** Exceptions and results *)

(** The exceptions of the module, and [OtherError] for an exception raised
    inside one of the drawing libraries, by the name of its class. *)
Inductive exn : Type :=
| ValueError (msg : str)
| RuntimeError (msg : str)
| HttpError
| OtherError (class_name : str).

Inductive result (A : Type) : Type :=
| Ok (a : A)
| Raise (e : exn).

Arguments Ok {A} a.
Arguments Raise {A} e.

(** The error kinds of the design: every [ValueError] of the module is a
    Validation error. *)
Definition is_validation (e : exn) : bool :=
  match e with ValueError _ => true | _ => false end.

Definition raised_validation {A} (r : result A) : bool :=
  match r with Raise e => is_validation e | Ok _ => false end.

(** ** The character database *)

Module Unicode.
Local Open Scope N_scope.

(** Tables are sorted by code point; a search stops at the first entry
    above the character. *)
Fixpoint find_range (t : list (N * N)) (c : N) : option (N * N) :=
  match t with
  | [] => None
  | (lo, hi) :: rest =>
      if c <? lo then None
      else if c <=? hi then Some (lo, hi)
      else find_range rest c
  end.

Definition in_ranges (t : list (N * N)) (c : N) : bool :=
  match find_range t c with Some _ => true | None => false end.

Fixpoint assoc {A} (t : list (N * A)) (c : N) : option A :=
  match t with
  | [] => None
  | (k, v) :: rest =>
      if c <? k then None
      else if c =? k then Some v
      else assoc rest c
  end.

Fixpoint class_of (t : list (N * N * N)) (c : N) : N :=
  match t with
  | [] => 0
  | (lo, hi, k) :: rest =>
      if c <? lo then 0
      else if c <=? hi then k
      else class_of rest c
  end.

(** The characters for which [str.isspace] holds; [str.strip] removes them. *)
Definition space_ranges : list (N * N) :=
  [
    (9, 13); (28, 32); (133, 133); (160, 160); (5760, 5760); (8192, 8202);
    (8232, 8233); (8239, 8239); (8287, 8287); (12288, 12288)
  ]%N.

(** The decimal digits (category Nd), which is the class [\d] of [re] and what
    [int] reads: each run starts at a digit zero and counts up, ten by ten. *)
Definition decimal_ranges : list (N * N) :=
  [
    (48, 57); (1632, 1641); (1776, 1785); (1984, 1993); (2406, 2415);
    (2534, 2543); (2662, 2671); (2790, 2799); (2918, 2927); (3046, 3055);
    (3174, 3183); (3302, 3311); (3430, 3439); (3558, 3567); (3664, 3673);
    (3792, 3801); (3872, 3881); (4160, 4169); (4240, 4249); (6112, 6121);
    (6160, 6169); (6470, 6479); (6608, 6617); (6784, 6793); (6800, 6809);
    (6992, 7001); (7088, 7097); (7232, 7241); (7248, 7257); (42528, 42537);
    (43216, 43225); (43264, 43273); (43472, 43481); (43504, 43513);
    (43600, 43609); (44016, 44025); (65296, 65305); (66720, 66729);
    (68912, 68921); (69734, 69743); (69872, 69881); (69942, 69951);
    (70096, 70105); (70384, 70393); (70736, 70745); (70864, 70873);
    (71248, 71257); (71360, 71369); (71472, 71481); (71904, 71913);
    (72016, 72025); (72784, 72793); (73040, 73049); (73120, 73129);
    (92768, 92777); (92864, 92873); (93008, 93017); (120782, 120831);
    (123200, 123209); (123632, 123641); (125264, 125273); (130032, 130041)
  ]%N.

(** The characters with the property Lowercase ([str.islower] of the character). *)
Definition lowercase_ranges : list (N * N) :=
  [
    (97, 122); (170, 170); (181, 181); (186, 186); (223, 246); (248, 255);
    (257, 257); (259, 259); (261, 261); (263, 263); (265, 265); (267, 267);
    (269, 269); (271, 271); (273, 273); (275, 275); (277, 277); (279, 279);
    (281, 281); (283, 283); (285, 285); (287, 287); (289, 289); (291, 291);
    (293, 293); (295, 295); (297, 297); (299, 299); (301, 301); (303, 303);
    (305, 305); (307, 307); (309, 309); (311, 312); (314, 314); (316, 316);
    (318, 318); (320, 320); (322, 322); (324, 324); (326, 326); (328, 329);
    (331, 331); (333, 333); (335, 335); (337, 337); (339, 339); (341, 341);
    (343, 343); (345, 345); (347, 347); (349, 349); (351, 351); (353, 353);
    (355, 355); (357, 357); (359, 359); (361, 361); (363, 363); (365, 365);
    (367, 367); (369, 369); (371, 371); (373, 373); (375, 375); (378, 378);
    (380, 380); (382, 384); (387, 387); (389, 389); (392, 392); (396, 397);
    (402, 402); (405, 405); (409, 411); (414, 414); (417, 417); (419, 419);
    (421, 421); (424, 424); (426, 427); (429, 429); (432, 432); (436, 436);
    (438, 438); (441, 442); (445, 447); (454, 454); (457, 457); (460, 460);
    (462, 462); (464, 464); (466, 466); (468, 468); (470, 470); (472, 472);
    (474, 474); (476, 477); (479, 479); (481, 481); (483, 483); (485, 485);
    (487, 487); (489, 489); (491, 491); (493, 493); (495, 496); (499, 499);
    (501, 501); (505, 505); (507, 507); (509, 509); (511, 511); (513, 513);
    (515, 515); (517, 517); (519, 519); (521, 521); (523, 523); (525, 525);
    (527, 527); (529, 529); (531, 531); (533, 533); (535, 535); (537, 537);
    (539, 539); (541, 541); (543, 543); (545, 545); (547, 547); (549, 549);
    (551, 551); (553, 553); (555, 555); (557, 557); (559, 559); (561, 561);
    (563, 569); (572, 572); (575, 576); (578, 578); (583, 583); (585, 585);
    (587, 587); (589, 589); (591, 659); (661, 696); (704, 705); (736, 740);
    (837, 837); (881, 881); (883, 883); (887, 887); (890, 893); (912, 912);
    (940, 974); (976, 977); (981, 983); (985, 985); (987, 987); (989, 989);
    (991, 991); (993, 993); (995, 995); (997, 997); (999, 999); (1001, 1001);
    (1003, 1003); (1005, 1005); (1007, 1011); (1013, 1013); (1016, 1016);
    (1019, 1020); (1072, 1119); (1121, 1121); (1123, 1123); (1125, 1125);
    (1127, 1127); (1129, 1129); (1131, 1131); (1133, 1133); (1135, 1135);
    (1137, 1137); (1139, 1139); (1141, 1141); (1143, 1143); (1145, 1145);
    (1147, 1147); (1149, 1149); (1151, 1151); (1153, 1153); (1163, 1163);
    (1165, 1165); (1167, 1167); (1169, 1169); (1171, 1171); (1173, 1173);
    (1175, 1175); (1177, 1177); (1179, 1179); (1181, 1181); (1183, 1183);
    (1185, 1185); (1187, 1187); (1189, 1189); (1191, 1191); (1193, 1193);
    (1195, 1195); (1197, 1197); (1199, 1199); (1201, 1201); (1203, 1203);
    (1205, 1205); (1207, 1207); (1209, 1209); (1211, 1211); (1213, 1213);
    (1215, 1215); (1218, 1218); (1220, 1220); (1222, 1222); (1224, 1224);
    (1226, 1226); (1228, 1228); (1230, 1231); (1233, 1233); (1235, 1235);
    (1237, 1237); (1239, 1239); (1241, 1241); (1243, 1243); (1245, 1245);
    (1247, 1247); (1249, 1249); (1251, 1251); (1253, 1253); (1255, 1255);
    (1257, 1257); (1259, 1259); (1261, 1261); (1263, 1263); (1265, 1265);
    (1267, 1267); (1269, 1269); (1271, 1271); (1273, 1273); (1275, 1275);
    (1277, 1277); (1279, 1279); (1281, 1281); (1283, 1283); (1285, 1285);
    (1287, 1287); (1289, 1289); (1291, 1291); (1293, 1293); (1295, 1295);
    (1297, 1297); (1299, 1299); (1301, 1301); (1303, 1303); (1305, 1305);
    (1307, 1307); (1309, 1309); (1311, 1311); (1313, 1313); (1315, 1315);
    (1317, 1317); (1319, 1319); (1321, 1321); (1323, 1323); (1325, 1325);
    (1327, 1327); (1376, 1416); (4304, 4346); (4349, 4351); (5112, 5117);
    (7296, 7304); (7424, 7615); (7681, 7681); (7683, 7683); (7685, 7685);
    (7687, 7687); (7689, 7689); (7691, 7691); (7693, 7693); (7695, 7695);
    (7697, 7697); (7699, 7699); (7701, 7701); (7703, 7703); (7705, 7705);
    (7707, 7707); (7709, 7709); (7711, 7711); (7713, 7713); (7715, 7715);
    (7717, 7717); (7719, 7719); (7721, 7721); (7723, 7723); (7725, 7725);
    (7727, 7727); (7729, 7729); (7731, 7731); (7733, 7733); (7735, 7735);
    (7737, 7737); (7739, 7739); (7741, 7741); (7743, 7743); (7745, 7745);
    (7747, 7747); (7749, 7749); (7751, 7751); (7753, 7753); (7755, 7755);
    (7757, 7757); (7759, 7759); (7761, 7761); (7763, 7763); (7765, 7765);
    (7767, 7767); (7769, 7769); (7771, 7771); (7773, 7773); (7775, 7775);
    (7777, 7777); (7779, 7779); (7781, 7781); (7783, 7783); (7785, 7785);
    (7787, 7787); (7789, 7789); (7791, 7791); (7793, 7793); (7795, 7795);
    (7797, 7797); (7799, 7799); (7801, 7801); (7803, 7803); (7805, 7805);
    (7807, 7807); (7809, 7809); (7811, 7811); (7813, 7813); (7815, 7815);
    (7817, 7817); (7819, 7819); (7821, 7821); (7823, 7823); (7825, 7825);
    (7827, 7827); (7829, 7837); (7839, 7839); (7841, 7841); (7843, 7843);
    (7845, 7845); (7847, 7847); (7849, 7849); (7851, 7851); (7853, 7853);
    (7855, 7855); (7857, 7857); (7859, 7859); (7861, 7861); (7863, 7863);
    (7865, 7865); (7867, 7867); (7869, 7869); (7871, 7871); (7873, 7873);
    (7875, 7875); (7877, 7877); (7879, 7879); (7881, 7881); (7883, 7883);
    (7885, 7885); (7887, 7887); (7889, 7889); (7891, 7891); (7893, 7893);
    (7895, 7895); (7897, 7897); (7899, 7899); (7901, 7901); (7903, 7903);
    (7905, 7905); (7907, 7907); (7909, 7909); (7911, 7911); (7913, 7913);
    (7915, 7915); (7917, 7917); (7919, 7919); (7921, 7921); (7923, 7923);
    (7925, 7925); (7927, 7927); (7929, 7929); (7931, 7931); (7933, 7933);
    (7935, 7943); (7952, 7957); (7968, 7975); (7984, 7991); (8000, 8005);
    (8016, 8023); (8032, 8039); (8048, 8061); (8064, 8071); (8080, 8087);
    (8096, 8103); (8112, 8116); (8118, 8119); (8126, 8126); (8130, 8132);
    (8134, 8135); (8144, 8147); (8150, 8151); (8160, 8167); (8178, 8180);
    (8182, 8183); (8305, 8305); (8319, 8319); (8336, 8348); (8458, 8458);
    (8462, 8463); (8467, 8467); (8495, 8495); (8500, 8500); (8505, 8505);
    (8508, 8509); (8518, 8521); (8526, 8526); (8560, 8575); (8580, 8580);
    (9424, 9449); (11312, 11359); (11361, 11361); (11365, 11366);
    (11368, 11368); (11370, 11370); (11372, 11372); (11377, 11377);
    (11379, 11380); (11382, 11389); (11393, 11393); (11395, 11395);
    (11397, 11397); (11399, 11399); (11401, 11401); (11403, 11403);
    (11405, 11405); (11407, 11407); (11409, 11409); (11411, 11411);
    (11413, 11413); (11415, 11415); (11417, 11417); (11419, 11419);
    (11421, 11421); (11423, 11423); (11425, 11425); (11427, 11427);
    (11429, 11429); (11431, 11431); (11433, 11433); (11435, 11435);
    (11437, 11437); (11439, 11439); (11441, 11441); (11443, 11443);
    (11445, 11445); (11447, 11447); (11449, 11449); (11451, 11451);
    (11453, 11453); (11455, 11455); (11457, 11457); (11459, 11459);
    (11461, 11461); (11463, 11463); (11465, 11465); (11467, 11467);
    (11469, 11469); (11471, 11471); (11473, 11473); (11475, 11475);
    (11477, 11477); (11479, 11479); (11481, 11481); (11483, 11483);
    (11485, 11485); (11487, 11487); (11489, 11489); (11491, 11492);
    (11500, 11500); (11502, 11502); (11507, 11507); (11520, 11557);
    (11559, 11559); (11565, 11565); (42561, 42561); (42563, 42563);
    (42565, 42565); (42567, 42567); (42569, 42569); (42571, 42571);
    (42573, 42573); (42575, 42575); (42577, 42577); (42579, 42579);
    (42581, 42581); (42583, 42583); (42585, 42585); (42587, 42587);
    (42589, 42589); (42591, 42591); (42593, 42593); (42595, 42595);
    (42597, 42597); (42599, 42599); (42601, 42601); (42603, 42603);
    (42605, 42605); (42625, 42625); (42627, 42627); (42629, 42629);
    (42631, 42631); (42633, 42633); (42635, 42635); (42637, 42637);
    (42639, 42639); (42641, 42641); (42643, 42643); (42645, 42645);
    (42647, 42647); (42649, 42649); (42651, 42653); (42787, 42787);
    (42789, 42789); (42791, 42791); (42793, 42793); (42795, 42795);
    (42797, 42797); (42799, 42801); (42803, 42803); (42805, 42805);
    (42807, 42807); (42809, 42809); (42811, 42811); (42813, 42813);
    (42815, 42815); (42817, 42817); (42819, 42819); (42821, 42821);
    (42823, 42823); (42825, 42825); (42827, 42827); (42829, 42829);
    (42831, 42831); (42833, 42833); (42835, 42835); (42837, 42837);
    (42839, 42839); (42841, 42841); (42843, 42843); (42845, 42845);
    (42847, 42847); (42849, 42849); (42851, 42851); (42853, 42853);
    (42855, 42855); (42857, 42857); (42859, 42859); (42861, 42861);
    (42863, 42872); (42874, 42874); (42876, 42876); (42879, 42879);
    (42881, 42881); (42883, 42883); (42885, 42885); (42887, 42887);
    (42892, 42892); (42894, 42894); (42897, 42897); (42899, 42901);
    (42903, 42903); (42905, 42905); (42907, 42907); (42909, 42909);
    (42911, 42911); (42913, 42913); (42915, 42915); (42917, 42917);
    (42919, 42919); (42921, 42921); (42927, 42927); (42933, 42933);
    (42935, 42935); (42937, 42937); (42939, 42939); (42941, 42941);
    (42943, 42943); (42945, 42945); (42947, 42947); (42952, 42952);
    (42954, 42954); (42961, 42961); (42963, 42963); (42965, 42965);
    (42967, 42967); (42969, 42969); (42998, 42998); (43000, 43002);
    (43824, 43866); (43868, 43880); (43888, 43967); (64256, 64262);
    (64275, 64279); (65345, 65370); (66600, 66639); (66776, 66811);
    (66967, 66977); (66979, 66993); (66995, 67001); (67003, 67004);
    (67456, 67456); (67459, 67461); (67463, 67504); (67506, 67514);
    (68800, 68850); (71872, 71903); (93792, 93823); (119834, 119859);
    (119886, 119892); (119894, 119911); (119938, 119963); (119990, 119993);
    (119995, 119995); (119997, 120003); (120005, 120015); (120042, 120067);
    (120094, 120119); (120146, 120171); (120198, 120223); (120250, 120275);
    (120302, 120327); (120354, 120379); (120406, 120431); (120458, 120485);
    (120514, 120538); (120540, 120545); (120572, 120596); (120598, 120603);
    (120630, 120654); (120656, 120661); (120688, 120712); (120714, 120719);
    (120746, 120770); (120772, 120777); (120779, 120779); (122624, 122633);
    (122635, 122654); (125218, 125251)
  ]%N.

(** The cased characters: property Lowercase or Uppercase, or category Lt. *)
Definition cased_ranges : list (N * N) :=
  [
    (65, 90); (97, 122); (170, 170); (181, 181); (186, 186); (192, 214);
    (216, 246); (248, 442); (444, 447); (452, 659); (661, 696); (704, 705);
    (736, 740); (837, 837); (880, 883); (886, 887); (890, 893); (895, 895);
    (902, 902); (904, 906); (908, 908); (910, 929); (931, 1013); (1015, 1153);
    (1162, 1327); (1329, 1366); (1376, 1416); (4256, 4293); (4295, 4295);
    (4301, 4301); (4304, 4346); (4349, 4351); (5024, 5109); (5112, 5117);
    (7296, 7304); (7312, 7354); (7357, 7359); (7424, 7615); (7680, 7957);
    (7960, 7965); (7968, 8005); (8008, 8013); (8016, 8023); (8025, 8025);
    (8027, 8027); (8029, 8029); (8031, 8061); (8064, 8116); (8118, 8124);
    (8126, 8126); (8130, 8132); (8134, 8140); (8144, 8147); (8150, 8155);
    (8160, 8172); (8178, 8180); (8182, 8188); (8305, 8305); (8319, 8319);
    (8336, 8348); (8450, 8450); (8455, 8455); (8458, 8467); (8469, 8469);
    (8473, 8477); (8484, 8484); (8486, 8486); (8488, 8488); (8490, 8493);
    (8495, 8500); (8505, 8505); (8508, 8511); (8517, 8521); (8526, 8526);
    (8544, 8575); (8579, 8580); (9398, 9449); (11264, 11492); (11499, 11502);
    (11506, 11507); (11520, 11557); (11559, 11559); (11565, 11565);
    (42560, 42605); (42624, 42653); (42786, 42887); (42891, 42894);
    (42896, 42954); (42960, 42961); (42963, 42963); (42965, 42969);
    (42997, 42998); (43000, 43002); (43824, 43866); (43868, 43880);
    (43888, 43967); (64256, 64262); (64275, 64279); (65313, 65338);
    (65345, 65370); (66560, 66639); (66736, 66771); (66776, 66811);
    (66928, 66938); (66940, 66954); (66956, 66962); (66964, 66965);
    (66967, 66977); (66979, 66993); (66995, 67001); (67003, 67004);
    (67456, 67456); (67459, 67461); (67463, 67504); (67506, 67514);
    (68736, 68786); (68800, 68850); (71840, 71903); (93760, 93823);
    (119808, 119892); (119894, 119964); (119966, 119967); (119970, 119970);
    (119973, 119974); (119977, 119980); (119982, 119993); (119995, 119995);
    (119997, 120003); (120005, 120069); (120071, 120074); (120077, 120084);
    (120086, 120092); (120094, 120121); (120123, 120126); (120128, 120132);
    (120134, 120134); (120138, 120144); (120146, 120485); (120488, 120512);
    (120514, 120538); (120540, 120570); (120572, 120596); (120598, 120628);
    (120630, 120654); (120656, 120686); (120688, 120712); (120714, 120744);
    (120746, 120770); (120772, 120779); (122624, 122633); (122635, 122654);
    (125184, 125251); (127280, 127305); (127312, 127337); (127344, 127369)
  ]%N.

(** The characters with the property Case_Ignorable. *)
Definition case_ignorable_ranges : list (N * N) :=
  [
    (39, 39); (46, 46); (58, 58); (94, 94); (96, 96); (168, 168); (173, 173);
    (175, 175); (180, 180); (183, 184); (688, 879); (884, 885); (890, 890);
    (900, 901); (903, 903); (1155, 1161); (1369, 1369); (1375, 1375);
    (1425, 1469); (1471, 1471); (1473, 1474); (1476, 1477); (1479, 1479);
    (1524, 1524); (1536, 1541); (1552, 1562); (1564, 1564); (1600, 1600);
    (1611, 1631); (1648, 1648); (1750, 1757); (1759, 1768); (1770, 1773);
    (1807, 1807); (1809, 1809); (1840, 1866); (1958, 1968); (2027, 2037);
    (2042, 2042); (2045, 2045); (2070, 2093); (2137, 2139); (2184, 2184);
    (2192, 2193); (2200, 2207); (2249, 2306); (2362, 2362); (2364, 2364);
    (2369, 2376); (2381, 2381); (2385, 2391); (2402, 2403); (2417, 2417);
    (2433, 2433); (2492, 2492); (2497, 2500); (2509, 2509); (2530, 2531);
    (2558, 2558); (2561, 2562); (2620, 2620); (2625, 2626); (2631, 2632);
    (2635, 2637); (2641, 2641); (2672, 2673); (2677, 2677); (2689, 2690);
    (2748, 2748); (2753, 2757); (2759, 2760); (2765, 2765); (2786, 2787);
    (2810, 2815); (2817, 2817); (2876, 2876); (2879, 2879); (2881, 2884);
    (2893, 2893); (2901, 2902); (2914, 2915); (2946, 2946); (3008, 3008);
    (3021, 3021); (3072, 3072); (3076, 3076); (3132, 3132); (3134, 3136);
    (3142, 3144); (3146, 3149); (3157, 3158); (3170, 3171); (3201, 3201);
    (3260, 3260); (3263, 3263); (3270, 3270); (3276, 3277); (3298, 3299);
    (3328, 3329); (3387, 3388); (3393, 3396); (3405, 3405); (3426, 3427);
    (3457, 3457); (3530, 3530); (3538, 3540); (3542, 3542); (3633, 3633);
    (3636, 3642); (3654, 3662); (3761, 3761); (3764, 3772); (3782, 3782);
    (3784, 3789); (3864, 3865); (3893, 3893); (3895, 3895); (3897, 3897);
    (3953, 3966); (3968, 3972); (3974, 3975); (3981, 3991); (3993, 4028);
    (4038, 4038); (4141, 4144); (4146, 4151); (4153, 4154); (4157, 4158);
    (4184, 4185); (4190, 4192); (4209, 4212); (4226, 4226); (4229, 4230);
    (4237, 4237); (4253, 4253); (4348, 4348); (4957, 4959); (5906, 5908);
    (5938, 5939); (5970, 5971); (6002, 6003); (6068, 6069); (6071, 6077);
    (6086, 6086); (6089, 6099); (6103, 6103); (6109, 6109); (6155, 6159);
    (6211, 6211); (6277, 6278); (6313, 6313); (6432, 6434); (6439, 6440);
    (6450, 6450); (6457, 6459); (6679, 6680); (6683, 6683); (6742, 6742);
    (6744, 6750); (6752, 6752); (6754, 6754); (6757, 6764); (6771, 6780);
    (6783, 6783); (6823, 6823); (6832, 6862); (6912, 6915); (6964, 6964);
    (6966, 6970); (6972, 6972); (6978, 6978); (7019, 7027); (7040, 7041);
    (7074, 7077); (7080, 7081); (7083, 7085); (7142, 7142); (7144, 7145);
    (7149, 7149); (7151, 7153); (7212, 7219); (7222, 7223); (7288, 7293);
    (7376, 7378); (7380, 7392); (7394, 7400); (7405, 7405); (7412, 7412);
    (7416, 7417); (7468, 7530); (7544, 7544); (7579, 7679); (8125, 8125);
    (8127, 8129); (8141, 8143); (8157, 8159); (8173, 8175); (8189, 8190);
    (8203, 8207); (8216, 8217); (8228, 8228); (8231, 8231); (8234, 8238);
    (8288, 8292); (8294, 8303); (8305, 8305); (8319, 8319); (8336, 8348);
    (8400, 8432); (11388, 11389); (11503, 11505); (11631, 11631);
    (11647, 11647); (11744, 11775); (11823, 11823); (12293, 12293);
    (12330, 12333); (12337, 12341); (12347, 12347); (12441, 12446);
    (12540, 12542); (40981, 40981); (42232, 42237); (42508, 42508);
    (42607, 42610); (42612, 42621); (42623, 42623); (42652, 42655);
    (42736, 42737); (42752, 42785); (42864, 42864); (42888, 42890);
    (42994, 42996); (43000, 43001); (43010, 43010); (43014, 43014);
    (43019, 43019); (43045, 43046); (43052, 43052); (43204, 43205);
    (43232, 43249); (43263, 43263); (43302, 43309); (43335, 43345);
    (43392, 43394); (43443, 43443); (43446, 43449); (43452, 43453);
    (43471, 43471); (43493, 43494); (43561, 43566); (43569, 43570);
    (43573, 43574); (43587, 43587); (43596, 43596); (43632, 43632);
    (43644, 43644); (43696, 43696); (43698, 43700); (43703, 43704);
    (43710, 43711); (43713, 43713); (43741, 43741); (43756, 43757);
    (43763, 43764); (43766, 43766); (43867, 43871); (43881, 43883);
    (44005, 44005); (44008, 44008); (44013, 44013); (64286, 64286);
    (64434, 64450); (65024, 65039); (65043, 65043); (65056, 65071);
    (65106, 65106); (65109, 65109); (65279, 65279); (65287, 65287);
    (65294, 65294); (65306, 65306); (65342, 65342); (65344, 65344);
    (65392, 65392); (65438, 65439); (65507, 65507); (65529, 65531);
    (66045, 66045); (66272, 66272); (66422, 66426); (67456, 67461);
    (67463, 67504); (67506, 67514); (68097, 68099); (68101, 68102);
    (68108, 68111); (68152, 68154); (68159, 68159); (68325, 68326);
    (68900, 68903); (69291, 69292); (69446, 69456); (69506, 69509);
    (69633, 69633); (69688, 69702); (69744, 69744); (69747, 69748);
    (69759, 69761); (69811, 69814); (69817, 69818); (69821, 69821);
    (69826, 69826); (69837, 69837); (69888, 69890); (69927, 69931);
    (69933, 69940); (70003, 70003); (70016, 70017); (70070, 70078);
    (70089, 70092); (70095, 70095); (70191, 70193); (70196, 70196);
    (70198, 70199); (70206, 70206); (70367, 70367); (70371, 70378);
    (70400, 70401); (70459, 70460); (70464, 70464); (70502, 70508);
    (70512, 70516); (70712, 70719); (70722, 70724); (70726, 70726);
    (70750, 70750); (70835, 70840); (70842, 70842); (70847, 70848);
    (70850, 70851); (71090, 71093); (71100, 71101); (71103, 71104);
    (71132, 71133); (71219, 71226); (71229, 71229); (71231, 71232);
    (71339, 71339); (71341, 71341); (71344, 71349); (71351, 71351);
    (71453, 71455); (71458, 71461); (71463, 71467); (71727, 71735);
    (71737, 71738); (71995, 71996); (71998, 71998); (72003, 72003);
    (72148, 72151); (72154, 72155); (72160, 72160); (72193, 72202);
    (72243, 72248); (72251, 72254); (72263, 72263); (72273, 72278);
    (72281, 72283); (72330, 72342); (72344, 72345); (72752, 72758);
    (72760, 72765); (72767, 72767); (72850, 72871); (72874, 72880);
    (72882, 72883); (72885, 72886); (73009, 73014); (73018, 73018);
    (73020, 73021); (73023, 73029); (73031, 73031); (73104, 73105);
    (73109, 73109); (73111, 73111); (73459, 73460); (78896, 78904);
    (92912, 92916); (92976, 92982); (92992, 92995); (94031, 94031);
    (94095, 94111); (94176, 94177); (94179, 94180); (110576, 110579);
    (110581, 110587); (110589, 110590); (113821, 113822); (113824, 113827);
    (118528, 118573); (118576, 118598); (119143, 119145); (119155, 119170);
    (119173, 119179); (119210, 119213); (119362, 119364); (121344, 121398);
    (121403, 121452); (121461, 121461); (121476, 121476); (121499, 121503);
    (121505, 121519); (122880, 122886); (122888, 122904); (122907, 122913);
    (122915, 122916); (122918, 122922); (123184, 123197); (123566, 123566);
    (123628, 123631); (125136, 125142); (125252, 125259); (127995, 127999);
    (917505, 917505); (917536, 917631); (917760, 917999)
  ]%N.

(** The full upper-case mapping, for the characters it changes. *)
Definition upper_entries : list (N * list N) :=
  [
    (97, [65]); (98, [66]); (99, [67]); (100, [68]); (101, [69]); (102, [70]);
    (103, [71]); (104, [72]); (105, [73]); (106, [74]); (107, [75]);
    (108, [76]); (109, [77]); (110, [78]); (111, [79]); (112, [80]);
    (113, [81]); (114, [82]); (115, [83]); (116, [84]); (117, [85]);
    (118, [86]); (119, [87]); (120, [88]); (121, [89]); (122, [90]);
    (181, [924]); (223, [83; 83]); (224, [192]); (225, [193]); (226, [194]);
    (227, [195]); (228, [196]); (229, [197]); (230, [198]); (231, [199]);
    (232, [200]); (233, [201]); (234, [202]); (235, [203]); (236, [204]);
    (237, [205]); (238, [206]); (239, [207]); (240, [208]); (241, [209]);
    (242, [210]); (243, [211]); (244, [212]); (245, [213]); (246, [214]);
    (248, [216]); (249, [217]); (250, [218]); (251, [219]); (252, [220]);
    (253, [221]); (254, [222]); (255, [376]); (257, [256]); (259, [258]);
    (261, [260]); (263, [262]); (265, [264]); (267, [266]); (269, [268]);
    (271, [270]); (273, [272]); (275, [274]); (277, [276]); (279, [278]);
    (281, [280]); (283, [282]); (285, [284]); (287, [286]); (289, [288]);
    (291, [290]); (293, [292]); (295, [294]); (297, [296]); (299, [298]);
    (301, [300]); (303, [302]); (305, [73]); (307, [306]); (309, [308]);
    (311, [310]); (314, [313]); (316, [315]); (318, [317]); (320, [319]);
    (322, [321]); (324, [323]); (326, [325]); (328, [327]); (329, [700; 78]);
    (331, [330]); (333, [332]); (335, [334]); (337, [336]); (339, [338]);
    (341, [340]); (343, [342]); (345, [344]); (347, [346]); (349, [348]);
    (351, [350]); (353, [352]); (355, [354]); (357, [356]); (359, [358]);
    (361, [360]); (363, [362]); (365, [364]); (367, [366]); (369, [368]);
    (371, [370]); (373, [372]); (375, [374]); (378, [377]); (380, [379]);
    (382, [381]); (383, [83]); (384, [579]); (387, [386]); (389, [388]);
    (392, [391]); (396, [395]); (402, [401]); (405, [502]); (409, [408]);
    (410, [573]); (414, [544]); (417, [416]); (419, [418]); (421, [420]);
    (424, [423]); (429, [428]); (432, [431]); (436, [435]); (438, [437]);
    (441, [440]); (445, [444]); (447, [503]); (453, [452]); (454, [452]);
    (456, [455]); (457, [455]); (459, [458]); (460, [458]); (462, [461]);
    (464, [463]); (466, [465]); (468, [467]); (470, [469]); (472, [471]);
    (474, [473]); (476, [475]); (477, [398]); (479, [478]); (481, [480]);
    (483, [482]); (485, [484]); (487, [486]); (489, [488]); (491, [490]);
    (493, [492]); (495, [494]); (496, [74; 780]); (498, [497]); (499, [497]);
    (501, [500]); (505, [504]); (507, [506]); (509, [508]); (511, [510]);
    (513, [512]); (515, [514]); (517, [516]); (519, [518]); (521, [520]);
    (523, [522]); (525, [524]); (527, [526]); (529, [528]); (531, [530]);
    (533, [532]); (535, [534]); (537, [536]); (539, [538]); (541, [540]);
    (543, [542]); (547, [546]); (549, [548]); (551, [550]); (553, [552]);
    (555, [554]); (557, [556]); (559, [558]); (561, [560]); (563, [562]);
    (572, [571]); (575, [11390]); (576, [11391]); (578, [577]); (583, [582]);
    (585, [584]); (587, [586]); (589, [588]); (591, [590]); (592, [11375]);
    (593, [11373]); (594, [11376]); (595, [385]); (596, [390]); (598, [393]);
    (599, [394]); (601, [399]); (603, [400]); (604, [42923]); (608, [403]);
    (609, [42924]); (611, [404]); (613, [42893]); (614, [42922]);
    (616, [407]); (617, [406]); (618, [42926]); (619, [11362]);
    (620, [42925]); (623, [412]); (625, [11374]); (626, [413]); (629, [415]);
    (637, [11364]); (640, [422]); (642, [42949]); (643, [425]);
    (647, [42929]); (648, [430]); (649, [580]); (650, [433]); (651, [434]);
    (652, [581]); (658, [439]); (669, [42930]); (670, [42928]); (837, [921]);
    (881, [880]); (883, [882]); (887, [886]); (891, [1021]); (892, [1022]);
    (893, [1023]); (912, [921; 776; 769]); (940, [902]); (941, [904]);
    (942, [905]); (943, [906]); (944, [933; 776; 769]); (945, [913]);
    (946, [914]); (947, [915]); (948, [916]); (949, [917]); (950, [918]);
    (951, [919]); (952, [920]); (953, [921]); (954, [922]); (955, [923]);
    (956, [924]); (957, [925]); (958, [926]); (959, [927]); (960, [928]);
    (961, [929]); (962, [931]); (963, [931]); (964, [932]); (965, [933]);
    (966, [934]); (967, [935]); (968, [936]); (969, [937]); (970, [938]);
    (971, [939]); (972, [908]); (973, [910]); (974, [911]); (976, [914]);
    (977, [920]); (981, [934]); (982, [928]); (983, [975]); (985, [984]);
    (987, [986]); (989, [988]); (991, [990]); (993, [992]); (995, [994]);
    (997, [996]); (999, [998]); (1001, [1000]); (1003, [1002]);
    (1005, [1004]); (1007, [1006]); (1008, [922]); (1009, [929]);
    (1010, [1017]); (1011, [895]); (1013, [917]); (1016, [1015]);
    (1019, [1018]); (1072, [1040]); (1073, [1041]); (1074, [1042]);
    (1075, [1043]); (1076, [1044]); (1077, [1045]); (1078, [1046]);
    (1079, [1047]); (1080, [1048]); (1081, [1049]); (1082, [1050]);
    (1083, [1051]); (1084, [1052]); (1085, [1053]); (1086, [1054]);
    (1087, [1055]); (1088, [1056]); (1089, [1057]); (1090, [1058]);
    (1091, [1059]); (1092, [1060]); (1093, [1061]); (1094, [1062]);
    (1095, [1063]); (1096, [1064]); (1097, [1065]); (1098, [1066]);
    (1099, [1067]); (1100, [1068]); (1101, [1069]); (1102, [1070]);
    (1103, [1071]); (1104, [1024]); (1105, [1025]); (1106, [1026]);
    (1107, [1027]); (1108, [1028]); (1109, [1029]); (1110, [1030]);
    (1111, [1031]); (1112, [1032]); (1113, [1033]); (1114, [1034]);
    (1115, [1035]); (1116, [1036]); (1117, [1037]); (1118, [1038]);
    (1119, [1039]); (1121, [1120]); (1123, [1122]); (1125, [1124]);
    (1127, [1126]); (1129, [1128]); (1131, [1130]); (1133, [1132]);
    (1135, [1134]); (1137, [1136]); (1139, [1138]); (1141, [1140]);
    (1143, [1142]); (1145, [1144]); (1147, [1146]); (1149, [1148]);
    (1151, [1150]); (1153, [1152]); (1163, [1162]); (1165, [1164]);
    (1167, [1166]); (1169, [1168]); (1171, [1170]); (1173, [1172]);
    (1175, [1174]); (1177, [1176]); (1179, [1178]); (1181, [1180]);
    (1183, [1182]); (1185, [1184]); (1187, [1186]); (1189, [1188]);
    (1191, [1190]); (1193, [1192]); (1195, [1194]); (1197, [1196]);
    (1199, [1198]); (1201, [1200]); (1203, [1202]); (1205, [1204]);
    (1207, [1206]); (1209, [1208]); (1211, [1210]); (1213, [1212]);
    (1215, [1214]); (1218, [1217]); (1220, [1219]); (1222, [1221]);
    (1224, [1223]); (1226, [1225]); (1228, [1227]); (1230, [1229]);
    (1231, [1216]); (1233, [1232]); (1235, [1234]); (1237, [1236]);
    (1239, [1238]); (1241, [1240]); (1243, [1242]); (1245, [1244]);
    (1247, [1246]); (1249, [1248]); (1251, [1250]); (1253, [1252]);
    (1255, [1254]); (1257, [1256]); (1259, [1258]); (1261, [1260]);
    (1263, [1262]); (1265, [1264]); (1267, [1266]); (1269, [1268]);
    (1271, [1270]); (1273, [1272]); (1275, [1274]); (1277, [1276]);
    (1279, [1278]); (1281, [1280]); (1283, [1282]); (1285, [1284]);
    (1287, [1286]); (1289, [1288]); (1291, [1290]); (1293, [1292]);
    (1295, [1294]); (1297, [1296]); (1299, [1298]); (1301, [1300]);
    (1303, [1302]); (1305, [1304]); (1307, [1306]); (1309, [1308]);
    (1311, [1310]); (1313, [1312]); (1315, [1314]); (1317, [1316]);
    (1319, [1318]); (1321, [1320]); (1323, [1322]); (1325, [1324]);
    (1327, [1326]); (1377, [1329]); (1378, [1330]); (1379, [1331]);
    (1380, [1332]); (1381, [1333]); (1382, [1334]); (1383, [1335]);
    (1384, [1336]); (1385, [1337]); (1386, [1338]); (1387, [1339]);
    (1388, [1340]); (1389, [1341]); (1390, [1342]); (1391, [1343]);
    (1392, [1344]); (1393, [1345]); (1394, [1346]); (1395, [1347]);
    (1396, [1348]); (1397, [1349]); (1398, [1350]); (1399, [1351]);
    (1400, [1352]); (1401, [1353]); (1402, [1354]); (1403, [1355]);
    (1404, [1356]); (1405, [1357]); (1406, [1358]); (1407, [1359]);
    (1408, [1360]); (1409, [1361]); (1410, [1362]); (1411, [1363]);
    (1412, [1364]); (1413, [1365]); (1414, [1366]); (1415, [1333; 1362]);
    (4304, [7312]); (4305, [7313]); (4306, [7314]); (4307, [7315]);
    (4308, [7316]); (4309, [7317]); (4310, [7318]); (4311, [7319]);
    (4312, [7320]); (4313, [7321]); (4314, [7322]); (4315, [7323]);
    (4316, [7324]); (4317, [7325]); (4318, [7326]); (4319, [7327]);
    (4320, [7328]); (4321, [7329]); (4322, [7330]); (4323, [7331]);
    (4324, [7332]); (4325, [7333]); (4326, [7334]); (4327, [7335]);
    (4328, [7336]); (4329, [7337]); (4330, [7338]); (4331, [7339]);
    (4332, [7340]); (4333, [7341]); (4334, [7342]); (4335, [7343]);
    (4336, [7344]); (4337, [7345]); (4338, [7346]); (4339, [7347]);
    (4340, [7348]); (4341, [7349]); (4342, [7350]); (4343, [7351]);
    (4344, [7352]); (4345, [7353]); (4346, [7354]); (4349, [7357]);
    (4350, [7358]); (4351, [7359]); (5112, [5104]); (5113, [5105]);
    (5114, [5106]); (5115, [5107]); (5116, [5108]); (5117, [5109]);
    (7296, [1042]); (7297, [1044]); (7298, [1054]); (7299, [1057]);
    (7300, [1058]); (7301, [1058]); (7302, [1066]); (7303, [1122]);
    (7304, [42570]); (7545, [42877]); (7549, [11363]); (7566, [42950]);
    (7681, [7680]); (7683, [7682]); (7685, [7684]); (7687, [7686]);
    (7689, [7688]); (7691, [7690]); (7693, [7692]); (7695, [7694]);
    (7697, [7696]); (7699, [7698]); (7701, [7700]); (7703, [7702]);
    (7705, [7704]); (7707, [7706]); (7709, [7708]); (7711, [7710]);
    (7713, [7712]); (7715, [7714]); (7717, [7716]); (7719, [7718]);
    (7721, [7720]); (7723, [7722]); (7725, [7724]); (7727, [7726]);
    (7729, [7728]); (7731, [7730]); (7733, [7732]); (7735, [7734]);
    (7737, [7736]); (7739, [7738]); (7741, [7740]); (7743, [7742]);
    (7745, [7744]); (7747, [7746]); (7749, [7748]); (7751, [7750]);
    (7753, [7752]); (7755, [7754]); (7757, [7756]); (7759, [7758]);
    (7761, [7760]); (7763, [7762]); (7765, [7764]); (7767, [7766]);
    (7769, [7768]); (7771, [7770]); (7773, [7772]); (7775, [7774]);
    (7777, [7776]); (7779, [7778]); (7781, [7780]); (7783, [7782]);
    (7785, [7784]); (7787, [7786]); (7789, [7788]); (7791, [7790]);
    (7793, [7792]); (7795, [7794]); (7797, [7796]); (7799, [7798]);
    (7801, [7800]); (7803, [7802]); (7805, [7804]); (7807, [7806]);
    (7809, [7808]); (7811, [7810]); (7813, [7812]); (7815, [7814]);
    (7817, [7816]); (7819, [7818]); (7821, [7820]); (7823, [7822]);
    (7825, [7824]); (7827, [7826]); (7829, [7828]); (7830, [72; 817]);
    (7831, [84; 776]); (7832, [87; 778]); (7833, [89; 778]);
    (7834, [65; 702]); (7835, [7776]); (7841, [7840]); (7843, [7842]);
    (7845, [7844]); (7847, [7846]); (7849, [7848]); (7851, [7850]);
    (7853, [7852]); (7855, [7854]); (7857, [7856]); (7859, [7858]);
    (7861, [7860]); (7863, [7862]); (7865, [7864]); (7867, [7866]);
    (7869, [7868]); (7871, [7870]); (7873, [7872]); (7875, [7874]);
    (7877, [7876]); (7879, [7878]); (7881, [7880]); (7883, [7882]);
    (7885, [7884]); (7887, [7886]); (7889, [7888]); (7891, [7890]);
    (7893, [7892]); (7895, [7894]); (7897, [7896]); (7899, [7898]);
    (7901, [7900]); (7903, [7902]); (7905, [7904]); (7907, [7906]);
    (7909, [7908]); (7911, [7910]); (7913, [7912]); (7915, [7914]);
    (7917, [7916]); (7919, [7918]); (7921, [7920]); (7923, [7922]);
    (7925, [7924]); (7927, [7926]); (7929, [7928]); (7931, [7930]);
    (7933, [7932]); (7935, [7934]); (7936, [7944]); (7937, [7945]);
    (7938, [7946]); (7939, [7947]); (7940, [7948]); (7941, [7949]);
    (7942, [7950]); (7943, [7951]); (7952, [7960]); (7953, [7961]);
    (7954, [7962]); (7955, [7963]); (7956, [7964]); (7957, [7965]);
    (7968, [7976]); (7969, [7977]); (7970, [7978]); (7971, [7979]);
    (7972, [7980]); (7973, [7981]); (7974, [7982]); (7975, [7983]);
    (7984, [7992]); (7985, [7993]); (7986, [7994]); (7987, [7995]);
    (7988, [7996]); (7989, [7997]); (7990, [7998]); (7991, [7999]);
    (8000, [8008]); (8001, [8009]); (8002, [8010]); (8003, [8011]);
    (8004, [8012]); (8005, [8013]); (8016, [933; 787]); (8017, [8025]);
    (8018, [933; 787; 768]); (8019, [8027]); (8020, [933; 787; 769]);
    (8021, [8029]); (8022, [933; 787; 834]); (8023, [8031]); (8032, [8040]);
    (8033, [8041]); (8034, [8042]); (8035, [8043]); (8036, [8044]);
    (8037, [8045]); (8038, [8046]); (8039, [8047]); (8048, [8122]);
    (8049, [8123]); (8050, [8136]); (8051, [8137]); (8052, [8138]);
    (8053, [8139]); (8054, [8154]); (8055, [8155]); (8056, [8184]);
    (8057, [8185]); (8058, [8170]); (8059, [8171]); (8060, [8186]);
    (8061, [8187]); (8064, [7944; 921]); (8065, [7945; 921]);
    (8066, [7946; 921]); (8067, [7947; 921]); (8068, [7948; 921]);
    (8069, [7949; 921]); (8070, [7950; 921]); (8071, [7951; 921]);
    (8072, [7944; 921]); (8073, [7945; 921]); (8074, [7946; 921]);
    (8075, [7947; 921]); (8076, [7948; 921]); (8077, [7949; 921]);
    (8078, [7950; 921]); (8079, [7951; 921]); (8080, [7976; 921]);
    (8081, [7977; 921]); (8082, [7978; 921]); (8083, [7979; 921]);
    (8084, [7980; 921]); (8085, [7981; 921]); (8086, [7982; 921]);
    (8087, [7983; 921]); (8088, [7976; 921]); (8089, [7977; 921]);
    (8090, [7978; 921]); (8091, [7979; 921]); (8092, [7980; 921]);
    (8093, [7981; 921]); (8094, [7982; 921]); (8095, [7983; 921]);
    (8096, [8040; 921]); (8097, [8041; 921]); (8098, [8042; 921]);
    (8099, [8043; 921]); (8100, [8044; 921]); (8101, [8045; 921]);
    (8102, [8046; 921]); (8103, [8047; 921]); (8104, [8040; 921]);
    (8105, [8041; 921]); (8106, [8042; 921]); (8107, [8043; 921]);
    (8108, [8044; 921]); (8109, [8045; 921]); (8110, [8046; 921]);
    (8111, [8047; 921]); (8112, [8120]); (8113, [8121]); (8114, [8122; 921]);
    (8115, [913; 921]); (8116, [902; 921]); (8118, [913; 834]);
    (8119, [913; 834; 921]); (8124, [913; 921]); (8126, [921]);
    (8130, [8138; 921]); (8131, [919; 921]); (8132, [905; 921]);
    (8134, [919; 834]); (8135, [919; 834; 921]); (8140, [919; 921]);
    (8144, [8152]); (8145, [8153]); (8146, [921; 776; 768]);
    (8147, [921; 776; 769]); (8150, [921; 834]); (8151, [921; 776; 834]);
    (8160, [8168]); (8161, [8169]); (8162, [933; 776; 768]);
    (8163, [933; 776; 769]); (8164, [929; 787]); (8165, [8172]);
    (8166, [933; 834]); (8167, [933; 776; 834]); (8178, [8186; 921]);
    (8179, [937; 921]); (8180, [911; 921]); (8182, [937; 834]);
    (8183, [937; 834; 921]); (8188, [937; 921]); (8526, [8498]);
    (8560, [8544]); (8561, [8545]); (8562, [8546]); (8563, [8547]);
    (8564, [8548]); (8565, [8549]); (8566, [8550]); (8567, [8551]);
    (8568, [8552]); (8569, [8553]); (8570, [8554]); (8571, [8555]);
    (8572, [8556]); (8573, [8557]); (8574, [8558]); (8575, [8559]);
    (8580, [8579]); (9424, [9398]); (9425, [9399]); (9426, [9400]);
    (9427, [9401]); (9428, [9402]); (9429, [9403]); (9430, [9404]);
    (9431, [9405]); (9432, [9406]); (9433, [9407]); (9434, [9408]);
    (9435, [9409]); (9436, [9410]); (9437, [9411]); (9438, [9412]);
    (9439, [9413]); (9440, [9414]); (9441, [9415]); (9442, [9416]);
    (9443, [9417]); (9444, [9418]); (9445, [9419]); (9446, [9420]);
    (9447, [9421]); (9448, [9422]); (9449, [9423]); (11312, [11264]);
    (11313, [11265]); (11314, [11266]); (11315, [11267]); (11316, [11268]);
    (11317, [11269]); (11318, [11270]); (11319, [11271]); (11320, [11272]);
    (11321, [11273]); (11322, [11274]); (11323, [11275]); (11324, [11276]);
    (11325, [11277]); (11326, [11278]); (11327, [11279]); (11328, [11280]);
    (11329, [11281]); (11330, [11282]); (11331, [11283]); (11332, [11284]);
    (11333, [11285]); (11334, [11286]); (11335, [11287]); (11336, [11288]);
    (11337, [11289]); (11338, [11290]); (11339, [11291]); (11340, [11292]);
    (11341, [11293]); (11342, [11294]); (11343, [11295]); (11344, [11296]);
    (11345, [11297]); (11346, [11298]); (11347, [11299]); (11348, [11300]);
    (11349, [11301]); (11350, [11302]); (11351, [11303]); (11352, [11304]);
    (11353, [11305]); (11354, [11306]); (11355, [11307]); (11356, [11308]);
    (11357, [11309]); (11358, [11310]); (11359, [11311]); (11361, [11360]);
    (11365, [570]); (11366, [574]); (11368, [11367]); (11370, [11369]);
    (11372, [11371]); (11379, [11378]); (11382, [11381]); (11393, [11392]);
    (11395, [11394]); (11397, [11396]); (11399, [11398]); (11401, [11400]);
    (11403, [11402]); (11405, [11404]); (11407, [11406]); (11409, [11408]);
    (11411, [11410]); (11413, [11412]); (11415, [11414]); (11417, [11416]);
    (11419, [11418]); (11421, [11420]); (11423, [11422]); (11425, [11424]);
    (11427, [11426]); (11429, [11428]); (11431, [11430]); (11433, [11432]);
    (11435, [11434]); (11437, [11436]); (11439, [11438]); (11441, [11440]);
    (11443, [11442]); (11445, [11444]); (11447, [11446]); (11449, [11448]);
    (11451, [11450]); (11453, [11452]); (11455, [11454]); (11457, [11456]);
    (11459, [11458]); (11461, [11460]); (11463, [11462]); (11465, [11464]);
    (11467, [11466]); (11469, [11468]); (11471, [11470]); (11473, [11472]);
    (11475, [11474]); (11477, [11476]); (11479, [11478]); (11481, [11480]);
    (11483, [11482]); (11485, [11484]); (11487, [11486]); (11489, [11488]);
    (11491, [11490]); (11500, [11499]); (11502, [11501]); (11507, [11506]);
    (11520, [4256]); (11521, [4257]); (11522, [4258]); (11523, [4259]);
    (11524, [4260]); (11525, [4261]); (11526, [4262]); (11527, [4263]);
    (11528, [4264]); (11529, [4265]); (11530, [4266]); (11531, [4267]);
    (11532, [4268]); (11533, [4269]); (11534, [4270]); (11535, [4271]);
    (11536, [4272]); (11537, [4273]); (11538, [4274]); (11539, [4275]);
    (11540, [4276]); (11541, [4277]); (11542, [4278]); (11543, [4279]);
    (11544, [4280]); (11545, [4281]); (11546, [4282]); (11547, [4283]);
    (11548, [4284]); (11549, [4285]); (11550, [4286]); (11551, [4287]);
    (11552, [4288]); (11553, [4289]); (11554, [4290]); (11555, [4291]);
    (11556, [4292]); (11557, [4293]); (11559, [4295]); (11565, [4301]);
    (42561, [42560]); (42563, [42562]); (42565, [42564]); (42567, [42566]);
    (42569, [42568]); (42571, [42570]); (42573, [42572]); (42575, [42574]);
    (42577, [42576]); (42579, [42578]); (42581, [42580]); (42583, [42582]);
    (42585, [42584]); (42587, [42586]); (42589, [42588]); (42591, [42590]);
    (42593, [42592]); (42595, [42594]); (42597, [42596]); (42599, [42598]);
    (42601, [42600]); (42603, [42602]); (42605, [42604]); (42625, [42624]);
    (42627, [42626]); (42629, [42628]); (42631, [42630]); (42633, [42632]);
    (42635, [42634]); (42637, [42636]); (42639, [42638]); (42641, [42640]);
    (42643, [42642]); (42645, [42644]); (42647, [42646]); (42649, [42648]);
    (42651, [42650]); (42787, [42786]); (42789, [42788]); (42791, [42790]);
    (42793, [42792]); (42795, [42794]); (42797, [42796]); (42799, [42798]);
    (42803, [42802]); (42805, [42804]); (42807, [42806]); (42809, [42808]);
    (42811, [42810]); (42813, [42812]); (42815, [42814]); (42817, [42816]);
    (42819, [42818]); (42821, [42820]); (42823, [42822]); (42825, [42824]);
    (42827, [42826]); (42829, [42828]); (42831, [42830]); (42833, [42832]);
    (42835, [42834]); (42837, [42836]); (42839, [42838]); (42841, [42840]);
    (42843, [42842]); (42845, [42844]); (42847, [42846]); (42849, [42848]);
    (42851, [42850]); (42853, [42852]); (42855, [42854]); (42857, [42856]);
    (42859, [42858]); (42861, [42860]); (42863, [42862]); (42874, [42873]);
    (42876, [42875]); (42879, [42878]); (42881, [42880]); (42883, [42882]);
    (42885, [42884]); (42887, [42886]); (42892, [42891]); (42897, [42896]);
    (42899, [42898]); (42900, [42948]); (42903, [42902]); (42905, [42904]);
    (42907, [42906]); (42909, [42908]); (42911, [42910]); (42913, [42912]);
    (42915, [42914]); (42917, [42916]); (42919, [42918]); (42921, [42920]);
    (42933, [42932]); (42935, [42934]); (42937, [42936]); (42939, [42938]);
    (42941, [42940]); (42943, [42942]); (42945, [42944]); (42947, [42946]);
    (42952, [42951]); (42954, [42953]); (42961, [42960]); (42967, [42966]);
    (42969, [42968]); (42998, [42997]); (43859, [42931]); (43888, [5024]);
    (43889, [5025]); (43890, [5026]); (43891, [5027]); (43892, [5028]);
    (43893, [5029]); (43894, [5030]); (43895, [5031]); (43896, [5032]);
    (43897, [5033]); (43898, [5034]); (43899, [5035]); (43900, [5036]);
    (43901, [5037]); (43902, [5038]); (43903, [5039]); (43904, [5040]);
    (43905, [5041]); (43906, [5042]); (43907, [5043]); (43908, [5044]);
    (43909, [5045]); (43910, [5046]); (43911, [5047]); (43912, [5048]);
    (43913, [5049]); (43914, [5050]); (43915, [5051]); (43916, [5052]);
    (43917, [5053]); (43918, [5054]); (43919, [5055]); (43920, [5056]);
    (43921, [5057]); (43922, [5058]); (43923, [5059]); (43924, [5060]);
    (43925, [5061]); (43926, [5062]); (43927, [5063]); (43928, [5064]);
    (43929, [5065]); (43930, [5066]); (43931, [5067]); (43932, [5068]);
    (43933, [5069]); (43934, [5070]); (43935, [5071]); (43936, [5072]);
    (43937, [5073]); (43938, [5074]); (43939, [5075]); (43940, [5076]);
    (43941, [5077]); (43942, [5078]); (43943, [5079]); (43944, [5080]);
    (43945, [5081]); (43946, [5082]); (43947, [5083]); (43948, [5084]);
    (43949, [5085]); (43950, [5086]); (43951, [5087]); (43952, [5088]);
    (43953, [5089]); (43954, [5090]); (43955, [5091]); (43956, [5092]);
    (43957, [5093]); (43958, [5094]); (43959, [5095]); (43960, [5096]);
    (43961, [5097]); (43962, [5098]); (43963, [5099]); (43964, [5100]);
    (43965, [5101]); (43966, [5102]); (43967, [5103]); (64256, [70; 70]);
    (64257, [70; 73]); (64258, [70; 76]); (64259, [70; 70; 73]);
    (64260, [70; 70; 76]); (64261, [83; 84]); (64262, [83; 84]);
    (64275, [1348; 1350]); (64276, [1348; 1333]); (64277, [1348; 1339]);
    (64278, [1358; 1350]); (64279, [1348; 1341]); (65345, [65313]);
    (65346, [65314]); (65347, [65315]); (65348, [65316]); (65349, [65317]);
    (65350, [65318]); (65351, [65319]); (65352, [65320]); (65353, [65321]);
    (65354, [65322]); (65355, [65323]); (65356, [65324]); (65357, [65325]);
    (65358, [65326]); (65359, [65327]); (65360, [65328]); (65361, [65329]);
    (65362, [65330]); (65363, [65331]); (65364, [65332]); (65365, [65333]);
    (65366, [65334]); (65367, [65335]); (65368, [65336]); (65369, [65337]);
    (65370, [65338]); (66600, [66560]); (66601, [66561]); (66602, [66562]);
    (66603, [66563]); (66604, [66564]); (66605, [66565]); (66606, [66566]);
    (66607, [66567]); (66608, [66568]); (66609, [66569]); (66610, [66570]);
    (66611, [66571]); (66612, [66572]); (66613, [66573]); (66614, [66574]);
    (66615, [66575]); (66616, [66576]); (66617, [66577]); (66618, [66578]);
    (66619, [66579]); (66620, [66580]); (66621, [66581]); (66622, [66582]);
    (66623, [66583]); (66624, [66584]); (66625, [66585]); (66626, [66586]);
    (66627, [66587]); (66628, [66588]); (66629, [66589]); (66630, [66590]);
    (66631, [66591]); (66632, [66592]); (66633, [66593]); (66634, [66594]);
    (66635, [66595]); (66636, [66596]); (66637, [66597]); (66638, [66598]);
    (66639, [66599]); (66776, [66736]); (66777, [66737]); (66778, [66738]);
    (66779, [66739]); (66780, [66740]); (66781, [66741]); (66782, [66742]);
    (66783, [66743]); (66784, [66744]); (66785, [66745]); (66786, [66746]);
    (66787, [66747]); (66788, [66748]); (66789, [66749]); (66790, [66750]);
    (66791, [66751]); (66792, [66752]); (66793, [66753]); (66794, [66754]);
    (66795, [66755]); (66796, [66756]); (66797, [66757]); (66798, [66758]);
    (66799, [66759]); (66800, [66760]); (66801, [66761]); (66802, [66762]);
    (66803, [66763]); (66804, [66764]); (66805, [66765]); (66806, [66766]);
    (66807, [66767]); (66808, [66768]); (66809, [66769]); (66810, [66770]);
    (66811, [66771]); (66967, [66928]); (66968, [66929]); (66969, [66930]);
    (66970, [66931]); (66971, [66932]); (66972, [66933]); (66973, [66934]);
    (66974, [66935]); (66975, [66936]); (66976, [66937]); (66977, [66938]);
    (66979, [66940]); (66980, [66941]); (66981, [66942]); (66982, [66943]);
    (66983, [66944]); (66984, [66945]); (66985, [66946]); (66986, [66947]);
    (66987, [66948]); (66988, [66949]); (66989, [66950]); (66990, [66951]);
    (66991, [66952]); (66992, [66953]); (66993, [66954]); (66995, [66956]);
    (66996, [66957]); (66997, [66958]); (66998, [66959]); (66999, [66960]);
    (67000, [66961]); (67001, [66962]); (67003, [66964]); (67004, [66965]);
    (68800, [68736]); (68801, [68737]); (68802, [68738]); (68803, [68739]);
    (68804, [68740]); (68805, [68741]); (68806, [68742]); (68807, [68743]);
    (68808, [68744]); (68809, [68745]); (68810, [68746]); (68811, [68747]);
    (68812, [68748]); (68813, [68749]); (68814, [68750]); (68815, [68751]);
    (68816, [68752]); (68817, [68753]); (68818, [68754]); (68819, [68755]);
    (68820, [68756]); (68821, [68757]); (68822, [68758]); (68823, [68759]);
    (68824, [68760]); (68825, [68761]); (68826, [68762]); (68827, [68763]);
    (68828, [68764]); (68829, [68765]); (68830, [68766]); (68831, [68767]);
    (68832, [68768]); (68833, [68769]); (68834, [68770]); (68835, [68771]);
    (68836, [68772]); (68837, [68773]); (68838, [68774]); (68839, [68775]);
    (68840, [68776]); (68841, [68777]); (68842, [68778]); (68843, [68779]);
    (68844, [68780]); (68845, [68781]); (68846, [68782]); (68847, [68783]);
    (68848, [68784]); (68849, [68785]); (68850, [68786]); (71872, [71840]);
    (71873, [71841]); (71874, [71842]); (71875, [71843]); (71876, [71844]);
    (71877, [71845]); (71878, [71846]); (71879, [71847]); (71880, [71848]);
    (71881, [71849]); (71882, [71850]); (71883, [71851]); (71884, [71852]);
    (71885, [71853]); (71886, [71854]); (71887, [71855]); (71888, [71856]);
    (71889, [71857]); (71890, [71858]); (71891, [71859]); (71892, [71860]);
    (71893, [71861]); (71894, [71862]); (71895, [71863]); (71896, [71864]);
    (71897, [71865]); (71898, [71866]); (71899, [71867]); (71900, [71868]);
    (71901, [71869]); (71902, [71870]); (71903, [71871]); (93792, [93760]);
    (93793, [93761]); (93794, [93762]); (93795, [93763]); (93796, [93764]);
    (93797, [93765]); (93798, [93766]); (93799, [93767]); (93800, [93768]);
    (93801, [93769]); (93802, [93770]); (93803, [93771]); (93804, [93772]);
    (93805, [93773]); (93806, [93774]); (93807, [93775]); (93808, [93776]);
    (93809, [93777]); (93810, [93778]); (93811, [93779]); (93812, [93780]);
    (93813, [93781]); (93814, [93782]); (93815, [93783]); (93816, [93784]);
    (93817, [93785]); (93818, [93786]); (93819, [93787]); (93820, [93788]);
    (93821, [93789]); (93822, [93790]); (93823, [93791]); (125218, [125184]);
    (125219, [125185]); (125220, [125186]); (125221, [125187]);
    (125222, [125188]); (125223, [125189]); (125224, [125190]);
    (125225, [125191]); (125226, [125192]); (125227, [125193]);
    (125228, [125194]); (125229, [125195]); (125230, [125196]);
    (125231, [125197]); (125232, [125198]); (125233, [125199]);
    (125234, [125200]); (125235, [125201]); (125236, [125202]);
    (125237, [125203]); (125238, [125204]); (125239, [125205]);
    (125240, [125206]); (125241, [125207]); (125242, [125208]);
    (125243, [125209]); (125244, [125210]); (125245, [125211]);
    (125246, [125212]); (125247, [125213]); (125248, [125214]);
    (125249, [125215]); (125250, [125216]); (125251, [125217])
  ]%N.

(** The full lower-case mapping, for the characters it changes. *)
Definition lower_entries : list (N * list N) :=
  [
    (65, [97]); (66, [98]); (67, [99]); (68, [100]); (69, [101]); (70, [102]);
    (71, [103]); (72, [104]); (73, [105]); (74, [106]); (75, [107]);
    (76, [108]); (77, [109]); (78, [110]); (79, [111]); (80, [112]);
    (81, [113]); (82, [114]); (83, [115]); (84, [116]); (85, [117]);
    (86, [118]); (87, [119]); (88, [120]); (89, [121]); (90, [122]);
    (192, [224]); (193, [225]); (194, [226]); (195, [227]); (196, [228]);
    (197, [229]); (198, [230]); (199, [231]); (200, [232]); (201, [233]);
    (202, [234]); (203, [235]); (204, [236]); (205, [237]); (206, [238]);
    (207, [239]); (208, [240]); (209, [241]); (210, [242]); (211, [243]);
    (212, [244]); (213, [245]); (214, [246]); (216, [248]); (217, [249]);
    (218, [250]); (219, [251]); (220, [252]); (221, [253]); (222, [254]);
    (256, [257]); (258, [259]); (260, [261]); (262, [263]); (264, [265]);
    (266, [267]); (268, [269]); (270, [271]); (272, [273]); (274, [275]);
    (276, [277]); (278, [279]); (280, [281]); (282, [283]); (284, [285]);
    (286, [287]); (288, [289]); (290, [291]); (292, [293]); (294, [295]);
    (296, [297]); (298, [299]); (300, [301]); (302, [303]); (304, [105; 775]);
    (306, [307]); (308, [309]); (310, [311]); (313, [314]); (315, [316]);
    (317, [318]); (319, [320]); (321, [322]); (323, [324]); (325, [326]);
    (327, [328]); (330, [331]); (332, [333]); (334, [335]); (336, [337]);
    (338, [339]); (340, [341]); (342, [343]); (344, [345]); (346, [347]);
    (348, [349]); (350, [351]); (352, [353]); (354, [355]); (356, [357]);
    (358, [359]); (360, [361]); (362, [363]); (364, [365]); (366, [367]);
    (368, [369]); (370, [371]); (372, [373]); (374, [375]); (376, [255]);
    (377, [378]); (379, [380]); (381, [382]); (385, [595]); (386, [387]);
    (388, [389]); (390, [596]); (391, [392]); (393, [598]); (394, [599]);
    (395, [396]); (398, [477]); (399, [601]); (400, [603]); (401, [402]);
    (403, [608]); (404, [611]); (406, [617]); (407, [616]); (408, [409]);
    (412, [623]); (413, [626]); (415, [629]); (416, [417]); (418, [419]);
    (420, [421]); (422, [640]); (423, [424]); (425, [643]); (428, [429]);
    (430, [648]); (431, [432]); (433, [650]); (434, [651]); (435, [436]);
    (437, [438]); (439, [658]); (440, [441]); (444, [445]); (452, [454]);
    (453, [454]); (455, [457]); (456, [457]); (458, [460]); (459, [460]);
    (461, [462]); (463, [464]); (465, [466]); (467, [468]); (469, [470]);
    (471, [472]); (473, [474]); (475, [476]); (478, [479]); (480, [481]);
    (482, [483]); (484, [485]); (486, [487]); (488, [489]); (490, [491]);
    (492, [493]); (494, [495]); (497, [499]); (498, [499]); (500, [501]);
    (502, [405]); (503, [447]); (504, [505]); (506, [507]); (508, [509]);
    (510, [511]); (512, [513]); (514, [515]); (516, [517]); (518, [519]);
    (520, [521]); (522, [523]); (524, [525]); (526, [527]); (528, [529]);
    (530, [531]); (532, [533]); (534, [535]); (536, [537]); (538, [539]);
    (540, [541]); (542, [543]); (544, [414]); (546, [547]); (548, [549]);
    (550, [551]); (552, [553]); (554, [555]); (556, [557]); (558, [559]);
    (560, [561]); (562, [563]); (570, [11365]); (571, [572]); (573, [410]);
    (574, [11366]); (577, [578]); (579, [384]); (580, [649]); (581, [652]);
    (582, [583]); (584, [585]); (586, [587]); (588, [589]); (590, [591]);
    (880, [881]); (882, [883]); (886, [887]); (895, [1011]); (902, [940]);
    (904, [941]); (905, [942]); (906, [943]); (908, [972]); (910, [973]);
    (911, [974]); (913, [945]); (914, [946]); (915, [947]); (916, [948]);
    (917, [949]); (918, [950]); (919, [951]); (920, [952]); (921, [953]);
    (922, [954]); (923, [955]); (924, [956]); (925, [957]); (926, [958]);
    (927, [959]); (928, [960]); (929, [961]); (931, [963]); (932, [964]);
    (933, [965]); (934, [966]); (935, [967]); (936, [968]); (937, [969]);
    (938, [970]); (939, [971]); (975, [983]); (984, [985]); (986, [987]);
    (988, [989]); (990, [991]); (992, [993]); (994, [995]); (996, [997]);
    (998, [999]); (1000, [1001]); (1002, [1003]); (1004, [1005]);
    (1006, [1007]); (1012, [952]); (1015, [1016]); (1017, [1010]);
    (1018, [1019]); (1021, [891]); (1022, [892]); (1023, [893]);
    (1024, [1104]); (1025, [1105]); (1026, [1106]); (1027, [1107]);
    (1028, [1108]); (1029, [1109]); (1030, [1110]); (1031, [1111]);
    (1032, [1112]); (1033, [1113]); (1034, [1114]); (1035, [1115]);
    (1036, [1116]); (1037, [1117]); (1038, [1118]); (1039, [1119]);
    (1040, [1072]); (1041, [1073]); (1042, [1074]); (1043, [1075]);
    (1044, [1076]); (1045, [1077]); (1046, [1078]); (1047, [1079]);
    (1048, [1080]); (1049, [1081]); (1050, [1082]); (1051, [1083]);
    (1052, [1084]); (1053, [1085]); (1054, [1086]); (1055, [1087]);
    (1056, [1088]); (1057, [1089]); (1058, [1090]); (1059, [1091]);
    (1060, [1092]); (1061, [1093]); (1062, [1094]); (1063, [1095]);
    (1064, [1096]); (1065, [1097]); (1066, [1098]); (1067, [1099]);
    (1068, [1100]); (1069, [1101]); (1070, [1102]); (1071, [1103]);
    (1120, [1121]); (1122, [1123]); (1124, [1125]); (1126, [1127]);
    (1128, [1129]); (1130, [1131]); (1132, [1133]); (1134, [1135]);
    (1136, [1137]); (1138, [1139]); (1140, [1141]); (1142, [1143]);
    (1144, [1145]); (1146, [1147]); (1148, [1149]); (1150, [1151]);
    (1152, [1153]); (1162, [1163]); (1164, [1165]); (1166, [1167]);
    (1168, [1169]); (1170, [1171]); (1172, [1173]); (1174, [1175]);
    (1176, [1177]); (1178, [1179]); (1180, [1181]); (1182, [1183]);
    (1184, [1185]); (1186, [1187]); (1188, [1189]); (1190, [1191]);
    (1192, [1193]); (1194, [1195]); (1196, [1197]); (1198, [1199]);
    (1200, [1201]); (1202, [1203]); (1204, [1205]); (1206, [1207]);
    (1208, [1209]); (1210, [1211]); (1212, [1213]); (1214, [1215]);
    (1216, [1231]); (1217, [1218]); (1219, [1220]); (1221, [1222]);
    (1223, [1224]); (1225, [1226]); (1227, [1228]); (1229, [1230]);
    (1232, [1233]); (1234, [1235]); (1236, [1237]); (1238, [1239]);
    (1240, [1241]); (1242, [1243]); (1244, [1245]); (1246, [1247]);
    (1248, [1249]); (1250, [1251]); (1252, [1253]); (1254, [1255]);
    (1256, [1257]); (1258, [1259]); (1260, [1261]); (1262, [1263]);
    (1264, [1265]); (1266, [1267]); (1268, [1269]); (1270, [1271]);
    (1272, [1273]); (1274, [1275]); (1276, [1277]); (1278, [1279]);
    (1280, [1281]); (1282, [1283]); (1284, [1285]); (1286, [1287]);
    (1288, [1289]); (1290, [1291]); (1292, [1293]); (1294, [1295]);
    (1296, [1297]); (1298, [1299]); (1300, [1301]); (1302, [1303]);
    (1304, [1305]); (1306, [1307]); (1308, [1309]); (1310, [1311]);
    (1312, [1313]); (1314, [1315]); (1316, [1317]); (1318, [1319]);
    (1320, [1321]); (1322, [1323]); (1324, [1325]); (1326, [1327]);
    (1329, [1377]); (1330, [1378]); (1331, [1379]); (1332, [1380]);
    (1333, [1381]); (1334, [1382]); (1335, [1383]); (1336, [1384]);
    (1337, [1385]); (1338, [1386]); (1339, [1387]); (1340, [1388]);
    (1341, [1389]); (1342, [1390]); (1343, [1391]); (1344, [1392]);
    (1345, [1393]); (1346, [1394]); (1347, [1395]); (1348, [1396]);
    (1349, [1397]); (1350, [1398]); (1351, [1399]); (1352, [1400]);
    (1353, [1401]); (1354, [1402]); (1355, [1403]); (1356, [1404]);
    (1357, [1405]); (1358, [1406]); (1359, [1407]); (1360, [1408]);
    (1361, [1409]); (1362, [1410]); (1363, [1411]); (1364, [1412]);
    (1365, [1413]); (1366, [1414]); (4256, [11520]); (4257, [11521]);
    (4258, [11522]); (4259, [11523]); (4260, [11524]); (4261, [11525]);
    (4262, [11526]); (4263, [11527]); (4264, [11528]); (4265, [11529]);
    (4266, [11530]); (4267, [11531]); (4268, [11532]); (4269, [11533]);
    (4270, [11534]); (4271, [11535]); (4272, [11536]); (4273, [11537]);
    (4274, [11538]); (4275, [11539]); (4276, [11540]); (4277, [11541]);
    (4278, [11542]); (4279, [11543]); (4280, [11544]); (4281, [11545]);
    (4282, [11546]); (4283, [11547]); (4284, [11548]); (4285, [11549]);
    (4286, [11550]); (4287, [11551]); (4288, [11552]); (4289, [11553]);
    (4290, [11554]); (4291, [11555]); (4292, [11556]); (4293, [11557]);
    (4295, [11559]); (4301, [11565]); (5024, [43888]); (5025, [43889]);
    (5026, [43890]); (5027, [43891]); (5028, [43892]); (5029, [43893]);
    (5030, [43894]); (5031, [43895]); (5032, [43896]); (5033, [43897]);
    (5034, [43898]); (5035, [43899]); (5036, [43900]); (5037, [43901]);
    (5038, [43902]); (5039, [43903]); (5040, [43904]); (5041, [43905]);
    (5042, [43906]); (5043, [43907]); (5044, [43908]); (5045, [43909]);
    (5046, [43910]); (5047, [43911]); (5048, [43912]); (5049, [43913]);
    (5050, [43914]); (5051, [43915]); (5052, [43916]); (5053, [43917]);
    (5054, [43918]); (5055, [43919]); (5056, [43920]); (5057, [43921]);
    (5058, [43922]); (5059, [43923]); (5060, [43924]); (5061, [43925]);
    (5062, [43926]); (5063, [43927]); (5064, [43928]); (5065, [43929]);
    (5066, [43930]); (5067, [43931]); (5068, [43932]); (5069, [43933]);
    (5070, [43934]); (5071, [43935]); (5072, [43936]); (5073, [43937]);
    (5074, [43938]); (5075, [43939]); (5076, [43940]); (5077, [43941]);
    (5078, [43942]); (5079, [43943]); (5080, [43944]); (5081, [43945]);
    (5082, [43946]); (5083, [43947]); (5084, [43948]); (5085, [43949]);
    (5086, [43950]); (5087, [43951]); (5088, [43952]); (5089, [43953]);
    (5090, [43954]); (5091, [43955]); (5092, [43956]); (5093, [43957]);
    (5094, [43958]); (5095, [43959]); (5096, [43960]); (5097, [43961]);
    (5098, [43962]); (5099, [43963]); (5100, [43964]); (5101, [43965]);
    (5102, [43966]); (5103, [43967]); (5104, [5112]); (5105, [5113]);
    (5106, [5114]); (5107, [5115]); (5108, [5116]); (5109, [5117]);
    (7312, [4304]); (7313, [4305]); (7314, [4306]); (7315, [4307]);
    (7316, [4308]); (7317, [4309]); (7318, [4310]); (7319, [4311]);
    (7320, [4312]); (7321, [4313]); (7322, [4314]); (7323, [4315]);
    (7324, [4316]); (7325, [4317]); (7326, [4318]); (7327, [4319]);
    (7328, [4320]); (7329, [4321]); (7330, [4322]); (7331, [4323]);
    (7332, [4324]); (7333, [4325]); (7334, [4326]); (7335, [4327]);
    (7336, [4328]); (7337, [4329]); (7338, [4330]); (7339, [4331]);
    (7340, [4332]); (7341, [4333]); (7342, [4334]); (7343, [4335]);
    (7344, [4336]); (7345, [4337]); (7346, [4338]); (7347, [4339]);
    (7348, [4340]); (7349, [4341]); (7350, [4342]); (7351, [4343]);
    (7352, [4344]); (7353, [4345]); (7354, [4346]); (7357, [4349]);
    (7358, [4350]); (7359, [4351]); (7680, [7681]); (7682, [7683]);
    (7684, [7685]); (7686, [7687]); (7688, [7689]); (7690, [7691]);
    (7692, [7693]); (7694, [7695]); (7696, [7697]); (7698, [7699]);
    (7700, [7701]); (7702, [7703]); (7704, [7705]); (7706, [7707]);
    (7708, [7709]); (7710, [7711]); (7712, [7713]); (7714, [7715]);
    (7716, [7717]); (7718, [7719]); (7720, [7721]); (7722, [7723]);
    (7724, [7725]); (7726, [7727]); (7728, [7729]); (7730, [7731]);
    (7732, [7733]); (7734, [7735]); (7736, [7737]); (7738, [7739]);
    (7740, [7741]); (7742, [7743]); (7744, [7745]); (7746, [7747]);
    (7748, [7749]); (7750, [7751]); (7752, [7753]); (7754, [7755]);
    (7756, [7757]); (7758, [7759]); (7760, [7761]); (7762, [7763]);
    (7764, [7765]); (7766, [7767]); (7768, [7769]); (7770, [7771]);
    (7772, [7773]); (7774, [7775]); (7776, [7777]); (7778, [7779]);
    (7780, [7781]); (7782, [7783]); (7784, [7785]); (7786, [7787]);
    (7788, [7789]); (7790, [7791]); (7792, [7793]); (7794, [7795]);
    (7796, [7797]); (7798, [7799]); (7800, [7801]); (7802, [7803]);
    (7804, [7805]); (7806, [7807]); (7808, [7809]); (7810, [7811]);
    (7812, [7813]); (7814, [7815]); (7816, [7817]); (7818, [7819]);
    (7820, [7821]); (7822, [7823]); (7824, [7825]); (7826, [7827]);
    (7828, [7829]); (7838, [223]); (7840, [7841]); (7842, [7843]);
    (7844, [7845]); (7846, [7847]); (7848, [7849]); (7850, [7851]);
    (7852, [7853]); (7854, [7855]); (7856, [7857]); (7858, [7859]);
    (7860, [7861]); (7862, [7863]); (7864, [7865]); (7866, [7867]);
    (7868, [7869]); (7870, [7871]); (7872, [7873]); (7874, [7875]);
    (7876, [7877]); (7878, [7879]); (7880, [7881]); (7882, [7883]);
    (7884, [7885]); (7886, [7887]); (7888, [7889]); (7890, [7891]);
    (7892, [7893]); (7894, [7895]); (7896, [7897]); (7898, [7899]);
    (7900, [7901]); (7902, [7903]); (7904, [7905]); (7906, [7907]);
    (7908, [7909]); (7910, [7911]); (7912, [7913]); (7914, [7915]);
    (7916, [7917]); (7918, [7919]); (7920, [7921]); (7922, [7923]);
    (7924, [7925]); (7926, [7927]); (7928, [7929]); (7930, [7931]);
    (7932, [7933]); (7934, [7935]); (7944, [7936]); (7945, [7937]);
    (7946, [7938]); (7947, [7939]); (7948, [7940]); (7949, [7941]);
    (7950, [7942]); (7951, [7943]); (7960, [7952]); (7961, [7953]);
    (7962, [7954]); (7963, [7955]); (7964, [7956]); (7965, [7957]);
    (7976, [7968]); (7977, [7969]); (7978, [7970]); (7979, [7971]);
    (7980, [7972]); (7981, [7973]); (7982, [7974]); (7983, [7975]);
    (7992, [7984]); (7993, [7985]); (7994, [7986]); (7995, [7987]);
    (7996, [7988]); (7997, [7989]); (7998, [7990]); (7999, [7991]);
    (8008, [8000]); (8009, [8001]); (8010, [8002]); (8011, [8003]);
    (8012, [8004]); (8013, [8005]); (8025, [8017]); (8027, [8019]);
    (8029, [8021]); (8031, [8023]); (8040, [8032]); (8041, [8033]);
    (8042, [8034]); (8043, [8035]); (8044, [8036]); (8045, [8037]);
    (8046, [8038]); (8047, [8039]); (8072, [8064]); (8073, [8065]);
    (8074, [8066]); (8075, [8067]); (8076, [8068]); (8077, [8069]);
    (8078, [8070]); (8079, [8071]); (8088, [8080]); (8089, [8081]);
    (8090, [8082]); (8091, [8083]); (8092, [8084]); (8093, [8085]);
    (8094, [8086]); (8095, [8087]); (8104, [8096]); (8105, [8097]);
    (8106, [8098]); (8107, [8099]); (8108, [8100]); (8109, [8101]);
    (8110, [8102]); (8111, [8103]); (8120, [8112]); (8121, [8113]);
    (8122, [8048]); (8123, [8049]); (8124, [8115]); (8136, [8050]);
    (8137, [8051]); (8138, [8052]); (8139, [8053]); (8140, [8131]);
    (8152, [8144]); (8153, [8145]); (8154, [8054]); (8155, [8055]);
    (8168, [8160]); (8169, [8161]); (8170, [8058]); (8171, [8059]);
    (8172, [8165]); (8184, [8056]); (8185, [8057]); (8186, [8060]);
    (8187, [8061]); (8188, [8179]); (8486, [969]); (8490, [107]);
    (8491, [229]); (8498, [8526]); (8544, [8560]); (8545, [8561]);
    (8546, [8562]); (8547, [8563]); (8548, [8564]); (8549, [8565]);
    (8550, [8566]); (8551, [8567]); (8552, [8568]); (8553, [8569]);
    (8554, [8570]); (8555, [8571]); (8556, [8572]); (8557, [8573]);
    (8558, [8574]); (8559, [8575]); (8579, [8580]); (9398, [9424]);
    (9399, [9425]); (9400, [9426]); (9401, [9427]); (9402, [9428]);
    (9403, [9429]); (9404, [9430]); (9405, [9431]); (9406, [9432]);
    (9407, [9433]); (9408, [9434]); (9409, [9435]); (9410, [9436]);
    (9411, [9437]); (9412, [9438]); (9413, [9439]); (9414, [9440]);
    (9415, [9441]); (9416, [9442]); (9417, [9443]); (9418, [9444]);
    (9419, [9445]); (9420, [9446]); (9421, [9447]); (9422, [9448]);
    (9423, [9449]); (11264, [11312]); (11265, [11313]); (11266, [11314]);
    (11267, [11315]); (11268, [11316]); (11269, [11317]); (11270, [11318]);
    (11271, [11319]); (11272, [11320]); (11273, [11321]); (11274, [11322]);
    (11275, [11323]); (11276, [11324]); (11277, [11325]); (11278, [11326]);
    (11279, [11327]); (11280, [11328]); (11281, [11329]); (11282, [11330]);
    (11283, [11331]); (11284, [11332]); (11285, [11333]); (11286, [11334]);
    (11287, [11335]); (11288, [11336]); (11289, [11337]); (11290, [11338]);
    (11291, [11339]); (11292, [11340]); (11293, [11341]); (11294, [11342]);
    (11295, [11343]); (11296, [11344]); (11297, [11345]); (11298, [11346]);
    (11299, [11347]); (11300, [11348]); (11301, [11349]); (11302, [11350]);
    (11303, [11351]); (11304, [11352]); (11305, [11353]); (11306, [11354]);
    (11307, [11355]); (11308, [11356]); (11309, [11357]); (11310, [11358]);
    (11311, [11359]); (11360, [11361]); (11362, [619]); (11363, [7549]);
    (11364, [637]); (11367, [11368]); (11369, [11370]); (11371, [11372]);
    (11373, [593]); (11374, [625]); (11375, [592]); (11376, [594]);
    (11378, [11379]); (11381, [11382]); (11390, [575]); (11391, [576]);
    (11392, [11393]); (11394, [11395]); (11396, [11397]); (11398, [11399]);
    (11400, [11401]); (11402, [11403]); (11404, [11405]); (11406, [11407]);
    (11408, [11409]); (11410, [11411]); (11412, [11413]); (11414, [11415]);
    (11416, [11417]); (11418, [11419]); (11420, [11421]); (11422, [11423]);
    (11424, [11425]); (11426, [11427]); (11428, [11429]); (11430, [11431]);
    (11432, [11433]); (11434, [11435]); (11436, [11437]); (11438, [11439]);
    (11440, [11441]); (11442, [11443]); (11444, [11445]); (11446, [11447]);
    (11448, [11449]); (11450, [11451]); (11452, [11453]); (11454, [11455]);
    (11456, [11457]); (11458, [11459]); (11460, [11461]); (11462, [11463]);
    (11464, [11465]); (11466, [11467]); (11468, [11469]); (11470, [11471]);
    (11472, [11473]); (11474, [11475]); (11476, [11477]); (11478, [11479]);
    (11480, [11481]); (11482, [11483]); (11484, [11485]); (11486, [11487]);
    (11488, [11489]); (11490, [11491]); (11499, [11500]); (11501, [11502]);
    (11506, [11507]); (42560, [42561]); (42562, [42563]); (42564, [42565]);
    (42566, [42567]); (42568, [42569]); (42570, [42571]); (42572, [42573]);
    (42574, [42575]); (42576, [42577]); (42578, [42579]); (42580, [42581]);
    (42582, [42583]); (42584, [42585]); (42586, [42587]); (42588, [42589]);
    (42590, [42591]); (42592, [42593]); (42594, [42595]); (42596, [42597]);
    (42598, [42599]); (42600, [42601]); (42602, [42603]); (42604, [42605]);
    (42624, [42625]); (42626, [42627]); (42628, [42629]); (42630, [42631]);
    (42632, [42633]); (42634, [42635]); (42636, [42637]); (42638, [42639]);
    (42640, [42641]); (42642, [42643]); (42644, [42645]); (42646, [42647]);
    (42648, [42649]); (42650, [42651]); (42786, [42787]); (42788, [42789]);
    (42790, [42791]); (42792, [42793]); (42794, [42795]); (42796, [42797]);
    (42798, [42799]); (42802, [42803]); (42804, [42805]); (42806, [42807]);
    (42808, [42809]); (42810, [42811]); (42812, [42813]); (42814, [42815]);
    (42816, [42817]); (42818, [42819]); (42820, [42821]); (42822, [42823]);
    (42824, [42825]); (42826, [42827]); (42828, [42829]); (42830, [42831]);
    (42832, [42833]); (42834, [42835]); (42836, [42837]); (42838, [42839]);
    (42840, [42841]); (42842, [42843]); (42844, [42845]); (42846, [42847]);
    (42848, [42849]); (42850, [42851]); (42852, [42853]); (42854, [42855]);
    (42856, [42857]); (42858, [42859]); (42860, [42861]); (42862, [42863]);
    (42873, [42874]); (42875, [42876]); (42877, [7545]); (42878, [42879]);
    (42880, [42881]); (42882, [42883]); (42884, [42885]); (42886, [42887]);
    (42891, [42892]); (42893, [613]); (42896, [42897]); (42898, [42899]);
    (42902, [42903]); (42904, [42905]); (42906, [42907]); (42908, [42909]);
    (42910, [42911]); (42912, [42913]); (42914, [42915]); (42916, [42917]);
    (42918, [42919]); (42920, [42921]); (42922, [614]); (42923, [604]);
    (42924, [609]); (42925, [620]); (42926, [618]); (42928, [670]);
    (42929, [647]); (42930, [669]); (42931, [43859]); (42932, [42933]);
    (42934, [42935]); (42936, [42937]); (42938, [42939]); (42940, [42941]);
    (42942, [42943]); (42944, [42945]); (42946, [42947]); (42948, [42900]);
    (42949, [642]); (42950, [7566]); (42951, [42952]); (42953, [42954]);
    (42960, [42961]); (42966, [42967]); (42968, [42969]); (42997, [42998]);
    (65313, [65345]); (65314, [65346]); (65315, [65347]); (65316, [65348]);
    (65317, [65349]); (65318, [65350]); (65319, [65351]); (65320, [65352]);
    (65321, [65353]); (65322, [65354]); (65323, [65355]); (65324, [65356]);
    (65325, [65357]); (65326, [65358]); (65327, [65359]); (65328, [65360]);
    (65329, [65361]); (65330, [65362]); (65331, [65363]); (65332, [65364]);
    (65333, [65365]); (65334, [65366]); (65335, [65367]); (65336, [65368]);
    (65337, [65369]); (65338, [65370]); (66560, [66600]); (66561, [66601]);
    (66562, [66602]); (66563, [66603]); (66564, [66604]); (66565, [66605]);
    (66566, [66606]); (66567, [66607]); (66568, [66608]); (66569, [66609]);
    (66570, [66610]); (66571, [66611]); (66572, [66612]); (66573, [66613]);
    (66574, [66614]); (66575, [66615]); (66576, [66616]); (66577, [66617]);
    (66578, [66618]); (66579, [66619]); (66580, [66620]); (66581, [66621]);
    (66582, [66622]); (66583, [66623]); (66584, [66624]); (66585, [66625]);
    (66586, [66626]); (66587, [66627]); (66588, [66628]); (66589, [66629]);
    (66590, [66630]); (66591, [66631]); (66592, [66632]); (66593, [66633]);
    (66594, [66634]); (66595, [66635]); (66596, [66636]); (66597, [66637]);
    (66598, [66638]); (66599, [66639]); (66736, [66776]); (66737, [66777]);
    (66738, [66778]); (66739, [66779]); (66740, [66780]); (66741, [66781]);
    (66742, [66782]); (66743, [66783]); (66744, [66784]); (66745, [66785]);
    (66746, [66786]); (66747, [66787]); (66748, [66788]); (66749, [66789]);
    (66750, [66790]); (66751, [66791]); (66752, [66792]); (66753, [66793]);
    (66754, [66794]); (66755, [66795]); (66756, [66796]); (66757, [66797]);
    (66758, [66798]); (66759, [66799]); (66760, [66800]); (66761, [66801]);
    (66762, [66802]); (66763, [66803]); (66764, [66804]); (66765, [66805]);
    (66766, [66806]); (66767, [66807]); (66768, [66808]); (66769, [66809]);
    (66770, [66810]); (66771, [66811]); (66928, [66967]); (66929, [66968]);
    (66930, [66969]); (66931, [66970]); (66932, [66971]); (66933, [66972]);
    (66934, [66973]); (66935, [66974]); (66936, [66975]); (66937, [66976]);
    (66938, [66977]); (66940, [66979]); (66941, [66980]); (66942, [66981]);
    (66943, [66982]); (66944, [66983]); (66945, [66984]); (66946, [66985]);
    (66947, [66986]); (66948, [66987]); (66949, [66988]); (66950, [66989]);
    (66951, [66990]); (66952, [66991]); (66953, [66992]); (66954, [66993]);
    (66956, [66995]); (66957, [66996]); (66958, [66997]); (66959, [66998]);
    (66960, [66999]); (66961, [67000]); (66962, [67001]); (66964, [67003]);
    (66965, [67004]); (68736, [68800]); (68737, [68801]); (68738, [68802]);
    (68739, [68803]); (68740, [68804]); (68741, [68805]); (68742, [68806]);
    (68743, [68807]); (68744, [68808]); (68745, [68809]); (68746, [68810]);
    (68747, [68811]); (68748, [68812]); (68749, [68813]); (68750, [68814]);
    (68751, [68815]); (68752, [68816]); (68753, [68817]); (68754, [68818]);
    (68755, [68819]); (68756, [68820]); (68757, [68821]); (68758, [68822]);
    (68759, [68823]); (68760, [68824]); (68761, [68825]); (68762, [68826]);
    (68763, [68827]); (68764, [68828]); (68765, [68829]); (68766, [68830]);
    (68767, [68831]); (68768, [68832]); (68769, [68833]); (68770, [68834]);
    (68771, [68835]); (68772, [68836]); (68773, [68837]); (68774, [68838]);
    (68775, [68839]); (68776, [68840]); (68777, [68841]); (68778, [68842]);
    (68779, [68843]); (68780, [68844]); (68781, [68845]); (68782, [68846]);
    (68783, [68847]); (68784, [68848]); (68785, [68849]); (68786, [68850]);
    (71840, [71872]); (71841, [71873]); (71842, [71874]); (71843, [71875]);
    (71844, [71876]); (71845, [71877]); (71846, [71878]); (71847, [71879]);
    (71848, [71880]); (71849, [71881]); (71850, [71882]); (71851, [71883]);
    (71852, [71884]); (71853, [71885]); (71854, [71886]); (71855, [71887]);
    (71856, [71888]); (71857, [71889]); (71858, [71890]); (71859, [71891]);
    (71860, [71892]); (71861, [71893]); (71862, [71894]); (71863, [71895]);
    (71864, [71896]); (71865, [71897]); (71866, [71898]); (71867, [71899]);
    (71868, [71900]); (71869, [71901]); (71870, [71902]); (71871, [71903]);
    (93760, [93792]); (93761, [93793]); (93762, [93794]); (93763, [93795]);
    (93764, [93796]); (93765, [93797]); (93766, [93798]); (93767, [93799]);
    (93768, [93800]); (93769, [93801]); (93770, [93802]); (93771, [93803]);
    (93772, [93804]); (93773, [93805]); (93774, [93806]); (93775, [93807]);
    (93776, [93808]); (93777, [93809]); (93778, [93810]); (93779, [93811]);
    (93780, [93812]); (93781, [93813]); (93782, [93814]); (93783, [93815]);
    (93784, [93816]); (93785, [93817]); (93786, [93818]); (93787, [93819]);
    (93788, [93820]); (93789, [93821]); (93790, [93822]); (93791, [93823]);
    (125184, [125218]); (125185, [125219]); (125186, [125220]);
    (125187, [125221]); (125188, [125222]); (125189, [125223]);
    (125190, [125224]); (125191, [125225]); (125192, [125226]);
    (125193, [125227]); (125194, [125228]); (125195, [125229]);
    (125196, [125230]); (125197, [125231]); (125198, [125232]);
    (125199, [125233]); (125200, [125234]); (125201, [125235]);
    (125202, [125236]); (125203, [125237]); (125204, [125238]);
    (125205, [125239]); (125206, [125240]); (125207, [125241]);
    (125208, [125242]); (125209, [125243]); (125210, [125244]);
    (125211, [125245]); (125212, [125246]); (125213, [125247]);
    (125214, [125248]); (125215, [125249]); (125216, [125250]);
    (125217, [125251])
  ]%N.

(** The full compatibility decomposition (NFKD of the one character), for the
    characters it changes, the Hangul syllables apart. *)
Definition decomposition_entries : list (N * list N) :=
  [
    (160, [32]); (168, [32; 776]); (170, [97]); (175, [32; 772]); (178, [50]);
    (179, [51]); (180, [32; 769]); (181, [956]); (184, [32; 807]);
    (185, [49]); (186, [111]); (188, [49; 8260; 52]); (189, [49; 8260; 50]);
    (190, [51; 8260; 52]); (192, [65; 768]); (193, [65; 769]);
    (194, [65; 770]); (195, [65; 771]); (196, [65; 776]); (197, [65; 778]);
    (199, [67; 807]); (200, [69; 768]); (201, [69; 769]); (202, [69; 770]);
    (203, [69; 776]); (204, [73; 768]); (205, [73; 769]); (206, [73; 770]);
    (207, [73; 776]); (209, [78; 771]); (210, [79; 768]); (211, [79; 769]);
    (212, [79; 770]); (213, [79; 771]); (214, [79; 776]); (217, [85; 768]);
    (218, [85; 769]); (219, [85; 770]); (220, [85; 776]); (221, [89; 769]);
    (224, [97; 768]); (225, [97; 769]); (226, [97; 770]); (227, [97; 771]);
    (228, [97; 776]); (229, [97; 778]); (231, [99; 807]); (232, [101; 768]);
    (233, [101; 769]); (234, [101; 770]); (235, [101; 776]);
    (236, [105; 768]); (237, [105; 769]); (238, [105; 770]);
    (239, [105; 776]); (241, [110; 771]); (242, [111; 768]);
    (243, [111; 769]); (244, [111; 770]); (245, [111; 771]);
    (246, [111; 776]); (249, [117; 768]); (250, [117; 769]);
    (251, [117; 770]); (252, [117; 776]); (253, [121; 769]);
    (255, [121; 776]); (256, [65; 772]); (257, [97; 772]); (258, [65; 774]);
    (259, [97; 774]); (260, [65; 808]); (261, [97; 808]); (262, [67; 769]);
    (263, [99; 769]); (264, [67; 770]); (265, [99; 770]); (266, [67; 775]);
    (267, [99; 775]); (268, [67; 780]); (269, [99; 780]); (270, [68; 780]);
    (271, [100; 780]); (274, [69; 772]); (275, [101; 772]); (276, [69; 774]);
    (277, [101; 774]); (278, [69; 775]); (279, [101; 775]); (280, [69; 808]);
    (281, [101; 808]); (282, [69; 780]); (283, [101; 780]); (284, [71; 770]);
    (285, [103; 770]); (286, [71; 774]); (287, [103; 774]); (288, [71; 775]);
    (289, [103; 775]); (290, [71; 807]); (291, [103; 807]); (292, [72; 770]);
    (293, [104; 770]); (296, [73; 771]); (297, [105; 771]); (298, [73; 772]);
    (299, [105; 772]); (300, [73; 774]); (301, [105; 774]); (302, [73; 808]);
    (303, [105; 808]); (304, [73; 775]); (306, [73; 74]); (307, [105; 106]);
    (308, [74; 770]); (309, [106; 770]); (310, [75; 807]); (311, [107; 807]);
    (313, [76; 769]); (314, [108; 769]); (315, [76; 807]); (316, [108; 807]);
    (317, [76; 780]); (318, [108; 780]); (319, [76; 183]); (320, [108; 183]);
    (323, [78; 769]); (324, [110; 769]); (325, [78; 807]); (326, [110; 807]);
    (327, [78; 780]); (328, [110; 780]); (329, [700; 110]); (332, [79; 772]);
    (333, [111; 772]); (334, [79; 774]); (335, [111; 774]); (336, [79; 779]);
    (337, [111; 779]); (340, [82; 769]); (341, [114; 769]); (342, [82; 807]);
    (343, [114; 807]); (344, [82; 780]); (345, [114; 780]); (346, [83; 769]);
    (347, [115; 769]); (348, [83; 770]); (349, [115; 770]); (350, [83; 807]);
    (351, [115; 807]); (352, [83; 780]); (353, [115; 780]); (354, [84; 807]);
    (355, [116; 807]); (356, [84; 780]); (357, [116; 780]); (360, [85; 771]);
    (361, [117; 771]); (362, [85; 772]); (363, [117; 772]); (364, [85; 774]);
    (365, [117; 774]); (366, [85; 778]); (367, [117; 778]); (368, [85; 779]);
    (369, [117; 779]); (370, [85; 808]); (371, [117; 808]); (372, [87; 770]);
    (373, [119; 770]); (374, [89; 770]); (375, [121; 770]); (376, [89; 776]);
    (377, [90; 769]); (378, [122; 769]); (379, [90; 775]); (380, [122; 775]);
    (381, [90; 780]); (382, [122; 780]); (383, [115]); (416, [79; 795]);
    (417, [111; 795]); (431, [85; 795]); (432, [117; 795]);
    (452, [68; 90; 780]); (453, [68; 122; 780]); (454, [100; 122; 780]);
    (455, [76; 74]); (456, [76; 106]); (457, [108; 106]); (458, [78; 74]);
    (459, [78; 106]); (460, [110; 106]); (461, [65; 780]); (462, [97; 780]);
    (463, [73; 780]); (464, [105; 780]); (465, [79; 780]); (466, [111; 780]);
    (467, [85; 780]); (468, [117; 780]); (469, [85; 776; 772]);
    (470, [117; 776; 772]); (471, [85; 776; 769]); (472, [117; 776; 769]);
    (473, [85; 776; 780]); (474, [117; 776; 780]); (475, [85; 776; 768]);
    (476, [117; 776; 768]); (478, [65; 776; 772]); (479, [97; 776; 772]);
    (480, [65; 775; 772]); (481, [97; 775; 772]); (482, [198; 772]);
    (483, [230; 772]); (486, [71; 780]); (487, [103; 780]); (488, [75; 780]);
    (489, [107; 780]); (490, [79; 808]); (491, [111; 808]);
    (492, [79; 808; 772]); (493, [111; 808; 772]); (494, [439; 780]);
    (495, [658; 780]); (496, [106; 780]); (497, [68; 90]); (498, [68; 122]);
    (499, [100; 122]); (500, [71; 769]); (501, [103; 769]); (504, [78; 768]);
    (505, [110; 768]); (506, [65; 778; 769]); (507, [97; 778; 769]);
    (508, [198; 769]); (509, [230; 769]); (510, [216; 769]);
    (511, [248; 769]); (512, [65; 783]); (513, [97; 783]); (514, [65; 785]);
    (515, [97; 785]); (516, [69; 783]); (517, [101; 783]); (518, [69; 785]);
    (519, [101; 785]); (520, [73; 783]); (521, [105; 783]); (522, [73; 785]);
    (523, [105; 785]); (524, [79; 783]); (525, [111; 783]); (526, [79; 785]);
    (527, [111; 785]); (528, [82; 783]); (529, [114; 783]); (530, [82; 785]);
    (531, [114; 785]); (532, [85; 783]); (533, [117; 783]); (534, [85; 785]);
    (535, [117; 785]); (536, [83; 806]); (537, [115; 806]); (538, [84; 806]);
    (539, [116; 806]); (542, [72; 780]); (543, [104; 780]); (550, [65; 775]);
    (551, [97; 775]); (552, [69; 807]); (553, [101; 807]);
    (554, [79; 776; 772]); (555, [111; 776; 772]); (556, [79; 771; 772]);
    (557, [111; 771; 772]); (558, [79; 775]); (559, [111; 775]);
    (560, [79; 775; 772]); (561, [111; 775; 772]); (562, [89; 772]);
    (563, [121; 772]); (688, [104]); (689, [614]); (690, [106]); (691, [114]);
    (692, [633]); (693, [635]); (694, [641]); (695, [119]); (696, [121]);
    (728, [32; 774]); (729, [32; 775]); (730, [32; 778]); (731, [32; 808]);
    (732, [32; 771]); (733, [32; 779]); (736, [611]); (737, [108]);
    (738, [115]); (739, [120]); (740, [661]); (832, [768]); (833, [769]);
    (835, [787]); (836, [776; 769]); (884, [697]); (890, [32; 837]);
    (894, [59]); (900, [32; 769]); (901, [32; 776; 769]); (902, [913; 769]);
    (903, [183]); (904, [917; 769]); (905, [919; 769]); (906, [921; 769]);
    (908, [927; 769]); (910, [933; 769]); (911, [937; 769]);
    (912, [953; 776; 769]); (938, [921; 776]); (939, [933; 776]);
    (940, [945; 769]); (941, [949; 769]); (942, [951; 769]);
    (943, [953; 769]); (944, [965; 776; 769]); (970, [953; 776]);
    (971, [965; 776]); (972, [959; 769]); (973, [965; 769]);
    (974, [969; 769]); (976, [946]); (977, [952]); (978, [933]);
    (979, [933; 769]); (980, [933; 776]); (981, [966]); (982, [960]);
    (1008, [954]); (1009, [961]); (1010, [962]); (1012, [920]); (1013, [949]);
    (1017, [931]); (1024, [1045; 768]); (1025, [1045; 776]);
    (1027, [1043; 769]); (1031, [1030; 776]); (1036, [1050; 769]);
    (1037, [1048; 768]); (1038, [1059; 774]); (1049, [1048; 774]);
    (1081, [1080; 774]); (1104, [1077; 768]); (1105, [1077; 776]);
    (1107, [1075; 769]); (1111, [1110; 776]); (1116, [1082; 769]);
    (1117, [1080; 768]); (1118, [1091; 774]); (1142, [1140; 783]);
    (1143, [1141; 783]); (1217, [1046; 774]); (1218, [1078; 774]);
    (1232, [1040; 774]); (1233, [1072; 774]); (1234, [1040; 776]);
    (1235, [1072; 776]); (1238, [1045; 774]); (1239, [1077; 774]);
    (1242, [1240; 776]); (1243, [1241; 776]); (1244, [1046; 776]);
    (1245, [1078; 776]); (1246, [1047; 776]); (1247, [1079; 776]);
    (1250, [1048; 772]); (1251, [1080; 772]); (1252, [1048; 776]);
    (1253, [1080; 776]); (1254, [1054; 776]); (1255, [1086; 776]);
    (1258, [1256; 776]); (1259, [1257; 776]); (1260, [1069; 776]);
    (1261, [1101; 776]); (1262, [1059; 772]); (1263, [1091; 772]);
    (1264, [1059; 776]); (1265, [1091; 776]); (1266, [1059; 779]);
    (1267, [1091; 779]); (1268, [1063; 776]); (1269, [1095; 776]);
    (1272, [1067; 776]); (1273, [1099; 776]); (1415, [1381; 1410]);
    (1570, [1575; 1619]); (1571, [1575; 1620]); (1572, [1608; 1620]);
    (1573, [1575; 1621]); (1574, [1610; 1620]); (1653, [1575; 1652]);
    (1654, [1608; 1652]); (1655, [1735; 1652]); (1656, [1610; 1652]);
    (1728, [1749; 1620]); (1730, [1729; 1620]); (1747, [1746; 1620]);
    (2345, [2344; 2364]); (2353, [2352; 2364]); (2356, [2355; 2364]);
    (2392, [2325; 2364]); (2393, [2326; 2364]); (2394, [2327; 2364]);
    (2395, [2332; 2364]); (2396, [2337; 2364]); (2397, [2338; 2364]);
    (2398, [2347; 2364]); (2399, [2351; 2364]); (2507, [2503; 2494]);
    (2508, [2503; 2519]); (2524, [2465; 2492]); (2525, [2466; 2492]);
    (2527, [2479; 2492]); (2611, [2610; 2620]); (2614, [2616; 2620]);
    (2649, [2582; 2620]); (2650, [2583; 2620]); (2651, [2588; 2620]);
    (2654, [2603; 2620]); (2888, [2887; 2902]); (2891, [2887; 2878]);
    (2892, [2887; 2903]); (2908, [2849; 2876]); (2909, [2850; 2876]);
    (2964, [2962; 3031]); (3018, [3014; 3006]); (3019, [3015; 3006]);
    (3020, [3014; 3031]); (3144, [3142; 3158]); (3264, [3263; 3285]);
    (3271, [3270; 3285]); (3272, [3270; 3286]); (3274, [3270; 3266]);
    (3275, [3270; 3266; 3285]); (3402, [3398; 3390]); (3403, [3399; 3390]);
    (3404, [3398; 3415]); (3546, [3545; 3530]); (3548, [3545; 3535]);
    (3549, [3545; 3535; 3530]); (3550, [3545; 3551]); (3635, [3661; 3634]);
    (3763, [3789; 3762]); (3804, [3755; 3737]); (3805, [3755; 3745]);
    (3852, [3851]); (3907, [3906; 4023]); (3917, [3916; 4023]);
    (3922, [3921; 4023]); (3927, [3926; 4023]); (3932, [3931; 4023]);
    (3945, [3904; 4021]); (3955, [3953; 3954]); (3957, [3953; 3956]);
    (3958, [4018; 3968]); (3959, [4018; 3953; 3968]); (3960, [4019; 3968]);
    (3961, [4019; 3953; 3968]); (3969, [3953; 3968]); (3987, [3986; 4023]);
    (3997, [3996; 4023]); (4002, [4001; 4023]); (4007, [4006; 4023]);
    (4012, [4011; 4023]); (4025, [3984; 4021]); (4134, [4133; 4142]);
    (4348, [4316]); (6918, [6917; 6965]); (6920, [6919; 6965]);
    (6922, [6921; 6965]); (6924, [6923; 6965]); (6926, [6925; 6965]);
    (6930, [6929; 6965]); (6971, [6970; 6965]); (6973, [6972; 6965]);
    (6976, [6974; 6965]); (6977, [6975; 6965]); (6979, [6978; 6965]);
    (7468, [65]); (7469, [198]); (7470, [66]); (7472, [68]); (7473, [69]);
    (7474, [398]); (7475, [71]); (7476, [72]); (7477, [73]); (7478, [74]);
    (7479, [75]); (7480, [76]); (7481, [77]); (7482, [78]); (7484, [79]);
    (7485, [546]); (7486, [80]); (7487, [82]); (7488, [84]); (7489, [85]);
    (7490, [87]); (7491, [97]); (7492, [592]); (7493, [593]); (7494, [7426]);
    (7495, [98]); (7496, [100]); (7497, [101]); (7498, [601]); (7499, [603]);
    (7500, [604]); (7501, [103]); (7503, [107]); (7504, [109]); (7505, [331]);
    (7506, [111]); (7507, [596]); (7508, [7446]); (7509, [7447]);
    (7510, [112]); (7511, [116]); (7512, [117]); (7513, [7453]);
    (7514, [623]); (7515, [118]); (7516, [7461]); (7517, [946]);
    (7518, [947]); (7519, [948]); (7520, [966]); (7521, [967]); (7522, [105]);
    (7523, [114]); (7524, [117]); (7525, [118]); (7526, [946]); (7527, [947]);
    (7528, [961]); (7529, [966]); (7530, [967]); (7544, [1085]);
    (7579, [594]); (7580, [99]); (7581, [597]); (7582, [240]); (7583, [604]);
    (7584, [102]); (7585, [607]); (7586, [609]); (7587, [613]); (7588, [616]);
    (7589, [617]); (7590, [618]); (7591, [7547]); (7592, [669]);
    (7593, [621]); (7594, [7557]); (7595, [671]); (7596, [625]);
    (7597, [624]); (7598, [626]); (7599, [627]); (7600, [628]); (7601, [629]);
    (7602, [632]); (7603, [642]); (7604, [643]); (7605, [427]); (7606, [649]);
    (7607, [650]); (7608, [7452]); (7609, [651]); (7610, [652]);
    (7611, [122]); (7612, [656]); (7613, [657]); (7614, [658]); (7615, [952]);
    (7680, [65; 805]); (7681, [97; 805]); (7682, [66; 775]);
    (7683, [98; 775]); (7684, [66; 803]); (7685, [98; 803]);
    (7686, [66; 817]); (7687, [98; 817]); (7688, [67; 807; 769]);
    (7689, [99; 807; 769]); (7690, [68; 775]); (7691, [100; 775]);
    (7692, [68; 803]); (7693, [100; 803]); (7694, [68; 817]);
    (7695, [100; 817]); (7696, [68; 807]); (7697, [100; 807]);
    (7698, [68; 813]); (7699, [100; 813]); (7700, [69; 772; 768]);
    (7701, [101; 772; 768]); (7702, [69; 772; 769]); (7703, [101; 772; 769]);
    (7704, [69; 813]); (7705, [101; 813]); (7706, [69; 816]);
    (7707, [101; 816]); (7708, [69; 807; 774]); (7709, [101; 807; 774]);
    (7710, [70; 775]); (7711, [102; 775]); (7712, [71; 772]);
    (7713, [103; 772]); (7714, [72; 775]); (7715, [104; 775]);
    (7716, [72; 803]); (7717, [104; 803]); (7718, [72; 776]);
    (7719, [104; 776]); (7720, [72; 807]); (7721, [104; 807]);
    (7722, [72; 814]); (7723, [104; 814]); (7724, [73; 816]);
    (7725, [105; 816]); (7726, [73; 776; 769]); (7727, [105; 776; 769]);
    (7728, [75; 769]); (7729, [107; 769]); (7730, [75; 803]);
    (7731, [107; 803]); (7732, [75; 817]); (7733, [107; 817]);
    (7734, [76; 803]); (7735, [108; 803]); (7736, [76; 803; 772]);
    (7737, [108; 803; 772]); (7738, [76; 817]); (7739, [108; 817]);
    (7740, [76; 813]); (7741, [108; 813]); (7742, [77; 769]);
    (7743, [109; 769]); (7744, [77; 775]); (7745, [109; 775]);
    (7746, [77; 803]); (7747, [109; 803]); (7748, [78; 775]);
    (7749, [110; 775]); (7750, [78; 803]); (7751, [110; 803]);
    (7752, [78; 817]); (7753, [110; 817]); (7754, [78; 813]);
    (7755, [110; 813]); (7756, [79; 771; 769]); (7757, [111; 771; 769]);
    (7758, [79; 771; 776]); (7759, [111; 771; 776]); (7760, [79; 772; 768]);
    (7761, [111; 772; 768]); (7762, [79; 772; 769]); (7763, [111; 772; 769]);
    (7764, [80; 769]); (7765, [112; 769]); (7766, [80; 775]);
    (7767, [112; 775]); (7768, [82; 775]); (7769, [114; 775]);
    (7770, [82; 803]); (7771, [114; 803]); (7772, [82; 803; 772]);
    (7773, [114; 803; 772]); (7774, [82; 817]); (7775, [114; 817]);
    (7776, [83; 775]); (7777, [115; 775]); (7778, [83; 803]);
    (7779, [115; 803]); (7780, [83; 769; 775]); (7781, [115; 769; 775]);
    (7782, [83; 780; 775]); (7783, [115; 780; 775]); (7784, [83; 803; 775]);
    (7785, [115; 803; 775]); (7786, [84; 775]); (7787, [116; 775]);
    (7788, [84; 803]); (7789, [116; 803]); (7790, [84; 817]);
    (7791, [116; 817]); (7792, [84; 813]); (7793, [116; 813]);
    (7794, [85; 804]); (7795, [117; 804]); (7796, [85; 816]);
    (7797, [117; 816]); (7798, [85; 813]); (7799, [117; 813]);
    (7800, [85; 771; 769]); (7801, [117; 771; 769]); (7802, [85; 772; 776]);
    (7803, [117; 772; 776]); (7804, [86; 771]); (7805, [118; 771]);
    (7806, [86; 803]); (7807, [118; 803]); (7808, [87; 768]);
    (7809, [119; 768]); (7810, [87; 769]); (7811, [119; 769]);
    (7812, [87; 776]); (7813, [119; 776]); (7814, [87; 775]);
    (7815, [119; 775]); (7816, [87; 803]); (7817, [119; 803]);
    (7818, [88; 775]); (7819, [120; 775]); (7820, [88; 776]);
    (7821, [120; 776]); (7822, [89; 775]); (7823, [121; 775]);
    (7824, [90; 770]); (7825, [122; 770]); (7826, [90; 803]);
    (7827, [122; 803]); (7828, [90; 817]); (7829, [122; 817]);
    (7830, [104; 817]); (7831, [116; 776]); (7832, [119; 778]);
    (7833, [121; 778]); (7834, [97; 702]); (7835, [115; 775]);
    (7840, [65; 803]); (7841, [97; 803]); (7842, [65; 777]);
    (7843, [97; 777]); (7844, [65; 770; 769]); (7845, [97; 770; 769]);
    (7846, [65; 770; 768]); (7847, [97; 770; 768]); (7848, [65; 770; 777]);
    (7849, [97; 770; 777]); (7850, [65; 770; 771]); (7851, [97; 770; 771]);
    (7852, [65; 803; 770]); (7853, [97; 803; 770]); (7854, [65; 774; 769]);
    (7855, [97; 774; 769]); (7856, [65; 774; 768]); (7857, [97; 774; 768]);
    (7858, [65; 774; 777]); (7859, [97; 774; 777]); (7860, [65; 774; 771]);
    (7861, [97; 774; 771]); (7862, [65; 803; 774]); (7863, [97; 803; 774]);
    (7864, [69; 803]); (7865, [101; 803]); (7866, [69; 777]);
    (7867, [101; 777]); (7868, [69; 771]); (7869, [101; 771]);
    (7870, [69; 770; 769]); (7871, [101; 770; 769]); (7872, [69; 770; 768]);
    (7873, [101; 770; 768]); (7874, [69; 770; 777]); (7875, [101; 770; 777]);
    (7876, [69; 770; 771]); (7877, [101; 770; 771]); (7878, [69; 803; 770]);
    (7879, [101; 803; 770]); (7880, [73; 777]); (7881, [105; 777]);
    (7882, [73; 803]); (7883, [105; 803]); (7884, [79; 803]);
    (7885, [111; 803]); (7886, [79; 777]); (7887, [111; 777]);
    (7888, [79; 770; 769]); (7889, [111; 770; 769]); (7890, [79; 770; 768]);
    (7891, [111; 770; 768]); (7892, [79; 770; 777]); (7893, [111; 770; 777]);
    (7894, [79; 770; 771]); (7895, [111; 770; 771]); (7896, [79; 803; 770]);
    (7897, [111; 803; 770]); (7898, [79; 795; 769]); (7899, [111; 795; 769]);
    (7900, [79; 795; 768]); (7901, [111; 795; 768]); (7902, [79; 795; 777]);
    (7903, [111; 795; 777]); (7904, [79; 795; 771]); (7905, [111; 795; 771]);
    (7906, [79; 795; 803]); (7907, [111; 795; 803]); (7908, [85; 803]);
    (7909, [117; 803]); (7910, [85; 777]); (7911, [117; 777]);
    (7912, [85; 795; 769]); (7913, [117; 795; 769]); (7914, [85; 795; 768]);
    (7915, [117; 795; 768]); (7916, [85; 795; 777]); (7917, [117; 795; 777]);
    (7918, [85; 795; 771]); (7919, [117; 795; 771]); (7920, [85; 795; 803]);
    (7921, [117; 795; 803]); (7922, [89; 768]); (7923, [121; 768]);
    (7924, [89; 803]); (7925, [121; 803]); (7926, [89; 777]);
    (7927, [121; 777]); (7928, [89; 771]); (7929, [121; 771]);
    (7936, [945; 787]); (7937, [945; 788]); (7938, [945; 787; 768]);
    (7939, [945; 788; 768]); (7940, [945; 787; 769]); (7941, [945; 788; 769]);
    (7942, [945; 787; 834]); (7943, [945; 788; 834]); (7944, [913; 787]);
    (7945, [913; 788]); (7946, [913; 787; 768]); (7947, [913; 788; 768]);
    (7948, [913; 787; 769]); (7949, [913; 788; 769]); (7950, [913; 787; 834]);
    (7951, [913; 788; 834]); (7952, [949; 787]); (7953, [949; 788]);
    (7954, [949; 787; 768]); (7955, [949; 788; 768]); (7956, [949; 787; 769]);
    (7957, [949; 788; 769]); (7960, [917; 787]); (7961, [917; 788]);
    (7962, [917; 787; 768]); (7963, [917; 788; 768]); (7964, [917; 787; 769]);
    (7965, [917; 788; 769]); (7968, [951; 787]); (7969, [951; 788]);
    (7970, [951; 787; 768]); (7971, [951; 788; 768]); (7972, [951; 787; 769]);
    (7973, [951; 788; 769]); (7974, [951; 787; 834]); (7975, [951; 788; 834]);
    (7976, [919; 787]); (7977, [919; 788]); (7978, [919; 787; 768]);
    (7979, [919; 788; 768]); (7980, [919; 787; 769]); (7981, [919; 788; 769]);
    (7982, [919; 787; 834]); (7983, [919; 788; 834]); (7984, [953; 787]);
    (7985, [953; 788]); (7986, [953; 787; 768]); (7987, [953; 788; 768]);
    (7988, [953; 787; 769]); (7989, [953; 788; 769]); (7990, [953; 787; 834]);
    (7991, [953; 788; 834]); (7992, [921; 787]); (7993, [921; 788]);
    (7994, [921; 787; 768]); (7995, [921; 788; 768]); (7996, [921; 787; 769]);
    (7997, [921; 788; 769]); (7998, [921; 787; 834]); (7999, [921; 788; 834]);
    (8000, [959; 787]); (8001, [959; 788]); (8002, [959; 787; 768]);
    (8003, [959; 788; 768]); (8004, [959; 787; 769]); (8005, [959; 788; 769]);
    (8008, [927; 787]); (8009, [927; 788]); (8010, [927; 787; 768]);
    (8011, [927; 788; 768]); (8012, [927; 787; 769]); (8013, [927; 788; 769]);
    (8016, [965; 787]); (8017, [965; 788]); (8018, [965; 787; 768]);
    (8019, [965; 788; 768]); (8020, [965; 787; 769]); (8021, [965; 788; 769]);
    (8022, [965; 787; 834]); (8023, [965; 788; 834]); (8025, [933; 788]);
    (8027, [933; 788; 768]); (8029, [933; 788; 769]); (8031, [933; 788; 834]);
    (8032, [969; 787]); (8033, [969; 788]); (8034, [969; 787; 768]);
    (8035, [969; 788; 768]); (8036, [969; 787; 769]); (8037, [969; 788; 769]);
    (8038, [969; 787; 834]); (8039, [969; 788; 834]); (8040, [937; 787]);
    (8041, [937; 788]); (8042, [937; 787; 768]); (8043, [937; 788; 768]);
    (8044, [937; 787; 769]); (8045, [937; 788; 769]); (8046, [937; 787; 834]);
    (8047, [937; 788; 834]); (8048, [945; 768]); (8049, [945; 769]);
    (8050, [949; 768]); (8051, [949; 769]); (8052, [951; 768]);
    (8053, [951; 769]); (8054, [953; 768]); (8055, [953; 769]);
    (8056, [959; 768]); (8057, [959; 769]); (8058, [965; 768]);
    (8059, [965; 769]); (8060, [969; 768]); (8061, [969; 769]);
    (8064, [945; 787; 837]); (8065, [945; 788; 837]);
    (8066, [945; 787; 768; 837]); (8067, [945; 788; 768; 837]);
    (8068, [945; 787; 769; 837]); (8069, [945; 788; 769; 837]);
    (8070, [945; 787; 834; 837]); (8071, [945; 788; 834; 837]);
    (8072, [913; 787; 837]); (8073, [913; 788; 837]);
    (8074, [913; 787; 768; 837]); (8075, [913; 788; 768; 837]);
    (8076, [913; 787; 769; 837]); (8077, [913; 788; 769; 837]);
    (8078, [913; 787; 834; 837]); (8079, [913; 788; 834; 837]);
    (8080, [951; 787; 837]); (8081, [951; 788; 837]);
    (8082, [951; 787; 768; 837]); (8083, [951; 788; 768; 837]);
    (8084, [951; 787; 769; 837]); (8085, [951; 788; 769; 837]);
    (8086, [951; 787; 834; 837]); (8087, [951; 788; 834; 837]);
    (8088, [919; 787; 837]); (8089, [919; 788; 837]);
    (8090, [919; 787; 768; 837]); (8091, [919; 788; 768; 837]);
    (8092, [919; 787; 769; 837]); (8093, [919; 788; 769; 837]);
    (8094, [919; 787; 834; 837]); (8095, [919; 788; 834; 837]);
    (8096, [969; 787; 837]); (8097, [969; 788; 837]);
    (8098, [969; 787; 768; 837]); (8099, [969; 788; 768; 837]);
    (8100, [969; 787; 769; 837]); (8101, [969; 788; 769; 837]);
    (8102, [969; 787; 834; 837]); (8103, [969; 788; 834; 837]);
    (8104, [937; 787; 837]); (8105, [937; 788; 837]);
    (8106, [937; 787; 768; 837]); (8107, [937; 788; 768; 837]);
    (8108, [937; 787; 769; 837]); (8109, [937; 788; 769; 837]);
    (8110, [937; 787; 834; 837]); (8111, [937; 788; 834; 837]);
    (8112, [945; 774]); (8113, [945; 772]); (8114, [945; 768; 837]);
    (8115, [945; 837]); (8116, [945; 769; 837]); (8118, [945; 834]);
    (8119, [945; 834; 837]); (8120, [913; 774]); (8121, [913; 772]);
    (8122, [913; 768]); (8123, [913; 769]); (8124, [913; 837]);
    (8125, [32; 787]); (8126, [953]); (8127, [32; 787]); (8128, [32; 834]);
    (8129, [32; 776; 834]); (8130, [951; 768; 837]); (8131, [951; 837]);
    (8132, [951; 769; 837]); (8134, [951; 834]); (8135, [951; 834; 837]);
    (8136, [917; 768]); (8137, [917; 769]); (8138, [919; 768]);
    (8139, [919; 769]); (8140, [919; 837]); (8141, [32; 787; 768]);
    (8142, [32; 787; 769]); (8143, [32; 787; 834]); (8144, [953; 774]);
    (8145, [953; 772]); (8146, [953; 776; 768]); (8147, [953; 776; 769]);
    (8150, [953; 834]); (8151, [953; 776; 834]); (8152, [921; 774]);
    (8153, [921; 772]); (8154, [921; 768]); (8155, [921; 769]);
    (8157, [32; 788; 768]); (8158, [32; 788; 769]); (8159, [32; 788; 834]);
    (8160, [965; 774]); (8161, [965; 772]); (8162, [965; 776; 768]);
    (8163, [965; 776; 769]); (8164, [961; 787]); (8165, [961; 788]);
    (8166, [965; 834]); (8167, [965; 776; 834]); (8168, [933; 774]);
    (8169, [933; 772]); (8170, [933; 768]); (8171, [933; 769]);
    (8172, [929; 788]); (8173, [32; 776; 768]); (8174, [32; 776; 769]);
    (8175, [96]); (8178, [969; 768; 837]); (8179, [969; 837]);
    (8180, [969; 769; 837]); (8182, [969; 834]); (8183, [969; 834; 837]);
    (8184, [927; 768]); (8185, [927; 769]); (8186, [937; 768]);
    (8187, [937; 769]); (8188, [937; 837]); (8189, [32; 769]);
    (8190, [32; 788]); (8192, [32]); (8193, [32]); (8194, [32]); (8195, [32]);
    (8196, [32]); (8197, [32]); (8198, [32]); (8199, [32]); (8200, [32]);
    (8201, [32]); (8202, [32]); (8209, [8208]); (8215, [32; 819]);
    (8228, [46]); (8229, [46; 46]); (8230, [46; 46; 46]); (8239, [32]);
    (8243, [8242; 8242]); (8244, [8242; 8242; 8242]); (8246, [8245; 8245]);
    (8247, [8245; 8245; 8245]); (8252, [33; 33]); (8254, [32; 773]);
    (8263, [63; 63]); (8264, [63; 33]); (8265, [33; 63]);
    (8279, [8242; 8242; 8242; 8242]); (8287, [32]); (8304, [48]);
    (8305, [105]); (8308, [52]); (8309, [53]); (8310, [54]); (8311, [55]);
    (8312, [56]); (8313, [57]); (8314, [43]); (8315, [8722]); (8316, [61]);
    (8317, [40]); (8318, [41]); (8319, [110]); (8320, [48]); (8321, [49]);
    (8322, [50]); (8323, [51]); (8324, [52]); (8325, [53]); (8326, [54]);
    (8327, [55]); (8328, [56]); (8329, [57]); (8330, [43]); (8331, [8722]);
    (8332, [61]); (8333, [40]); (8334, [41]); (8336, [97]); (8337, [101]);
    (8338, [111]); (8339, [120]); (8340, [601]); (8341, [104]); (8342, [107]);
    (8343, [108]); (8344, [109]); (8345, [110]); (8346, [112]); (8347, [115]);
    (8348, [116]); (8360, [82; 115]); (8448, [97; 47; 99]);
    (8449, [97; 47; 115]); (8450, [67]); (8451, [176; 67]);
    (8453, [99; 47; 111]); (8454, [99; 47; 117]); (8455, [400]);
    (8457, [176; 70]); (8458, [103]); (8459, [72]); (8460, [72]);
    (8461, [72]); (8462, [104]); (8463, [295]); (8464, [73]); (8465, [73]);
    (8466, [76]); (8467, [108]); (8469, [78]); (8470, [78; 111]);
    (8473, [80]); (8474, [81]); (8475, [82]); (8476, [82]); (8477, [82]);
    (8480, [83; 77]); (8481, [84; 69; 76]); (8482, [84; 77]); (8484, [90]);
    (8486, [937]); (8488, [90]); (8490, [75]); (8491, [65; 778]);
    (8492, [66]); (8493, [67]); (8495, [101]); (8496, [69]); (8497, [70]);
    (8499, [77]); (8500, [111]); (8501, [1488]); (8502, [1489]);
    (8503, [1490]); (8504, [1491]); (8505, [105]); (8507, [70; 65; 88]);
    (8508, [960]); (8509, [947]); (8510, [915]); (8511, [928]);
    (8512, [8721]); (8517, [68]); (8518, [100]); (8519, [101]); (8520, [105]);
    (8521, [106]); (8528, [49; 8260; 55]); (8529, [49; 8260; 57]);
    (8530, [49; 8260; 49; 48]); (8531, [49; 8260; 51]);
    (8532, [50; 8260; 51]); (8533, [49; 8260; 53]); (8534, [50; 8260; 53]);
    (8535, [51; 8260; 53]); (8536, [52; 8260; 53]); (8537, [49; 8260; 54]);
    (8538, [53; 8260; 54]); (8539, [49; 8260; 56]); (8540, [51; 8260; 56]);
    (8541, [53; 8260; 56]); (8542, [55; 8260; 56]); (8543, [49; 8260]);
    (8544, [73]); (8545, [73; 73]); (8546, [73; 73; 73]); (8547, [73; 86]);
    (8548, [86]); (8549, [86; 73]); (8550, [86; 73; 73]);
    (8551, [86; 73; 73; 73]); (8552, [73; 88]); (8553, [88]);
    (8554, [88; 73]); (8555, [88; 73; 73]); (8556, [76]); (8557, [67]);
    (8558, [68]); (8559, [77]); (8560, [105]); (8561, [105; 105]);
    (8562, [105; 105; 105]); (8563, [105; 118]); (8564, [118]);
    (8565, [118; 105]); (8566, [118; 105; 105]); (8567, [118; 105; 105; 105]);
    (8568, [105; 120]); (8569, [120]); (8570, [120; 105]);
    (8571, [120; 105; 105]); (8572, [108]); (8573, [99]); (8574, [100]);
    (8575, [109]); (8585, [48; 8260; 51]); (8602, [8592; 824]);
    (8603, [8594; 824]); (8622, [8596; 824]); (8653, [8656; 824]);
    (8654, [8660; 824]); (8655, [8658; 824]); (8708, [8707; 824]);
    (8713, [8712; 824]); (8716, [8715; 824]); (8740, [8739; 824]);
    (8742, [8741; 824]); (8748, [8747; 8747]); (8749, [8747; 8747; 8747]);
    (8751, [8750; 8750]); (8752, [8750; 8750; 8750]); (8769, [8764; 824]);
    (8772, [8771; 824]); (8775, [8773; 824]); (8777, [8776; 824]);
    (8800, [61; 824]); (8802, [8801; 824]); (8813, [8781; 824]);
    (8814, [60; 824]); (8815, [62; 824]); (8816, [8804; 824]);
    (8817, [8805; 824]); (8820, [8818; 824]); (8821, [8819; 824]);
    (8824, [8822; 824]); (8825, [8823; 824]); (8832, [8826; 824]);
    (8833, [8827; 824]); (8836, [8834; 824]); (8837, [8835; 824]);
    (8840, [8838; 824]); (8841, [8839; 824]); (8876, [8866; 824]);
    (8877, [8872; 824]); (8878, [8873; 824]); (8879, [8875; 824]);
    (8928, [8828; 824]); (8929, [8829; 824]); (8930, [8849; 824]);
    (8931, [8850; 824]); (8938, [8882; 824]); (8939, [8883; 824]);
    (8940, [8884; 824]); (8941, [8885; 824]); (9001, [12296]);
    (9002, [12297]); (9312, [49]); (9313, [50]); (9314, [51]); (9315, [52]);
    (9316, [53]); (9317, [54]); (9318, [55]); (9319, [56]); (9320, [57]);
    (9321, [49; 48]); (9322, [49; 49]); (9323, [49; 50]); (9324, [49; 51]);
    (9325, [49; 52]); (9326, [49; 53]); (9327, [49; 54]); (9328, [49; 55]);
    (9329, [49; 56]); (9330, [49; 57]); (9331, [50; 48]);
    (9332, [40; 49; 41]); (9333, [40; 50; 41]); (9334, [40; 51; 41]);
    (9335, [40; 52; 41]); (9336, [40; 53; 41]); (9337, [40; 54; 41]);
    (9338, [40; 55; 41]); (9339, [40; 56; 41]); (9340, [40; 57; 41]);
    (9341, [40; 49; 48; 41]); (9342, [40; 49; 49; 41]);
    (9343, [40; 49; 50; 41]); (9344, [40; 49; 51; 41]);
    (9345, [40; 49; 52; 41]); (9346, [40; 49; 53; 41]);
    (9347, [40; 49; 54; 41]); (9348, [40; 49; 55; 41]);
    (9349, [40; 49; 56; 41]); (9350, [40; 49; 57; 41]);
    (9351, [40; 50; 48; 41]); (9352, [49; 46]); (9353, [50; 46]);
    (9354, [51; 46]); (9355, [52; 46]); (9356, [53; 46]); (9357, [54; 46]);
    (9358, [55; 46]); (9359, [56; 46]); (9360, [57; 46]);
    (9361, [49; 48; 46]); (9362, [49; 49; 46]); (9363, [49; 50; 46]);
    (9364, [49; 51; 46]); (9365, [49; 52; 46]); (9366, [49; 53; 46]);
    (9367, [49; 54; 46]); (9368, [49; 55; 46]); (9369, [49; 56; 46]);
    (9370, [49; 57; 46]); (9371, [50; 48; 46]); (9372, [40; 97; 41]);
    (9373, [40; 98; 41]); (9374, [40; 99; 41]); (9375, [40; 100; 41]);
    (9376, [40; 101; 41]); (9377, [40; 102; 41]); (9378, [40; 103; 41]);
    (9379, [40; 104; 41]); (9380, [40; 105; 41]); (9381, [40; 106; 41]);
    (9382, [40; 107; 41]); (9383, [40; 108; 41]); (9384, [40; 109; 41]);
    (9385, [40; 110; 41]); (9386, [40; 111; 41]); (9387, [40; 112; 41]);
    (9388, [40; 113; 41]); (9389, [40; 114; 41]); (9390, [40; 115; 41]);
    (9391, [40; 116; 41]); (9392, [40; 117; 41]); (9393, [40; 118; 41]);
    (9394, [40; 119; 41]); (9395, [40; 120; 41]); (9396, [40; 121; 41]);
    (9397, [40; 122; 41]); (9398, [65]); (9399, [66]); (9400, [67]);
    (9401, [68]); (9402, [69]); (9403, [70]); (9404, [71]); (9405, [72]);
    (9406, [73]); (9407, [74]); (9408, [75]); (9409, [76]); (9410, [77]);
    (9411, [78]); (9412, [79]); (9413, [80]); (9414, [81]); (9415, [82]);
    (9416, [83]); (9417, [84]); (9418, [85]); (9419, [86]); (9420, [87]);
    (9421, [88]); (9422, [89]); (9423, [90]); (9424, [97]); (9425, [98]);
    (9426, [99]); (9427, [100]); (9428, [101]); (9429, [102]); (9430, [103]);
    (9431, [104]); (9432, [105]); (9433, [106]); (9434, [107]); (9435, [108]);
    (9436, [109]); (9437, [110]); (9438, [111]); (9439, [112]); (9440, [113]);
    (9441, [114]); (9442, [115]); (9443, [116]); (9444, [117]); (9445, [118]);
    (9446, [119]); (9447, [120]); (9448, [121]); (9449, [122]); (9450, [48]);
    (10764, [8747; 8747; 8747; 8747]); (10868, [58; 58; 61]);
    (10869, [61; 61]); (10870, [61; 61; 61]); (10972, [10973; 824]);
    (11388, [106]); (11389, [86]); (11631, [11617]); (11935, [27597]);
    (12019, [40863]); (12032, [19968]); (12033, [20008]); (12034, [20022]);
    (12035, [20031]); (12036, [20057]); (12037, [20101]); (12038, [20108]);
    (12039, [20128]); (12040, [20154]); (12041, [20799]); (12042, [20837]);
    (12043, [20843]); (12044, [20866]); (12045, [20886]); (12046, [20907]);
    (12047, [20960]); (12048, [20981]); (12049, [20992]); (12050, [21147]);
    (12051, [21241]); (12052, [21269]); (12053, [21274]); (12054, [21304]);
    (12055, [21313]); (12056, [21340]); (12057, [21353]); (12058, [21378]);
    (12059, [21430]); (12060, [21448]); (12061, [21475]); (12062, [22231]);
    (12063, [22303]); (12064, [22763]); (12065, [22786]); (12066, [22794]);
    (12067, [22805]); (12068, [22823]); (12069, [22899]); (12070, [23376]);
    (12071, [23424]); (12072, [23544]); (12073, [23567]); (12074, [23586]);
    (12075, [23608]); (12076, [23662]); (12077, [23665]); (12078, [24027]);
    (12079, [24037]); (12080, [24049]); (12081, [24062]); (12082, [24178]);
    (12083, [24186]); (12084, [24191]); (12085, [24308]); (12086, [24318]);
    (12087, [24331]); (12088, [24339]); (12089, [24400]); (12090, [24417]);
    (12091, [24435]); (12092, [24515]); (12093, [25096]); (12094, [25142]);
    (12095, [25163]); (12096, [25903]); (12097, [25908]); (12098, [25991]);
    (12099, [26007]); (12100, [26020]); (12101, [26041]); (12102, [26080]);
    (12103, [26085]); (12104, [26352]); (12105, [26376]); (12106, [26408]);
    (12107, [27424]); (12108, [27490]); (12109, [27513]); (12110, [27571]);
    (12111, [27595]); (12112, [27604]); (12113, [27611]); (12114, [27663]);
    (12115, [27668]); (12116, [27700]); (12117, [28779]); (12118, [29226]);
    (12119, [29238]); (12120, [29243]); (12121, [29247]); (12122, [29255]);
    (12123, [29273]); (12124, [29275]); (12125, [29356]); (12126, [29572]);
    (12127, [29577]); (12128, [29916]); (12129, [29926]); (12130, [29976]);
    (12131, [29983]); (12132, [29992]); (12133, [30000]); (12134, [30091]);
    (12135, [30098]); (12136, [30326]); (12137, [30333]); (12138, [30382]);
    (12139, [30399]); (12140, [30446]); (12141, [30683]); (12142, [30690]);
    (12143, [30707]); (12144, [31034]); (12145, [31160]); (12146, [31166]);
    (12147, [31348]); (12148, [31435]); (12149, [31481]); (12150, [31859]);
    (12151, [31992]); (12152, [32566]); (12153, [32593]); (12154, [32650]);
    (12155, [32701]); (12156, [32769]); (12157, [32780]); (12158, [32786]);
    (12159, [32819]); (12160, [32895]); (12161, [32905]); (12162, [33251]);
    (12163, [33258]); (12164, [33267]); (12165, [33276]); (12166, [33292]);
    (12167, [33307]); (12168, [33311]); (12169, [33390]); (12170, [33394]);
    (12171, [33400]); (12172, [34381]); (12173, [34411]); (12174, [34880]);
    (12175, [34892]); (12176, [34915]); (12177, [35198]); (12178, [35211]);
    (12179, [35282]); (12180, [35328]); (12181, [35895]); (12182, [35910]);
    (12183, [35925]); (12184, [35960]); (12185, [35997]); (12186, [36196]);
    (12187, [36208]); (12188, [36275]); (12189, [36523]); (12190, [36554]);
    (12191, [36763]); (12192, [36784]); (12193, [36789]); (12194, [37009]);
    (12195, [37193]); (12196, [37318]); (12197, [37324]); (12198, [37329]);
    (12199, [38263]); (12200, [38272]); (12201, [38428]); (12202, [38582]);
    (12203, [38585]); (12204, [38632]); (12205, [38737]); (12206, [38750]);
    (12207, [38754]); (12208, [38761]); (12209, [38859]); (12210, [38893]);
    (12211, [38899]); (12212, [38913]); (12213, [39080]); (12214, [39131]);
    (12215, [39135]); (12216, [39318]); (12217, [39321]); (12218, [39340]);
    (12219, [39592]); (12220, [39640]); (12221, [39647]); (12222, [39717]);
    (12223, [39727]); (12224, [39730]); (12225, [39740]); (12226, [39770]);
    (12227, [40165]); (12228, [40565]); (12229, [40575]); (12230, [40613]);
    (12231, [40635]); (12232, [40643]); (12233, [40653]); (12234, [40657]);
    (12235, [40697]); (12236, [40701]); (12237, [40718]); (12238, [40723]);
    (12239, [40736]); (12240, [40763]); (12241, [40778]); (12242, [40786]);
    (12243, [40845]); (12244, [40860]); (12245, [40864]); (12288, [32]);
    (12342, [12306]); (12344, [21313]); (12345, [21316]); (12346, [21317]);
    (12364, [12363; 12441]); (12366, [12365; 12441]); (12368, [12367; 12441]);
    (12370, [12369; 12441]); (12372, [12371; 12441]); (12374, [12373; 12441]);
    (12376, [12375; 12441]); (12378, [12377; 12441]); (12380, [12379; 12441]);
    (12382, [12381; 12441]); (12384, [12383; 12441]); (12386, [12385; 12441]);
    (12389, [12388; 12441]); (12391, [12390; 12441]); (12393, [12392; 12441]);
    (12400, [12399; 12441]); (12401, [12399; 12442]); (12403, [12402; 12441]);
    (12404, [12402; 12442]); (12406, [12405; 12441]); (12407, [12405; 12442]);
    (12409, [12408; 12441]); (12410, [12408; 12442]); (12412, [12411; 12441]);
    (12413, [12411; 12442]); (12436, [12358; 12441]); (12443, [32; 12441]);
    (12444, [32; 12442]); (12446, [12445; 12441]); (12447, [12424; 12426]);
    (12460, [12459; 12441]); (12462, [12461; 12441]); (12464, [12463; 12441]);
    (12466, [12465; 12441]); (12468, [12467; 12441]); (12470, [12469; 12441]);
    (12472, [12471; 12441]); (12474, [12473; 12441]); (12476, [12475; 12441]);
    (12478, [12477; 12441]); (12480, [12479; 12441]); (12482, [12481; 12441]);
    (12485, [12484; 12441]); (12487, [12486; 12441]); (12489, [12488; 12441]);
    (12496, [12495; 12441]); (12497, [12495; 12442]); (12499, [12498; 12441]);
    (12500, [12498; 12442]); (12502, [12501; 12441]); (12503, [12501; 12442]);
    (12505, [12504; 12441]); (12506, [12504; 12442]); (12508, [12507; 12441]);
    (12509, [12507; 12442]); (12532, [12454; 12441]); (12535, [12527; 12441]);
    (12536, [12528; 12441]); (12537, [12529; 12441]); (12538, [12530; 12441]);
    (12542, [12541; 12441]); (12543, [12467; 12488]); (12593, [4352]);
    (12594, [4353]); (12595, [4522]); (12596, [4354]); (12597, [4524]);
    (12598, [4525]); (12599, [4355]); (12600, [4356]); (12601, [4357]);
    (12602, [4528]); (12603, [4529]); (12604, [4530]); (12605, [4531]);
    (12606, [4532]); (12607, [4533]); (12608, [4378]); (12609, [4358]);
    (12610, [4359]); (12611, [4360]); (12612, [4385]); (12613, [4361]);
    (12614, [4362]); (12615, [4363]); (12616, [4364]); (12617, [4365]);
    (12618, [4366]); (12619, [4367]); (12620, [4368]); (12621, [4369]);
    (12622, [4370]); (12623, [4449]); (12624, [4450]); (12625, [4451]);
    (12626, [4452]); (12627, [4453]); (12628, [4454]); (12629, [4455]);
    (12630, [4456]); (12631, [4457]); (12632, [4458]); (12633, [4459]);
    (12634, [4460]); (12635, [4461]); (12636, [4462]); (12637, [4463]);
    (12638, [4464]); (12639, [4465]); (12640, [4466]); (12641, [4467]);
    (12642, [4468]); (12643, [4469]); (12644, [4448]); (12645, [4372]);
    (12646, [4373]); (12647, [4551]); (12648, [4552]); (12649, [4556]);
    (12650, [4558]); (12651, [4563]); (12652, [4567]); (12653, [4569]);
    (12654, [4380]); (12655, [4573]); (12656, [4575]); (12657, [4381]);
    (12658, [4382]); (12659, [4384]); (12660, [4386]); (12661, [4387]);
    (12662, [4391]); (12663, [4393]); (12664, [4395]); (12665, [4396]);
    (12666, [4397]); (12667, [4398]); (12668, [4399]); (12669, [4402]);
    (12670, [4406]); (12671, [4416]); (12672, [4423]); (12673, [4428]);
    (12674, [4593]); (12675, [4594]); (12676, [4439]); (12677, [4440]);
    (12678, [4441]); (12679, [4484]); (12680, [4485]); (12681, [4488]);
    (12682, [4497]); (12683, [4498]); (12684, [4500]); (12685, [4510]);
    (12686, [4513]); (12690, [19968]); (12691, [20108]); (12692, [19977]);
    (12693, [22235]); (12694, [19978]); (12695, [20013]); (12696, [19979]);
    (12697, [30002]); (12698, [20057]); (12699, [19993]); (12700, [19969]);
    (12701, [22825]); (12702, [22320]); (12703, [20154]);
    (12800, [40; 4352; 41]); (12801, [40; 4354; 41]); (12802, [40; 4355; 41]);
    (12803, [40; 4357; 41]); (12804, [40; 4358; 41]); (12805, [40; 4359; 41]);
    (12806, [40; 4361; 41]); (12807, [40; 4363; 41]); (12808, [40; 4364; 41]);
    (12809, [40; 4366; 41]); (12810, [40; 4367; 41]); (12811, [40; 4368; 41]);
    (12812, [40; 4369; 41]); (12813, [40; 4370; 41]);
    (12814, [40; 4352; 4449; 41]); (12815, [40; 4354; 4449; 41]);
    (12816, [40; 4355; 4449; 41]); (12817, [40; 4357; 4449; 41]);
    (12818, [40; 4358; 4449; 41]); (12819, [40; 4359; 4449; 41]);
    (12820, [40; 4361; 4449; 41]); (12821, [40; 4363; 4449; 41]);
    (12822, [40; 4364; 4449; 41]); (12823, [40; 4366; 4449; 41]);
    (12824, [40; 4367; 4449; 41]); (12825, [40; 4368; 4449; 41]);
    (12826, [40; 4369; 4449; 41]); (12827, [40; 4370; 4449; 41]);
    (12828, [40; 4364; 4462; 41]);
    (12829, [40; 4363; 4457; 4364; 4453; 4523; 41]);
    (12830, [40; 4363; 4457; 4370; 4462; 41]); (12832, [40; 19968; 41]);
    (12833, [40; 20108; 41]); (12834, [40; 19977; 41]);
    (12835, [40; 22235; 41]); (12836, [40; 20116; 41]);
    (12837, [40; 20845; 41]); (12838, [40; 19971; 41]);
    (12839, [40; 20843; 41]); (12840, [40; 20061; 41]);
    (12841, [40; 21313; 41]); (12842, [40; 26376; 41]);
    (12843, [40; 28779; 41]); (12844, [40; 27700; 41]);
    (12845, [40; 26408; 41]); (12846, [40; 37329; 41]);
    (12847, [40; 22303; 41]); (12848, [40; 26085; 41]);
    (12849, [40; 26666; 41]); (12850, [40; 26377; 41]);
    (12851, [40; 31038; 41]); (12852, [40; 21517; 41]);
    (12853, [40; 29305; 41]); (12854, [40; 36001; 41]);
    (12855, [40; 31069; 41]); (12856, [40; 21172; 41]);
    (12857, [40; 20195; 41]); (12858, [40; 21628; 41]);
    (12859, [40; 23398; 41]); (12860, [40; 30435; 41]);
    (12861, [40; 20225; 41]); (12862, [40; 36039; 41]);
    (12863, [40; 21332; 41]); (12864, [40; 31085; 41]);
    (12865, [40; 20241; 41]); (12866, [40; 33258; 41]);
    (12867, [40; 33267; 41]); (12868, [21839]); (12869, [24188]);
    (12870, [25991]); (12871, [31631]); (12880, [80; 84; 69]);
    (12881, [50; 49]); (12882, [50; 50]); (12883, [50; 51]);
    (12884, [50; 52]); (12885, [50; 53]); (12886, [50; 54]);
    (12887, [50; 55]); (12888, [50; 56]); (12889, [50; 57]);
    (12890, [51; 48]); (12891, [51; 49]); (12892, [51; 50]);
    (12893, [51; 51]); (12894, [51; 52]); (12895, [51; 53]); (12896, [4352]);
    (12897, [4354]); (12898, [4355]); (12899, [4357]); (12900, [4358]);
    (12901, [4359]); (12902, [4361]); (12903, [4363]); (12904, [4364]);
    (12905, [4366]); (12906, [4367]); (12907, [4368]); (12908, [4369]);
    (12909, [4370]); (12910, [4352; 4449]); (12911, [4354; 4449]);
    (12912, [4355; 4449]); (12913, [4357; 4449]); (12914, [4358; 4449]);
    (12915, [4359; 4449]); (12916, [4361; 4449]); (12917, [4363; 4449]);
    (12918, [4364; 4449]); (12919, [4366; 4449]); (12920, [4367; 4449]);
    (12921, [4368; 4449]); (12922, [4369; 4449]); (12923, [4370; 4449]);
    (12924, [4366; 4449; 4535; 4352; 4457]);
    (12925, [4364; 4462; 4363; 4468]); (12926, [4363; 4462]);
    (12928, [19968]); (12929, [20108]); (12930, [19977]); (12931, [22235]);
    (12932, [20116]); (12933, [20845]); (12934, [19971]); (12935, [20843]);
    (12936, [20061]); (12937, [21313]); (12938, [26376]); (12939, [28779]);
    (12940, [27700]); (12941, [26408]); (12942, [37329]); (12943, [22303]);
    (12944, [26085]); (12945, [26666]); (12946, [26377]); (12947, [31038]);
    (12948, [21517]); (12949, [29305]); (12950, [36001]); (12951, [31069]);
    (12952, [21172]); (12953, [31192]); (12954, [30007]); (12955, [22899]);
    (12956, [36969]); (12957, [20778]); (12958, [21360]); (12959, [27880]);
    (12960, [38917]); (12961, [20241]); (12962, [20889]); (12963, [27491]);
    (12964, [19978]); (12965, [20013]); (12966, [19979]); (12967, [24038]);
    (12968, [21491]); (12969, [21307]); (12970, [23447]); (12971, [23398]);
    (12972, [30435]); (12973, [20225]); (12974, [36039]); (12975, [21332]);
    (12976, [22812]); (12977, [51; 54]); (12978, [51; 55]); (12979, [51; 56]);
    (12980, [51; 57]); (12981, [52; 48]); (12982, [52; 49]);
    (12983, [52; 50]); (12984, [52; 51]); (12985, [52; 52]);
    (12986, [52; 53]); (12987, [52; 54]); (12988, [52; 55]);
    (12989, [52; 56]); (12990, [52; 57]); (12991, [53; 48]);
    (12992, [49; 26376]); (12993, [50; 26376]); (12994, [51; 26376]);
    (12995, [52; 26376]); (12996, [53; 26376]); (12997, [54; 26376]);
    (12998, [55; 26376]); (12999, [56; 26376]); (13000, [57; 26376]);
    (13001, [49; 48; 26376]); (13002, [49; 49; 26376]);
    (13003, [49; 50; 26376]); (13004, [72; 103]); (13005, [101; 114; 103]);
    (13006, [101; 86]); (13007, [76; 84; 68]); (13008, [12450]);
    (13009, [12452]); (13010, [12454]); (13011, [12456]); (13012, [12458]);
    (13013, [12459]); (13014, [12461]); (13015, [12463]); (13016, [12465]);
    (13017, [12467]); (13018, [12469]); (13019, [12471]); (13020, [12473]);
    (13021, [12475]); (13022, [12477]); (13023, [12479]); (13024, [12481]);
    (13025, [12484]); (13026, [12486]); (13027, [12488]); (13028, [12490]);
    (13029, [12491]); (13030, [12492]); (13031, [12493]); (13032, [12494]);
    (13033, [12495]); (13034, [12498]); (13035, [12501]); (13036, [12504]);
    (13037, [12507]); (13038, [12510]); (13039, [12511]); (13040, [12512]);
    (13041, [12513]); (13042, [12514]); (13043, [12516]); (13044, [12518]);
    (13045, [12520]); (13046, [12521]); (13047, [12522]); (13048, [12523]);
    (13049, [12524]); (13050, [12525]); (13051, [12527]); (13052, [12528]);
    (13053, [12529]); (13054, [12530]); (13055, [20196; 21644]);
    (13056, [12450; 12495; 12442; 12540; 12488]);
    (13057, [12450; 12523; 12501; 12449]);
    (13058, [12450; 12531; 12504; 12442; 12450]);
    (13059, [12450; 12540; 12523]);
    (13060, [12452; 12491; 12531; 12463; 12441]);
    (13061, [12452; 12531; 12481]); (13062, [12454; 12457; 12531]);
    (13063, [12456; 12473; 12463; 12540; 12488; 12441]);
    (13064, [12456; 12540; 12459; 12540]); (13065, [12458; 12531; 12473]);
    (13066, [12458; 12540; 12512]); (13067, [12459; 12452; 12522]);
    (13068, [12459; 12521; 12483; 12488]);
    (13069, [12459; 12525; 12522; 12540]);
    (13070, [12459; 12441; 12525; 12531]);
    (13071, [12459; 12441; 12531; 12510]);
    (13072, [12461; 12441; 12459; 12441]);
    (13073, [12461; 12441; 12491; 12540]);
    (13074, [12461; 12517; 12522; 12540]);
    (13075, [12461; 12441; 12523; 12479; 12441; 12540]);
    (13076, [12461; 12525]);
    (13077, [12461; 12525; 12463; 12441; 12521; 12512]);
    (13078, [12461; 12525; 12513; 12540; 12488; 12523]);
    (13079, [12461; 12525; 12527; 12483; 12488]);
    (13080, [12463; 12441; 12521; 12512]);
    (13081, [12463; 12441; 12521; 12512; 12488; 12531]);
    (13082, [12463; 12523; 12475; 12441; 12452; 12525]);
    (13083, [12463; 12525; 12540; 12493]); (13084, [12465; 12540; 12473]);
    (13085, [12467; 12523; 12490]); (13086, [12467; 12540; 12507; 12442]);
    (13087, [12469; 12452; 12463; 12523]);
    (13088, [12469; 12531; 12481; 12540; 12512]);
    (13089, [12471; 12522; 12531; 12463; 12441]);
    (13090, [12475; 12531; 12481]); (13091, [12475; 12531; 12488]);
    (13092, [12479; 12441; 12540; 12473]); (13093, [12486; 12441; 12471]);
    (13094, [12488; 12441; 12523]); (13095, [12488; 12531]);
    (13096, [12490; 12494]); (13097, [12494; 12483; 12488]);
    (13098, [12495; 12452; 12484]);
    (13099, [12495; 12442; 12540; 12475; 12531; 12488]);
    (13100, [12495; 12442; 12540; 12484]);
    (13101, [12495; 12441; 12540; 12524; 12523]);
    (13102, [12498; 12442; 12450; 12473; 12488; 12523]);
    (13103, [12498; 12442; 12463; 12523]); (13104, [12498; 12442; 12467]);
    (13105, [12498; 12441; 12523]);
    (13106, [12501; 12449; 12521; 12483; 12488; 12441]);
    (13107, [12501; 12451; 12540; 12488]);
    (13108, [12501; 12441; 12483; 12471; 12455; 12523]);
    (13109, [12501; 12521; 12531]);
    (13110, [12504; 12463; 12479; 12540; 12523]);
    (13111, [12504; 12442; 12477]); (13112, [12504; 12442; 12491; 12498]);
    (13113, [12504; 12523; 12484]); (13114, [12504; 12442; 12531; 12473]);
    (13115, [12504; 12442; 12540; 12471; 12441]);
    (13116, [12504; 12441; 12540; 12479]);
    (13117, [12507; 12442; 12452; 12531; 12488]);
    (13118, [12507; 12441; 12523; 12488]); (13119, [12507; 12531]);
    (13120, [12507; 12442; 12531; 12488; 12441]);
    (13121, [12507; 12540; 12523]); (13122, [12507; 12540; 12531]);
    (13123, [12510; 12452; 12463; 12525]); (13124, [12510; 12452; 12523]);
    (13125, [12510; 12483; 12495]); (13126, [12510; 12523; 12463]);
    (13127, [12510; 12531; 12471; 12519; 12531]);
    (13128, [12511; 12463; 12525; 12531]); (13129, [12511; 12522]);
    (13130, [12511; 12522; 12495; 12441; 12540; 12523]);
    (13131, [12513; 12459; 12441]);
    (13132, [12513; 12459; 12441; 12488; 12531]);
    (13133, [12513; 12540; 12488; 12523]);
    (13134, [12516; 12540; 12488; 12441]); (13135, [12516; 12540; 12523]);
    (13136, [12518; 12450; 12531]); (13137, [12522; 12483; 12488; 12523]);
    (13138, [12522; 12521]); (13139, [12523; 12498; 12442; 12540]);
    (13140, [12523; 12540; 12501; 12441; 12523]); (13141, [12524; 12512]);
    (13142, [12524; 12531; 12488; 12465; 12441; 12531]);
    (13143, [12527; 12483; 12488]); (13144, [48; 28857]);
    (13145, [49; 28857]); (13146, [50; 28857]); (13147, [51; 28857]);
    (13148, [52; 28857]); (13149, [53; 28857]); (13150, [54; 28857]);
    (13151, [55; 28857]); (13152, [56; 28857]); (13153, [57; 28857]);
    (13154, [49; 48; 28857]); (13155, [49; 49; 28857]);
    (13156, [49; 50; 28857]); (13157, [49; 51; 28857]);
    (13158, [49; 52; 28857]); (13159, [49; 53; 28857]);
    (13160, [49; 54; 28857]); (13161, [49; 55; 28857]);
    (13162, [49; 56; 28857]); (13163, [49; 57; 28857]);
    (13164, [50; 48; 28857]); (13165, [50; 49; 28857]);
    (13166, [50; 50; 28857]); (13167, [50; 51; 28857]);
    (13168, [50; 52; 28857]); (13169, [104; 80; 97]); (13170, [100; 97]);
    (13171, [65; 85]); (13172, [98; 97; 114]); (13173, [111; 86]);
    (13174, [112; 99]); (13175, [100; 109]); (13176, [100; 109; 50]);
    (13177, [100; 109; 51]); (13178, [73; 85]); (13179, [24179; 25104]);
    (13180, [26157; 21644]); (13181, [22823; 27491]); (13182, [26126; 27835]);
    (13183, [26666; 24335; 20250; 31038]); (13184, [112; 65]);
    (13185, [110; 65]); (13186, [956; 65]); (13187, [109; 65]);
    (13188, [107; 65]); (13189, [75; 66]); (13190, [77; 66]);
    (13191, [71; 66]); (13192, [99; 97; 108]); (13193, [107; 99; 97; 108]);
    (13194, [112; 70]); (13195, [110; 70]); (13196, [956; 70]);
    (13197, [956; 103]); (13198, [109; 103]); (13199, [107; 103]);
    (13200, [72; 122]); (13201, [107; 72; 122]); (13202, [77; 72; 122]);
    (13203, [71; 72; 122]); (13204, [84; 72; 122]); (13205, [956; 108]);
    (13206, [109; 108]); (13207, [100; 108]); (13208, [107; 108]);
    (13209, [102; 109]); (13210, [110; 109]); (13211, [956; 109]);
    (13212, [109; 109]); (13213, [99; 109]); (13214, [107; 109]);
    (13215, [109; 109; 50]); (13216, [99; 109; 50]); (13217, [109; 50]);
    (13218, [107; 109; 50]); (13219, [109; 109; 51]); (13220, [99; 109; 51]);
    (13221, [109; 51]); (13222, [107; 109; 51]); (13223, [109; 8725; 115]);
    (13224, [109; 8725; 115; 50]); (13225, [80; 97]); (13226, [107; 80; 97]);
    (13227, [77; 80; 97]); (13228, [71; 80; 97]); (13229, [114; 97; 100]);
    (13230, [114; 97; 100; 8725; 115]);
    (13231, [114; 97; 100; 8725; 115; 50]); (13232, [112; 115]);
    (13233, [110; 115]); (13234, [956; 115]); (13235, [109; 115]);
    (13236, [112; 86]); (13237, [110; 86]); (13238, [956; 86]);
    (13239, [109; 86]); (13240, [107; 86]); (13241, [77; 86]);
    (13242, [112; 87]); (13243, [110; 87]); (13244, [956; 87]);
    (13245, [109; 87]); (13246, [107; 87]); (13247, [77; 87]);
    (13248, [107; 937]); (13249, [77; 937]); (13250, [97; 46; 109; 46]);
    (13251, [66; 113]); (13252, [99; 99]); (13253, [99; 100]);
    (13254, [67; 8725; 107; 103]); (13255, [67; 111; 46]); (13256, [100; 66]);
    (13257, [71; 121]); (13258, [104; 97]); (13259, [72; 80]);
    (13260, [105; 110]); (13261, [75; 75]); (13262, [75; 77]);
    (13263, [107; 116]); (13264, [108; 109]); (13265, [108; 110]);
    (13266, [108; 111; 103]); (13267, [108; 120]); (13268, [109; 98]);
    (13269, [109; 105; 108]); (13270, [109; 111; 108]); (13271, [80; 72]);
    (13272, [112; 46; 109; 46]); (13273, [80; 80; 77]); (13274, [80; 82]);
    (13275, [115; 114]); (13276, [83; 118]); (13277, [87; 98]);
    (13278, [86; 8725; 109]); (13279, [65; 8725; 109]); (13280, [49; 26085]);
    (13281, [50; 26085]); (13282, [51; 26085]); (13283, [52; 26085]);
    (13284, [53; 26085]); (13285, [54; 26085]); (13286, [55; 26085]);
    (13287, [56; 26085]); (13288, [57; 26085]); (13289, [49; 48; 26085]);
    (13290, [49; 49; 26085]); (13291, [49; 50; 26085]);
    (13292, [49; 51; 26085]); (13293, [49; 52; 26085]);
    (13294, [49; 53; 26085]); (13295, [49; 54; 26085]);
    (13296, [49; 55; 26085]); (13297, [49; 56; 26085]);
    (13298, [49; 57; 26085]); (13299, [50; 48; 26085]);
    (13300, [50; 49; 26085]); (13301, [50; 50; 26085]);
    (13302, [50; 51; 26085]); (13303, [50; 52; 26085]);
    (13304, [50; 53; 26085]); (13305, [50; 54; 26085]);
    (13306, [50; 55; 26085]); (13307, [50; 56; 26085]);
    (13308, [50; 57; 26085]); (13309, [51; 48; 26085]);
    (13310, [51; 49; 26085]); (13311, [103; 97; 108]); (42652, [1098]);
    (42653, [1100]); (42864, [42863]); (42994, [67]); (42995, [70]);
    (42996, [81]); (43000, [294]); (43001, [339]); (43868, [42791]);
    (43869, [43831]); (43870, [619]); (43871, [43858]); (43881, [653]);
    (63744, [35912]); (63745, [26356]); (63746, [36554]); (63747, [36040]);
    (63748, [28369]); (63749, [20018]); (63750, [21477]); (63751, [40860]);
    (63752, [40860]); (63753, [22865]); (63754, [37329]); (63755, [21895]);
    (63756, [22856]); (63757, [25078]); (63758, [30313]); (63759, [32645]);
    (63760, [34367]); (63761, [34746]); (63762, [35064]); (63763, [37007]);
    (63764, [27138]); (63765, [27931]); (63766, [28889]); (63767, [29662]);
    (63768, [33853]); (63769, [37226]); (63770, [39409]); (63771, [20098]);
    (63772, [21365]); (63773, [27396]); (63774, [29211]); (63775, [34349]);
    (63776, [40478]); (63777, [23888]); (63778, [28651]); (63779, [34253]);
    (63780, [35172]); (63781, [25289]); (63782, [33240]); (63783, [34847]);
    (63784, [24266]); (63785, [26391]); (63786, [28010]); (63787, [29436]);
    (63788, [37070]); (63789, [20358]); (63790, [20919]); (63791, [21214]);
    (63792, [25796]); (63793, [27347]); (63794, [29200]); (63795, [30439]);
    (63796, [32769]); (63797, [34310]); (63798, [34396]); (63799, [36335]);
    (63800, [38706]); (63801, [39791]); (63802, [40442]); (63803, [30860]);
    (63804, [31103]); (63805, [32160]); (63806, [33737]); (63807, [37636]);
    (63808, [40575]); (63809, [35542]); (63810, [22751]); (63811, [24324]);
    (63812, [31840]); (63813, [32894]); (63814, [29282]); (63815, [30922]);
    (63816, [36034]); (63817, [38647]); (63818, [22744]); (63819, [23650]);
    (63820, [27155]); (63821, [28122]); (63822, [28431]); (63823, [32047]);
    (63824, [32311]); (63825, [38475]); (63826, [21202]); (63827, [32907]);
    (63828, [20956]); (63829, [20940]); (63830, [31260]); (63831, [32190]);
    (63832, [33777]); (63833, [38517]); (63834, [35712]); (63835, [25295]);
    (63836, [27138]); (63837, [35582]); (63838, [20025]); (63839, [23527]);
    (63840, [24594]); (63841, [29575]); (63842, [30064]); (63843, [21271]);
    (63844, [30971]); (63845, [20415]); (63846, [24489]); (63847, [19981]);
    (63848, [27852]); (63849, [25976]); (63850, [32034]); (63851, [21443]);
    (63852, [22622]); (63853, [30465]); (63854, [33865]); (63855, [35498]);
    (63856, [27578]); (63857, [36784]); (63858, [27784]); (63859, [25342]);
    (63860, [33509]); (63861, [25504]); (63862, [30053]); (63863, [20142]);
    (63864, [20841]); (63865, [20937]); (63866, [26753]); (63867, [31975]);
    (63868, [33391]); (63869, [35538]); (63870, [37327]); (63871, [21237]);
    (63872, [21570]); (63873, [22899]); (63874, [24300]); (63875, [26053]);
    (63876, [28670]); (63877, [31018]); (63878, [38317]); (63879, [39530]);
    (63880, [40599]); (63881, [40654]); (63882, [21147]); (63883, [26310]);
    (63884, [27511]); (63885, [36706]); (63886, [24180]); (63887, [24976]);
    (63888, [25088]); (63889, [25754]); (63890, [28451]); (63891, [29001]);
    (63892, [29833]); (63893, [31178]); (63894, [32244]); (63895, [32879]);
    (63896, [36646]); (63897, [34030]); (63898, [36899]); (63899, [37706]);
    (63900, [21015]); (63901, [21155]); (63902, [21693]); (63903, [28872]);
    (63904, [35010]); (63905, [35498]); (63906, [24265]); (63907, [24565]);
    (63908, [25467]); (63909, [27566]); (63910, [31806]); (63911, [29557]);
    (63912, [20196]); (63913, [22265]); (63914, [23527]); (63915, [23994]);
    (63916, [24604]); (63917, [29618]); (63918, [29801]); (63919, [32666]);
    (63920, [32838]); (63921, [37428]); (63922, [38646]); (63923, [38728]);
    (63924, [38936]); (63925, [20363]); (63926, [31150]); (63927, [37300]);
    (63928, [38584]); (63929, [24801]); (63930, [20102]); (63931, [20698]);
    (63932, [23534]); (63933, [23615]); (63934, [26009]); (63935, [27138]);
    (63936, [29134]); (63937, [30274]); (63938, [34044]); (63939, [36988]);
    (63940, [40845]); (63941, [26248]); (63942, [38446]); (63943, [21129]);
    (63944, [26491]); (63945, [26611]); (63946, [27969]); (63947, [28316]);
    (63948, [29705]); (63949, [30041]); (63950, [30827]); (63951, [32016]);
    (63952, [39006]); (63953, [20845]); (63954, [25134]); (63955, [38520]);
    (63956, [20523]); (63957, [23833]); (63958, [28138]); (63959, [36650]);
    (63960, [24459]); (63961, [24900]); (63962, [26647]); (63963, [29575]);
    (63964, [38534]); (63965, [21033]); (63966, [21519]); (63967, [23653]);
    (63968, [26131]); (63969, [26446]); (63970, [26792]); (63971, [27877]);
    (63972, [29702]); (63973, [30178]); (63974, [32633]); (63975, [35023]);
    (63976, [35041]); (63977, [37324]); (63978, [38626]); (63979, [21311]);
    (63980, [28346]); (63981, [21533]); (63982, [29136]); (63983, [29848]);
    (63984, [34298]); (63985, [38563]); (63986, [40023]); (63987, [40607]);
    (63988, [26519]); (63989, [28107]); (63990, [33256]); (63991, [31435]);
    (63992, [31520]); (63993, [31890]); (63994, [29376]); (63995, [28825]);
    (63996, [35672]); (63997, [20160]); (63998, [33590]); (63999, [21050]);
    (64000, [20999]); (64001, [24230]); (64002, [25299]); (64003, [31958]);
    (64004, [23429]); (64005, [27934]); (64006, [26292]); (64007, [36667]);
    (64008, [34892]); (64009, [38477]); (64010, [35211]); (64011, [24275]);
    (64012, [20800]); (64013, [21952]); (64016, [22618]); (64018, [26228]);
    (64021, [20958]); (64022, [29482]); (64023, [30410]); (64024, [31036]);
    (64025, [31070]); (64026, [31077]); (64027, [31119]); (64028, [38742]);
    (64029, [31934]); (64030, [32701]); (64032, [34322]); (64034, [35576]);
    (64037, [36920]); (64038, [37117]); (64042, [39151]); (64043, [39164]);
    (64044, [39208]); (64045, [40372]); (64046, [37086]); (64047, [38583]);
    (64048, [20398]); (64049, [20711]); (64050, [20813]); (64051, [21193]);
    (64052, [21220]); (64053, [21329]); (64054, [21917]); (64055, [22022]);
    (64056, [22120]); (64057, [22592]); (64058, [22696]); (64059, [23652]);
    (64060, [23662]); (64061, [24724]); (64062, [24936]); (64063, [24974]);
    (64064, [25074]); (64065, [25935]); (64066, [26082]); (64067, [26257]);
    (64068, [26757]); (64069, [28023]); (64070, [28186]); (64071, [28450]);
    (64072, [29038]); (64073, [29227]); (64074, [29730]); (64075, [30865]);
    (64076, [31038]); (64077, [31049]); (64078, [31048]); (64079, [31056]);
    (64080, [31062]); (64081, [31069]); (64082, [31117]); (64083, [31118]);
    (64084, [31296]); (64085, [31361]); (64086, [31680]); (64087, [32244]);
    (64088, [32265]); (64089, [32321]); (64090, [32626]); (64091, [32773]);
    (64092, [33261]); (64093, [33401]); (64094, [33401]); (64095, [33879]);
    (64096, [35088]); (64097, [35222]); (64098, [35585]); (64099, [35641]);
    (64100, [36051]); (64101, [36104]); (64102, [36790]); (64103, [36920]);
    (64104, [38627]); (64105, [38911]); (64106, [38971]); (64107, [24693]);
    (64108, [148206]); (64109, [33304]); (64112, [20006]); (64113, [20917]);
    (64114, [20840]); (64115, [20352]); (64116, [20805]); (64117, [20864]);
    (64118, [21191]); (64119, [21242]); (64120, [21917]); (64121, [21845]);
    (64122, [21913]); (64123, [21986]); (64124, [22618]); (64125, [22707]);
    (64126, [22852]); (64127, [22868]); (64128, [23138]); (64129, [23336]);
    (64130, [24274]); (64131, [24281]); (64132, [24425]); (64133, [24493]);
    (64134, [24792]); (64135, [24910]); (64136, [24840]); (64137, [24974]);
    (64138, [24928]); (64139, [25074]); (64140, [25140]); (64141, [25540]);
    (64142, [25628]); (64143, [25682]); (64144, [25942]); (64145, [26228]);
    (64146, [26391]); (64147, [26395]); (64148, [26454]); (64149, [27513]);
    (64150, [27578]); (64151, [27969]); (64152, [28379]); (64153, [28363]);
    (64154, [28450]); (64155, [28702]); (64156, [29038]); (64157, [30631]);
    (64158, [29237]); (64159, [29359]); (64160, [29482]); (64161, [29809]);
    (64162, [29958]); (64163, [30011]); (64164, [30237]); (64165, [30239]);
    (64166, [30410]); (64167, [30427]); (64168, [30452]); (64169, [30538]);
    (64170, [30528]); (64171, [30924]); (64172, [31409]); (64173, [31680]);
    (64174, [31867]); (64175, [32091]); (64176, [32244]); (64177, [32574]);
    (64178, [32773]); (64179, [33618]); (64180, [33775]); (64181, [34681]);
    (64182, [35137]); (64183, [35206]); (64184, [35222]); (64185, [35519]);
    (64186, [35576]); (64187, [35531]); (64188, [35585]); (64189, [35582]);
    (64190, [35565]); (64191, [35641]); (64192, [35722]); (64193, [36104]);
    (64194, [36664]); (64195, [36978]); (64196, [37273]); (64197, [37494]);
    (64198, [38524]); (64199, [38627]); (64200, [38742]); (64201, [38875]);
    (64202, [38911]); (64203, [38923]); (64204, [38971]); (64205, [39698]);
    (64206, [40860]); (64207, [141386]); (64208, [141380]); (64209, [144341]);
    (64210, [15261]); (64211, [16408]); (64212, [16441]); (64213, [152137]);
    (64214, [154832]); (64215, [163539]); (64216, [40771]); (64217, [40846]);
    (64256, [102; 102]); (64257, [102; 105]); (64258, [102; 108]);
    (64259, [102; 102; 105]); (64260, [102; 102; 108]); (64261, [115; 116]);
    (64262, [115; 116]); (64275, [1396; 1398]); (64276, [1396; 1381]);
    (64277, [1396; 1387]); (64278, [1406; 1398]); (64279, [1396; 1389]);
    (64285, [1497; 1460]); (64287, [1522; 1463]); (64288, [1506]);
    (64289, [1488]); (64290, [1491]); (64291, [1492]); (64292, [1499]);
    (64293, [1500]); (64294, [1501]); (64295, [1512]); (64296, [1514]);
    (64297, [43]); (64298, [1513; 1473]); (64299, [1513; 1474]);
    (64300, [1513; 1468; 1473]); (64301, [1513; 1468; 1474]);
    (64302, [1488; 1463]); (64303, [1488; 1464]); (64304, [1488; 1468]);
    (64305, [1489; 1468]); (64306, [1490; 1468]); (64307, [1491; 1468]);
    (64308, [1492; 1468]); (64309, [1493; 1468]); (64310, [1494; 1468]);
    (64312, [1496; 1468]); (64313, [1497; 1468]); (64314, [1498; 1468]);
    (64315, [1499; 1468]); (64316, [1500; 1468]); (64318, [1502; 1468]);
    (64320, [1504; 1468]); (64321, [1505; 1468]); (64323, [1507; 1468]);
    (64324, [1508; 1468]); (64326, [1510; 1468]); (64327, [1511; 1468]);
    (64328, [1512; 1468]); (64329, [1513; 1468]); (64330, [1514; 1468]);
    (64331, [1493; 1465]); (64332, [1489; 1471]); (64333, [1499; 1471]);
    (64334, [1508; 1471]); (64335, [1488; 1500]); (64336, [1649]);
    (64337, [1649]); (64338, [1659]); (64339, [1659]); (64340, [1659]);
    (64341, [1659]); (64342, [1662]); (64343, [1662]); (64344, [1662]);
    (64345, [1662]); (64346, [1664]); (64347, [1664]); (64348, [1664]);
    (64349, [1664]); (64350, [1658]); (64351, [1658]); (64352, [1658]);
    (64353, [1658]); (64354, [1663]); (64355, [1663]); (64356, [1663]);
    (64357, [1663]); (64358, [1657]); (64359, [1657]); (64360, [1657]);
    (64361, [1657]); (64362, [1700]); (64363, [1700]); (64364, [1700]);
    (64365, [1700]); (64366, [1702]); (64367, [1702]); (64368, [1702]);
    (64369, [1702]); (64370, [1668]); (64371, [1668]); (64372, [1668]);
    (64373, [1668]); (64374, [1667]); (64375, [1667]); (64376, [1667]);
    (64377, [1667]); (64378, [1670]); (64379, [1670]); (64380, [1670]);
    (64381, [1670]); (64382, [1671]); (64383, [1671]); (64384, [1671]);
    (64385, [1671]); (64386, [1677]); (64387, [1677]); (64388, [1676]);
    (64389, [1676]); (64390, [1678]); (64391, [1678]); (64392, [1672]);
    (64393, [1672]); (64394, [1688]); (64395, [1688]); (64396, [1681]);
    (64397, [1681]); (64398, [1705]); (64399, [1705]); (64400, [1705]);
    (64401, [1705]); (64402, [1711]); (64403, [1711]); (64404, [1711]);
    (64405, [1711]); (64406, [1715]); (64407, [1715]); (64408, [1715]);
    (64409, [1715]); (64410, [1713]); (64411, [1713]); (64412, [1713]);
    (64413, [1713]); (64414, [1722]); (64415, [1722]); (64416, [1723]);
    (64417, [1723]); (64418, [1723]); (64419, [1723]); (64420, [1749; 1620]);
    (64421, [1749; 1620]); (64422, [1729]); (64423, [1729]); (64424, [1729]);
    (64425, [1729]); (64426, [1726]); (64427, [1726]); (64428, [1726]);
    (64429, [1726]); (64430, [1746]); (64431, [1746]); (64432, [1746; 1620]);
    (64433, [1746; 1620]); (64467, [1709]); (64468, [1709]); (64469, [1709]);
    (64470, [1709]); (64471, [1735]); (64472, [1735]); (64473, [1734]);
    (64474, [1734]); (64475, [1736]); (64476, [1736]); (64477, [1735; 1652]);
    (64478, [1739]); (64479, [1739]); (64480, [1733]); (64481, [1733]);
    (64482, [1737]); (64483, [1737]); (64484, [1744]); (64485, [1744]);
    (64486, [1744]); (64487, [1744]); (64488, [1609]); (64489, [1609]);
    (64490, [1610; 1620; 1575]); (64491, [1610; 1620; 1575]);
    (64492, [1610; 1620; 1749]); (64493, [1610; 1620; 1749]);
    (64494, [1610; 1620; 1608]); (64495, [1610; 1620; 1608]);
    (64496, [1610; 1620; 1735]); (64497, [1610; 1620; 1735]);
    (64498, [1610; 1620; 1734]); (64499, [1610; 1620; 1734]);
    (64500, [1610; 1620; 1736]); (64501, [1610; 1620; 1736]);
    (64502, [1610; 1620; 1744]); (64503, [1610; 1620; 1744]);
    (64504, [1610; 1620; 1744]); (64505, [1610; 1620; 1609]);
    (64506, [1610; 1620; 1609]); (64507, [1610; 1620; 1609]); (64508, [1740]);
    (64509, [1740]); (64510, [1740]); (64511, [1740]);
    (64512, [1610; 1620; 1580]); (64513, [1610; 1620; 1581]);
    (64514, [1610; 1620; 1605]); (64515, [1610; 1620; 1609]);
    (64516, [1610; 1620; 1610]); (64517, [1576; 1580]); (64518, [1576; 1581]);
    (64519, [1576; 1582]); (64520, [1576; 1605]); (64521, [1576; 1609]);
    (64522, [1576; 1610]); (64523, [1578; 1580]); (64524, [1578; 1581]);
    (64525, [1578; 1582]); (64526, [1578; 1605]); (64527, [1578; 1609]);
    (64528, [1578; 1610]); (64529, [1579; 1580]); (64530, [1579; 1605]);
    (64531, [1579; 1609]); (64532, [1579; 1610]); (64533, [1580; 1581]);
    (64534, [1580; 1605]); (64535, [1581; 1580]); (64536, [1581; 1605]);
    (64537, [1582; 1580]); (64538, [1582; 1581]); (64539, [1582; 1605]);
    (64540, [1587; 1580]); (64541, [1587; 1581]); (64542, [1587; 1582]);
    (64543, [1587; 1605]); (64544, [1589; 1581]); (64545, [1589; 1605]);
    (64546, [1590; 1580]); (64547, [1590; 1581]); (64548, [1590; 1582]);
    (64549, [1590; 1605]); (64550, [1591; 1581]); (64551, [1591; 1605]);
    (64552, [1592; 1605]); (64553, [1593; 1580]); (64554, [1593; 1605]);
    (64555, [1594; 1580]); (64556, [1594; 1605]); (64557, [1601; 1580]);
    (64558, [1601; 1581]); (64559, [1601; 1582]); (64560, [1601; 1605]);
    (64561, [1601; 1609]); (64562, [1601; 1610]); (64563, [1602; 1581]);
    (64564, [1602; 1605]); (64565, [1602; 1609]); (64566, [1602; 1610]);
    (64567, [1603; 1575]); (64568, [1603; 1580]); (64569, [1603; 1581]);
    (64570, [1603; 1582]); (64571, [1603; 1604]); (64572, [1603; 1605]);
    (64573, [1603; 1609]); (64574, [1603; 1610]); (64575, [1604; 1580]);
    (64576, [1604; 1581]); (64577, [1604; 1582]); (64578, [1604; 1605]);
    (64579, [1604; 1609]); (64580, [1604; 1610]); (64581, [1605; 1580]);
    (64582, [1605; 1581]); (64583, [1605; 1582]); (64584, [1605; 1605]);
    (64585, [1605; 1609]); (64586, [1605; 1610]); (64587, [1606; 1580]);
    (64588, [1606; 1581]); (64589, [1606; 1582]); (64590, [1606; 1605]);
    (64591, [1606; 1609]); (64592, [1606; 1610]); (64593, [1607; 1580]);
    (64594, [1607; 1605]); (64595, [1607; 1609]); (64596, [1607; 1610]);
    (64597, [1610; 1580]); (64598, [1610; 1581]); (64599, [1610; 1582]);
    (64600, [1610; 1605]); (64601, [1610; 1609]); (64602, [1610; 1610]);
    (64603, [1584; 1648]); (64604, [1585; 1648]); (64605, [1609; 1648]);
    (64606, [32; 1612; 1617]); (64607, [32; 1613; 1617]);
    (64608, [32; 1614; 1617]); (64609, [32; 1615; 1617]);
    (64610, [32; 1616; 1617]); (64611, [32; 1617; 1648]);
    (64612, [1610; 1620; 1585]); (64613, [1610; 1620; 1586]);
    (64614, [1610; 1620; 1605]); (64615, [1610; 1620; 1606]);
    (64616, [1610; 1620; 1609]); (64617, [1610; 1620; 1610]);
    (64618, [1576; 1585]); (64619, [1576; 1586]); (64620, [1576; 1605]);
    (64621, [1576; 1606]); (64622, [1576; 1609]); (64623, [1576; 1610]);
    (64624, [1578; 1585]); (64625, [1578; 1586]); (64626, [1578; 1605]);
    (64627, [1578; 1606]); (64628, [1578; 1609]); (64629, [1578; 1610]);
    (64630, [1579; 1585]); (64631, [1579; 1586]); (64632, [1579; 1605]);
    (64633, [1579; 1606]); (64634, [1579; 1609]); (64635, [1579; 1610]);
    (64636, [1601; 1609]); (64637, [1601; 1610]); (64638, [1602; 1609]);
    (64639, [1602; 1610]); (64640, [1603; 1575]); (64641, [1603; 1604]);
    (64642, [1603; 1605]); (64643, [1603; 1609]); (64644, [1603; 1610]);
    (64645, [1604; 1605]); (64646, [1604; 1609]); (64647, [1604; 1610]);
    (64648, [1605; 1575]); (64649, [1605; 1605]); (64650, [1606; 1585]);
    (64651, [1606; 1586]); (64652, [1606; 1605]); (64653, [1606; 1606]);
    (64654, [1606; 1609]); (64655, [1606; 1610]); (64656, [1609; 1648]);
    (64657, [1610; 1585]); (64658, [1610; 1586]); (64659, [1610; 1605]);
    (64660, [1610; 1606]); (64661, [1610; 1609]); (64662, [1610; 1610]);
    (64663, [1610; 1620; 1580]); (64664, [1610; 1620; 1581]);
    (64665, [1610; 1620; 1582]); (64666, [1610; 1620; 1605]);
    (64667, [1610; 1620; 1607]); (64668, [1576; 1580]); (64669, [1576; 1581]);
    (64670, [1576; 1582]); (64671, [1576; 1605]); (64672, [1576; 1607]);
    (64673, [1578; 1580]); (64674, [1578; 1581]); (64675, [1578; 1582]);
    (64676, [1578; 1605]); (64677, [1578; 1607]); (64678, [1579; 1605]);
    (64679, [1580; 1581]); (64680, [1580; 1605]); (64681, [1581; 1580]);
    (64682, [1581; 1605]); (64683, [1582; 1580]); (64684, [1582; 1605]);
    (64685, [1587; 1580]); (64686, [1587; 1581]); (64687, [1587; 1582]);
    (64688, [1587; 1605]); (64689, [1589; 1581]); (64690, [1589; 1582]);
    (64691, [1589; 1605]); (64692, [1590; 1580]); (64693, [1590; 1581]);
    (64694, [1590; 1582]); (64695, [1590; 1605]); (64696, [1591; 1581]);
    (64697, [1592; 1605]); (64698, [1593; 1580]); (64699, [1593; 1605]);
    (64700, [1594; 1580]); (64701, [1594; 1605]); (64702, [1601; 1580]);
    (64703, [1601; 1581]); (64704, [1601; 1582]); (64705, [1601; 1605]);
    (64706, [1602; 1581]); (64707, [1602; 1605]); (64708, [1603; 1580]);
    (64709, [1603; 1581]); (64710, [1603; 1582]); (64711, [1603; 1604]);
    (64712, [1603; 1605]); (64713, [1604; 1580]); (64714, [1604; 1581]);
    (64715, [1604; 1582]); (64716, [1604; 1605]); (64717, [1604; 1607]);
    (64718, [1605; 1580]); (64719, [1605; 1581]); (64720, [1605; 1582]);
    (64721, [1605; 1605]); (64722, [1606; 1580]); (64723, [1606; 1581]);
    (64724, [1606; 1582]); (64725, [1606; 1605]); (64726, [1606; 1607]);
    (64727, [1607; 1580]); (64728, [1607; 1605]); (64729, [1607; 1648]);
    (64730, [1610; 1580]); (64731, [1610; 1581]); (64732, [1610; 1582]);
    (64733, [1610; 1605]); (64734, [1610; 1607]); (64735, [1610; 1620; 1605]);
    (64736, [1610; 1620; 1607]); (64737, [1576; 1605]); (64738, [1576; 1607]);
    (64739, [1578; 1605]); (64740, [1578; 1607]); (64741, [1579; 1605]);
    (64742, [1579; 1607]); (64743, [1587; 1605]); (64744, [1587; 1607]);
    (64745, [1588; 1605]); (64746, [1588; 1607]); (64747, [1603; 1604]);
    (64748, [1603; 1605]); (64749, [1604; 1605]); (64750, [1606; 1605]);
    (64751, [1606; 1607]); (64752, [1610; 1605]); (64753, [1610; 1607]);
    (64754, [1600; 1614; 1617]); (64755, [1600; 1615; 1617]);
    (64756, [1600; 1616; 1617]); (64757, [1591; 1609]); (64758, [1591; 1610]);
    (64759, [1593; 1609]); (64760, [1593; 1610]); (64761, [1594; 1609]);
    (64762, [1594; 1610]); (64763, [1587; 1609]); (64764, [1587; 1610]);
    (64765, [1588; 1609]); (64766, [1588; 1610]); (64767, [1581; 1609]);
    (64768, [1581; 1610]); (64769, [1580; 1609]); (64770, [1580; 1610]);
    (64771, [1582; 1609]); (64772, [1582; 1610]); (64773, [1589; 1609]);
    (64774, [1589; 1610]); (64775, [1590; 1609]); (64776, [1590; 1610]);
    (64777, [1588; 1580]); (64778, [1588; 1581]); (64779, [1588; 1582]);
    (64780, [1588; 1605]); (64781, [1588; 1585]); (64782, [1587; 1585]);
    (64783, [1589; 1585]); (64784, [1590; 1585]); (64785, [1591; 1609]);
    (64786, [1591; 1610]); (64787, [1593; 1609]); (64788, [1593; 1610]);
    (64789, [1594; 1609]); (64790, [1594; 1610]); (64791, [1587; 1609]);
    (64792, [1587; 1610]); (64793, [1588; 1609]); (64794, [1588; 1610]);
    (64795, [1581; 1609]); (64796, [1581; 1610]); (64797, [1580; 1609]);
    (64798, [1580; 1610]); (64799, [1582; 1609]); (64800, [1582; 1610]);
    (64801, [1589; 1609]); (64802, [1589; 1610]); (64803, [1590; 1609]);
    (64804, [1590; 1610]); (64805, [1588; 1580]); (64806, [1588; 1581]);
    (64807, [1588; 1582]); (64808, [1588; 1605]); (64809, [1588; 1585]);
    (64810, [1587; 1585]); (64811, [1589; 1585]); (64812, [1590; 1585]);
    (64813, [1588; 1580]); (64814, [1588; 1581]); (64815, [1588; 1582]);
    (64816, [1588; 1605]); (64817, [1587; 1607]); (64818, [1588; 1607]);
    (64819, [1591; 1605]); (64820, [1587; 1580]); (64821, [1587; 1581]);
    (64822, [1587; 1582]); (64823, [1588; 1580]); (64824, [1588; 1581]);
    (64825, [1588; 1582]); (64826, [1591; 1605]); (64827, [1592; 1605]);
    (64828, [1575; 1611]); (64829, [1575; 1611]); (64848, [1578; 1580; 1605]);
    (64849, [1578; 1581; 1580]); (64850, [1578; 1581; 1580]);
    (64851, [1578; 1581; 1605]); (64852, [1578; 1582; 1605]);
    (64853, [1578; 1605; 1580]); (64854, [1578; 1605; 1581]);
    (64855, [1578; 1605; 1582]); (64856, [1580; 1605; 1581]);
    (64857, [1580; 1605; 1581]); (64858, [1581; 1605; 1610]);
    (64859, [1581; 1605; 1609]); (64860, [1587; 1581; 1580]);
    (64861, [1587; 1580; 1581]); (64862, [1587; 1580; 1609]);
    (64863, [1587; 1605; 1581]); (64864, [1587; 1605; 1581]);
    (64865, [1587; 1605; 1580]); (64866, [1587; 1605; 1605]);
    (64867, [1587; 1605; 1605]); (64868, [1589; 1581; 1581]);
    (64869, [1589; 1581; 1581]); (64870, [1589; 1605; 1605]);
    (64871, [1588; 1581; 1605]); (64872, [1588; 1581; 1605]);
    (64873, [1588; 1580; 1610]); (64874, [1588; 1605; 1582]);
    (64875, [1588; 1605; 1582]); (64876, [1588; 1605; 1605]);
    (64877, [1588; 1605; 1605]); (64878, [1590; 1581; 1609]);
    (64879, [1590; 1582; 1605]); (64880, [1590; 1582; 1605]);
    (64881, [1591; 1605; 1581]); (64882, [1591; 1605; 1581]);
    (64883, [1591; 1605; 1605]); (64884, [1591; 1605; 1610]);
    (64885, [1593; 1580; 1605]); (64886, [1593; 1605; 1605]);
    (64887, [1593; 1605; 1605]); (64888, [1593; 1605; 1609]);
    (64889, [1594; 1605; 1605]); (64890, [1594; 1605; 1610]);
    (64891, [1594; 1605; 1609]); (64892, [1601; 1582; 1605]);
    (64893, [1601; 1582; 1605]); (64894, [1602; 1605; 1581]);
    (64895, [1602; 1605; 1605]); (64896, [1604; 1581; 1605]);
    (64897, [1604; 1581; 1610]); (64898, [1604; 1581; 1609]);
    (64899, [1604; 1580; 1580]); (64900, [1604; 1580; 1580]);
    (64901, [1604; 1582; 1605]); (64902, [1604; 1582; 1605]);
    (64903, [1604; 1605; 1581]); (64904, [1604; 1605; 1581]);
    (64905, [1605; 1581; 1580]); (64906, [1605; 1581; 1605]);
    (64907, [1605; 1581; 1610]); (64908, [1605; 1580; 1581]);
    (64909, [1605; 1580; 1605]); (64910, [1605; 1582; 1580]);
    (64911, [1605; 1582; 1605]); (64914, [1605; 1580; 1582]);
    (64915, [1607; 1605; 1580]); (64916, [1607; 1605; 1605]);
    (64917, [1606; 1581; 1605]); (64918, [1606; 1581; 1609]);
    (64919, [1606; 1580; 1605]); (64920, [1606; 1580; 1605]);
    (64921, [1606; 1580; 1609]); (64922, [1606; 1605; 1610]);
    (64923, [1606; 1605; 1609]); (64924, [1610; 1605; 1605]);
    (64925, [1610; 1605; 1605]); (64926, [1576; 1582; 1610]);
    (64927, [1578; 1580; 1610]); (64928, [1578; 1580; 1609]);
    (64929, [1578; 1582; 1610]); (64930, [1578; 1582; 1609]);
    (64931, [1578; 1605; 1610]); (64932, [1578; 1605; 1609]);
    (64933, [1580; 1605; 1610]); (64934, [1580; 1581; 1609]);
    (64935, [1580; 1605; 1609]); (64936, [1587; 1582; 1609]);
    (64937, [1589; 1581; 1610]); (64938, [1588; 1581; 1610]);
    (64939, [1590; 1581; 1610]); (64940, [1604; 1580; 1610]);
    (64941, [1604; 1605; 1610]); (64942, [1610; 1581; 1610]);
    (64943, [1610; 1580; 1610]); (64944, [1610; 1605; 1610]);
    (64945, [1605; 1605; 1610]); (64946, [1602; 1605; 1610]);
    (64947, [1606; 1581; 1610]); (64948, [1602; 1605; 1581]);
    (64949, [1604; 1581; 1605]); (64950, [1593; 1605; 1610]);
    (64951, [1603; 1605; 1610]); (64952, [1606; 1580; 1581]);
    (64953, [1605; 1582; 1610]); (64954, [1604; 1580; 1605]);
    (64955, [1603; 1605; 1605]); (64956, [1604; 1580; 1605]);
    (64957, [1606; 1580; 1581]); (64958, [1580; 1581; 1610]);
    (64959, [1581; 1580; 1610]); (64960, [1605; 1580; 1610]);
    (64961, [1601; 1605; 1610]); (64962, [1576; 1581; 1610]);
    (64963, [1603; 1605; 1605]); (64964, [1593; 1580; 1605]);
    (64965, [1589; 1605; 1605]); (64966, [1587; 1582; 1610]);
    (64967, [1606; 1580; 1610]); (65008, [1589; 1604; 1746]);
    (65009, [1602; 1604; 1746]); (65010, [1575; 1604; 1604; 1607]);
    (65011, [1575; 1603; 1576; 1585]); (65012, [1605; 1581; 1605; 1583]);
    (65013, [1589; 1604; 1593; 1605]); (65014, [1585; 1587; 1608; 1604]);
    (65015, [1593; 1604; 1610; 1607]); (65016, [1608; 1587; 1604; 1605]);
    (65017, [1589; 1604; 1609]);
    (65018, [1589; 1604; 1609; 32; 1575; 1604; 1604; 1607; 32; 1593; 1604; 1610; 1607; 32; 1608; 1587; 1604; 1605]);
    (65019, [1580; 1604; 32; 1580; 1604; 1575; 1604; 1607]);
    (65020, [1585; 1740; 1575; 1604]); (65040, [44]); (65041, [12289]);
    (65042, [12290]); (65043, [58]); (65044, [59]); (65045, [33]);
    (65046, [63]); (65047, [12310]); (65048, [12311]); (65049, [46; 46; 46]);
    (65072, [46; 46]); (65073, [8212]); (65074, [8211]); (65075, [95]);
    (65076, [95]); (65077, [40]); (65078, [41]); (65079, [123]);
    (65080, [125]); (65081, [12308]); (65082, [12309]); (65083, [12304]);
    (65084, [12305]); (65085, [12298]); (65086, [12299]); (65087, [12296]);
    (65088, [12297]); (65089, [12300]); (65090, [12301]); (65091, [12302]);
    (65092, [12303]); (65095, [91]); (65096, [93]); (65097, [32; 773]);
    (65098, [32; 773]); (65099, [32; 773]); (65100, [32; 773]); (65101, [95]);
    (65102, [95]); (65103, [95]); (65104, [44]); (65105, [12289]);
    (65106, [46]); (65108, [59]); (65109, [58]); (65110, [63]); (65111, [33]);
    (65112, [8212]); (65113, [40]); (65114, [41]); (65115, [123]);
    (65116, [125]); (65117, [12308]); (65118, [12309]); (65119, [35]);
    (65120, [38]); (65121, [42]); (65122, [43]); (65123, [45]); (65124, [60]);
    (65125, [62]); (65126, [61]); (65128, [92]); (65129, [36]); (65130, [37]);
    (65131, [64]); (65136, [32; 1611]); (65137, [1600; 1611]);
    (65138, [32; 1612]); (65140, [32; 1613]); (65142, [32; 1614]);
    (65143, [1600; 1614]); (65144, [32; 1615]); (65145, [1600; 1615]);
    (65146, [32; 1616]); (65147, [1600; 1616]); (65148, [32; 1617]);
    (65149, [1600; 1617]); (65150, [32; 1618]); (65151, [1600; 1618]);
    (65152, [1569]); (65153, [1575; 1619]); (65154, [1575; 1619]);
    (65155, [1575; 1620]); (65156, [1575; 1620]); (65157, [1608; 1620]);
    (65158, [1608; 1620]); (65159, [1575; 1621]); (65160, [1575; 1621]);
    (65161, [1610; 1620]); (65162, [1610; 1620]); (65163, [1610; 1620]);
    (65164, [1610; 1620]); (65165, [1575]); (65166, [1575]); (65167, [1576]);
    (65168, [1576]); (65169, [1576]); (65170, [1576]); (65171, [1577]);
    (65172, [1577]); (65173, [1578]); (65174, [1578]); (65175, [1578]);
    (65176, [1578]); (65177, [1579]); (65178, [1579]); (65179, [1579]);
    (65180, [1579]); (65181, [1580]); (65182, [1580]); (65183, [1580]);
    (65184, [1580]); (65185, [1581]); (65186, [1581]); (65187, [1581]);
    (65188, [1581]); (65189, [1582]); (65190, [1582]); (65191, [1582]);
    (65192, [1582]); (65193, [1583]); (65194, [1583]); (65195, [1584]);
    (65196, [1584]); (65197, [1585]); (65198, [1585]); (65199, [1586]);
    (65200, [1586]); (65201, [1587]); (65202, [1587]); (65203, [1587]);
    (65204, [1587]); (65205, [1588]); (65206, [1588]); (65207, [1588]);
    (65208, [1588]); (65209, [1589]); (65210, [1589]); (65211, [1589]);
    (65212, [1589]); (65213, [1590]); (65214, [1590]); (65215, [1590]);
    (65216, [1590]); (65217, [1591]); (65218, [1591]); (65219, [1591]);
    (65220, [1591]); (65221, [1592]); (65222, [1592]); (65223, [1592]);
    (65224, [1592]); (65225, [1593]); (65226, [1593]); (65227, [1593]);
    (65228, [1593]); (65229, [1594]); (65230, [1594]); (65231, [1594]);
    (65232, [1594]); (65233, [1601]); (65234, [1601]); (65235, [1601]);
    (65236, [1601]); (65237, [1602]); (65238, [1602]); (65239, [1602]);
    (65240, [1602]); (65241, [1603]); (65242, [1603]); (65243, [1603]);
    (65244, [1603]); (65245, [1604]); (65246, [1604]); (65247, [1604]);
    (65248, [1604]); (65249, [1605]); (65250, [1605]); (65251, [1605]);
    (65252, [1605]); (65253, [1606]); (65254, [1606]); (65255, [1606]);
    (65256, [1606]); (65257, [1607]); (65258, [1607]); (65259, [1607]);
    (65260, [1607]); (65261, [1608]); (65262, [1608]); (65263, [1609]);
    (65264, [1609]); (65265, [1610]); (65266, [1610]); (65267, [1610]);
    (65268, [1610]); (65269, [1604; 1575; 1619]); (65270, [1604; 1575; 1619]);
    (65271, [1604; 1575; 1620]); (65272, [1604; 1575; 1620]);
    (65273, [1604; 1575; 1621]); (65274, [1604; 1575; 1621]);
    (65275, [1604; 1575]); (65276, [1604; 1575]); (65281, [33]);
    (65282, [34]); (65283, [35]); (65284, [36]); (65285, [37]); (65286, [38]);
    (65287, [39]); (65288, [40]); (65289, [41]); (65290, [42]); (65291, [43]);
    (65292, [44]); (65293, [45]); (65294, [46]); (65295, [47]); (65296, [48]);
    (65297, [49]); (65298, [50]); (65299, [51]); (65300, [52]); (65301, [53]);
    (65302, [54]); (65303, [55]); (65304, [56]); (65305, [57]); (65306, [58]);
    (65307, [59]); (65308, [60]); (65309, [61]); (65310, [62]); (65311, [63]);
    (65312, [64]); (65313, [65]); (65314, [66]); (65315, [67]); (65316, [68]);
    (65317, [69]); (65318, [70]); (65319, [71]); (65320, [72]); (65321, [73]);
    (65322, [74]); (65323, [75]); (65324, [76]); (65325, [77]); (65326, [78]);
    (65327, [79]); (65328, [80]); (65329, [81]); (65330, [82]); (65331, [83]);
    (65332, [84]); (65333, [85]); (65334, [86]); (65335, [87]); (65336, [88]);
    (65337, [89]); (65338, [90]); (65339, [91]); (65340, [92]); (65341, [93]);
    (65342, [94]); (65343, [95]); (65344, [96]); (65345, [97]); (65346, [98]);
    (65347, [99]); (65348, [100]); (65349, [101]); (65350, [102]);
    (65351, [103]); (65352, [104]); (65353, [105]); (65354, [106]);
    (65355, [107]); (65356, [108]); (65357, [109]); (65358, [110]);
    (65359, [111]); (65360, [112]); (65361, [113]); (65362, [114]);
    (65363, [115]); (65364, [116]); (65365, [117]); (65366, [118]);
    (65367, [119]); (65368, [120]); (65369, [121]); (65370, [122]);
    (65371, [123]); (65372, [124]); (65373, [125]); (65374, [126]);
    (65375, [10629]); (65376, [10630]); (65377, [12290]); (65378, [12300]);
    (65379, [12301]); (65380, [12289]); (65381, [12539]); (65382, [12530]);
    (65383, [12449]); (65384, [12451]); (65385, [12453]); (65386, [12455]);
    (65387, [12457]); (65388, [12515]); (65389, [12517]); (65390, [12519]);
    (65391, [12483]); (65392, [12540]); (65393, [12450]); (65394, [12452]);
    (65395, [12454]); (65396, [12456]); (65397, [12458]); (65398, [12459]);
    (65399, [12461]); (65400, [12463]); (65401, [12465]); (65402, [12467]);
    (65403, [12469]); (65404, [12471]); (65405, [12473]); (65406, [12475]);
    (65407, [12477]); (65408, [12479]); (65409, [12481]); (65410, [12484]);
    (65411, [12486]); (65412, [12488]); (65413, [12490]); (65414, [12491]);
    (65415, [12492]); (65416, [12493]); (65417, [12494]); (65418, [12495]);
    (65419, [12498]); (65420, [12501]); (65421, [12504]); (65422, [12507]);
    (65423, [12510]); (65424, [12511]); (65425, [12512]); (65426, [12513]);
    (65427, [12514]); (65428, [12516]); (65429, [12518]); (65430, [12520]);
    (65431, [12521]); (65432, [12522]); (65433, [12523]); (65434, [12524]);
    (65435, [12525]); (65436, [12527]); (65437, [12531]); (65438, [12441]);
    (65439, [12442]); (65440, [4448]); (65441, [4352]); (65442, [4353]);
    (65443, [4522]); (65444, [4354]); (65445, [4524]); (65446, [4525]);
    (65447, [4355]); (65448, [4356]); (65449, [4357]); (65450, [4528]);
    (65451, [4529]); (65452, [4530]); (65453, [4531]); (65454, [4532]);
    (65455, [4533]); (65456, [4378]); (65457, [4358]); (65458, [4359]);
    (65459, [4360]); (65460, [4385]); (65461, [4361]); (65462, [4362]);
    (65463, [4363]); (65464, [4364]); (65465, [4365]); (65466, [4366]);
    (65467, [4367]); (65468, [4368]); (65469, [4369]); (65470, [4370]);
    (65474, [4449]); (65475, [4450]); (65476, [4451]); (65477, [4452]);
    (65478, [4453]); (65479, [4454]); (65482, [4455]); (65483, [4456]);
    (65484, [4457]); (65485, [4458]); (65486, [4459]); (65487, [4460]);
    (65490, [4461]); (65491, [4462]); (65492, [4463]); (65493, [4464]);
    (65494, [4465]); (65495, [4466]); (65498, [4467]); (65499, [4468]);
    (65500, [4469]); (65504, [162]); (65505, [163]); (65506, [172]);
    (65507, [32; 772]); (65508, [166]); (65509, [165]); (65510, [8361]);
    (65512, [9474]); (65513, [8592]); (65514, [8593]); (65515, [8594]);
    (65516, [8595]); (65517, [9632]); (65518, [9675]); (67457, [720]);
    (67458, [721]); (67459, [230]); (67460, [665]); (67461, [595]);
    (67463, [675]); (67464, [43878]); (67465, [677]); (67466, [676]);
    (67467, [598]); (67468, [599]); (67469, [7569]); (67470, [600]);
    (67471, [606]); (67472, [681]); (67473, [612]); (67474, [610]);
    (67475, [608]); (67476, [667]); (67477, [295]); (67478, [668]);
    (67479, [615]); (67480, [644]); (67481, [682]); (67482, [683]);
    (67483, [620]); (67484, [122628]); (67485, [42894]); (67486, [622]);
    (67487, [122629]); (67488, [654]); (67489, [122630]); (67490, [248]);
    (67491, [630]); (67492, [631]); (67493, [113]); (67494, [634]);
    (67495, [122632]); (67496, [637]); (67497, [638]); (67498, [640]);
    (67499, [680]); (67500, [678]); (67501, [43879]); (67502, [679]);
    (67503, [648]); (67504, [11377]); (67506, [655]); (67507, [673]);
    (67508, [674]); (67509, [664]); (67510, [448]); (67511, [449]);
    (67512, [450]); (67513, [122634]); (67514, [122654]);
    (69786, [69785; 69818]); (69788, [69787; 69818]); (69803, [69797; 69818]);
    (69934, [69937; 69927]); (69935, [69938; 69927]); (70475, [70471; 70462]);
    (70476, [70471; 70487]); (70843, [70841; 70842]); (70844, [70841; 70832]);
    (70846, [70841; 70845]); (71098, [71096; 71087]); (71099, [71097; 71087]);
    (71992, [71989; 71984]); (119134, [119127; 119141]);
    (119135, [119128; 119141]); (119136, [119128; 119141; 119150]);
    (119137, [119128; 119141; 119151]); (119138, [119128; 119141; 119152]);
    (119139, [119128; 119141; 119153]); (119140, [119128; 119141; 119154]);
    (119227, [119225; 119141]); (119228, [119226; 119141]);
    (119229, [119225; 119141; 119150]); (119230, [119226; 119141; 119150]);
    (119231, [119225; 119141; 119151]); (119232, [119226; 119141; 119151]);
    (119808, [65]); (119809, [66]); (119810, [67]); (119811, [68]);
    (119812, [69]); (119813, [70]); (119814, [71]); (119815, [72]);
    (119816, [73]); (119817, [74]); (119818, [75]); (119819, [76]);
    (119820, [77]); (119821, [78]); (119822, [79]); (119823, [80]);
    (119824, [81]); (119825, [82]); (119826, [83]); (119827, [84]);
    (119828, [85]); (119829, [86]); (119830, [87]); (119831, [88]);
    (119832, [89]); (119833, [90]); (119834, [97]); (119835, [98]);
    (119836, [99]); (119837, [100]); (119838, [101]); (119839, [102]);
    (119840, [103]); (119841, [104]); (119842, [105]); (119843, [106]);
    (119844, [107]); (119845, [108]); (119846, [109]); (119847, [110]);
    (119848, [111]); (119849, [112]); (119850, [113]); (119851, [114]);
    (119852, [115]); (119853, [116]); (119854, [117]); (119855, [118]);
    (119856, [119]); (119857, [120]); (119858, [121]); (119859, [122]);
    (119860, [65]); (119861, [66]); (119862, [67]); (119863, [68]);
    (119864, [69]); (119865, [70]); (119866, [71]); (119867, [72]);
    (119868, [73]); (119869, [74]); (119870, [75]); (119871, [76]);
    (119872, [77]); (119873, [78]); (119874, [79]); (119875, [80]);
    (119876, [81]); (119877, [82]); (119878, [83]); (119879, [84]);
    (119880, [85]); (119881, [86]); (119882, [87]); (119883, [88]);
    (119884, [89]); (119885, [90]); (119886, [97]); (119887, [98]);
    (119888, [99]); (119889, [100]); (119890, [101]); (119891, [102]);
    (119892, [103]); (119894, [105]); (119895, [106]); (119896, [107]);
    (119897, [108]); (119898, [109]); (119899, [110]); (119900, [111]);
    (119901, [112]); (119902, [113]); (119903, [114]); (119904, [115]);
    (119905, [116]); (119906, [117]); (119907, [118]); (119908, [119]);
    (119909, [120]); (119910, [121]); (119911, [122]); (119912, [65]);
    (119913, [66]); (119914, [67]); (119915, [68]); (119916, [69]);
    (119917, [70]); (119918, [71]); (119919, [72]); (119920, [73]);
    (119921, [74]); (119922, [75]); (119923, [76]); (119924, [77]);
    (119925, [78]); (119926, [79]); (119927, [80]); (119928, [81]);
    (119929, [82]); (119930, [83]); (119931, [84]); (119932, [85]);
    (119933, [86]); (119934, [87]); (119935, [88]); (119936, [89]);
    (119937, [90]); (119938, [97]); (119939, [98]); (119940, [99]);
    (119941, [100]); (119942, [101]); (119943, [102]); (119944, [103]);
    (119945, [104]); (119946, [105]); (119947, [106]); (119948, [107]);
    (119949, [108]); (119950, [109]); (119951, [110]); (119952, [111]);
    (119953, [112]); (119954, [113]); (119955, [114]); (119956, [115]);
    (119957, [116]); (119958, [117]); (119959, [118]); (119960, [119]);
    (119961, [120]); (119962, [121]); (119963, [122]); (119964, [65]);
    (119966, [67]); (119967, [68]); (119970, [71]); (119973, [74]);
    (119974, [75]); (119977, [78]); (119978, [79]); (119979, [80]);
    (119980, [81]); (119982, [83]); (119983, [84]); (119984, [85]);
    (119985, [86]); (119986, [87]); (119987, [88]); (119988, [89]);
    (119989, [90]); (119990, [97]); (119991, [98]); (119992, [99]);
    (119993, [100]); (119995, [102]); (119997, [104]); (119998, [105]);
    (119999, [106]); (120000, [107]); (120001, [108]); (120002, [109]);
    (120003, [110]); (120005, [112]); (120006, [113]); (120007, [114]);
    (120008, [115]); (120009, [116]); (120010, [117]); (120011, [118]);
    (120012, [119]); (120013, [120]); (120014, [121]); (120015, [122]);
    (120016, [65]); (120017, [66]); (120018, [67]); (120019, [68]);
    (120020, [69]); (120021, [70]); (120022, [71]); (120023, [72]);
    (120024, [73]); (120025, [74]); (120026, [75]); (120027, [76]);
    (120028, [77]); (120029, [78]); (120030, [79]); (120031, [80]);
    (120032, [81]); (120033, [82]); (120034, [83]); (120035, [84]);
    (120036, [85]); (120037, [86]); (120038, [87]); (120039, [88]);
    (120040, [89]); (120041, [90]); (120042, [97]); (120043, [98]);
    (120044, [99]); (120045, [100]); (120046, [101]); (120047, [102]);
    (120048, [103]); (120049, [104]); (120050, [105]); (120051, [106]);
    (120052, [107]); (120053, [108]); (120054, [109]); (120055, [110]);
    (120056, [111]); (120057, [112]); (120058, [113]); (120059, [114]);
    (120060, [115]); (120061, [116]); (120062, [117]); (120063, [118]);
    (120064, [119]); (120065, [120]); (120066, [121]); (120067, [122]);
    (120068, [65]); (120069, [66]); (120071, [68]); (120072, [69]);
    (120073, [70]); (120074, [71]); (120077, [74]); (120078, [75]);
    (120079, [76]); (120080, [77]); (120081, [78]); (120082, [79]);
    (120083, [80]); (120084, [81]); (120086, [83]); (120087, [84]);
    (120088, [85]); (120089, [86]); (120090, [87]); (120091, [88]);
    (120092, [89]); (120094, [97]); (120095, [98]); (120096, [99]);
    (120097, [100]); (120098, [101]); (120099, [102]); (120100, [103]);
    (120101, [104]); (120102, [105]); (120103, [106]); (120104, [107]);
    (120105, [108]); (120106, [109]); (120107, [110]); (120108, [111]);
    (120109, [112]); (120110, [113]); (120111, [114]); (120112, [115]);
    (120113, [116]); (120114, [117]); (120115, [118]); (120116, [119]);
    (120117, [120]); (120118, [121]); (120119, [122]); (120120, [65]);
    (120121, [66]); (120123, [68]); (120124, [69]); (120125, [70]);
    (120126, [71]); (120128, [73]); (120129, [74]); (120130, [75]);
    (120131, [76]); (120132, [77]); (120134, [79]); (120138, [83]);
    (120139, [84]); (120140, [85]); (120141, [86]); (120142, [87]);
    (120143, [88]); (120144, [89]); (120146, [97]); (120147, [98]);
    (120148, [99]); (120149, [100]); (120150, [101]); (120151, [102]);
    (120152, [103]); (120153, [104]); (120154, [105]); (120155, [106]);
    (120156, [107]); (120157, [108]); (120158, [109]); (120159, [110]);
    (120160, [111]); (120161, [112]); (120162, [113]); (120163, [114]);
    (120164, [115]); (120165, [116]); (120166, [117]); (120167, [118]);
    (120168, [119]); (120169, [120]); (120170, [121]); (120171, [122]);
    (120172, [65]); (120173, [66]); (120174, [67]); (120175, [68]);
    (120176, [69]); (120177, [70]); (120178, [71]); (120179, [72]);
    (120180, [73]); (120181, [74]); (120182, [75]); (120183, [76]);
    (120184, [77]); (120185, [78]); (120186, [79]); (120187, [80]);
    (120188, [81]); (120189, [82]); (120190, [83]); (120191, [84]);
    (120192, [85]); (120193, [86]); (120194, [87]); (120195, [88]);
    (120196, [89]); (120197, [90]); (120198, [97]); (120199, [98]);
    (120200, [99]); (120201, [100]); (120202, [101]); (120203, [102]);
    (120204, [103]); (120205, [104]); (120206, [105]); (120207, [106]);
    (120208, [107]); (120209, [108]); (120210, [109]); (120211, [110]);
    (120212, [111]); (120213, [112]); (120214, [113]); (120215, [114]);
    (120216, [115]); (120217, [116]); (120218, [117]); (120219, [118]);
    (120220, [119]); (120221, [120]); (120222, [121]); (120223, [122]);
    (120224, [65]); (120225, [66]); (120226, [67]); (120227, [68]);
    (120228, [69]); (120229, [70]); (120230, [71]); (120231, [72]);
    (120232, [73]); (120233, [74]); (120234, [75]); (120235, [76]);
    (120236, [77]); (120237, [78]); (120238, [79]); (120239, [80]);
    (120240, [81]); (120241, [82]); (120242, [83]); (120243, [84]);
    (120244, [85]); (120245, [86]); (120246, [87]); (120247, [88]);
    (120248, [89]); (120249, [90]); (120250, [97]); (120251, [98]);
    (120252, [99]); (120253, [100]); (120254, [101]); (120255, [102]);
    (120256, [103]); (120257, [104]); (120258, [105]); (120259, [106]);
    (120260, [107]); (120261, [108]); (120262, [109]); (120263, [110]);
    (120264, [111]); (120265, [112]); (120266, [113]); (120267, [114]);
    (120268, [115]); (120269, [116]); (120270, [117]); (120271, [118]);
    (120272, [119]); (120273, [120]); (120274, [121]); (120275, [122]);
    (120276, [65]); (120277, [66]); (120278, [67]); (120279, [68]);
    (120280, [69]); (120281, [70]); (120282, [71]); (120283, [72]);
    (120284, [73]); (120285, [74]); (120286, [75]); (120287, [76]);
    (120288, [77]); (120289, [78]); (120290, [79]); (120291, [80]);
    (120292, [81]); (120293, [82]); (120294, [83]); (120295, [84]);
    (120296, [85]); (120297, [86]); (120298, [87]); (120299, [88]);
    (120300, [89]); (120301, [90]); (120302, [97]); (120303, [98]);
    (120304, [99]); (120305, [100]); (120306, [101]); (120307, [102]);
    (120308, [103]); (120309, [104]); (120310, [105]); (120311, [106]);
    (120312, [107]); (120313, [108]); (120314, [109]); (120315, [110]);
    (120316, [111]); (120317, [112]); (120318, [113]); (120319, [114]);
    (120320, [115]); (120321, [116]); (120322, [117]); (120323, [118]);
    (120324, [119]); (120325, [120]); (120326, [121]); (120327, [122]);
    (120328, [65]); (120329, [66]); (120330, [67]); (120331, [68]);
    (120332, [69]); (120333, [70]); (120334, [71]); (120335, [72]);
    (120336, [73]); (120337, [74]); (120338, [75]); (120339, [76]);
    (120340, [77]); (120341, [78]); (120342, [79]); (120343, [80]);
    (120344, [81]); (120345, [82]); (120346, [83]); (120347, [84]);
    (120348, [85]); (120349, [86]); (120350, [87]); (120351, [88]);
    (120352, [89]); (120353, [90]); (120354, [97]); (120355, [98]);
    (120356, [99]); (120357, [100]); (120358, [101]); (120359, [102]);
    (120360, [103]); (120361, [104]); (120362, [105]); (120363, [106]);
    (120364, [107]); (120365, [108]); (120366, [109]); (120367, [110]);
    (120368, [111]); (120369, [112]); (120370, [113]); (120371, [114]);
    (120372, [115]); (120373, [116]); (120374, [117]); (120375, [118]);
    (120376, [119]); (120377, [120]); (120378, [121]); (120379, [122]);
    (120380, [65]); (120381, [66]); (120382, [67]); (120383, [68]);
    (120384, [69]); (120385, [70]); (120386, [71]); (120387, [72]);
    (120388, [73]); (120389, [74]); (120390, [75]); (120391, [76]);
    (120392, [77]); (120393, [78]); (120394, [79]); (120395, [80]);
    (120396, [81]); (120397, [82]); (120398, [83]); (120399, [84]);
    (120400, [85]); (120401, [86]); (120402, [87]); (120403, [88]);
    (120404, [89]); (120405, [90]); (120406, [97]); (120407, [98]);
    (120408, [99]); (120409, [100]); (120410, [101]); (120411, [102]);
    (120412, [103]); (120413, [104]); (120414, [105]); (120415, [106]);
    (120416, [107]); (120417, [108]); (120418, [109]); (120419, [110]);
    (120420, [111]); (120421, [112]); (120422, [113]); (120423, [114]);
    (120424, [115]); (120425, [116]); (120426, [117]); (120427, [118]);
    (120428, [119]); (120429, [120]); (120430, [121]); (120431, [122]);
    (120432, [65]); (120433, [66]); (120434, [67]); (120435, [68]);
    (120436, [69]); (120437, [70]); (120438, [71]); (120439, [72]);
    (120440, [73]); (120441, [74]); (120442, [75]); (120443, [76]);
    (120444, [77]); (120445, [78]); (120446, [79]); (120447, [80]);
    (120448, [81]); (120449, [82]); (120450, [83]); (120451, [84]);
    (120452, [85]); (120453, [86]); (120454, [87]); (120455, [88]);
    (120456, [89]); (120457, [90]); (120458, [97]); (120459, [98]);
    (120460, [99]); (120461, [100]); (120462, [101]); (120463, [102]);
    (120464, [103]); (120465, [104]); (120466, [105]); (120467, [106]);
    (120468, [107]); (120469, [108]); (120470, [109]); (120471, [110]);
    (120472, [111]); (120473, [112]); (120474, [113]); (120475, [114]);
    (120476, [115]); (120477, [116]); (120478, [117]); (120479, [118]);
    (120480, [119]); (120481, [120]); (120482, [121]); (120483, [122]);
    (120484, [305]); (120485, [567]); (120488, [913]); (120489, [914]);
    (120490, [915]); (120491, [916]); (120492, [917]); (120493, [918]);
    (120494, [919]); (120495, [920]); (120496, [921]); (120497, [922]);
    (120498, [923]); (120499, [924]); (120500, [925]); (120501, [926]);
    (120502, [927]); (120503, [928]); (120504, [929]); (120505, [920]);
    (120506, [931]); (120507, [932]); (120508, [933]); (120509, [934]);
    (120510, [935]); (120511, [936]); (120512, [937]); (120513, [8711]);
    (120514, [945]); (120515, [946]); (120516, [947]); (120517, [948]);
    (120518, [949]); (120519, [950]); (120520, [951]); (120521, [952]);
    (120522, [953]); (120523, [954]); (120524, [955]); (120525, [956]);
    (120526, [957]); (120527, [958]); (120528, [959]); (120529, [960]);
    (120530, [961]); (120531, [962]); (120532, [963]); (120533, [964]);
    (120534, [965]); (120535, [966]); (120536, [967]); (120537, [968]);
    (120538, [969]); (120539, [8706]); (120540, [949]); (120541, [952]);
    (120542, [954]); (120543, [966]); (120544, [961]); (120545, [960]);
    (120546, [913]); (120547, [914]); (120548, [915]); (120549, [916]);
    (120550, [917]); (120551, [918]); (120552, [919]); (120553, [920]);
    (120554, [921]); (120555, [922]); (120556, [923]); (120557, [924]);
    (120558, [925]); (120559, [926]); (120560, [927]); (120561, [928]);
    (120562, [929]); (120563, [920]); (120564, [931]); (120565, [932]);
    (120566, [933]); (120567, [934]); (120568, [935]); (120569, [936]);
    (120570, [937]); (120571, [8711]); (120572, [945]); (120573, [946]);
    (120574, [947]); (120575, [948]); (120576, [949]); (120577, [950]);
    (120578, [951]); (120579, [952]); (120580, [953]); (120581, [954]);
    (120582, [955]); (120583, [956]); (120584, [957]); (120585, [958]);
    (120586, [959]); (120587, [960]); (120588, [961]); (120589, [962]);
    (120590, [963]); (120591, [964]); (120592, [965]); (120593, [966]);
    (120594, [967]); (120595, [968]); (120596, [969]); (120597, [8706]);
    (120598, [949]); (120599, [952]); (120600, [954]); (120601, [966]);
    (120602, [961]); (120603, [960]); (120604, [913]); (120605, [914]);
    (120606, [915]); (120607, [916]); (120608, [917]); (120609, [918]);
    (120610, [919]); (120611, [920]); (120612, [921]); (120613, [922]);
    (120614, [923]); (120615, [924]); (120616, [925]); (120617, [926]);
    (120618, [927]); (120619, [928]); (120620, [929]); (120621, [920]);
    (120622, [931]); (120623, [932]); (120624, [933]); (120625, [934]);
    (120626, [935]); (120627, [936]); (120628, [937]); (120629, [8711]);
    (120630, [945]); (120631, [946]); (120632, [947]); (120633, [948]);
    (120634, [949]); (120635, [950]); (120636, [951]); (120637, [952]);
    (120638, [953]); (120639, [954]); (120640, [955]); (120641, [956]);
    (120642, [957]); (120643, [958]); (120644, [959]); (120645, [960]);
    (120646, [961]); (120647, [962]); (120648, [963]); (120649, [964]);
    (120650, [965]); (120651, [966]); (120652, [967]); (120653, [968]);
    (120654, [969]); (120655, [8706]); (120656, [949]); (120657, [952]);
    (120658, [954]); (120659, [966]); (120660, [961]); (120661, [960]);
    (120662, [913]); (120663, [914]); (120664, [915]); (120665, [916]);
    (120666, [917]); (120667, [918]); (120668, [919]); (120669, [920]);
    (120670, [921]); (120671, [922]); (120672, [923]); (120673, [924]);
    (120674, [925]); (120675, [926]); (120676, [927]); (120677, [928]);
    (120678, [929]); (120679, [920]); (120680, [931]); (120681, [932]);
    (120682, [933]); (120683, [934]); (120684, [935]); (120685, [936]);
    (120686, [937]); (120687, [8711]); (120688, [945]); (120689, [946]);
    (120690, [947]); (120691, [948]); (120692, [949]); (120693, [950]);
    (120694, [951]); (120695, [952]); (120696, [953]); (120697, [954]);
    (120698, [955]); (120699, [956]); (120700, [957]); (120701, [958]);
    (120702, [959]); (120703, [960]); (120704, [961]); (120705, [962]);
    (120706, [963]); (120707, [964]); (120708, [965]); (120709, [966]);
    (120710, [967]); (120711, [968]); (120712, [969]); (120713, [8706]);
    (120714, [949]); (120715, [952]); (120716, [954]); (120717, [966]);
    (120718, [961]); (120719, [960]); (120720, [913]); (120721, [914]);
    (120722, [915]); (120723, [916]); (120724, [917]); (120725, [918]);
    (120726, [919]); (120727, [920]); (120728, [921]); (120729, [922]);
    (120730, [923]); (120731, [924]); (120732, [925]); (120733, [926]);
    (120734, [927]); (120735, [928]); (120736, [929]); (120737, [920]);
    (120738, [931]); (120739, [932]); (120740, [933]); (120741, [934]);
    (120742, [935]); (120743, [936]); (120744, [937]); (120745, [8711]);
    (120746, [945]); (120747, [946]); (120748, [947]); (120749, [948]);
    (120750, [949]); (120751, [950]); (120752, [951]); (120753, [952]);
    (120754, [953]); (120755, [954]); (120756, [955]); (120757, [956]);
    (120758, [957]); (120759, [958]); (120760, [959]); (120761, [960]);
    (120762, [961]); (120763, [962]); (120764, [963]); (120765, [964]);
    (120766, [965]); (120767, [966]); (120768, [967]); (120769, [968]);
    (120770, [969]); (120771, [8706]); (120772, [949]); (120773, [952]);
    (120774, [954]); (120775, [966]); (120776, [961]); (120777, [960]);
    (120778, [988]); (120779, [989]); (120782, [48]); (120783, [49]);
    (120784, [50]); (120785, [51]); (120786, [52]); (120787, [53]);
    (120788, [54]); (120789, [55]); (120790, [56]); (120791, [57]);
    (120792, [48]); (120793, [49]); (120794, [50]); (120795, [51]);
    (120796, [52]); (120797, [53]); (120798, [54]); (120799, [55]);
    (120800, [56]); (120801, [57]); (120802, [48]); (120803, [49]);
    (120804, [50]); (120805, [51]); (120806, [52]); (120807, [53]);
    (120808, [54]); (120809, [55]); (120810, [56]); (120811, [57]);
    (120812, [48]); (120813, [49]); (120814, [50]); (120815, [51]);
    (120816, [52]); (120817, [53]); (120818, [54]); (120819, [55]);
    (120820, [56]); (120821, [57]); (120822, [48]); (120823, [49]);
    (120824, [50]); (120825, [51]); (120826, [52]); (120827, [53]);
    (120828, [54]); (120829, [55]); (120830, [56]); (120831, [57]);
    (126464, [1575]); (126465, [1576]); (126466, [1580]); (126467, [1583]);
    (126469, [1608]); (126470, [1586]); (126471, [1581]); (126472, [1591]);
    (126473, [1610]); (126474, [1603]); (126475, [1604]); (126476, [1605]);
    (126477, [1606]); (126478, [1587]); (126479, [1593]); (126480, [1601]);
    (126481, [1589]); (126482, [1602]); (126483, [1585]); (126484, [1588]);
    (126485, [1578]); (126486, [1579]); (126487, [1582]); (126488, [1584]);
    (126489, [1590]); (126490, [1592]); (126491, [1594]); (126492, [1646]);
    (126493, [1722]); (126494, [1697]); (126495, [1647]); (126497, [1576]);
    (126498, [1580]); (126500, [1607]); (126503, [1581]); (126505, [1610]);
    (126506, [1603]); (126507, [1604]); (126508, [1605]); (126509, [1606]);
    (126510, [1587]); (126511, [1593]); (126512, [1601]); (126513, [1589]);
    (126514, [1602]); (126516, [1588]); (126517, [1578]); (126518, [1579]);
    (126519, [1582]); (126521, [1590]); (126523, [1594]); (126530, [1580]);
    (126535, [1581]); (126537, [1610]); (126539, [1604]); (126541, [1606]);
    (126542, [1587]); (126543, [1593]); (126545, [1589]); (126546, [1602]);
    (126548, [1588]); (126551, [1582]); (126553, [1590]); (126555, [1594]);
    (126557, [1722]); (126559, [1647]); (126561, [1576]); (126562, [1580]);
    (126564, [1607]); (126567, [1581]); (126568, [1591]); (126569, [1610]);
    (126570, [1603]); (126572, [1605]); (126573, [1606]); (126574, [1587]);
    (126575, [1593]); (126576, [1601]); (126577, [1589]); (126578, [1602]);
    (126580, [1588]); (126581, [1578]); (126582, [1579]); (126583, [1582]);
    (126585, [1590]); (126586, [1592]); (126587, [1594]); (126588, [1646]);
    (126590, [1697]); (126592, [1575]); (126593, [1576]); (126594, [1580]);
    (126595, [1583]); (126596, [1607]); (126597, [1608]); (126598, [1586]);
    (126599, [1581]); (126600, [1591]); (126601, [1610]); (126603, [1604]);
    (126604, [1605]); (126605, [1606]); (126606, [1587]); (126607, [1593]);
    (126608, [1601]); (126609, [1589]); (126610, [1602]); (126611, [1585]);
    (126612, [1588]); (126613, [1578]); (126614, [1579]); (126615, [1582]);
    (126616, [1584]); (126617, [1590]); (126618, [1592]); (126619, [1594]);
    (126625, [1576]); (126626, [1580]); (126627, [1583]); (126629, [1608]);
    (126630, [1586]); (126631, [1581]); (126632, [1591]); (126633, [1610]);
    (126635, [1604]); (126636, [1605]); (126637, [1606]); (126638, [1587]);
    (126639, [1593]); (126640, [1601]); (126641, [1589]); (126642, [1602]);
    (126643, [1585]); (126644, [1588]); (126645, [1578]); (126646, [1579]);
    (126647, [1582]); (126648, [1584]); (126649, [1590]); (126650, [1592]);
    (126651, [1594]); (127232, [48; 46]); (127233, [48; 44]);
    (127234, [49; 44]); (127235, [50; 44]); (127236, [51; 44]);
    (127237, [52; 44]); (127238, [53; 44]); (127239, [54; 44]);
    (127240, [55; 44]); (127241, [56; 44]); (127242, [57; 44]);
    (127248, [40; 65; 41]); (127249, [40; 66; 41]); (127250, [40; 67; 41]);
    (127251, [40; 68; 41]); (127252, [40; 69; 41]); (127253, [40; 70; 41]);
    (127254, [40; 71; 41]); (127255, [40; 72; 41]); (127256, [40; 73; 41]);
    (127257, [40; 74; 41]); (127258, [40; 75; 41]); (127259, [40; 76; 41]);
    (127260, [40; 77; 41]); (127261, [40; 78; 41]); (127262, [40; 79; 41]);
    (127263, [40; 80; 41]); (127264, [40; 81; 41]); (127265, [40; 82; 41]);
    (127266, [40; 83; 41]); (127267, [40; 84; 41]); (127268, [40; 85; 41]);
    (127269, [40; 86; 41]); (127270, [40; 87; 41]); (127271, [40; 88; 41]);
    (127272, [40; 89; 41]); (127273, [40; 90; 41]);
    (127274, [12308; 83; 12309]); (127275, [67]); (127276, [82]);
    (127277, [67; 68]); (127278, [87; 90]); (127280, [65]); (127281, [66]);
    (127282, [67]); (127283, [68]); (127284, [69]); (127285, [70]);
    (127286, [71]); (127287, [72]); (127288, [73]); (127289, [74]);
    (127290, [75]); (127291, [76]); (127292, [77]); (127293, [78]);
    (127294, [79]); (127295, [80]); (127296, [81]); (127297, [82]);
    (127298, [83]); (127299, [84]); (127300, [85]); (127301, [86]);
    (127302, [87]); (127303, [88]); (127304, [89]); (127305, [90]);
    (127306, [72; 86]); (127307, [77; 86]); (127308, [83; 68]);
    (127309, [83; 83]); (127310, [80; 80; 86]); (127311, [87; 67]);
    (127338, [77; 67]); (127339, [77; 68]); (127340, [77; 82]);
    (127376, [68; 74]); (127488, [12411; 12363]); (127489, [12467; 12467]);
    (127490, [12469]); (127504, [25163]); (127505, [23383]);
    (127506, [21452]); (127507, [12486; 12441]); (127508, [20108]);
    (127509, [22810]); (127510, [35299]); (127511, [22825]);
    (127512, [20132]); (127513, [26144]); (127514, [28961]);
    (127515, [26009]); (127516, [21069]); (127517, [24460]);
    (127518, [20877]); (127519, [26032]); (127520, [21021]);
    (127521, [32066]); (127522, [29983]); (127523, [36009]);
    (127524, [22768]); (127525, [21561]); (127526, [28436]);
    (127527, [25237]); (127528, [25429]); (127529, [19968]);
    (127530, [19977]); (127531, [36938]); (127532, [24038]);
    (127533, [20013]); (127534, [21491]); (127535, [25351]);
    (127536, [36208]); (127537, [25171]); (127538, [31105]);
    (127539, [31354]); (127540, [21512]); (127541, [28288]);
    (127542, [26377]); (127543, [26376]); (127544, [30003]);
    (127545, [21106]); (127546, [21942]); (127547, [37197]);
    (127552, [12308; 26412; 12309]); (127553, [12308; 19977; 12309]);
    (127554, [12308; 20108; 12309]); (127555, [12308; 23433; 12309]);
    (127556, [12308; 28857; 12309]); (127557, [12308; 25171; 12309]);
    (127558, [12308; 30423; 12309]); (127559, [12308; 21213; 12309]);
    (127560, [12308; 25943; 12309]); (127568, [24471]); (127569, [21487]);
    (130032, [48]); (130033, [49]); (130034, [50]); (130035, [51]);
    (130036, [52]); (130037, [53]); (130038, [54]); (130039, [55]);
    (130040, [56]); (130041, [57]); (194560, [20029]); (194561, [20024]);
    (194562, [20033]); (194563, [131362]); (194564, [20320]);
    (194565, [20398]); (194566, [20411]); (194567, [20482]);
    (194568, [20602]); (194569, [20633]); (194570, [20711]);
    (194571, [20687]); (194572, [13470]); (194573, [132666]);
    (194574, [20813]); (194575, [20820]); (194576, [20836]);
    (194577, [20855]); (194578, [132380]); (194579, [13497]);
    (194580, [20839]); (194581, [20877]); (194582, [132427]);
    (194583, [20887]); (194584, [20900]); (194585, [20172]);
    (194586, [20908]); (194587, [20917]); (194588, [168415]);
    (194589, [20981]); (194590, [20995]); (194591, [13535]);
    (194592, [21051]); (194593, [21062]); (194594, [21106]);
    (194595, [21111]); (194596, [13589]); (194597, [21191]);
    (194598, [21193]); (194599, [21220]); (194600, [21242]);
    (194601, [21253]); (194602, [21254]); (194603, [21271]);
    (194604, [21321]); (194605, [21329]); (194606, [21338]);
    (194607, [21363]); (194608, [21373]); (194609, [21375]);
    (194610, [21375]); (194611, [21375]); (194612, [133676]);
    (194613, [28784]); (194614, [21450]); (194615, [21471]);
    (194616, [133987]); (194617, [21483]); (194618, [21489]);
    (194619, [21510]); (194620, [21662]); (194621, [21560]);
    (194622, [21576]); (194623, [21608]); (194624, [21666]);
    (194625, [21750]); (194626, [21776]); (194627, [21843]);
    (194628, [21859]); (194629, [21892]); (194630, [21892]);
    (194631, [21913]); (194632, [21931]); (194633, [21939]);
    (194634, [21954]); (194635, [22294]); (194636, [22022]);
    (194637, [22295]); (194638, [22097]); (194639, [22132]);
    (194640, [20999]); (194641, [22766]); (194642, [22478]);
    (194643, [22516]); (194644, [22541]); (194645, [22411]);
    (194646, [22578]); (194647, [22577]); (194648, [22700]);
    (194649, [136420]); (194650, [22770]); (194651, [22775]);
    (194652, [22790]); (194653, [22810]); (194654, [22818]);
    (194655, [22882]); (194656, [136872]); (194657, [136938]);
    (194658, [23020]); (194659, [23067]); (194660, [23079]);
    (194661, [23000]); (194662, [23142]); (194663, [14062]);
    (194664, [14076]); (194665, [23304]); (194666, [23358]);
    (194667, [23358]); (194668, [137672]); (194669, [23491]);
    (194670, [23512]); (194671, [23527]); (194672, [23539]);
    (194673, [138008]); (194674, [23551]); (194675, [23558]);
    (194676, [24403]); (194677, [23586]); (194678, [14209]);
    (194679, [23648]); (194680, [23662]); (194681, [23744]);
    (194682, [23693]); (194683, [138724]); (194684, [23875]);
    (194685, [138726]); (194686, [23918]); (194687, [23915]);
    (194688, [23932]); (194689, [24033]); (194690, [24034]);
    (194691, [14383]); (194692, [24061]); (194693, [24104]);
    (194694, [24125]); (194695, [24169]); (194696, [14434]);
    (194697, [139651]); (194698, [14460]); (194699, [24240]);
    (194700, [24243]); (194701, [24246]); (194702, [24266]);
    (194703, [172946]); (194704, [24318]); (194705, [140081]);
    (194706, [140081]); (194707, [33281]); (194708, [24354]);
    (194709, [24354]); (194710, [14535]); (194711, [144056]);
    (194712, [156122]); (194713, [24418]); (194714, [24427]);
    (194715, [14563]); (194716, [24474]); (194717, [24525]);
    (194718, [24535]); (194719, [24569]); (194720, [24705]);
    (194721, [14650]); (194722, [14620]); (194723, [24724]);
    (194724, [141012]); (194725, [24775]); (194726, [24904]);
    (194727, [24908]); (194728, [24910]); (194729, [24908]);
    (194730, [24954]); (194731, [24974]); (194732, [25010]);
    (194733, [24996]); (194734, [25007]); (194735, [25054]);
    (194736, [25074]); (194737, [25078]); (194738, [25104]);
    (194739, [25115]); (194740, [25181]); (194741, [25265]);
    (194742, [25300]); (194743, [25424]); (194744, [142092]);
    (194745, [25405]); (194746, [25340]); (194747, [25448]);
    (194748, [25475]); (194749, [25572]); (194750, [142321]);
    (194751, [25634]); (194752, [25541]); (194753, [25513]);
    (194754, [14894]); (194755, [25705]); (194756, [25726]);
    (194757, [25757]); (194758, [25719]); (194759, [14956]);
    (194760, [25935]); (194761, [25964]); (194762, [143370]);
    (194763, [26083]); (194764, [26360]); (194765, [26185]);
    (194766, [15129]); (194767, [26257]); (194768, [15112]);
    (194769, [15076]); (194770, [20882]); (194771, [20885]);
    (194772, [26368]); (194773, [26268]); (194774, [32941]);
    (194775, [17369]); (194776, [26391]); (194777, [26395]);
    (194778, [26401]); (194779, [26462]); (194780, [26451]);
    (194781, [144323]); (194782, [15177]); (194783, [26618]);
    (194784, [26501]); (194785, [26706]); (194786, [26757]);
    (194787, [144493]); (194788, [26766]); (194789, [26655]);
    (194790, [26900]); (194791, [15261]); (194792, [26946]);
    (194793, [27043]); (194794, [27114]); (194795, [27304]);
    (194796, [145059]); (194797, [27355]); (194798, [15384]);
    (194799, [27425]); (194800, [145575]); (194801, [27476]);
    (194802, [15438]); (194803, [27506]); (194804, [27551]);
    (194805, [27578]); (194806, [27579]); (194807, [146061]);
    (194808, [138507]); (194809, [146170]); (194810, [27726]);
    (194811, [146620]); (194812, [27839]); (194813, [27853]);
    (194814, [27751]); (194815, [27926]); (194816, [27966]);
    (194817, [28023]); (194818, [27969]); (194819, [28009]);
    (194820, [28024]); (194821, [28037]); (194822, [146718]);
    (194823, [27956]); (194824, [28207]); (194825, [28270]);
    (194826, [15667]); (194827, [28363]); (194828, [28359]);
    (194829, [147153]); (194830, [28153]); (194831, [28526]);
    (194832, [147294]); (194833, [147342]); (194834, [28614]);
    (194835, [28729]); (194836, [28702]); (194837, [28699]);
    (194838, [15766]); (194839, [28746]); (194840, [28797]);
    (194841, [28791]); (194842, [28845]); (194843, [132389]);
    (194844, [28997]); (194845, [148067]); (194846, [29084]);
    (194847, [148395]); (194848, [29224]); (194849, [29237]);
    (194850, [29264]); (194851, [149000]); (194852, [29312]);
    (194853, [29333]); (194854, [149301]); (194855, [149524]);
    (194856, [29562]); (194857, [29579]); (194858, [16044]);
    (194859, [29605]); (194860, [16056]); (194861, [16056]);
    (194862, [29767]); (194863, [29788]); (194864, [29809]);
    (194865, [29829]); (194866, [29898]); (194867, [16155]);
    (194868, [29988]); (194869, [150582]); (194870, [30014]);
    (194871, [150674]); (194872, [30064]); (194873, [139679]);
    (194874, [30224]); (194875, [151457]); (194876, [151480]);
    (194877, [151620]); (194878, [16380]); (194879, [16392]);
    (194880, [30452]); (194881, [151795]); (194882, [151794]);
    (194883, [151833]); (194884, [151859]); (194885, [30494]);
    (194886, [30495]); (194887, [30495]); (194888, [30538]);
    (194889, [16441]); (194890, [30603]); (194891, [16454]);
    (194892, [16534]); (194893, [152605]); (194894, [30798]);
    (194895, [30860]); (194896, [30924]); (194897, [16611]);
    (194898, [153126]); (194899, [31062]); (194900, [153242]);
    (194901, [153285]); (194902, [31119]); (194903, [31211]);
    (194904, [16687]); (194905, [31296]); (194906, [31306]);
    (194907, [31311]); (194908, [153980]); (194909, [154279]);
    (194910, [154279]); (194911, [31470]); (194912, [16898]);
    (194913, [154539]); (194914, [31686]); (194915, [31689]);
    (194916, [16935]); (194917, [154752]); (194918, [31954]);
    (194919, [17056]); (194920, [31976]); (194921, [31971]);
    (194922, [32000]); (194923, [155526]); (194924, [32099]);
    (194925, [17153]); (194926, [32199]); (194927, [32258]);
    (194928, [32325]); (194929, [17204]); (194930, [156200]);
    (194931, [156231]); (194932, [17241]); (194933, [156377]);
    (194934, [32634]); (194935, [156478]); (194936, [32661]);
    (194937, [32762]); (194938, [32773]); (194939, [156890]);
    (194940, [156963]); (194941, [32864]); (194942, [157096]);
    (194943, [32880]); (194944, [144223]); (194945, [17365]);
    (194946, [32946]); (194947, [33027]); (194948, [17419]);
    (194949, [33086]); (194950, [23221]); (194951, [157607]);
    (194952, [157621]); (194953, [144275]); (194954, [144284]);
    (194955, [33281]); (194956, [33284]); (194957, [36766]);
    (194958, [17515]); (194959, [33425]); (194960, [33419]);
    (194961, [33437]); (194962, [21171]); (194963, [33457]);
    (194964, [33459]); (194965, [33469]); (194966, [33510]);
    (194967, [158524]); (194968, [33509]); (194969, [33565]);
    (194970, [33635]); (194971, [33709]); (194972, [33571]);
    (194973, [33725]); (194974, [33767]); (194975, [33879]);
    (194976, [33619]); (194977, [33738]); (194978, [33740]);
    (194979, [33756]); (194980, [158774]); (194981, [159083]);
    (194982, [158933]); (194983, [17707]); (194984, [34033]);
    (194985, [34035]); (194986, [34070]); (194987, [160714]);
    (194988, [34148]); (194989, [159532]); (194990, [17757]);
    (194991, [17761]); (194992, [159665]); (194993, [159954]);
    (194994, [17771]); (194995, [34384]); (194996, [34396]);
    (194997, [34407]); (194998, [34409]); (194999, [34473]);
    (195000, [34440]); (195001, [34574]); (195002, [34530]);
    (195003, [34681]); (195004, [34600]); (195005, [34667]);
    (195006, [34694]); (195007, [17879]); (195008, [34785]);
    (195009, [34817]); (195010, [17913]); (195011, [34912]);
    (195012, [34915]); (195013, [161383]); (195014, [35031]);
    (195015, [35038]); (195016, [17973]); (195017, [35066]);
    (195018, [13499]); (195019, [161966]); (195020, [162150]);
    (195021, [18110]); (195022, [18119]); (195023, [35488]);
    (195024, [35565]); (195025, [35722]); (195026, [35925]);
    (195027, [162984]); (195028, [36011]); (195029, [36033]);
    (195030, [36123]); (195031, [36215]); (195032, [163631]);
    (195033, [133124]); (195034, [36299]); (195035, [36284]);
    (195036, [36336]); (195037, [133342]); (195038, [36564]);
    (195039, [36664]); (195040, [165330]); (195041, [165357]);
    (195042, [37012]); (195043, [37105]); (195044, [37137]);
    (195045, [165678]); (195046, [37147]); (195047, [37432]);
    (195048, [37591]); (195049, [37592]); (195050, [37500]);
    (195051, [37881]); (195052, [37909]); (195053, [166906]);
    (195054, [38283]); (195055, [18837]); (195056, [38327]);
    (195057, [167287]); (195058, [18918]); (195059, [38595]);
    (195060, [23986]); (195061, [38691]); (195062, [168261]);
    (195063, [168474]); (195064, [19054]); (195065, [19062]);
    (195066, [38880]); (195067, [168970]); (195068, [19122]);
    (195069, [169110]); (195070, [38923]); (195071, [38923]);
    (195072, [38953]); (195073, [169398]); (195074, [39138]);
    (195075, [19251]); (195076, [39209]); (195077, [39335]);
    (195078, [39362]); (195079, [39422]); (195080, [19406]);
    (195081, [170800]); (195082, [39698]); (195083, [40000]);
    (195084, [40189]); (195085, [19662]); (195086, [19693]);
    (195087, [40295]); (195088, [172238]); (195089, [19704]);
    (195090, [172293]); (195091, [172558]); (195092, [172689]);
    (195093, [40635]); (195094, [19798]); (195095, [40697]);
    (195096, [40702]); (195097, [40709]); (195098, [40719]);
    (195099, [40726]); (195100, [40763]); (195101, [173568])
  ]%N.

(** The canonical combining classes other than 0: first and last character of
    a run, and its class ([unicodedata.combining]). *)
Definition combining_ranges : list (N * N * N) :=
  [
    (768, 788, 230); (789, 789, 232); (790, 793, 220); (794, 794, 232);
    (795, 795, 216); (796, 800, 220); (801, 802, 202); (803, 806, 220);
    (807, 808, 202); (809, 819, 220); (820, 824, 1); (825, 828, 220);
    (829, 836, 230); (837, 837, 240); (838, 838, 230); (839, 841, 220);
    (842, 844, 230); (845, 846, 220); (848, 850, 230); (851, 854, 220);
    (855, 855, 230); (856, 856, 232); (857, 858, 220); (859, 859, 230);
    (860, 860, 233); (861, 862, 234); (863, 863, 233); (864, 865, 234);
    (866, 866, 233); (867, 879, 230); (1155, 1159, 230); (1425, 1425, 220);
    (1426, 1429, 230); (1430, 1430, 220); (1431, 1433, 230);
    (1434, 1434, 222); (1435, 1435, 220); (1436, 1441, 230);
    (1442, 1447, 220); (1448, 1449, 230); (1450, 1450, 220);
    (1451, 1452, 230); (1453, 1453, 222); (1454, 1454, 228);
    (1455, 1455, 230); (1456, 1456, 10); (1457, 1457, 11); (1458, 1458, 12);
    (1459, 1459, 13); (1460, 1460, 14); (1461, 1461, 15); (1462, 1462, 16);
    (1463, 1463, 17); (1464, 1464, 18); (1465, 1466, 19); (1467, 1467, 20);
    (1468, 1468, 21); (1469, 1469, 22); (1471, 1471, 23); (1473, 1473, 24);
    (1474, 1474, 25); (1476, 1476, 230); (1477, 1477, 220); (1479, 1479, 18);
    (1552, 1559, 230); (1560, 1560, 30); (1561, 1561, 31); (1562, 1562, 32);
    (1611, 1611, 27); (1612, 1612, 28); (1613, 1613, 29); (1614, 1614, 30);
    (1615, 1615, 31); (1616, 1616, 32); (1617, 1617, 33); (1618, 1618, 34);
    (1619, 1620, 230); (1621, 1622, 220); (1623, 1627, 230);
    (1628, 1628, 220); (1629, 1630, 230); (1631, 1631, 220); (1648, 1648, 35);
    (1750, 1756, 230); (1759, 1762, 230); (1763, 1763, 220);
    (1764, 1764, 230); (1767, 1768, 230); (1770, 1770, 220);
    (1771, 1772, 230); (1773, 1773, 220); (1809, 1809, 36); (1840, 1840, 230);
    (1841, 1841, 220); (1842, 1843, 230); (1844, 1844, 220);
    (1845, 1846, 230); (1847, 1849, 220); (1850, 1850, 230);
    (1851, 1852, 220); (1853, 1853, 230); (1854, 1854, 220);
    (1855, 1857, 230); (1858, 1858, 220); (1859, 1859, 230);
    (1860, 1860, 220); (1861, 1861, 230); (1862, 1862, 220);
    (1863, 1863, 230); (1864, 1864, 220); (1865, 1866, 230);
    (2027, 2033, 230); (2034, 2034, 220); (2035, 2035, 230);
    (2045, 2045, 220); (2070, 2073, 230); (2075, 2083, 230);
    (2085, 2087, 230); (2089, 2093, 230); (2137, 2139, 220);
    (2200, 2200, 230); (2201, 2203, 220); (2204, 2207, 230);
    (2250, 2254, 230); (2255, 2259, 220); (2260, 2273, 230);
    (2275, 2275, 220); (2276, 2277, 230); (2278, 2278, 220);
    (2279, 2280, 230); (2281, 2281, 220); (2282, 2284, 230);
    (2285, 2287, 220); (2288, 2288, 27); (2289, 2289, 28); (2290, 2290, 29);
    (2291, 2293, 230); (2294, 2294, 220); (2295, 2296, 230);
    (2297, 2298, 220); (2299, 2303, 230); (2364, 2364, 7); (2381, 2381, 9);
    (2385, 2385, 230); (2386, 2386, 220); (2387, 2388, 230); (2492, 2492, 7);
    (2509, 2509, 9); (2558, 2558, 230); (2620, 2620, 7); (2637, 2637, 9);
    (2748, 2748, 7); (2765, 2765, 9); (2876, 2876, 7); (2893, 2893, 9);
    (3021, 3021, 9); (3132, 3132, 7); (3149, 3149, 9); (3157, 3157, 84);
    (3158, 3158, 91); (3260, 3260, 7); (3277, 3277, 9); (3387, 3388, 9);
    (3405, 3405, 9); (3530, 3530, 9); (3640, 3641, 103); (3642, 3642, 9);
    (3656, 3659, 107); (3768, 3769, 118); (3770, 3770, 9); (3784, 3787, 122);
    (3864, 3865, 220); (3893, 3893, 220); (3895, 3895, 220);
    (3897, 3897, 216); (3953, 3953, 129); (3954, 3954, 130);
    (3956, 3956, 132); (3962, 3965, 130); (3968, 3968, 130);
    (3970, 3971, 230); (3972, 3972, 9); (3974, 3975, 230); (4038, 4038, 220);
    (4151, 4151, 7); (4153, 4154, 9); (4237, 4237, 220); (4957, 4959, 230);
    (5908, 5909, 9); (5940, 5940, 9); (6098, 6098, 9); (6109, 6109, 230);
    (6313, 6313, 228); (6457, 6457, 222); (6458, 6458, 230);
    (6459, 6459, 220); (6679, 6679, 230); (6680, 6680, 220); (6752, 6752, 9);
    (6773, 6780, 230); (6783, 6783, 220); (6832, 6836, 230);
    (6837, 6842, 220); (6843, 6844, 230); (6845, 6845, 220);
    (6847, 6848, 220); (6849, 6850, 230); (6851, 6852, 220);
    (6853, 6857, 230); (6858, 6858, 220); (6859, 6862, 230); (6964, 6964, 7);
    (6980, 6980, 9); (7019, 7019, 230); (7020, 7020, 220); (7021, 7027, 230);
    (7082, 7083, 9); (7142, 7142, 7); (7154, 7155, 9); (7223, 7223, 7);
    (7376, 7378, 230); (7380, 7380, 1); (7381, 7385, 220); (7386, 7387, 230);
    (7388, 7391, 220); (7392, 7392, 230); (7394, 7400, 1); (7405, 7405, 220);
    (7412, 7412, 230); (7416, 7417, 230); (7616, 7617, 230);
    (7618, 7618, 220); (7619, 7625, 230); (7626, 7626, 220);
    (7627, 7628, 230); (7629, 7629, 234); (7630, 7630, 214);
    (7631, 7631, 220); (7632, 7632, 202); (7633, 7669, 230);
    (7670, 7670, 232); (7671, 7672, 228); (7673, 7673, 220);
    (7674, 7674, 218); (7675, 7675, 230); (7676, 7676, 233);
    (7677, 7677, 220); (7678, 7678, 230); (7679, 7679, 220);
    (8400, 8401, 230); (8402, 8403, 1); (8404, 8407, 230); (8408, 8410, 1);
    (8411, 8412, 230); (8417, 8417, 230); (8421, 8422, 1); (8423, 8423, 230);
    (8424, 8424, 220); (8425, 8425, 230); (8426, 8427, 1); (8428, 8431, 220);
    (8432, 8432, 230); (11503, 11505, 230); (11647, 11647, 9);
    (11744, 11775, 230); (12330, 12330, 218); (12331, 12331, 228);
    (12332, 12332, 232); (12333, 12333, 222); (12334, 12335, 224);
    (12441, 12442, 8); (42607, 42607, 230); (42612, 42621, 230);
    (42654, 42655, 230); (42736, 42737, 230); (43014, 43014, 9);
    (43052, 43052, 9); (43204, 43204, 9); (43232, 43249, 230);
    (43307, 43309, 220); (43347, 43347, 9); (43443, 43443, 7);
    (43456, 43456, 9); (43696, 43696, 230); (43698, 43699, 230);
    (43700, 43700, 220); (43703, 43704, 230); (43710, 43711, 230);
    (43713, 43713, 230); (43766, 43766, 9); (44013, 44013, 9);
    (64286, 64286, 26); (65056, 65062, 230); (65063, 65069, 220);
    (65070, 65071, 230); (66045, 66045, 220); (66272, 66272, 220);
    (66422, 66426, 230); (68109, 68109, 220); (68111, 68111, 230);
    (68152, 68152, 230); (68153, 68153, 1); (68154, 68154, 220);
    (68159, 68159, 9); (68325, 68325, 230); (68326, 68326, 220);
    (68900, 68903, 230); (69291, 69292, 230); (69446, 69447, 220);
    (69448, 69450, 230); (69451, 69451, 220); (69452, 69452, 230);
    (69453, 69456, 220); (69506, 69506, 230); (69507, 69507, 220);
    (69508, 69508, 230); (69509, 69509, 220); (69702, 69702, 9);
    (69744, 69744, 9); (69759, 69759, 9); (69817, 69817, 9);
    (69818, 69818, 7); (69888, 69890, 230); (69939, 69940, 9);
    (70003, 70003, 7); (70080, 70080, 9); (70090, 70090, 7);
    (70197, 70197, 9); (70198, 70198, 7); (70377, 70377, 7);
    (70378, 70378, 9); (70459, 70460, 7); (70477, 70477, 9);
    (70502, 70508, 230); (70512, 70516, 230); (70722, 70722, 9);
    (70726, 70726, 7); (70750, 70750, 230); (70850, 70850, 9);
    (70851, 70851, 7); (71103, 71103, 9); (71104, 71104, 7);
    (71231, 71231, 9); (71350, 71350, 9); (71351, 71351, 7);
    (71467, 71467, 9); (71737, 71737, 9); (71738, 71738, 7);
    (71997, 71998, 9); (72003, 72003, 7); (72160, 72160, 9);
    (72244, 72244, 9); (72263, 72263, 9); (72345, 72345, 9);
    (72767, 72767, 9); (73026, 73026, 7); (73028, 73029, 9);
    (73111, 73111, 9); (92912, 92916, 1); (92976, 92982, 230);
    (94192, 94193, 6); (113822, 113822, 1); (119141, 119142, 216);
    (119143, 119145, 1); (119149, 119149, 226); (119150, 119154, 216);
    (119163, 119170, 220); (119173, 119177, 230); (119178, 119179, 220);
    (119210, 119213, 230); (119362, 119364, 230); (122880, 122886, 230);
    (122888, 122904, 230); (122907, 122913, 230); (122915, 122916, 230);
    (122918, 122922, 230); (123184, 123190, 230); (123566, 123566, 230);
    (123628, 123631, 230); (125136, 125142, 220); (125252, 125257, 230);
    (125258, 125258, 7)
  ]%N.

(** [str.isspace] of one character. *)
Definition isspace (c : N) : bool := in_ranges space_ranges c.

(** A decimal digit, and its value. *)
Definition isdecimal (c : N) : bool := in_ranges decimal_ranges c.

Definition decimal (c : N) : option N :=
  match find_range decimal_ranges c with
  | Some (lo, _) => Some ((c - lo) mod 10)
  | None => None
  end.

Definition islower (c : N) : bool := in_ranges lowercase_ranges c.
Definition cased (c : N) : bool := in_ranges cased_ranges c.
Definition case_ignorable (c : N) : bool := in_ranges case_ignorable_ranges c.

(** The upper-case and lower-case forms of one character, which may be
    several characters long. *)
Definition toupper (c : N) : str :=
  match assoc upper_entries c with Some l => l | None => [c] end.

Definition tolower (c : N) : str :=
  match assoc lower_entries c with Some l => l | None => [c] end.

(** [unicodedata.combining]. *)
Definition combining (c : N) : N := class_of combining_ranges c.

(** A Hangul syllable decomposes by arithmetic into its two or three
    jamos. *)
Definition hangul (c : N) : str :=
  let s := c - 44032 in
  let l := 4352 + s / 588 in
  let v := 4449 + (s mod 588) / 28 in
  let t := 4519 + s mod 28 in
  if t =? 4519 then [l; v] else [l; v; t].

Definition decompose (c : N) : str :=
  if (44032 <=? c) && (c <=? 55203) then hangul c
  else match assoc decomposition_entries c with Some l => l | None => [c] end.

(** Canonical ordering: a combining mark moves in front of the marks of a
    higher class that precede it.  [done] is the text so far, its last
    character first. *)
Fixpoint place (c : N) (done : str) : str :=
  match done with
  | p :: rest =>
      if (0 <? combining c) && (combining c <? combining p)
      then p :: place c rest
      else c :: done
  | [] => [c]
  end.

Definition canonical_order (s : str) : str :=
  rev (fold_left (fun done c => place c done) s []).

(** [unicodedata.normalize("NFKD", s)]. *)
Definition nfkd (s : str) : str :=
  canonical_order (flat_map decompose s).

(** The characters of a table of ranges, one by one. *)
Fixpoint count_from (lo : N) (n : nat) : list N :=
  match n with
  | O => []
  | S n' => lo :: count_from (N.succ lo) n'
  end.

Definition members (t : list (N * N)) : list N :=
  flat_map (fun r => count_from (fst r) (N.to_nat (snd r + 1 - fst r))) t.

End Unicode.

Arguments Unicode.isspace : simpl never.
Arguments Unicode.isdecimal : simpl never.
Arguments Unicode.decimal : simpl never.
Arguments Unicode.islower : simpl never.
Arguments Unicode.cased : simpl never.
Arguments Unicode.case_ignorable : simpl never.
Arguments Unicode.toupper : simpl never.
Arguments Unicode.tolower : simpl never.
Arguments Unicode.combining : simpl never.
Arguments Unicode.decompose : simpl never.

(** ** Text primitives of the Python runtime *)

Module Py.

(** The code point of a one-character text. *)
Definition ord (s : str) : N :=
  match s with c :: _ => c | [] => 0%N end.

(** [str.isspace] on one character, and the class [\d] of [re]. *)
Definition is_space (c : N) : bool := Unicode.isspace c.
Definition is_digit (c : N) : bool := Unicode.isdecimal c.

(** The classes [[a-z]], [[A-Z]] and [[0-9]]. *)
Definition is_lower (c : N) : bool := ((97 <=? c) && (c <=? 122))%N.
Definition is_upper (c : N) : bool := ((65 <=? c) && (c <=? 90))%N.
Definition is_ascii_digit (c : N) : bool := ((48 <=? c) && (c <=? 57))%N.

(** A character of the ASCII range. *)
Definition is_ascii (c : N) : bool := (c <? 128)%N.

(** [s == t]. *)
Fixpoint eqb (s t : str) : bool :=
  match s, t with
  | [], [] => true
  | c :: s', d :: t' => (c =? d)%N && eqb s' t'
  | _, _ => false
  end.

(** [s.startswith(prefix)]. *)
Fixpoint startswith (prefix s : str) : bool :=
  match prefix, s with
  | [], _ => true
  | c :: p', d :: s' => (c =? d)%N && startswith p' s'
  | _ :: _, [] => false
  end.

Fixpoint map_str (f : N -> N) (s : str) : str :=
  match s with
  | [] => []
  | c :: r => f c :: map_str f r
  end.

Fixpoint filter_str (p : N -> bool) (s : str) : str :=
  match s with
  | [] => []
  | c :: r => if p c then c :: filter_str p r else filter_str p r
  end.

Fixpoint all_str (p : N -> bool) (s : str) : bool :=
  match s with
  | [] => true
  | c :: r => p c && all_str p r
  end.

(** [s.upper()]: every character by its upper-case form. *)
Fixpoint upper (s : str) : str :=
  match s with
  | [] => []
  | c :: r => Unicode.toupper c ++ upper r
  end.

(** The first character of a text that is not case-ignorable. *)
Fixpoint skip_ignorable (s : str) : option N :=
  match s with
  | [] => None
  | c :: r => if Unicode.case_ignorable c then skip_ignorable r else Some c
  end.

(** A capital sigma is final when a cased character precedes it and none
    follows it, case-ignorable characters apart; [before] is the text
    before it, its last character first. *)
Definition final_sigma (before after : str) : bool :=
  match skip_ignorable before with
  | Some p =>
      Unicode.cased p
      && match skip_ignorable after with
         | Some n => negb (Unicode.cased n)
         | None => true
         end
  | None => false
  end.

(** [s.lower()]: every character by its lower-case form, the capital sigma
    by the final or the medial small sigma. *)
Fixpoint lower_from (before : str) (s : str) : str :=
  match s with
  | [] => []
  | c :: r =>
      (if (c =? 931)%N
       then [if final_sigma before r then 962%N else 963%N]
       else Unicode.tolower c)
      ++ lower_from (c :: before) r
  end.

Definition lower (s : str) : str := lower_from [] s.

Definition is_empty (s : str) : bool :=
  match s with [] => true | _ => false end.

(** [s.lstrip()], [s.rstrip()], [s.strip()]. *)
Fixpoint lstrip (s : str) : str :=
  match s with
  | [] => []
  | c :: r => if is_space c then lstrip r else s
  end.

Fixpoint rstrip (s : str) : str :=
  match s with
  | [] => []
  | c :: r =>
      let r' := rstrip r in
      if is_space c && is_empty r' then [] else c :: r'
  end.

Definition strip (s : str) : str := rstrip (lstrip s).

(** Slices [s[:n]], [s[n:]] and [s[-n:]] (for [n > 0]). *)
Fixpoint take (n : nat) (s : str) : str :=
  match n, s with
  | S n', c :: r => c :: take n' r
  | _, _ => []
  end.

Fixpoint drop (n : nat) (s : str) : str :=
  match n, s with
  | S n', _ :: r => drop n' r
  | _, _ => s
  end.

Definition last (n : nat) (s : str) : str :=
  drop (length s - n) s.

(** [x or ""] for an optional text. *)
Definition or_empty (o : option str) : str :=
  match o with Some s => s | None => "" end.

(** [re.sub(r"\D", "", s)]. *)
Definition sub_nondigits (s : str) : str := filter_str is_digit s.

(** [int(s)] on a text of decimal digits, most significant first, each
    digit by its value in its own script.  The interpreter refuses a numeral
    of more than [int_max_str_digits] digits: that is written out in
    [_parse_positive_int], which reads any cell text and catches the
    refusal; the other numerals the module reads are row positions and
    ticket numbers of a sheet, which are short. *)
Definition digit_value (c : N) : Z :=
  match Unicode.decimal c with Some v => Z.of_N v | None => 0 end.

Fixpoint int_of_digits_from (acc : Z) (s : str) : Z :=
  match s with
  | [] => acc
  | c :: r => int_of_digits_from (10 * acc + digit_value c) r
  end.

Definition int_of_digits (s : str) : Z := int_of_digits_from 0 s.

(** [sys.get_int_max_str_digits()], by default. *)
Definition int_max_str_digits : nat := 4300.

(** [str(n)] for an integer. *)
Fixpoint str_of_uint (d : Decimal.uint) : str :=
  match d with
  | Decimal.Nil => []
  | Decimal.D0 l => 48%N :: str_of_uint l
  | Decimal.D1 l => 49%N :: str_of_uint l
  | Decimal.D2 l => 50%N :: str_of_uint l
  | Decimal.D3 l => 51%N :: str_of_uint l
  | Decimal.D4 l => 52%N :: str_of_uint l
  | Decimal.D5 l => 53%N :: str_of_uint l
  | Decimal.D6 l => 54%N :: str_of_uint l
  | Decimal.D7 l => 55%N :: str_of_uint l
  | Decimal.D8 l => 56%N :: str_of_uint l
  | Decimal.D9 l => 57%N :: str_of_uint l
  end.

Definition str_of_int (n : Z) : str :=
  match Z.to_int n with
  | Decimal.Pos d => str_of_uint d
  | Decimal.Neg d => "-" ++ str_of_uint d
  end.

End Py.

Arguments Py.is_space : simpl never.
Arguments Py.is_digit : simpl never.
Arguments Py.digit_value : simpl never.

(** ** Normalisers *)

(** [format_phone_number]: the local pattern [(92) 98123-1234]. *)
Definition format_phone_number (telefone : option str) : result str :=
  let telefone := Py.strip (Py.or_empty telefone) in
  if Py.is_empty telefone then Raise (ValueError "Telefone é obrigatório.")
  else
    let digits := Py.sub_nondigits telefone in
    if Py.is_empty digits
    then Raise (ValueError "Telefone deve conter apenas números válidos.")
    else
      let digits :=
        if Py.startswith "55" digits && (11 <? length digits)%nat
        then Py.drop 2 digits else digits in
      if negb (length digits =? 11)%nat
      then Raise (ValueError "Telefone deve conter 11 dígitos (incluindo DDD).")
      else
        let numero_local := Py.last 9 digits in
        Ok ("(92) " ++ Py.take 5 numero_local ++ "-" ++ Py.drop 5 numero_local).

(** [format_name_upper]. *)
Definition format_name_upper (nome : option str) : str :=
  Py.upper (Py.strip (Py.or_empty nome)).

(** ** Coercions of configuration cells *)

(** The values the coercion helpers are given: the module passes them the
    text of a cell or [None]; booleans and integers are covered as well. *)
Inductive pyval : Type :=
| PNone
| PBool (b : bool)
| PInt (n : Z)
| PStr (s : str).

(** [str(v)]. *)
Definition py_str (v : pyval) : str :=
  match v with
  | PNone => "None"
  | PBool true => "True"
  | PBool false => "False"
  | PInt n => Py.str_of_int n
  | PStr s => s
  end.

(** [_normalize]: compatibility decomposition, the combining marks
    removed, trimmed, lower case. *)
Definition _normalize (s : option str) : str :=
  let s := Py.or_empty s in
  let s := Unicode.nfkd s in
  let s := Py.filter_str (fun ch => (Unicode.combining ch =? 0)%N) s in
  Py.lower (Py.strip s).

(** The affirmative vocabulary of [_truthy]. *)
Definition affirmative : gset str :=
  list_to_set ["sim"; "s"; "true"; "1"; "y"; "yes"; "ativo"; "ativa"; "on"; "ok"].

Definition _truthy (v : pyval) : bool :=
  match v with
  | PBool b => b
  | _ => bool_decide (_normalize (Some (py_str v)) ∈ affirmative)
  end.

(** [_parse_positive_int].  On a text made of digits [int] raises only
    when the text is longer than the interpreter allows, which the code
    catches. *)
Definition _parse_positive_int (value : pyval) : option Z :=
  match value with
  | PNone => None
  | PBool _ => None
  | PInt n => if 0 <? n then Some n else None
  | PStr _ =>
      let s := Py.sub_nondigits (py_str value) in
      if Py.is_empty s then None
      else if (Py.int_max_str_digits <? length s)%nat then None
      else let num := Py.int_of_digits s in
           if 0 <? num then Some num else None
  end.
(** ** Sheet layout *)

Definition HEADERS : list str :=
  [ "Senha"; "Nome"; "Telefone"; "Rede Social"; "E-mail"; "Bairro";
    "Data e Hora de Registro"; "Data e Hora de Atendimento" ].

(** The [while idx > 0] loop of [_column_letter]; [idx] strictly decreases,
    so [Z.to_nat idx] iterations are enough. *)
Fixpoint _column_letter_loop (fuel : nat) (idx : Z) (letters : list N)
  : list N :=
  match fuel with
  | O => letters
  | S fuel' =>
      if 0 <? idx then
        let rem := (idx - 1) mod 26 in
        let idx := (idx - 1) / 26 in
        _column_letter_loop fuel' idx
          (letters ++ [Z.to_N (65 + rem)])
      else letters
  end.

Definition _column_letter (idx : Z) : str :=
  let idx := idx + 1 in
  rev (_column_letter_loop (Z.to_nat idx) idx []).

Definition _header_range (title : str) : str :=
  let last_col := _column_letter (Z.of_nat (length HEADERS) - 1) in
  title ++ "!A1:" ++ last_col ++ "1".

(** Name of the configuration sheet (the default of the [NOMES_SHEET]
    environment variable). *)
Definition NOMES_SHEET : str := "Nomes".

(** ** Area resolver: the table logic of [read_active_areas] *)

Record area_info : Type := mk_area_info {
  ai_area : str;
  ai_sheet : str;
  ai_ativa : bool;
  ai_max_senhas : option Z
}.

(** The inner [for idx, col in enumerate(norm)] of [_find_col_indexes]. *)
Fixpoint index_of_col (want_n : str) (norm : list str) (idx : nat)
  : option nat :=
  match norm with
  | [] => None
  | col :: rest =>
      if Py.eqb col want_n then Some idx
      else index_of_col want_n rest (S idx)
  end.

Fixpoint find_candidate (norm : list str) (candidates : list str)
  : option nat :=
  match candidates with
  | [] => None
  | want :: rest =>
      match index_of_col (_normalize (Some want)) norm 0 with
      | Some idx => Some idx
      | None => find_candidate norm rest
      end
  end.

Definition _find_col_indexes (header_row : list str)
    (candidates : list str) : option nat :=
  let norm := map (fun h => _normalize (Some h)) header_row in
  find_candidate norm candidates.

(** Header synonyms. *)
Definition area_candidates : list str :=
  ["Área"; "Area"; "Setor"; "Mesa"; "Área/Setor"].
Definition aba_candidates : list str :=
  ["Aba"; "Sheet"; "AbaDestino"; "Aba Destino"; "Destino"; "Guia"; "Tab"].
Definition ativa_candidates : list str :=
  ["Ativa"; "Ativo"; "Status"; "Habilitada"; "Disponível"].
Definition max_candidates : list str :=
  ["Quantidade máxima de senhas"; "Qtd máxima"; "Qtd Senhas"; "Limite"].

(** [row[idx] if (idx is not None and idx < len(row)) else dflt]. *)
Definition cell_or (row : list str) (idx : option nat) (dflt : str)
  : str :=
  match idx with
  | Some i => match row !! i with Some c => c | None => dflt end
  | None => dflt
  end.

(** One iteration of the row loop: [None] is the [continue] branch and the
    branch of an inactive row. *)
Definition area_of_row (area_idx : nat) (aba_idx ativa_idx max_idx : option nat)
    (row : list str) : option area_info :=
  let area := Py.strip (cell_or row (Some area_idx) "") in
  if Py.is_empty area then None
  else
    let sheet_title :=
      let t := Py.strip (cell_or row aba_idx area) in
      if Py.is_empty t then area else t in
    let ativa_val := cell_or row ativa_idx "Sim" in
    let max_val :=
      match max_idx with
      | Some i => match row !! i with Some c => PStr c | None => PNone end
      | None => PNone
      end in
    let ativa := _truthy (PStr ativa_val) in
    if ativa then
      Some {| ai_area := area; ai_sheet := sheet_title; ai_ativa := true;
              ai_max_senhas := _parse_positive_int max_val |}
    else None.

Fixpoint areas_loop (area_idx : nat) (aba_idx ativa_idx max_idx : option nat)
    (rows : list (list str)) (areas : list area_info) : list area_info :=
  match rows with
  | [] => areas
  | row :: rest =>
      match area_of_row area_idx aba_idx ativa_idx max_idx row with
      | Some a => areas_loop area_idx aba_idx ativa_idx max_idx rest (areas ++ [a])
      | None => areas_loop area_idx aba_idx ativa_idx max_idx rest areas
      end
  end.

(** [read_active_areas] after the read: from [rows = result.get("values", [])]
    to the list of active areas. *)
Definition active_areas_of_rows (rows : list (list str))
  : result (list area_info) :=
  match rows with
  | [] => Ok []
  | header :: data =>
      let area_idx := _find_col_indexes header area_candidates in
      let aba_idx := _find_col_indexes header aba_candidates in
      let ativa_idx := _find_col_indexes header ativa_candidates in
      let max_idx := _find_col_indexes header max_candidates in
      match area_idx with
      | None =>
          Raise (RuntimeError
            "Coluna 'Área' (ou equivalente) não encontrada na aba 'Nomes'.")
      | Some area_idx =>
          Ok (areas_loop area_idx aba_idx ativa_idx max_idx data [])
      end
  end.

(** ** The row store and the runtime around it *)

(** Answers of the Sheets API, as far as the module reads them. *)
Record sheet_props : Type := mk_sheet_props {
  sp_title : str;
  sp_sheetId : Z
}.

(** [meta.get("sheets", [])], each entry by its ["properties"]. *)
Definition metadata : Type := list sheet_props.

(** The answer of a [values().get]: the ["values"] key may be absent. *)
Definition values_response : Type := option (list (list str)).

(** The answer of a [values().append]: the answer itself, its ["updates"]
    and their ["updatedRange"] may each be absent. *)
Record updates : Type := mk_updates { updatedRange : option str }.
Record append_response : Type := mk_append_response { resp_updates : option updates }.
Definition append_result : Type := option append_response.

(** What [_render_ticket_page] draws on the page it adds: the logo when
    there is one, the title, the area, the number in large print, the
    barcode of the number, the QR payload, the attendee lines and the
    footer. *)
Record page : Type := mk_page {
  pg_logo : bool;
  pg_title : str;
  pg_area : str;
  pg_senha : str;
  pg_barcode : str;
  pg_qr_payload : str;
  pg_lines : list str;
  pg_footer : str
}.

(** The document under construction, and the bytes of the finished one, are
    represented by the pages in the order they were added. *)
Definition pdf_document : Type := list page.

(** What the module needs from its surroundings, over a state [S] of the
    outside world: the five Sheets calls it issues (an answer [None] is an
    [HttpError] raised by [execute()]), the construction of the service with
    its credentials, the clock, the logo asset, and the drawing libraries.
    [qrcode], [barcode] and [fpdf] are called with the content of the page
    and nothing else: [draw_page pg] is the exception the first of their
    calls to fail raises while the page [pg] is drawn, [None] when they all
    succeed. *)
Class Env (S : Type) : Type := {
  spreadsheets_get : S -> option metadata * S;
  add_sheet : str -> S -> option unit * S;
  values_get : str -> S -> option values_response * S;
  values_update : str -> list (list str) -> S -> option unit * S;
  values_append : str -> list (list str) -> S -> option append_result * S;
  build_service : S -> result unit * S;
  clock : S -> str * S;
  logo_bytes : option (list byte);
  draw_page : page -> option exn
}.

(** One Sheets call as it was issued, with what it answered. *)
Inductive event : Type :=
| EvGetSpreadsheet (r : option metadata)
| EvAddSheet (title : str) (r : option unit)
| EvValuesGet (rng : str) (r : option values_response)
| EvValuesUpdate (rng : str) (values : list (list str)) (r : option unit)
| EvValuesAppend (rng : str) (values : list (list str))
    (r : option append_result).

(** The calls that change the store. *)
Definition is_mutation (ev : event) : bool :=
  match ev with
  | EvAddSheet _ _ | EvValuesUpdate _ _ _ | EvValuesAppend _ _ _ => true
  | EvGetSpreadsheet _ | EvValuesGet _ _ => false
  end.

Definition is_append (ev : event) : bool :=
  match ev with EvValuesAppend _ _ _ => true | _ => false end.

(** Computations of the module: they read and change the outside world, may
    raise, and leave the trace of the Sheets calls they issued. *)
Definition M (S A : Type) : Type := S -> result A * S * list event.

Definition ret {S A} (a : A) : M S A := fun s => (Ok a, s, []).

Definition raise {S A} (e : exn) : M S A := fun s => (Raise e, s, []).

Definition bind {S A B} (m : M S A) (f : A -> M S B) : M S B :=
  fun s =>
    match m s with
    | (Ok a, s1, t1) =>
        match f a s1 with
        | (r, s2, t2) => (r, s2, t1 ++ t2)
        end
    | (Raise e, s1, t1) => (Raise e, s1, t1)
    end.

(** [try: m except HttpError as exc: raise h]. *)
Definition except_http {S A} (m : M S A) (h : exn) : M S A :=
  fun s =>
    match m s with
    | (Raise HttpError, s1, t1) => (Raise h, s1, t1)
    | other => other
    end.

Declare Scope py_scope.
Delimit Scope py_scope with py.
Notation "'do' x <- m ; k" := (bind m (fun x => k))
  (at level 10, x name, m at level 100, k at level 200) : py_scope.
Notation "'exec' m ; k" := (bind m (fun _ => k))
  (at level 10, m at level 100, k at level 200) : py_scope.
Local Open Scope py_scope.

Definition result_of {S A} (o : result A * S * list event) : result A := o.1.1.
Definition state_of {S A} (o : result A * S * list event) : S := o.1.2.
Definition trace_of {S A} (o : result A * S * list event) : list event := o.2.

Section Calls.
Context {S : Type} `{Env S}.

Definition lift_call {R} (ev : option R -> event) (call : S -> option R * S)
  : M S R :=
  fun s =>
    match call s with
    | (Some r, s') => (Ok r, s', [ev (Some r)])
    | (None, s') => (Raise HttpError, s', [ev None])
    end.

Definition call_spreadsheets_get : M S metadata :=
  lift_call EvGetSpreadsheet spreadsheets_get.
Definition call_add_sheet (title : str) : M S unit :=
  lift_call (EvAddSheet title) (add_sheet title).
Definition call_values_get (rng : str) : M S values_response :=
  lift_call (EvValuesGet rng) (values_get rng).
Definition call_values_update (rng : str) (values : list (list str))
  : M S unit :=
  lift_call (EvValuesUpdate rng values) (values_update rng values).
Definition call_values_append (rng : str) (values : list (list str))
  : M S append_result :=
  lift_call (EvValuesAppend rng values) (values_append rng values).

(** [_sheets_service()]: no Sheets call is issued while the service is
    built. *)
Definition _sheets_service : M S unit :=
  fun s => match build_service s with (r, s') => (r, s', []) end.

(** [now_str()]. *)
Definition now_str : M S str :=
  fun s => match clock s with (ts, s') => (Ok ts, s', []) end.

(** [_sheet_exists]. *)
Fixpoint _sheet_exists (meta : metadata) (title : str)
  : bool * option Z :=
  match meta with
  | [] => (false, None)
  | props :: rest =>
      if Py.eqb (sp_title props) title
      then (true, Some (sp_sheetId props))
      else _sheet_exists rest title
  end.

(** [not row1 or not row1[0]]. *)
Definition header_blank (row1 : list (list str)) : bool :=
  match row1 with
  | [] => true
  | [] :: _ => true
  | (_ :: _) :: _ => false
  end.

Definition ensure_area_sheet (title : str) : M S unit :=
  do meta <- call_spreadsheets_get;
  let '(exists_, _) := _sheet_exists meta title in
  if negb exists_ then
    exec call_add_sheet title;
    exec call_values_update (_header_range title) [HEADERS];
    ret tt
  else
    do rng <- call_values_get (title ++ "!1:1");
    let row1 := match rng with Some v => v | None => [[]] end in
    if header_blank row1
    then call_values_update (_header_range title) [HEADERS]
    else ret tt.

Definition read_active_areas : M S (list area_info) :=
  do result <- except_http (call_values_get (NOMES_SHEET ++ "!A:Z"))
                 (RuntimeError ("Erro ao ler a aba '" ++ NOMES_SHEET ++ "'"));
  let rows := match result with Some v => v | None => [] end in
  match active_areas_of_rows rows with
  | Ok areas => ret areas
  | Raise e => raise e
  end.

End Calls.

(** ** Row position of an append acknowledgement *)

(** The two patterns of [append_ticket_and_get_number],
    [!.*?(\d+):] and [!.*?(\d+)$], as the backtracking matcher runs them:
    [re.search] tries the start positions from the left; after the [!] the
    lazy [.*?] grows one character at a time (never across a newline), and at
    each length the greedy [\d+] takes the whole run of digits, which must be
    followed by what the pattern ends with (a shorter run is followed by a
    digit, so backtracking into [\d+] never succeeds). *)
Module Re.

Definition newline : N := 10%N.

Fixpoint take_digits (s : str) : str :=
  match s with
  | c :: r => if Py.is_digit c then c :: take_digits r else []
  | [] => []
  end.

Fixpoint drop_digits (s : str) : str :=
  match s with
  | c :: r => if Py.is_digit c then drop_digits r else s
  | [] => []
  end.

(** What follows the group: the literal [:] ... *)
Definition follow_colon (rest : str) : bool :=
  match rest with
  | c :: _ => (c =? Py.ord ":")%N
  | [] => false
  end.

(** ... or [$]: the end of the string, or a newline that ends it. *)
Definition follow_end (rest : str) : bool :=
  match rest with
  | [] => true
  | [c] => (c =? newline)%N
  | _ => false
  end.

(** [(\d+)] and the end of the pattern, at the start of [s]. *)
Definition group_here (follow : str -> bool) (s : str) : option str :=
  let d := take_digits s in
  if Py.is_empty d then None
  else if follow (drop_digits s) then Some d else None.

(** [.*?(\d+)] and the end of the pattern, at the start of [s]. *)
Fixpoint lazy_any (follow : str -> bool) (s : str) : option str :=
  match s with
  | [] => None
  | c :: r =>
      match group_here follow s with
      | Some d => Some d
      | None => if (c =? newline)%N then None else lazy_any follow r
      end
  end.

(** [re.search] of [!.*?(\d+)] and the end of the pattern: [m.group(1)]. *)
Fixpoint search (follow : str -> bool) (s : str) : option str :=
  match s with
  | [] => None
  | c :: r =>
      if (c =? Py.ord "!")%N then
        match lazy_any follow r with
        | Some d => Some d
        | None => search follow r
        end
      else search follow r
  end.

End Re.

(** [re.search(r"!.*?(\d+):", s) or re.search(r"!.*?(\d+)$", s)], then
    [int(m.group(1))]. *)
Definition search_row (updated_range : str) : option str :=
  match Re.search Re.follow_colon updated_range with
  | Some g => Some g
  | None => Re.search Re.follow_end updated_range
  end.

Definition row_position (updated_range : str) : option Z :=
  Py.int_of_digits <$> search_row updated_range.

(** [(append_result or {}).get("updates", {}).get("updatedRange", "")]. *)
Definition updated_range_of (append_result : append_result) : str :=
  match append_result with
  | Some resp =>
      match resp_updates resp with
      | Some u => match updatedRange u with Some r => r | None => "" end
      | None => ""
      end
  | None => ""
  end.

(** ** Ticket number assignment *)

Section Assignment.
Context {S : Type} `{Env S}.

Definition append_ticket_and_get_number (sheet_title : str)
    (row_values : list str) : M S Z :=
  exec ensure_area_sheet sheet_title;
  do append_result <- call_values_append (sheet_title ++ "!A1") [row_values];
  let updated_range := updated_range_of append_result in
  match search_row updated_range with
  | None =>
      raise (RuntimeError
        ("Não foi possível detectar a linha inserida: " ++ updated_range))
  | Some m =>
      let row_idx_int := Py.int_of_digits m in
      let senha_num := Z.max 1 (row_idx_int - 1) in
      exec call_values_update
             (sheet_title ++ "!A" ++ Py.str_of_int row_idx_int)
             [[Py.str_of_int senha_num]];
      ret senha_num
  end.

End Assignment.

(** ** Document renderer *)

(** A ticket dictionary: a key may be missing, and a present key may hold
    [None]. *)
Definition ticket_data : Type := gmap str (option str).

(** [data.get(key, dflt)]. *)
Definition dict_get (data : ticket_data) (key : str) (dflt : str)
  : option str :=
  match data !! key with
  | Some v => v
  | None => Some dflt
  end.

(** [str(v)] for an optional text. *)
Definition str_opt (v : option str) : str :=
  match v with Some s => s | None => "None" end.

Section Renderer.
Context {S : Type} `{Env S}.

Definition _init_ticket_pdf : pdf_document := [].

(** [if logo_bytes:] *)
Definition has_logo : bool :=
  match logo_bytes with
  | Some (_ :: _) => true
  | _ => false
  end.

(** The content of the page of a ticket whose phone normalised to [tel]. *)
Definition ticket_page (data : ticket_data) (tel : str) : page :=
  let area := Py.strip (str_opt (dict_get data "area" "Área")) in
  let senha := Py.strip (str_opt (dict_get data "senha" "0")) in
  let nome := format_name_upper (dict_get data "nome" "") in
  let bairro := Py.strip (str_opt (dict_get data "bairro" "")) in
  let ts := Py.strip (str_opt (dict_get data "ts_registro" "")) in
  let qr_payload := area ++ "|" ++ senha ++ "|" ++ nome in
  {| pg_logo := has_logo;
     pg_title := "Distribuidor de Senhas";
     pg_area := area;
     pg_senha := senha;
     pg_barcode := senha;
     pg_qr_payload := qr_payload;
     pg_lines := [ "Nome: " ++ nome;
                   "Telefone: " ++ tel;
                   "Bairro: " ++ bairro;
                   "Registro: " ++ ts ];
     pg_footer := "Guarde este ticket até o atendimento." |}.

(** [_render_ticket_page]: the phone is normalised before anything is
    drawn; then the QR code and the barcode are made and the page is added
    and filled, which is where the libraries may raise. *)
Definition _render_ticket_page (pdf : pdf_document) (data : ticket_data)
  : result pdf_document :=
  match format_phone_number (dict_get data "telefone" "") with
  | Raise e => Raise e
  | Ok tel =>
      let pg := ticket_page data tel in
      match draw_page pg with
      | Some e => Raise e
      | None => Ok (pdf ++ [pg])
      end
  end.

(** The page [FPDF.output] adds to a document that has none. *)
Definition blank_page : page :=
  {| pg_logo := false; pg_title := ""; pg_area := ""; pg_senha := "";
     pg_barcode := ""; pg_qr_payload := ""; pg_lines := []; pg_footer := "" |}.

(** [_pdf_bytes]: the finished document. *)
Definition _pdf_bytes (pdf : pdf_document) : pdf_document :=
  match pdf with
  | [] => [blank_page]
  | _ :: _ => pdf
  end.

Definition generate_ticket_pdf (data : ticket_data) : result pdf_document :=
  match _render_ticket_page _init_ticket_pdf data with
  | Ok pdf => Ok (_pdf_bytes pdf)
  | Raise e => Raise e
  end.

(** The [for ticket in tickets] loop of [generate_tickets_pdf]. *)
Fixpoint render_all (pdf : pdf_document) (tickets : list ticket_data)
  : result pdf_document :=
  match tickets with
  | [] => Ok pdf
  | ticket :: rest =>
      match _render_ticket_page pdf ticket with
      | Ok pdf' => render_all pdf' rest
      | Raise e => Raise e
      end
  end.

Definition generate_tickets_pdf (tickets : list ticket_data)
  : result pdf_document :=
  match render_all _init_ticket_pdf tickets with
  | Ok pdf => Ok (_pdf_bytes pdf)
  | Raise e => Raise e
  end.

End Renderer.

(** ** Submission orchestrator *)

(** The [registro] dictionary of [submit_tickets]. *)
Record registro : Type := mk_registro {
  r_area : str;
  r_sheet : str;
  r_senha : str;
  r_nome : str;
  r_telefone : str;
  r_bairro : str;
  r_rede_social : str;
  r_email : str;
  r_ts_registro : str
}.

Definition registro_dict (r : registro) : ticket_data :=
  <["area" := Some (r_area r)]>
  (<["sheet" := Some (r_sheet r)]>
  (<["senha" := Some (r_senha r)]>
  (<["nome" := Some (r_nome r)]>
  (<["telefone" := Some (r_telefone r)]>
  (<["bairro" := Some (r_bairro r)]>
  (<["rede_social" := Some (r_rede_social r)]>
  (<["email" := Some (r_email r)]>
  (<["ts_registro" := Some (r_ts_registro r)]> ∅)))))))).

(** An entry of the [excedidas] list. *)
Record excedida : Type := mk_excedida {
  e_area : str;
  e_limite : Z;
  e_senha : Z
}.

(** The row written for a registration: the leading ticket-number cell and
    the trailing attendance cell are blank. *)
Definition row_of (nome_fmt telefone_fmt rede_social_fmt email_fmt bairro_fmt ts
    : str) : list str :=
  [ ""; nome_fmt; telefone_fmt; rede_social_fmt; email_fmt; bairro_fmt; ts; "" ].

(** [{a["area"]: a["sheet"] for a in areas_info}] and
    [{a["area"]: a.get("max_senhas") for a in areas_info}]: a later entry
    replaces an earlier one of the same area. *)
Definition map_area_sheet_of (areas_info : list area_info) : gmap str str :=
  fold_left (fun m a => <[ai_area a := ai_sheet a]> m) areas_info ∅.

Definition map_area_limit_of (areas_info : list area_info)
  : gmap str (option Z) :=
  fold_left (fun m a => <[ai_area a := ai_max_senhas a]> m) areas_info ∅.

(** [map_area_sheet.get(area) or area]. *)
Definition sheet_title_of (map_area_sheet : gmap str str) (area : str)
  : str :=
  match map_area_sheet !! area with
  | Some t => if Py.is_empty t then area else t
  | None => area
  end.

(** [map_area_limit.get(area)]. *)
Definition limit_of (map_area_limit : gmap str (option Z)) (area : str)
  : option Z :=
  match map_area_limit !! area with
  | Some l => l
  | None => None
  end.

(** The three lists the loop of [submit_tickets] appends to. *)
Record accum : Type := mk_accum {
  resultados : list registro;
  tickets_payload : list ticket_data;
  excedidas : list excedida
}.

Section Submission.
Context {S : Type} `{Env S}.

Section Loop.
Variables (map_area_sheet : gmap str str)
          (map_area_limit : gmap str (option Z))
          (nome_fmt telefone_fmt bairro_fmt rede_social_fmt email_fmt : str).

(** The body of [for area in areas]. *)
Definition submit_area (acc : accum) (area : str) : M S accum :=
  let sheet_title := sheet_title_of map_area_sheet area in
  do ts <- now_str;
  let row := row_of nome_fmt telefone_fmt rede_social_fmt email_fmt bairro_fmt ts in
  do senha_num <- append_ticket_and_get_number sheet_title row;
  let registro :=
    {| r_area := area; r_sheet := sheet_title;
       r_senha := Py.str_of_int senha_num;
       r_nome := nome_fmt; r_telefone := telefone_fmt;
       r_bairro := bairro_fmt; r_rede_social := rede_social_fmt;
       r_email := email_fmt; r_ts_registro := ts |} in
  let limite := limit_of map_area_limit area in
  let excedidas' :=
    match limite with
    | Some limite =>
        if limite <? senha_num
        then excedidas acc ++
             [ {| e_area := area; e_limite := limite; e_senha := senha_num |} ]
        else excedidas acc
    | None => excedidas acc
    end in
  ret {| resultados := resultados acc ++ [registro];
         tickets_payload := tickets_payload acc ++ [registro_dict registro];
         excedidas := excedidas' |}.

Fixpoint submit_loop (areas : list str) (acc : accum) : M S accum :=
  match areas with
  | [] => ret acc
  | area :: rest =>
      do acc' <- submit_area acc area;
      submit_loop rest acc'
  end.
End Loop.

(** [submit_tickets].  The spreadsheet identifier is the constant of the
    module, so [_get_spreadsheet_id()] cannot fail and the calls do not
    carry it. *)
Definition submit_tickets (areas : list str)
    (nome telefone bairro rede_social email : option str)
  : M S (list registro * option pdf_document * list excedida) :=
  match areas with
  | [] => raise (ValueError "Selecione ao menos uma área ativa.")
  | _ :: _ =>
      exec _sheets_service;
      do areas_info <- read_active_areas;
      let map_area_sheet := map_area_sheet_of areas_info in
      let map_area_limit := map_area_limit_of areas_info in
      let nome_fmt := format_name_upper nome in
      if Py.is_empty nome_fmt then raise (ValueError "Nome é obrigatório.")
      else
        match format_phone_number telefone with
        | Raise e => raise e
        | Ok telefone_fmt =>
            let bairro_fmt := Py.strip (Py.or_empty bairro) in
            let rede_social_fmt := Py.strip (Py.or_empty rede_social) in
            let email_fmt := Py.strip (Py.or_empty email) in
            do acc <- submit_loop map_area_sheet map_area_limit nome_fmt
                        telefone_fmt bairro_fmt rede_social_fmt email_fmt
                        areas (mk_accum [] [] []);
            match excedidas acc with
            | [] =>
                match generate_tickets_pdf (tickets_payload acc) with
                | Ok pdf_bytes =>
                    ret (resultados acc, Some pdf_bytes, excedidas acc)
                | Raise e => raise e
                end
            | _ :: _ => ret (resultados acc, None, excedidas acc)
            end
        end
  end.

End Submission.

(** ** A reference row store *)

(** The Sheets service is an external collaborator of the module.  This is
    a small spreadsheet that answers the five calls the way section 6 of the
    design describes the row store: sheets are grids of text cells, an append
    puts the row after the last one and acknowledges the range it wrote, a
    write replaces cells in place.  It is the concrete world in which the
    general statements are run. *)
Module Sim.

Definition grid : Type := list (list str).

(** What an append acknowledges: the range it wrote, no range at all, or
    a range fixed in advance. *)
Inductive ack_mode : Type :=
| AckWritten
| AckMissing
| AckFixed (rng : str).

Record world : Type := mk_world {
  sheets : list (str * grid);
  credentials : bool;
  acks : ack_mode;
  now : str
}.

Fixpoint lookup_sheet (title : str) (l : list (str * grid))
  : option grid :=
  match l with
  | [] => None
  | (t, g) :: rest => if Py.eqb t title then Some g else lookup_sheet title rest
  end.

Fixpoint store_sheet (title : str) (g : grid) (l : list (str * grid))
  : list (str * grid) :=
  match l with
  | [] => [(title, g)]
  | (t, g0) :: rest =>
      if Py.eqb t title then (t, g) :: rest
      else (t, g0) :: store_sheet title g rest
  end.

Definition with_sheets (w : world) (l : list (str * grid)) : world :=
  {| sheets := l; credentials := credentials w;
     acks := acks w; now := now w |}.

(** A range [Title!Cells] split at its first [!]. *)
Fixpoint split_range (rng : str) : str * str :=
  match rng with
  | [] => ([], [])
  | c :: r =>
      if (c =? Py.ord "!")%N then ([], r)
      else let '(t, a1) := split_range r in (c :: t, a1)
  end.

(** The row a cell range such as [A7] or [A1:H1] starts at. *)
Fixpoint skip_column (a1 : str) : str :=
  match a1 with
  | c :: r => if Py.is_digit c then a1 else skip_column r
  | [] => []
  end.

Definition first_row (a1 : str) : nat :=
  Z.to_nat (Py.int_of_digits (Re.take_digits (skip_column a1))).

Fixpoint numbered (n : Z) (l : list (str * grid)) : metadata :=
  match l with
  | [] => []
  | (t, _) :: rest => mk_sheet_props t n :: numbered (n + 1) rest
  end.

Definition get_metadata (w : world) : option metadata * world :=
  (Some (numbered 0 (sheets w)), w).

Definition create_sheet (title : str) (w : world) : option unit * world :=
  match lookup_sheet title (sheets w) with
  | Some _ => (None, w)
  | None => (Some tt, with_sheets w (sheets w ++ [(title, [])]))
  end.

Definition read_range (rng : str) (w : world)
  : option values_response * world :=
  let '(title, a1) := split_range rng in
  match lookup_sheet title (sheets w) with
  | None => (None, w)
  | Some g =>
      if Py.eqb a1 "1:1" then
        match g with
        | (c :: cs) :: _ => (Some (Some [c :: cs]), w)
        | _ => (Some None, w)
        end
      else
        match g with
        | [] => (Some None, w)
        | _ => (Some (Some g), w)
        end
  end.

(** Cells written over a row from its first column on. *)
Definition overlay (cells old : list str) : list str :=
  cells ++ drop (length cells) old.

Fixpoint write_row (n : nat) (cells : list str) (g : grid) : grid :=
  match n, g with
  | O, [] => [cells]
  | O, old :: rest => overlay cells old :: rest
  | Datatypes.S n', [] => [] :: write_row n' cells []
  | Datatypes.S n', old :: rest => old :: write_row n' cells rest
  end.

Definition write_range (rng : str) (values : list (list str)) (w : world)
  : option unit * world :=
  let '(title, a1) := split_range rng in
  match lookup_sheet title (sheets w), first_row a1, values with
  | Some g, Datatypes.S n, [cells] =>
      (Some tt, with_sheets w (store_sheet title (write_row n cells g) (sheets w)))
  | _, _, _ => (None, w)
  end.

Definition append_row (rng : str) (values : list (list str)) (w : world)
  : option append_result * world :=
  let '(title, _) := split_range rng in
  match lookup_sheet title (sheets w), values with
  | Some g, [cells] =>
      let n := Py.str_of_int (Z.of_nat (length g) + 1) in
      let written :=
        title ++ "!A" ++ n ++ ":"
          ++ _column_letter (Z.of_nat (length cells) - 1) ++ n in
      let ack :=
        match acks w with
        | AckWritten => mk_append_response (Some (mk_updates (Some written)))
        | AckMissing => mk_append_response (Some (mk_updates None))
        | AckFixed rng => mk_append_response (Some (mk_updates (Some rng)))
        end in
      (Some (Some ack), with_sheets w (store_sheet title (g ++ [cells]) (sheets w)))
  | _, _ => (None, w)
  end.

Definition authorize (w : world) : result unit * world :=
  if credentials w then (Ok tt, w)
  else (Raise (RuntimeError "Credenciais Google ausentes."), w).

(** The drawing libraries of the reference world, with two refusals of the
    real ones: an empty number has no [Code128] barcode ([IndexError]), and
    the core font of [FPDF] has the characters of Latin-1 only
    ([FPDFUnicodeEncodingException]). *)
Definition latin1 (s : str) : bool := Py.all_str (fun c => (c <? 256)%N) s.

Definition page_texts (pg : page) : list str :=
  pg_title pg :: pg_area pg :: pg_senha pg :: pg_lines pg ++ [pg_footer pg].

Definition draw (pg : page) : option exn :=
  if Py.is_empty (pg_barcode pg) then Some (OtherError "IndexError")
  else if forallb latin1 (page_texts pg) then None
  else Some (OtherError "FPDFUnicodeEncodingException").

#[global] Instance env : Env world := {|
  spreadsheets_get := get_metadata;
  add_sheet := create_sheet;
  values_get := read_range;
  values_update := write_range;
  values_append := append_row;
  build_service := authorize;
  clock := fun w => (now w, w);
  logo_bytes := None;
  draw_page := draw
|}.

(** A spreadsheet with the configuration sheet only. *)
Definition config_only (table : grid) : world :=
  {| sheets := [(NOMES_SHEET, table)]; credentials := true;
     acks := AckWritten; now := "01/03/2025 09:30:00" |}.

Definition with_acks (w : world) (a : ack_mode) : world :=
  {| sheets := sheets w; credentials := credentials w;
     acks := a; now := now w |}.

End Sim.

(** ** Vocabulary of the statements *)

(** The digit content of a phone input after the country-code prefix [55]
    is dropped from a content of more than 11 digits. *)
Definition phone_digits (telefone : str) : str :=
  let d := Py.sub_nondigits telefone in
  if Py.startswith "55" d && (11 <? length d)%nat then Py.drop 2 d else d.

(** The local format written from eleven digits: the fixed area code and
    the last nine digits. *)
Definition local_format (d : str) : str :=
  "(92) " ++ Py.take 5 (Py.last 9 d) ++ "-" ++ Py.drop 5 (Py.last 9 d).



Definition first_char (s : str) : option N :=
  match s with c :: _ => Some c | [] => None end.

Fixpoint last_char (s : str) : option N :=
  match s with
  | [] => None
  | [c] => Some c
  | _ :: r => last_char r
  end.

Definition not_space (o : option N) : bool :=
  match o with Some c => negb (Py.is_space c) | None => true end.

(** No whitespace at either end. *)
Definition trimmed (s : str) : bool :=
  not_space (first_char s) && not_space (last_char s).

(** Upper case: no lower-case character. *)
Definition upper_case (s : str) : bool :=
  Py.all_str (fun c => negb (Unicode.islower c)) s.

(** Upper-cased: every character is its own upper-case form. *)
Definition upper_cased (s : str) : bool :=
  Py.all_str (fun c => Py.eqb (Unicode.toupper c) [c]) s.

(** A text of the ASCII range. *)
Definition ascii_text (s : str) : bool := Py.all_str Py.is_ascii s.

(** The case mappings of the ASCII range. *)
Definition ascii_upper (c : N) : N := if Py.is_lower c then (c - 32)%N else c.
Definition ascii_lower (c : N) : N := if Py.is_upper c then (c + 32)%N else c.

(** A data row of the configuration table read against its header row. *)
Section ConfigRow.
Variable header : list str.

Definition row_area (row : list str) : str :=
  Py.strip (cell_or row (_find_col_indexes header area_candidates) "").

(** The active field, [Sim] when the column or the cell is missing. *)
Definition row_active_field (row : list str) : str :=
  cell_or row (_find_col_indexes header ativa_candidates) "Sim".

Definition row_active (row : list str) : bool :=
  _truthy (PStr (row_active_field row)).

(** The destination sheet, the area's own name when the column or the
    cell is missing or blank. *)
Definition row_destination (row : list str) : str :=
  let area := row_area row in
  match _find_col_indexes header aba_candidates with
  | Some i =>
      match row !! i with
      | Some c => if Py.is_empty (Py.strip c) then area else Py.strip c
      | None => area
      end
  | None => area
  end.

Definition row_limit (row : list str) : option Z :=
  match _find_col_indexes header max_candidates with
  | Some i => match row !! i with
              | Some c => _parse_positive_int (PStr c)
              | None => None
              end
  | None => None
  end.

Definition entry_of_row (row : list str) : area_info :=
  {| ai_area := row_area row; ai_sheet := row_destination row;
     ai_ativa := true; ai_max_senhas := row_limit row |}.

Definition row_named (row : list str) : bool :=
  negb (Py.is_empty (row_area row)).
End ConfigRow.

(** The calls [ensure_area_sheet] may issue for a sheet: reads, the creation
    of the sheet and the write of the header row; never an append. *)
Definition is_ensure_event (title : str) (ev : event) : Prop :=
  match ev with
  | EvGetSpreadsheet _ => True
  | EvAddSheet t _ => t = title
  | EvValuesGet rng _ => rng = title ++ "!1:1"
  | EvValuesUpdate rng values _ => rng = _header_range title /\ values = [HEADERS]
  | EvValuesAppend _ _ _ => False
  end.

(** What [append_ticket_and_get_number] does after [ensure_area_sheet], read
    off the calls it issued and its result: the append was refused; its
    acknowledgement gave no row position; or the number [n] derived from the
    acknowledged row position was written into column A of that row. *)
Inductive assignment (title : str) (row : list str)
  : list event -> result Z -> Prop :=
| assign_refused :
    assignment title row
      [EvValuesAppend (title ++ "!A1") [row] None] (Raise HttpError)
| assign_unparsed ack :
    row_position (updated_range_of ack) = None ->
    assignment title row
      [EvValuesAppend (title ++ "!A1") [row] (Some ack)]
      (Raise (RuntimeError
         ("Não foi possível detectar a linha inserida: " ++ updated_range_of ack)))
| assign_numbered ack rowpos r :
    row_position (updated_range_of ack) = Some rowpos ->
    let n := Z.max 1 (rowpos - 1) in
    assignment title row
      [EvValuesAppend (title ++ "!A1") [row] (Some ack);
       EvValuesUpdate (title ++ "!A" ++ Py.str_of_int rowpos)
         [[Py.str_of_int n]] r]
      (match r with Some _ => Ok n | None => Raise HttpError end).

(** A row as [submit_tickets] writes it, for the runs on the reference store. *)
Definition sample_row : list str :=
  row_of "ANA LIMA" "(92) 98123-1234" "@ana" "ana@example.com" "Centro"
         "01/03/2025 09:30:00".

(** A ticket dictionary from its entries. *)
Definition ticket_of (entries : list (str * option str)) : ticket_data :=
  list_to_map entries.

(** A record that has every field of a ticket but the phone. *)
Definition ticket_without_phone : ticket_data :=
  ticket_of [ ("area", Some "Palco"); ("senha", Some "7"); ("nome", Some "Ana Lima");
              ("bairro", Some "Centro"); ("ts_registro", Some "01/03/2025 09:30:00") ].

(** A record with a phone and nothing else. *)
Definition ticket_with_phone_only : ticket_data :=
  ticket_of [ ("telefone", Some "92981231234") ].

(** ** Vocabulary of the batch statements *)

(** The call was answered (it did not raise). *)
Definition answered (ev : event) : bool :=
  match ev with
  | EvGetSpreadsheet r => bool_decide (is_Some r)
  | EvAddSheet _ r => bool_decide (is_Some r)
  | EvValuesGet _ r => bool_decide (is_Some r)
  | EvValuesUpdate _ _ r => bool_decide (is_Some r)
  | EvValuesAppend _ _ r => bool_decide (is_Some r)
  end.

(** The acknowledgement of an answered append gives a row position. *)
Definition ack_parsed (ev : event) : bool :=
  match ev with
  | EvValuesAppend _ _ (Some ack) =>
      bool_decide (is_Some (row_position (updated_range_of ack)))
  | _ => true
  end.

(** A run in which the store answered every call and acknowledged every
    append with a row position. *)
Definition cooperative (t : list event) : bool :=
  forallb (fun ev => answered ev && ack_parsed ev) t.

(** The rows appended along a run, with the range they were appended to. *)
Definition appended (ev : event) : option (str * list (list str)) :=
  match ev with
  | EvValuesAppend rng values _ => Some (rng, values)
  | _ => None
  end.

Definition appends_of (t : list event) : list (str * list (list str)) :=
  omap appended t.

(** The ticket numbers that follow from the acknowledged row positions. *)
Definition number_of (ev : event) : option Z :=
  match ev with
  | EvValuesAppend _ _ (Some ack) =>
      (fun rowpos => Z.max 1 (rowpos - 1)) <$> row_position (updated_range_of ack)
  | _ => None
  end.

Definition numbers_of (t : list event) : list Z := omap number_of t.

(** The areas over their maximum among the issued numbers, in order. *)
Definition over_limit (limit : str -> option Z) (issued : str * Z)
  : option excedida :=
  match limit issued.1 with
  | Some l =>
      if l <? issued.2
      then Some {| e_area := issued.1; e_limite := l; e_senha := issued.2 |}
      else None
  | None => None
  end.

Definition exceeded_of (limit : str -> option Z) (issued : list (str * Z))
  : list excedida :=
  omap (over_limit limit) issued.

(** The row that carries a registration. *)
Definition registro_row (r : registro) : list str :=
  row_of (r_nome r) (r_telefone r) (r_rede_social r) (r_email r) (r_bairro r)
         (r_ts_registro r).

(** The attendee snapshot of a registration. *)
Definition registro_of_attendee (map_area_sheet : gmap str str)
    (nome_fmt telefone_fmt bairro_fmt rede_social_fmt email_fmt : str)
    (r : registro) : Prop :=
  r_sheet r = sheet_title_of map_area_sheet (r_area r)
  /\ r_nome r = nome_fmt /\ r_telefone r = telefone_fmt
  /\ r_bairro r = bairro_fmt /\ r_rede_social r = rede_social_fmt
  /\ r_email r = email_fmt.

Section BatchVocabulary.
Context {S : Type} `{Env S}.

(** The page of a registration. *)
Definition registro_page (r : registro) : page :=
  ticket_page (registro_dict r) (r_telefone r).

(** The exception the drawing libraries raise on the first page of a
    document that they do not draw, if there is one. *)
Fixpoint first_refusal (pages : list page) : option exn :=
  match pages with
  | [] => None
  | pg :: rest =>
      match draw_page pg with
      | Some e => Some e
      | None => first_refusal rest
      end
  end.

End BatchVocabulary.

(** Areas [A] and [B], [B] with a maximum of one ticket and one registration
    already in its sheet. *)
Definition quota_world : Sim.world :=
  {| Sim.sheets :=
       [ (NOMES_SHEET, [ ["Área"; "Ativa"; "Limite"];
                         ["A"; "Sim"]; ["B"; "Sim"; "1"] ]);
         ("B", [ HEADERS;
                 [ "1"; "JOSE"; "(92) 99111-2222"; ""; ""; "Centro";
                   "01/03/2025 09:00:00"; "" ] ]) ];
     Sim.credentials := true;
     Sim.acks := Sim.AckWritten;
     Sim.now := "01/03/2025 09:30:00" |}.

(** * The rest of the module *)

(** ** Neighbourhood resolver *)

(** Name of the neighbourhood sheet (the default of the [BAIRROS_SHEET]
    environment variable). *)
Definition BAIRROS_SHEET : str := "Bairro".

(** The header labels [read_neighborhoods] recognises in the first row. *)
Definition neighborhood_headers : gset str :=
  list_to_set ["nome do bairro"; "bairro"].

(** [(row[0] if row else "").strip()]. *)
Definition first_cell_name (row : list str) : str :=
  Py.strip (match row with c :: _ => c | [] => "" end).

(** The [for idx, row in enumerate(rows)] loop of [read_neighborhoods]. *)
Fixpoint neighborhoods_loop (idx : nat) (rows : list (list str))
    (bairros : list str) : list str :=
  match rows with
  | [] => bairros
  | row :: rest =>
      let nome := first_cell_name row in
      if Py.is_empty nome then neighborhoods_loop (S idx) rest bairros
      else if (idx =? 0)%nat
              && bool_decide (_normalize (Some nome) ∈ neighborhood_headers)
      then neighborhoods_loop (S idx) rest bairros
      else neighborhoods_loop (S idx) rest (bairros ++ [nome])
  end.

(** [read_neighborhoods] after the read. *)
Definition neighborhoods_of_rows (rows : list (list str)) : list str :=
  match rows with
  | [] => []
  | _ :: _ => neighborhoods_loop 0 rows []
  end.

Section Neighborhoods.
Context {S : Type} `{Env S}.

Definition read_neighborhoods : M S (list str) :=
  do result <- except_http (call_values_get (BAIRROS_SHEET ++ "!A:A"))
                 (RuntimeError ("Erro ao ler a aba '" ++ BAIRROS_SHEET ++ "'"));
  let rows := match result with Some v => v | None => [] end in
  ret (neighborhoods_of_rows rows).

End Neighborhoods.

(** ** Single-area submission *)

Module PyInt.

(** [int(s)] for a text: surrounding whitespace and one sign are accepted,
    then one or more decimal digits; anything else is a [ValueError].  The
    text read here is the ticket number of a registration, [str] of an
    integer: digit groups separated by underscores do not occur in it. *)
Definition unsigned (s : str) : option Z :=
  if negb (Py.is_empty s) && Py.all_str Py.is_digit s
  then Some (Py.int_of_digits s) else None.

Definition int (s : str) : result Z :=
  let invalid := Raise (ValueError ("invalid literal for int() with base 10: " ++ s)) in
  match Py.strip s with
  | c :: r =>
      if (c =? Py.ord "-")%N then
        match unsigned r with Some n => Ok (- n) | None => invalid end
      else if (c =? Py.ord "+")%N then
        match unsigned r with Some n => Ok n | None => invalid end
      else
        match unsigned (c :: r) with Some n => Ok n | None => invalid end
  | [] => invalid
  end.

End PyInt.

Section SingleSubmission.
Context {S : Type} `{Env S}.

(** [submit_ticket]: the compatibility entry for one area.  The text of the
    quota error carries the area, the limit and the number. *)
Definition submit_ticket (area : str)
    (nome telefone bairro rede_social email : option str)
  : M S (Z * option pdf_document) :=
  do out <- submit_tickets [area] nome telefone bairro rede_social email;
  let '(resultados, pdf_bytes, excedidas) := out in
  match resultados with
  | [] => raise (ValueError "Falha ao gerar a senha.")
  | first :: _ =>
      match excedidas with
      | info :: _ =>
          raise (ValueError
            ("A área " ++ e_area info ++ " excedeu o limite de "
               ++ Py.str_of_int (e_limite info) ++ " senhas (atual: "
               ++ Py.str_of_int (e_senha info) ++ ")."))
      | [] =>
          match PyInt.int (r_senha first) with
          | Ok n => ret (n, pdf_bytes)
          | Raise e => raise e
          end
      end
  end.

End SingleSubmission.

(** ** Vocabulary of the further statements *)

(** The 1-based column number that a column name stands for: its letters
    read in the bijective base 26, [A] being 1. *)
Definition column_value (letters : list N) : Z :=
  fold_left (fun acc c => 26 * acc + (Z.of_N c - 64)) letters 0.

Definition column_number (name : str) : Z :=
  column_value name.

(** A header cell and a candidate name are the same column name. *)
Definition same_column (cell candidate : str) : Prop :=
  _normalize (Some cell) = _normalize (Some candidate).

(** The value of a decimal numeral read from the left, over [acc]. *)
Fixpoint uint_value (acc : Z) (d : Decimal.uint) : Z :=
  match d with
  | Decimal.Nil => acc
  | Decimal.D0 l => uint_value (10 * acc + 0) l
  | Decimal.D1 l => uint_value (10 * acc + 1) l
  | Decimal.D2 l => uint_value (10 * acc + 2) l
  | Decimal.D3 l => uint_value (10 * acc + 3) l
  | Decimal.D4 l => uint_value (10 * acc + 4) l
  | Decimal.D5 l => uint_value (10 * acc + 5) l
  | Decimal.D6 l => uint_value (10 * acc + 6) l
  | Decimal.D7 l => uint_value (10 * acc + 7) l
  | Decimal.D8 l => uint_value (10 * acc + 8) l
  | Decimal.D9 l => uint_value (10 * acc + 9) l
  end.

(** An entry of the area list as the resolver builds it. *)
Definition well_formed_area (a : area_info) : Prop :=
  Py.is_empty (ai_area a) = false
  /\ trimmed (ai_area a) = true
  /\ Py.is_empty (ai_sheet a) = false
  /\ trimmed (ai_sheet a) = true
  /\ ai_ativa a = true
  /\ (forall n, ai_max_senhas a = Some n -> 0 < n).

(** The first cell of a row, trimmed, is a neighbourhood name. *)
Definition names_in (rows : list (list str)) : list str :=
  List.filter (fun n => negb (Py.is_empty n)) (map first_cell_name rows).

(** The text is one of the header labels of the neighbourhood sheet. *)
Definition is_neighborhood_header (nome : str) : bool :=
  bool_decide (_normalize (Some nome) ∈ neighborhood_headers).

(** The keys of a ticket dictionary that the renderer reads. *)
Definition rendered_keys : list str :=
  ["area"; "senha"; "nome"; "telefone"; "bairro"; "ts_registro"].

Section RenderVocabulary.
Context {S : Type} `{Env S}.

(** The ticket is rendered: its phone normalises and the libraries draw its
    page. *)
Definition renders (data : ticket_data) : Prop :=
  exists tel, format_phone_number (dict_get data "telefone" "") = Ok tel
              /\ draw_page (ticket_page data tel) = None.

(** The ticket is refused with [e]: by the phone normaliser, or else by one
    of the libraries on its page. *)
Definition refused (data : ticket_data) (e : exn) : Prop :=
  format_phone_number (dict_get data "telefone" "") = Raise e
  \/ exists tel, format_phone_number (dict_get data "telefone" "") = Ok tel
                 /\ draw_page (ticket_page data tel) = Some e.

End RenderVocabulary.

(** The number printed for a ticket dictionary. *)
Definition printed_senha (data : ticket_data) : str :=
  Py.strip (str_opt (dict_get data "senha" "0")).

(** The rows of the area list that carry a given area name. *)
Definition entries_named (area : str) (areas_info : list area_info)
  : list area_info :=
  List.filter (fun a => Py.eqb (ai_area a) area) areas_info.

(** * The form of [streamlit_app.py] *)

(** ** Trimming by a set of characters *)

(** [s.lstrip(chars)], [s.rstrip(chars)] and [s.strip(chars)], the set
    [chars] given by its membership test. *)
Fixpoint lstrip_by (p : N -> bool) (s : str) : str :=
  match s with
  | [] => []
  | c :: r => if p c then lstrip_by p r else s
  end.

Fixpoint rstrip_by (p : N -> bool) (s : str) : str :=
  match s with
  | [] => []
  | c :: r =>
      let r' := rstrip_by p r in
      if p c && Py.is_empty r' then [] else c :: r'
  end.

Definition strip_by (p : N -> bool) (s : str) : str :=
  rstrip_by p (lstrip_by p s).

(** ** Name of the downloaded document *)

(** The class [[A-Za-z0-9_-]]. *)
Definition is_name_char (c : N) : bool :=
  Py.is_upper c || Py.is_lower c || Py.is_ascii_digit c
  || (c =? Py.ord "_")%N || (c =? Py.ord "-")%N.

Definition is_underscore (c : N) : bool := (c =? Py.ord "_")%N.

(** [re.sub(r"[^A-Za-z0-9_-]+", "_", s)]: every maximal run of characters
    outside the class becomes one underscore; [in_run] tells that the
    previous character was in such a run. *)
Fixpoint sub_unsafe_runs (in_run : bool) (s : str) : str :=
  match s with
  | [] => []
  | c :: r =>
      if is_name_char c then c :: sub_unsafe_runs false r
      else if in_run then sub_unsafe_runs true r
      else Py.ord "_" :: sub_unsafe_runs true r
  end.

(** [len(resultados)] as a text. *)
Definition len_text {A} (l : list A) : str :=
  Py.str_of_int (Z.of_nat (length l)).

(** The name under which the form offers the document, from the
    registrations of the submission. *)
Definition base_name (resultados : list registro) : str :=
  match resultados with
  | [item] => "senha_" ++ r_area item ++ "_" ++ r_senha item
  | _ => "senhas_" ++ len_text resultados ++ "_areas"
  end.

Definition safe_name (resultados : list registro) : str :=
  let cleaned := strip_by is_underscore (sub_unsafe_runs false (base_name resultados)) in
  if Py.is_empty cleaned then "senhas" else cleaned.

Definition file_name (resultados : list registro) : str :=
  safe_name resultados ++ ".pdf".

(** ** Forwarding to the print server *)

(** The request [requests.post] is called with (the timeout is the constant
    30). *)
Record print_request (B : Type) : Type := mk_print_request {
  pr_url : str;
  pr_token : str;
  pr_content_type : str;
  pr_body : B
}.
Arguments mk_print_request {B}.
Arguments pr_url {B}.
Arguments pr_token {B}.
Arguments pr_content_type {B}.
Arguments pr_body {B}.

(** What the call gives: a response, with its [ok] flag, status code and
    text, or an exception, with its text. *)
Inductive post_outcome : Type :=
| Responded (ok : bool) (status_code : Z) (text : str)
| Failed (message : str).

Definition is_slash (c : N) : bool := (c =? Py.ord "/")%N.

Section PrintForwarding.
Context {B : Type}.
Variables (PRINT_SERVER_URL PRINT_TOKEN : str).
Variable post : print_request B -> post_outcome.

(** [enviar_para_impressao]: its result and the requests it sent. *)
Definition enviar_para_impressao (pdf_bytes : B)
  : (bool * option str) * list (print_request B) :=
  if negb (negb (Py.is_empty PRINT_SERVER_URL) && negb (Py.is_empty PRINT_TOKEN))
  then ((false, Some "PRINT_SERVER_URL/PRINT_TOKEN não configurados."), [])
  else
    let url := rstrip_by is_slash PRINT_SERVER_URL ++ "/print/pdf" in
    let request := mk_print_request url PRINT_TOKEN "application/pdf" pdf_bytes in
    match post request with
    | Responded true _ _ => ((true, None), [request])
    | Responded false status_code text =>
        ((false, Some ("Falha HTTP " ++ Py.str_of_int status_code ++ ": " ++ text)),
         [request])
    | Failed message => ((false, Some message), [request])
    end.

End PrintForwarding.

(** Neither the first nor the last character is in the set. *)
Definition clear_ends (p : N -> bool) (s : str) : bool :=
  match first_char s with Some c => negb (p c) | None => true end
  && match last_char s with Some c => negb (p c) | None => true end.

(** The character is not the [!] that ends a sheet title in a range. *)
Definition not_bang (c : N) : bool := negb (c =? Py.ord "!")%N.

(** ** Vocabulary of the character facts *)

(** What the upper-case mapping does to a character it changes: the
    character is not whitespace and becomes one or more characters that are
    not whitespace either, and that the mapping leaves as they are. *)
Definition upper_entry_fine (c : N) (l : str) : bool :=
  negb (Py.is_space c) && negb (Py.is_empty l)
  && Py.all_str (fun d => negb (Py.is_space d)) l
  && upper_cased l.

(** * Properties *)

(** ** Sanity checks of the text primitives and normalisers *)

Example literal_utf8 : "Área 9" = [193; 114; 101; 97; 32; 57]%N.
Proof. reflexivity. Qed.

Example format_phone_local :
  format_phone_number (Some "92981231234") = Ok "(92) 98123-1234".
Proof. vm_compute. reflexivity. Qed.

Example format_phone_country :
  format_phone_number (Some "+55 (92) 98123-1234") = Ok "(92) 98123-1234".
Proof. vm_compute. reflexivity. Qed.

(** The digits of any script are digits for [\D]. *)
Example format_phone_fullwidth :
  format_phone_number (Some "９２９８１２３１２３４") = Ok "(92) ９８１２３-１２３４".
Proof. vm_compute. reflexivity. Qed.

Example format_name_example :
  format_name_upper (Some "  maria da Silva ") = "MARIA DA SILVA".
Proof. vm_compute. reflexivity. Qed.

Example format_name_accents :
  format_name_upper (Some " José da Conceição ") = "JOSÉ DA CONCEIÇÃO".
Proof. vm_compute. reflexivity. Qed.

(** A no-break space is whitespace. *)
Example format_name_no_break_space :
  format_name_upper (Some [160%N; 160%N]) = "".
Proof. vm_compute. reflexivity. Qed.

Example format_name_sharp_s : format_name_upper (Some "straße") = "STRASSE".
Proof. vm_compute. reflexivity. Qed.

Example normalize_area : _normalize (Some " ÁREA ") = "area".
Proof. vm_compute. reflexivity. Qed.

Example normalize_final_sigma : _normalize (Some "ΟΔΟΣ") = "οδος".
Proof. vm_compute. reflexivity. Qed.

Example truthy_sim : _truthy (PStr " Sim ") = true.
Proof. vm_compute. reflexivity. Qed.

Example truthy_nao : _truthy (PStr "Não") = false.
Proof. vm_compute. reflexivity. Qed.

Example parse_int_ex : _parse_positive_int (PStr "max: 120") = Some 120.
Proof. vm_compute. reflexivity. Qed.

Example header_range_ex : _header_range "Palco" = "Palco!A1:H1".
Proof. vm_compute. reflexivity. Qed.

Example column_letter_ex : _column_letter 27 = "AB".
Proof. vm_compute. reflexivity. Qed.

Example active_areas_ex :
  active_areas_of_rows
    [ ["Área"; "Ativa"]; ["A"; "Sim"]; ["B"; "Não"]; ["C"; "1"] ]
  = Ok [ mk_area_info "A" "A" true None; mk_area_info "C" "C" true None ].
Proof. vm_compute. reflexivity. Qed.

(** The order of the candidates decides, not the order of the columns. *)
Example find_col_area_first :
  _find_col_indexes ["Setor"; "Área"] area_candidates = Some 1%nat.
Proof. vm_compute. reflexivity. Qed.

Example row_position_ex : row_position "Palco!A12:H12" = Some 12.
Proof. vm_compute. reflexivity. Qed.

Example row_position_single : row_position "Palco!A7" = Some 7.
Proof. vm_compute. reflexivity. Qed.

Example row_position_none : row_position "Palco" = None.
Proof. vm_compute. reflexivity. Qed.

(** ** The reference store at work *)

Example sim_first_ticket :
  let o := append_ticket_and_get_number "Palco" (row_of "ANA" "(92) 98123-1234" "" "" "Centro" "t")
             (Sim.config_only []) in
  result_of o = Ok 1
  /\ Sim.lookup_sheet "Palco" (Sim.sheets (state_of o))
     = Some [ HEADERS; ["1"; "ANA"; "(92) 98123-1234"; ""; ""; "Centro"; "t"; ""] ].
Proof. vm_compute. split; reflexivity. Qed.

(** ** The character tables *)

Lemma find_range_in t c lo hi :
  Unicode.find_range t c = Some (lo, hi) -> In (lo, hi) t /\ (lo <= c <= hi)%N.
Proof.
  induction t as [|[l h] rest IH]; cbn [Unicode.find_range]; [discriminate|].
  destruct (c <? l)%N eqn:E1; [discriminate|].
  destruct (c <=? h)%N eqn:E2.
  - intros [= <- <-]. apply N.ltb_ge in E1. apply N.leb_le in E2.
    split; [now left | lia].
  - intros Hf. apply IH in Hf as [Hin Hc]. split; [now right | exact Hc].
Qed.

Lemma assoc_in {A} (t : list (N * A)) c v :
  Unicode.assoc t c = Some v -> In (c, v) t.
Proof.
  induction t as [|[k w] rest IH]; cbn [Unicode.assoc]; [discriminate|].
  destruct (c <? k)%N; [discriminate|].
  destruct (c =? k)%N eqn:E.
  - intros [= <-]. apply N.eqb_eq in E. subst k. now left.
  - intros Hf. right. now apply IH.
Qed.

Lemma count_from_in n : forall lo c,
  (lo <= c)%N -> (N.to_nat (c - lo) < n)%nat -> In c (Unicode.count_from lo n).
Proof.
  induction n as [|n IH]; intros lo c Hlo Hn; [lia|].
  cbn [Unicode.count_from]. destruct (N.eq_dec lo c) as [->|Hne]; [now left|].
  right. apply IH; lia.
Qed.

Lemma members_in t c : Unicode.in_ranges t c = true -> In c (Unicode.members t).
Proof.
  unfold Unicode.in_ranges, Unicode.members.
  destruct (Unicode.find_range t c) as [[lo hi]|] eqn:E; [intros _|discriminate].
  apply find_range_in in E as [Hin Hc].
  apply in_flat_map. exists (lo, hi). split; [exact Hin|].
  cbn [fst snd]. apply count_from_in; lia.
Qed.

(** A property checked on every character of a class holds of the
    characters of the class. *)
Lemma class_forall t (P : N -> bool) :
  forallb P (Unicode.members t) = true ->
  forall c, Unicode.in_ranges t c = true -> P c = true.
Proof.
  intros Hall c Hc. rewrite forallb_forall in Hall. apply Hall.
  now apply members_in.
Qed.

Lemma entries_forall {A} (t : list (N * A)) (P : N -> A -> bool) :
  forallb (fun e => P (fst e) (snd e)) t = true ->
  forall c v, Unicode.assoc t c = Some v -> P c v = true.
Proof.
  intros Hall c v Hc. rewrite forallb_forall in Hall.
  exact (Hall (c, v) (assoc_in _ _ _ Hc)).
Qed.

Lemma below_forall (n : nat) (P : N -> bool) :
  forallb P (Unicode.count_from 0 n) = true ->
  forall c, (c < N.of_nat n)%N -> P c = true.
Proof.
  intros Hall c Hc. rewrite forallb_forall in Hall. apply Hall.
  apply count_from_in; lia.
Qed.

Lemma space_forall (P : N -> bool) :
  forallb P (Unicode.members Unicode.space_ranges) = true ->
  forall c, Py.is_space c = true -> P c = true.
Proof. apply class_forall. Qed.

Lemma digit_forall (P : N -> bool) :
  forallb P (Unicode.members Unicode.decimal_ranges) = true ->
  forall c, Py.is_digit c = true -> P c = true.
Proof. apply class_forall. Qed.

Lemma ascii_forall (P : N -> bool) :
  forallb P (Unicode.count_from 0 128) = true ->
  forall c, Py.is_ascii c = true -> P c = true.
Proof.
  intros Hall c Hc. apply (below_forall 128 P Hall).
  unfold Py.is_ascii in Hc. apply N.ltb_lt in Hc. exact Hc.
Qed.

(** ** Characters *)

Lemma eqb_refl s : Py.eqb s s = true.
Proof. induction s as [|c r IH]; cbn; [reflexivity|]. now rewrite N.eqb_refl. Qed.

Lemma eqb_eq s t : Py.eqb s t = true <-> s = t.
Proof.
  split; [|intros ->; apply eqb_refl].
  revert t. induction s as [|c r IH]; intros [|d t]; cbn; try discriminate;
    [reflexivity|].
  intros [Hc Hr]%andb_true_iff. apply N.eqb_eq in Hc. subst d.
  f_equal. now apply IH.
Qed.

Lemma eqb_neq s t : Py.eqb s t = false <-> s <> t.
Proof.
  rewrite <- eqb_eq. destruct (Py.eqb s t); split; congruence.
Qed.

Lemma digit_not_space c : Py.is_digit c = true -> Py.is_space c = false.
Proof.
  intros Hc. apply negb_true_iff. revert c Hc.
  apply (digit_forall (fun c => negb (Py.is_space c))). vm_compute. reflexivity.
Qed.

Lemma space_not_digit c : Py.is_space c = true -> Py.is_digit c = false.
Proof.
  intros Hc. destruct (Py.is_digit c) eqn:E; [|reflexivity].
  apply digit_not_space in E. congruence.
Qed.

Lemma upper_entries_fine c l :
  Unicode.assoc Unicode.upper_entries c = Some l -> upper_entry_fine c l = true.
Proof. apply entries_forall. vm_compute. reflexivity. Qed.

Lemma toupper_space c : Py.is_space c = true -> Unicode.toupper c = [c].
Proof.
  intros Hc. unfold Unicode.toupper.
  destruct (Unicode.assoc Unicode.upper_entries c) as [l|] eqn:E; [|reflexivity].
  apply upper_entries_fine in E. unfold upper_entry_fine in E.
  rewrite Hc in E. discriminate E.
Qed.

Lemma toupper_not_space c :
  Py.is_space c = false ->
  Py.is_empty (Unicode.toupper c) = false
  /\ Py.all_str (fun d => negb (Py.is_space d)) (Unicode.toupper c) = true.
Proof.
  intros Hc. unfold Unicode.toupper.
  destruct (Unicode.assoc Unicode.upper_entries c) as [l|] eqn:E.
  - apply upper_entries_fine in E. unfold upper_entry_fine in E.
    apply andb_true_iff in E as [E _]. apply andb_true_iff in E as [E Hall].
    apply andb_true_iff in E as [_ He]. apply negb_true_iff in He. now split.
  - split; [reflexivity|]. cbn. now rewrite Hc.
Qed.

Lemma upper_cased_fixed l : upper_cased l = true -> Py.upper l = l.
Proof.
  unfold upper_cased. induction l as [|d l IH]; [reflexivity|].
  cbn [Py.all_str Py.upper]. intros [Hd Hl]%andb_true_iff.
  apply eqb_eq in Hd. now rewrite Hd, (IH Hl).
Qed.

Lemma toupper_upper_cased c : upper_cased (Unicode.toupper c) = true.
Proof.
  unfold Unicode.toupper.
  destruct (Unicode.assoc Unicode.upper_entries c) as [l|] eqn:E.
  - apply upper_entries_fine in E. unfold upper_entry_fine in E.
    now apply andb_true_iff in E as [_ E].
  - unfold upper_cased. cbn [Py.all_str]. unfold Unicode.toupper.
    now rewrite E, eqb_refl.
Qed.

Lemma toupper_idem c : Py.upper (Unicode.toupper c) = Unicode.toupper c.
Proof. apply upper_cased_fixed, toupper_upper_cased. Qed.

(** ** Trimming *)

Lemma is_empty_true s : Py.is_empty s = true -> s = "".
Proof. destruct s; simpl; congruence. Qed.

Lemma is_empty_map f s : Py.is_empty (Py.map_str f s) = Py.is_empty s.
Proof. destruct s; reflexivity. Qed.

Lemma lstrip_first s : not_space (first_char (Py.lstrip s)) = true.
Proof.
  induction s as [|c r IH]; simpl; [reflexivity|].
  destruct (Py.is_space c) eqn:E; [exact IH|]. simpl. now rewrite E.
Qed.

Lemma rstrip_first s :
  not_space (first_char s) = true -> not_space (first_char (Py.rstrip s)) = true.
Proof.
  destruct s as [|c r]; simpl; [reflexivity|]. intros E.
  apply negb_true_iff in E. rewrite E. simpl. now rewrite E.
Qed.

Lemma rstrip_last s : not_space (last_char (Py.rstrip s)) = true.
Proof.
  induction s as [|c r IH]; [reflexivity|].
  cbn [Py.rstrip]. destruct (Py.rstrip r) as [|c' r'] eqn:Er.
  - destruct (Py.is_space c) eqn:E; simpl; [reflexivity| now rewrite E].
  - rewrite andb_false_r. exact IH.
Qed.

Lemma lstrip_id s : not_space (first_char s) = true -> Py.lstrip s = s.
Proof.
  destruct s as [|c r]; simpl; [reflexivity|]. intros E.
  apply negb_true_iff in E. now rewrite E.
Qed.

Lemma rstrip_idem s : Py.rstrip (Py.rstrip s) = Py.rstrip s.
Proof.
  induction s as [|c r IH]; [reflexivity|].
  cbn [Py.rstrip]. destruct (Py.is_space c && Py.is_empty (Py.rstrip r)) eqn:E.
  - reflexivity.
  - cbn [Py.rstrip]. rewrite IH, E. reflexivity.
Qed.

Lemma strip_trimmed s : trimmed (Py.strip s) = true.
Proof.
  unfold trimmed, Py.strip. rewrite rstrip_last, andb_true_r.
  apply rstrip_first, lstrip_first.
Qed.

Lemma strip_idem s : Py.strip (Py.strip s) = Py.strip s.
Proof.
  unfold Py.strip. rewrite (lstrip_id (Py.rstrip (Py.lstrip s))).
  - apply rstrip_idem.
  - apply rstrip_first, lstrip_first.
Qed.

(** A character map that keeps whitespace apart commutes with trimming. *)
Section MapStrip.
Variable f : N -> N.
Hypothesis f_space : forall c, Py.is_space (f c) = Py.is_space c.

Lemma lstrip_map s : Py.lstrip (Py.map_str f s) = Py.map_str f (Py.lstrip s).
Proof.
  induction s as [|c r IH]; simpl; [reflexivity|].
  rewrite f_space. destruct (Py.is_space c); [exact IH | reflexivity].
Qed.

Lemma rstrip_map s : Py.rstrip (Py.map_str f s) = Py.map_str f (Py.rstrip s).
Proof.
  induction s as [|c r IH]; simpl; [reflexivity|].
  rewrite f_space, IH, is_empty_map.
  destruct (Py.is_space c && Py.is_empty (Py.rstrip r)); reflexivity.
Qed.

Lemma strip_map s : Py.strip (Py.map_str f s) = Py.map_str f (Py.strip s).
Proof. unfold Py.strip. now rewrite lstrip_map, rstrip_map. Qed.

Lemma first_char_map s : not_space (first_char (Py.map_str f s)) = not_space (first_char s).
Proof. destruct s; simpl; [reflexivity | now rewrite f_space]. Qed.

Lemma last_char_map s : not_space (last_char (Py.map_str f s)) = not_space (last_char s).
Proof.
  induction s as [|c r IH]; [reflexivity|].
  destruct r as [|c' r']; [simpl; now rewrite f_space | exact IH].
Qed.
End MapStrip.

(** ** Upper case *)

Lemma upper_app s t : Py.upper (s ++ t) = Py.upper s ++ Py.upper t.
Proof.
  induction s as [|c r IH]; [reflexivity|].
  cbn [app Py.upper]. now rewrite IH, app_assoc.
Qed.

Lemma upper_idem s : Py.upper (Py.upper s) = Py.upper s.
Proof.
  induction s as [|c r IH]; [reflexivity|].
  cbn [Py.upper]. now rewrite upper_app, toupper_idem, IH.
Qed.

Lemma is_empty_upper s : Py.is_empty (Py.upper s) = Py.is_empty s.
Proof.
  destruct s as [|c r]; [reflexivity|]. cbn [Py.upper Py.is_empty].
  destruct (Py.is_space c) eqn:E.
  - now rewrite (toupper_space c E).
  - destruct (toupper_not_space c E) as [He _].
    destruct (Unicode.toupper c); [discriminate He | reflexivity].
Qed.

(** Characters that are not whitespace in front of a text stay in place
    when the text is trimmed. *)
Lemma lstrip_solid l t :
  Py.is_empty l = false ->
  Py.all_str (fun d => negb (Py.is_space d)) l = true ->
  Py.lstrip (l ++ t) = l ++ t.
Proof.
  destruct l as [|d l']; [discriminate|]. intros _ Hall.
  cbn [Py.all_str] in Hall. apply andb_true_iff in Hall as [Hd _].
  apply negb_true_iff in Hd. cbn [app Py.lstrip]. now rewrite Hd.
Qed.

Lemma rstrip_solid l t :
  Py.all_str (fun d => negb (Py.is_space d)) l = true ->
  Py.rstrip (l ++ t) = l ++ Py.rstrip t.
Proof.
  induction l as [|d l' IH]; [reflexivity|]. cbn [Py.all_str].
  intros [Hd Hl]%andb_true_iff. apply negb_true_iff in Hd.
  cbn [app Py.rstrip]. now rewrite Hd, (IH Hl).
Qed.

Lemma lstrip_upper s : Py.lstrip (Py.upper s) = Py.upper (Py.lstrip s).
Proof.
  induction s as [|c r IH]; [reflexivity|]. cbn [Py.upper Py.lstrip].
  destruct (Py.is_space c) eqn:E.
  - rewrite (toupper_space c E). cbn [app Py.lstrip]. now rewrite E.
  - destruct (toupper_not_space c E) as [He Hall].
    cbn [Py.upper]. now apply lstrip_solid.
Qed.

Lemma rstrip_upper s : Py.rstrip (Py.upper s) = Py.upper (Py.rstrip s).
Proof.
  induction s as [|c r IH]; [reflexivity|]. cbn [Py.upper Py.rstrip].
  destruct (Py.is_space c) eqn:E.
  - rewrite (toupper_space c E). cbn [app Py.rstrip].
    rewrite E, IH, is_empty_upper. cbn [andb].
    destruct (Py.is_empty (Py.rstrip r)); [reflexivity|].
    cbn [Py.upper]. now rewrite (toupper_space c E).
  - destruct (toupper_not_space c E) as [_ Hall].
    cbn [andb Py.upper]. now rewrite (rstrip_solid _ _ Hall), IH.
Qed.

Lemma strip_upper s : Py.strip (Py.upper s) = Py.upper (Py.strip s).
Proof. unfold Py.strip. now rewrite lstrip_upper, rstrip_upper. Qed.

Lemma last_char_app l t :
  Py.is_empty t = false -> last_char (l ++ t) = last_char t.
Proof.
  intros Ht. induction l as [|d l' IH]; [reflexivity|].
  cbn [app last_char]. destruct (l' ++ t) eqn:E; [|exact IH].
  destruct l'; [|discriminate E]. cbn in E. subst t. discriminate Ht.
Qed.

Lemma last_char_solid l :
  Py.is_empty l = false ->
  Py.all_str (fun d => negb (Py.is_space d)) l = true ->
  not_space (last_char l) = true.
Proof.
  induction l as [|d l' IH]; [discriminate|]. intros _. cbn [Py.all_str].
  intros [Hd Hl]%andb_true_iff.
  destruct l' as [|d' l'']; [exact Hd|]. now apply IH.
Qed.

Lemma trimmed_upper s : trimmed s = true -> trimmed (Py.upper s) = true.
Proof.
  unfold trimmed. intros [Hf Hl]%andb_true_iff. apply andb_true_iff. split.
  - destruct s as [|c r]; [reflexivity|]. cbn [first_char not_space] in Hf.
    apply negb_true_iff in Hf. destruct (toupper_not_space c Hf) as [He Hall].
    cbn [Py.upper]. destruct (Unicode.toupper c) as [|d l]; [discriminate He|].
    cbn [Py.all_str] in Hall. apply andb_true_iff in Hall as [Hd _]. exact Hd.
  - clear Hf. induction s as [|c r IH]; [reflexivity|].
    cbn [Py.upper]. destruct r as [|c' r'].
    + cbn [last_char not_space] in Hl. apply negb_true_iff in Hl.
      destruct (toupper_not_space c Hl) as [He Hall].
      cbn [Py.upper]. rewrite app_nil_r. now apply last_char_solid.
    + rewrite last_char_app; [now apply IH|].
      rewrite is_empty_upper. reflexivity.
Qed.

Lemma all_str_app p s t :
  Py.all_str p s = true -> Py.all_str p t = true -> Py.all_str p (s ++ t) = true.
Proof.
  intros Hs Ht. induction s as [|c r IH]; [exact Ht|].
  cbn [Py.all_str app] in *. apply andb_true_iff in Hs as [Hc Hr].
  now rewrite Hc, IH.
Qed.

Lemma upper_upper_cased s : upper_cased (Py.upper s) = true.
Proof.
  induction s as [|c r IH]; [reflexivity|]. cbn [Py.upper].
  apply all_str_app; [apply toupper_upper_cased | exact IH].
Qed.

(** ** Name normaliser *)

(** C9 (as amended). For every input text, [format_name_upper] is
    idempotent (applying it to its own result gives that result again), its
    result has no whitespace at either end, and the result is upper-cased:
    every character of it is its own upper-case form, so that upper-casing
    the result changes nothing. *)
Theorem format_name_upper_idempotent (nome : str) :
  let r := format_name_upper (Some nome) in
  format_name_upper (Some r) = r
  /\ trimmed r = true
  /\ upper_cased r = true
  /\ Py.upper r = r.
Proof.
  unfold format_name_upper. cbn [Py.or_empty]. repeat split.
  - now rewrite strip_upper, strip_idem, upper_idem.
  - apply trimmed_upper, strip_trimmed.
  - apply upper_upper_cased.
  - apply upper_idem.
Qed.

(** The result is not always upper case: the ordinal indicator of [Mª] is a
    lower-case letter that has no upper-case form, and it stays. *)
Lemma format_name_upper_ordinal :
  format_name_upper (Some "Mª") = "Mª"
  /\ upper_case (format_name_upper (Some "Mª")) = false
  /\ Unicode.islower (Py.ord "ª") = true.
Proof. vm_compute. repeat split; reflexivity. Qed.

(** ** Phone normaliser *)

Lemma digits_lstrip s : Py.sub_nondigits (Py.lstrip s) = Py.sub_nondigits s.
Proof.
  unfold Py.sub_nondigits. induction s as [|c r IH]; simpl; [reflexivity|].
  destruct (Py.is_space c) eqn:E; [|reflexivity].
  now rewrite (space_not_digit _ E).
Qed.

Lemma digits_rstrip s : Py.sub_nondigits (Py.rstrip s) = Py.sub_nondigits s.
Proof.
  unfold Py.sub_nondigits. induction s as [|c r IH]; [reflexivity|].
  cbn [Py.rstrip]. destruct (Py.is_space c) eqn:E; cbn [andb].
  - destruct (Py.is_empty (Py.rstrip r)) eqn:Er.
    + apply is_empty_true in Er. rewrite Er in IH. simpl in *.
      now rewrite (space_not_digit _ E).
    + simpl. now rewrite IH.
  - simpl. now rewrite IH.
Qed.

Lemma digits_strip s : Py.sub_nondigits (Py.strip s) = Py.sub_nondigits s.
Proof. unfold Py.strip. now rewrite digits_rstrip, digits_lstrip. Qed.

Lemma all_filter p s : Py.all_str p (Py.filter_str p s) = true.
Proof.
  induction s as [|c r IH]; simpl; [reflexivity|].
  destruct (p c) eqn:E; [simpl; now rewrite E | exact IH].
Qed.

Lemma filter_all p s : Py.all_str p s = true -> Py.filter_str p s = s.
Proof.
  induction s as [|c r IH]; simpl; [reflexivity|].
  intros [Hc Hr]%andb_true_iff. rewrite Hc. f_equal. auto.
Qed.

Lemma filter_app p s t :
  Py.filter_str p (s ++ t) = Py.filter_str p s ++ Py.filter_str p t.
Proof.
  induction s as [|c r IH]; simpl; [reflexivity|].
  destruct (p c); simpl; now rewrite IH.
Qed.

Lemma all_drop p n s : Py.all_str p s = true -> Py.all_str p (Py.drop n s) = true.
Proof.
  revert s. induction n as [|n IH]; intros [|c r]; simpl; auto.
  intros [_ Hr]%andb_true_iff. auto.
Qed.

Lemma all_take p n s : Py.all_str p s = true -> Py.all_str p (Py.take n s) = true.
Proof.
  revert s. induction n as [|n IH]; intros [|c r]; simpl; auto.
  intros [Hc Hr]%andb_true_iff. rewrite Hc. simpl. auto.
Qed.

Lemma take_drop n s : Py.take n s ++ Py.drop n s = s.
Proof.
  revert s. induction n as [|n IH]; intros [|c r]; try reflexivity.
  cbn [Py.take Py.drop app]. now rewrite IH.
Qed.

Lemma phone_digits_all telefone : Py.all_str Py.is_digit (phone_digits telefone) = true.
Proof.
  unfold phone_digits, Py.sub_nondigits.
  destruct (_ && _); [apply all_drop|]; apply all_filter.
Qed.


Lemma local_format_digits d :
  Py.all_str Py.is_digit d = true ->
  Py.sub_nondigits (local_format d) = "92" ++ Py.last 9 d.
Proof.
  intros Hall. unfold local_format, Py.sub_nondigits.
  assert (HL : Py.all_str Py.is_digit (Py.last 9 d) = true)
    by (unfold Py.last; now apply all_drop).
  rewrite !filter_app.
  rewrite (filter_all _ _ (all_take _ 5 _ HL)), (filter_all _ _ (all_drop _ 5 _ HL)).
  replace (Py.filter_str Py.is_digit "(92) ") with ("92" : str)
    by (vm_compute; reflexivity).
  replace (Py.filter_str Py.is_digit "-") with ("" : str)
    by (vm_compute; reflexivity).
  cbn [app]. now rewrite take_drop.
Qed.

(** [format_phone_number] in terms of the digit content of its input. *)
Lemma format_phone_number_digits telefone :
  format_phone_number (Some telefone) =
    if (length (phone_digits telefone) =? 11)%nat
    then Ok (local_format (phone_digits telefone))
    else if Py.is_empty (Py.strip telefone)
         then Raise (ValueError "Telefone é obrigatório.")
         else if Py.is_empty (Py.sub_nondigits telefone)
              then Raise (ValueError "Telefone deve conter apenas números válidos.")
              else Raise (ValueError "Telefone deve conter 11 dígitos (incluindo DDD).").
Proof.
  unfold format_phone_number, phone_digits, local_format. cbn [Py.or_empty].
  rewrite digits_strip.
  destruct (Py.is_empty (Py.strip telefone)) eqn:E1.
  - apply is_empty_true in E1.
    assert (E : Py.sub_nondigits telefone = "") by now rewrite <- digits_strip, E1.
    rewrite E. reflexivity.
  - destruct (Py.is_empty (Py.sub_nondigits telefone)) eqn:E2.
    + apply is_empty_true in E2. rewrite E2. reflexivity.
    + destruct (_ =? 11)%nat; reflexivity.
Qed.




(** ** Area resolver *)

Lemma area_of_row_spec header area_idx row :
  _find_col_indexes header area_candidates = Some area_idx ->
  area_of_row area_idx (_find_col_indexes header aba_candidates)
    (_find_col_indexes header ativa_candidates)
    (_find_col_indexes header max_candidates) row
  = if row_named header row && row_active header row
    then Some (entry_of_row header row) else None.
Proof.
  intros Ha.
  unfold area_of_row, row_named, row_active, entry_of_row,
    row_destination, row_limit, row_active_field, row_area.
  rewrite Ha.
  set (area := Py.strip (cell_or row (Some area_idx) "")).
  assert (Hself : Py.strip area = area) by apply strip_idem.
  destruct (Py.is_empty area) eqn:Ee; [reflexivity|]. cbn [negb andb].
  destruct (_truthy _); [|reflexivity].
  f_equal. f_equal.
  - unfold cell_or.
    destruct (_find_col_indexes header aba_candidates) as [j|];
      [destruct (row !! j)|]; rewrite ?Hself, ?Ee; reflexivity.
  - destruct (_find_col_indexes header max_candidates) as [k|];
      [destruct (row !! k)|]; reflexivity.
Qed.

Lemma areas_loop_spec header area_idx data acc :
  _find_col_indexes header area_candidates = Some area_idx ->
  areas_loop area_idx (_find_col_indexes header aba_candidates)
    (_find_col_indexes header ativa_candidates)
    (_find_col_indexes header max_candidates) data acc
  = acc ++ map (entry_of_row header)
             (List.filter (fun row => row_named header row && row_active header row) data).
Proof.
  intros Ha. revert acc.
  induction data as [|row rest IH]; intros acc; cbn [areas_loop List.filter map].
  - now rewrite app_nil_r.
  - rewrite (area_of_row_spec _ _ _ Ha).
    destruct (row_named header row && row_active header row).
    + rewrite IH, <- app_assoc. reflexivity.
    + apply IH.
Qed.

Section AreaResolver.
Context {S : Type} `{Env S}.

(** [read_active_areas] issues one read and computes on its answer. *)
Lemma read_active_areas_run (s : S) :
  read_active_areas s =
    match values_get (NOMES_SHEET ++ "!A:Z") s with
    | (Some v, s') =>
        (active_areas_of_rows (match v with Some rows => rows | None => [] end),
         s', [EvValuesGet (NOMES_SHEET ++ "!A:Z") (Some v)])
    | (None, s') =>
        (Raise (RuntimeError ("Erro ao ler a aba '" ++ NOMES_SHEET ++ "'")),
         s', [EvValuesGet (NOMES_SHEET ++ "!A:Z") None])
    end.
Proof.
  unfold read_active_areas, bind, except_http, call_values_get, lift_call.
  destruct (values_get _ s) as [[v|] s']; [|reflexivity].
  destruct (active_areas_of_rows _); reflexivity.
Qed.

(** C8 (as amended). For every configuration table with a recognisable
    area-name column, [read_active_areas] returns, in table order, exactly
    the rows that have a non-blank area name and whose active field is in
    the affirmative vocabulary (a missing active column or cell counts as
    active, a missing or blank destination is the area's own name); a table
    whose header has no area-name column raises the Configuration error,
    and a table without rows gives the empty list.  For the rows
    [Area=A, Ativa=Sim], [Area=B, Ativa=Nao], [Area=C, Ativa=1] the areas
    returned are A and C. *)
Theorem read_active_areas_spec (s s' : S) (table : list (list str)) :
  values_get (NOMES_SHEET ++ "!A:Z") s = (Some (Some table), s') ->
  result_of (read_active_areas s) =
    match table with
    | [] => Ok []
    | header :: data =>
        match _find_col_indexes header area_candidates with
        | Some _ =>
            Ok (map (entry_of_row header)
                  (List.filter
                     (fun row => row_named header row && row_active header row)
                     data))
        | None =>
            Raise (RuntimeError
              "Coluna 'Área' (ou equivalente) não encontrada na aba 'Nomes'.")
        end
    end
  /\ (ai_area <$> [ entry_of_row ["Área"; "Ativa"] ["A"; "Sim"];
                    entry_of_row ["Área"; "Ativa"] ["C"; "1"] ] = ["A"; "C"]
      /\ List.filter (fun row => row_named ["Área"; "Ativa"] row
                                 && row_active ["Área"; "Ativa"] row)
           [ ["A"; "Sim"]; ["B"; "Não"]; ["C"; "1"] ]
         = [ ["A"; "Sim"]; ["C"; "1"] ]).
Proof.
  intros Hget. split; [|split; vm_compute; reflexivity].
  rewrite read_active_areas_run, Hget. unfold result_of. cbn [fst].
  destruct table as [|header data]; [reflexivity|].
  unfold active_areas_of_rows.
  destruct (_find_col_indexes header area_candidates) as [area_idx|] eqn:Ha;
    [|reflexivity].
  now rewrite (areas_loop_spec _ _ _ _ Ha).
Qed.

End AreaResolver.

Lemma read_active_areas_spec_witness :
  result_of (read_active_areas
               (Sim.config_only
                  [ ["Área"; "Ativa"]; ["A"; "Sim"]; ["B"; "Não"]; ["C"; "1"] ]))
  = Ok [ mk_area_info "A" "A" true None; mk_area_info "C" "C" true None ].
Proof.
  set (table := [ ["Área"; "Ativa"]; ["A"; "Sim"]; ["B"; "Não"]; ["C"; "1"] ]).
  pose proof (read_active_areas_spec (Sim.config_only table) (Sim.config_only table)
                table eq_refl) as [Hrun _].
  rewrite Hrun. vm_compute. reflexivity.
Defined.

(** The claim without the restriction to named rows fails: an empty row of
    the table has no active cell, so it counts as active, and it is not
    returned. *)
Lemma read_active_areas_blank_row :
  let header := ["Área"; "Ativa"] in
  let data := [ ["A"; "Sim"]; []; ["C"; "1"] ] in
  Forall (fun row => row_active header row = true) data
  /\ result_of (read_active_areas (Sim.config_only (header :: data)))
     <> Ok (map (entry_of_row header) (List.filter (row_active header) data)).
Proof.
  split.
  - repeat constructor.
  - vm_compute. intros E. discriminate E.
Qed.

(** ** Ticket number assignment *)

Lemma row_position_search rng :
  row_position rng = Py.int_of_digits <$> search_row rng.
Proof. reflexivity. Qed.

Section AssignmentFacts.
Context {S : Type} `{Env S}.

Lemma ensure_area_sheet_events title (s : S) :
  Forall (is_ensure_event title) (trace_of (ensure_area_sheet title s)).
Proof.
  unfold ensure_area_sheet, bind, call_spreadsheets_get, call_add_sheet,
    call_values_get, call_values_update, lift_call, ret, trace_of.
  destruct (spreadsheets_get s) as [[meta|] s1]; cbn [snd];
    [|repeat constructor].
  destruct (_sheet_exists meta title) as [[] ?]; cbn [negb].
  - destruct (values_get _ s1) as [[rng|] s2]; [|repeat constructor].
    destruct (header_blank _).
    + destruct (values_update _ _ s2) as [[[]|] s3]; repeat constructor.
    + repeat constructor.
  - destruct (add_sheet title s1) as [[[]|] s2]; [|repeat constructor].
    destruct (values_update _ _ s2) as [[[]|] s3]; repeat constructor.
Qed.

(** The run of [append_ticket_and_get_number], call by call. *)
Lemma append_ticket_run title row (s : S) :
  append_ticket_and_get_number title row s =
    match ensure_area_sheet title s with
    | (Raise e, s1, t1) => (Raise e, s1, t1)
    | (Ok _, s1, t1) =>
        let rng := title ++ "!A1" in
        match values_append rng [row] s1 with
        | (None, s2) => (Raise HttpError, s2, t1 ++ [EvValuesAppend rng [row] None])
        | (Some ack, s2) =>
            match search_row (updated_range_of ack) with
            | None =>
                (Raise (RuntimeError
                   ("Não foi possível detectar a linha inserida: "
                      ++ updated_range_of ack)),
                 s2, t1 ++ [EvValuesAppend rng [row] (Some ack)])
            | Some m =>
                let rowpos := Py.int_of_digits m in
                let n := Z.max 1 (rowpos - 1) in
                let cell := title ++ "!A" ++ Py.str_of_int rowpos in
                match values_update cell [[Py.str_of_int n]] s2 with
                | (r, s3) =>
                    (match r with Some _ => Ok n | None => Raise HttpError end,
                     s3,
                     t1 ++ [EvValuesAppend rng [row] (Some ack);
                            EvValuesUpdate cell [[Py.str_of_int n]] r])
                end
            end
        end
    end.
Proof.
  unfold append_ticket_and_get_number, bind.
  destruct (ensure_area_sheet title s) as [[[[]|e] s1] t1]; [|reflexivity].
  unfold call_values_append, call_values_update, lift_call, raise, ret.
  destruct (values_append _ _ s1) as [[ack|] s2]; [|reflexivity].
  destruct (search_row _) as [m|]; [|reflexivity].
  destruct (values_update _ _ s2) as [[[]|] s3]; reflexivity.
Qed.

(** Every run is the calls of [ensure_area_sheet] followed, when those
    succeeded, by one of the three courses of [assignment]. *)
Lemma append_ticket_course title row (s : S) :
  let o := append_ticket_and_get_number title row s in
  let e := ensure_area_sheet title s in
  (exists err, result_of e = Raise err /\ o = (Raise err, state_of e, trace_of e))
  \/ (result_of e = Ok tt
      /\ exists tail, trace_of o = trace_of e ++ tail
                      /\ assignment title row tail (result_of o)).
Proof.
  cbn zeta. rewrite append_ticket_run.
  destruct (ensure_area_sheet title s) as [[[[]|e] s1] t1]; [right|left; eauto].
  split; [reflexivity|]. cbn zeta.
  destruct (values_append _ _ s1) as [[ack|] s2].
  - destruct (search_row (updated_range_of ack)) as [m|] eqn:Em.
    + destruct (values_update _ _ s2) as [r s3].
      eexists. split; [reflexivity|].
      apply (assign_numbered title row ack (Py.int_of_digits m) r).
      now rewrite row_position_search, Em.
    + eexists. split; [reflexivity|].
      apply assign_unparsed. now rewrite row_position_search, Em.
  - eexists. split; [reflexivity|]. apply assign_refused.
Qed.

End AssignmentFacts.

Section AssignmentClaims.
Context {S : Type} `{Env S}.

Lemma ensure_no_append title (s : S) :
  List.filter is_append (trace_of (ensure_area_sheet title s)) = [].
Proof.
  pose proof (ensure_area_sheet_events title s) as Hev.
  induction Hev as [|ev t Hev _ IH]; [reflexivity|].
  destruct ev; cbn [List.filter is_append]; try exact IH. destruct Hev.
Qed.

(** C1 (as amended). For every append acknowledgement from which a row
    position is parsed, [append_ticket_and_get_number] returns the larger
    of 1 and that row position minus one, which is the row position minus
    one for every position from 2 on (the header is row 1, the first data
    row is ticket 1), and it writes that number as text into column A of
    the acknowledged row, right after the append. *)
Theorem append_ticket_number title row (s s1 s2 s3 : S) t1 ack rowpos :
  ensure_area_sheet title s = (Ok tt, s1, t1) ->
  values_append (title ++ "!A1") [row] s1 = (Some ack, s2) ->
  row_position (updated_range_of ack) = Some rowpos ->
  values_update (title ++ "!A" ++ Py.str_of_int rowpos)
    [[Py.str_of_int (Z.max 1 (rowpos - 1))]] s2 = (Some tt, s3) ->
  append_ticket_and_get_number title row s =
    (Ok (Z.max 1 (rowpos - 1)), s3,
     t1 ++ [EvValuesAppend (title ++ "!A1") [row] (Some ack);
            EvValuesUpdate (title ++ "!A" ++ Py.str_of_int rowpos)
              [[Py.str_of_int (Z.max 1 (rowpos - 1))]] (Some tt)])
  /\ (2 <= rowpos -> Z.max 1 (rowpos - 1) = rowpos - 1).
Proof.
  intros He Ha Hp Hu. split; [|lia].
  rewrite append_ticket_run, He. cbn zeta. rewrite Ha.
  rewrite row_position_search in Hp.
  destruct (search_row (updated_range_of ack)) as [m|]; [|discriminate Hp].
  injection Hp as <-. now rewrite Hu.
Qed.

(** C10. For every append acknowledgement from which a row position is
    parsed, the positions 0 and 1 included, the ticket number that
    [append_ticket_and_get_number] returns is at least 1. *)
Theorem append_ticket_at_least_one title row (s s1 s2 s3 : S) t1 ack rowpos :
  ensure_area_sheet title s = (Ok tt, s1, t1) ->
  values_append (title ++ "!A1") [row] s1 = (Some ack, s2) ->
  row_position (updated_range_of ack) = Some rowpos ->
  values_update (title ++ "!A" ++ Py.str_of_int rowpos)
    [[Py.str_of_int (Z.max 1 (rowpos - 1))]] s2 = (Some tt, s3) ->
  exists n, result_of (append_ticket_and_get_number title row s) = Ok n
            /\ 1 <= n
            /\ (rowpos <= 1 -> n = 1).
Proof.
  intros He Ha Hp Hu. exists (Z.max 1 (rowpos - 1)).
  rewrite append_ticket_run, He. cbn zeta. rewrite Ha.
  rewrite row_position_search in Hp.
  destruct (search_row (updated_range_of ack)) as [m|]; [|discriminate Hp].
  injection Hp as <-. rewrite Hu. unfold result_of. cbn [fst].
  repeat split; lia.
Qed.

(** C6. For every append acknowledgement whose range gives no row position,
    [append_ticket_and_get_number] raises the [RuntimeError] that reports
    the undetected row (a Persistence error); the append is the last call
    it issues and the only append (no retry), and no cell write other than
    the header row of [ensure_area_sheet] is issued (no number is written). *)
Theorem append_ticket_unparsed title row (s s1 s2 : S) t1 ack :
  ensure_area_sheet title s = (Ok tt, s1, t1) ->
  values_append (title ++ "!A1") [row] s1 = (Some ack, s2) ->
  row_position (updated_range_of ack) = None ->
  let o := append_ticket_and_get_number title row s in
  result_of o =
    Raise (RuntimeError
      ("Não foi possível detectar a linha inserida: " ++ updated_range_of ack))
  /\ state_of o = s2
  /\ trace_of o = t1 ++ [EvValuesAppend (title ++ "!A1") [row] (Some ack)]
  /\ length (List.filter is_append (trace_of o)) = 1%nat
  /\ Forall (fun ev => match ev with
                       | EvValuesUpdate rng values _ =>
                           rng = _header_range title /\ values = [HEADERS]
                       | _ => True
                       end) (trace_of o).
Proof.
  intros He Ha Hp. cbn zeta.
  pose proof (ensure_area_sheet_events title s) as Hev.
  pose proof (ensure_no_append title s) as Hno.
  rewrite He in Hev, Hno. unfold trace_of in Hev, Hno. cbn [snd] in Hev, Hno.
  rewrite append_ticket_run, He. cbn zeta. rewrite Ha.
  rewrite row_position_search in Hp.
  destruct (search_row (updated_range_of ack)) as [m|]; [discriminate Hp|].
  unfold result_of, state_of, trace_of. cbn [fst snd].
  repeat split.
  - rewrite List.filter_app, Hno. reflexivity.
  - apply Forall_app. split; [|repeat constructor].
    eapply Forall_impl; [exact Hev|]. intros [] Hx; auto.
Qed.

(** C2 (as amended). In every execution of [append_ticket_and_get_number]
    the row is appended first, as the caller passes it, and the ticket
    number is determined afterwards, from the acknowledgement of that
    append alone: the calls before the append only read, create the sheet
    or write the header row; the only number written is the one derived
    from the acknowledged row position, after the append; and no number is
    written or returned when the append is refused or gives no row
    position. *)
Theorem ticket_number_from_acknowledgement title row (s : S) :
  let o := append_ticket_and_get_number title row s in
  exists t0 tail,
    trace_of o = t0 ++ tail
    /\ Forall (is_ensure_event title) t0
    /\ ((tail = [] /\ exists err, result_of o = Raise err)
        \/ assignment title row tail (result_of o)).
Proof.
  cbn zeta. pose proof (ensure_area_sheet_events title s) as Hev.
  destruct (append_ticket_course title row s) as [(err & He & Ho)|(He & tail & Ht & Ha)].
  - exists (trace_of (ensure_area_sheet title s)), [].
    rewrite Ho. unfold trace_of at 1. cbn [snd]. rewrite app_nil_r.
    repeat split; [exact Hev|]. left. split; [reflexivity|]. now exists err.
  - exists (trace_of (ensure_area_sheet title s)), tail. auto.
Qed.

End AssignmentClaims.

(** *** Runs on the reference store *)

(** Two appends in a row to a fresh sheet are numbered 1 and 2. *)
Example sim_sequential_tickets :
  let o1 := append_ticket_and_get_number "Palco" sample_row (Sim.config_only []) in
  let o2 := append_ticket_and_get_number "Palco" sample_row (state_of o1) in
  result_of o1 = Ok 1 /\ result_of o2 = Ok 2.
Proof. vm_compute. split; reflexivity. Qed.

Lemma append_ticket_number_witness :
  result_of (append_ticket_and_get_number "Palco" sample_row (Sim.config_only []))
  = Ok 1
  /\ Sim.lookup_sheet "Palco"
       (Sim.sheets (state_of (append_ticket_and_get_number "Palco" sample_row
                                (Sim.config_only []))))
     = Some [ HEADERS;
              [ "1"; "ANA LIMA"; "(92) 98123-1234"; "@ana"; "ana@example.com";
                "Centro"; "01/03/2025 09:30:00"; "" ] ].
Proof.
  edestruct (append_ticket_number "Palco" sample_row (Sim.config_only []))
    as [Hrun _];
    [ vm_compute; reflexivity | vm_compute; reflexivity
    | vm_compute; reflexivity | vm_compute; reflexivity | ].
  rewrite Hrun. split; vm_compute; reflexivity.
Defined.

(** An acknowledged row position of 1 does not give the number 0: the claim
    without the lower bound fails there. *)
Lemma append_ticket_row_one :
  let w := Sim.with_acks (Sim.config_only []) (Sim.AckFixed "Palco!A1:H1") in
  row_position "Palco!A1:H1" = Some 1
  /\ result_of (append_ticket_and_get_number "Palco" sample_row w) = Ok 1
  /\ result_of (append_ticket_and_get_number "Palco" sample_row w) <> Ok (1 - 1).
Proof. vm_compute. repeat split; congruence. Qed.

Lemma append_ticket_at_least_one_witness :
  exists n,
    result_of (append_ticket_and_get_number "Palco" sample_row
                 (Sim.with_acks (Sim.config_only []) (Sim.AckFixed "Palco!A1:H1")))
    = Ok n /\ 1 <= n /\ (1 <= 1 -> n = 1).
Proof.
  eapply (append_ticket_at_least_one "Palco" sample_row
            (Sim.with_acks (Sim.config_only []) (Sim.AckFixed "Palco!A1:H1")));
    [ vm_compute; reflexivity | vm_compute; reflexivity
    | vm_compute; reflexivity | vm_compute; reflexivity ].
Defined.

Lemma append_ticket_unparsed_witness :
  let w := Sim.with_acks (Sim.config_only []) Sim.AckMissing in
  let o := append_ticket_and_get_number "Palco" sample_row w in
  result_of o
  = Raise (RuntimeError "Não foi possível detectar a linha inserida: ")
  /\ length (List.filter is_append (trace_of o)) = 1%nat.
Proof.
  cbn zeta.
  edestruct (append_ticket_unparsed "Palco" sample_row
               (Sim.with_acks (Sim.config_only []) Sim.AckMissing))
    as (Hr & _ & _ & Hn & _);
    [ vm_compute; reflexivity | vm_compute; reflexivity | vm_compute; reflexivity | ].
  split; [exact Hr | exact Hn].
Defined.

(** The row is in the store although no ticket number was determined for
    it: the append comes before the number, not after it. *)
Lemma append_ticket_row_without_number :
  let w := Sim.with_acks (Sim.config_only []) Sim.AckMissing in
  let o := append_ticket_and_get_number "Palco" sample_row w in
  (exists e, result_of o = Raise e)
  /\ Sim.lookup_sheet "Palco" (Sim.sheets (state_of o))
     = Some [HEADERS; sample_row]
  /\ nth_error sample_row 0 = Some "".
Proof.
  cbn zeta. split; [eexists; vm_compute; reflexivity|].
  split; vm_compute; reflexivity.
Qed.


(** ** Document renderer *)

Lemma format_phone_number_raises telefone e :
  format_phone_number telefone = Raise e -> is_validation e = true.
Proof.
  unfold format_phone_number.
  repeat match goal with
         | |- context [if ?b then _ else _] => destruct b
         end; intros E; inversion E; reflexivity.
Qed.

Section RendererClaims.
Context {S : Type} `{Env S}.

(** [_render_ticket_page] by its two steps. *)
Lemma render_ticket_page_run (pdf : pdf_document) (data : ticket_data) tel :
  format_phone_number (dict_get data "telefone" "") = Ok tel ->
  _render_ticket_page pdf data =
    match draw_page (ticket_page data tel) with
    | Some e => Raise e
    | None => Ok (pdf ++ [ticket_page data tel])
    end.
Proof. intros Htel. unfold _render_ticket_page. now rewrite Htel. Qed.

(** C5 (as amended). Rendering a ticket page does not fail because the
    neighbourhood, the timestamp or the name are missing from the record
    (the social handle and the e-mail are not read at all): on the page a
    missing neighbourhood, timestamp or name is the empty string.  It fails
    in two cases only.  A record whose phone is missing or does not
    normalise is refused with the Validation error of
    [format_phone_number].  And when the phone normalises, the page is
    added unless one of the drawing libraries raises on its content, in
    which case that exception is raised. *)
Theorem render_ticket_page_missing_fields (pdf : pdf_document) (data : ticket_data) :
  (forall tel, format_phone_number (dict_get data "telefone" "") = Ok tel ->
     let pg := ticket_page data tel in
     pg_lines pg !! 1%nat = Some ("Telefone: " ++ tel)
     /\ (data !! "nome" = None -> pg_lines pg !! 0%nat = Some "Nome: ")
     /\ (data !! "bairro" = None -> pg_lines pg !! 2%nat = Some "Bairro: ")
     /\ (data !! "ts_registro" = None -> pg_lines pg !! 3%nat = Some "Registro: ")
     /\ (draw_page pg = None -> _render_ticket_page pdf data = Ok (pdf ++ [pg]))
     /\ (forall e, draw_page pg = Some e -> _render_ticket_page pdf data = Raise e))
  /\ (data !! "telefone" = None ->
      _render_ticket_page pdf data = Raise (ValueError "Telefone é obrigatório."))
  /\ (forall e, format_phone_number (dict_get data "telefone" "") = Raise e ->
      _render_ticket_page pdf data = Raise e /\ is_validation e = true).
Proof.
  split; [|split].
  - intros tel Htel. cbn zeta. rewrite (render_ticket_page_run pdf data tel Htel).
    unfold ticket_page at 1 2 3 4. cbn [pg_lines].
    split; [reflexivity|].
    unfold dict_get.
    split; [intros ->; reflexivity|]. split; [intros ->; reflexivity|].
    split; [intros ->; reflexivity|].
    split; [intros ->; reflexivity | intros e ->; reflexivity].
  - intros Hno. unfold _render_ticket_page, dict_get. now rewrite Hno.
  - intros e He. unfold _render_ticket_page. rewrite He.
    split; [reflexivity | exact (format_phone_number_raises _ _ He)].
Qed.

End RendererClaims.

Lemma render_ticket_page_missing_fields_witness :
  (exists pg, _render_ticket_page (S := Sim.world) [] ticket_with_phone_only = Ok [pg]
     /\ pg_lines pg = ["Nome: "; "Telefone: (92) 98123-1234"; "Bairro: "; "Registro: "])
  /\ _render_ticket_page (S := Sim.world) [] ticket_without_phone
     = Raise (ValueError "Telefone é obrigatório.").
Proof.
  split.
  - destruct (proj1 (render_ticket_page_missing_fields (S := Sim.world) []
                       ticket_with_phone_only) "(92) 98123-1234")
      as (_ & _ & _ & _ & Hpg & _); [vm_compute; reflexivity|].
    eexists. split; [apply Hpg; vm_compute; reflexivity|].
    vm_compute. reflexivity.
  - apply (proj1 (proj2 (render_ticket_page_missing_fields (S := Sim.world) []
                           ticket_without_phone))).
    vm_compute. reflexivity.
Defined.

(** A record without a phone is not rendered: no document is produced. *)
Lemma render_without_phone_fails :
  ticket_without_phone !! "telefone" = None
  /\ generate_ticket_pdf (S := Sim.world) ticket_without_phone
     = Raise (ValueError "Telefone é obrigatório.")
  /\ generate_tickets_pdf (S := Sim.world) [ticket_without_phone]
     = Raise (ValueError "Telefone é obrigatório.").
Proof. repeat split; vm_compute; reflexivity. Qed.

(** On the reference renderer, a record with a blank number or with a
    name outside Latin-1 is not rendered either. *)
Example render_blank_number :
  _render_ticket_page (S := Sim.world) []
    (<["senha" := Some " "]> ticket_with_phone_only)
  = Raise (OtherError "IndexError").
Proof. vm_compute. reflexivity. Qed.

Example render_name_outside_latin1 :
  _render_ticket_page (S := Sim.world) []
    (<["nome" := Some "Łukasz"]> ticket_with_phone_only)
  = Raise (OtherError "FPDFUnicodeEncodingException").
Proof. vm_compute. reflexivity. Qed.

(** ** Submission orchestrator: validation *)

Section ValidationClaims.
Context {S : Type} `{Env S}.

(** [submit_tickets] up to the validation of the name and the phone. *)
Lemma submit_tickets_prefix area rest nome telefone bairro rede_social email (s : S) :
  Py.is_empty (format_name_upper nome) = true
  \/ (exists e, format_phone_number telefone = Raise e) ->
  let o := submit_tickets (area :: rest) nome telefone bairro rede_social email s in
  match build_service s with
  | (Raise e, s1) => o = (Raise e, s1, [])
  | (Ok _, s1) =>
      match read_active_areas s1 with
      | (Raise e, s2, t) => o = (Raise e, s2, t)
      | (Ok _, s2, t) =>
          exists e, o = (Raise e, s2, t) /\ is_validation e = true
      end
  end.
Proof.
  intros Hbad. cbn zeta. unfold submit_tickets, bind, _sheets_service.
  destruct (build_service s) as [[[]|e] s1]; [|reflexivity].
  destruct (read_active_areas s1) as [[[infos|e] s2] t]; [|reflexivity].
  destruct (Py.is_empty (format_name_upper nome)) eqn:En.
  - unfold raise. rewrite app_nil_r. eexists. split; reflexivity.
  - destruct Hbad as [Hn|[e He]]; [discriminate Hn|]. rewrite He.
    unfold raise. rewrite app_nil_r. exists e. split; [reflexivity|].
    exact (format_phone_number_raises _ _ He).
Qed.

Lemma read_active_areas_no_mutation (s : S) :
  Forall (fun ev => is_mutation ev = false) (trace_of (read_active_areas s)).
Proof.
  rewrite read_active_areas_run.
  destruct (values_get _ s) as [[v|] s']; repeat constructor.
Qed.

(** C7 (as amended). A call of [submit_tickets] with an empty list of
    areas raises a Validation error without issuing any call.  A call with
    a name that is blank after trimming, or a phone that fails
    normalisation, fails before any store mutation: no sheet is created,
    no row appended and no cell written.  The failure is a Validation error
    whenever the service was built and the area configuration was read;
    otherwise it is the error of that earlier step: the error of the
    construction of the service, or else the error of the read of the
    areas. *)
Theorem submit_tickets_invalid areas nome telefone bairro rede_social email (s : S) :
  areas = []
  \/ Py.is_empty (format_name_upper nome) = true
  \/ (exists e, format_phone_number telefone = Raise e) ->
  let o := submit_tickets areas nome telefone bairro rede_social email s in
  (exists e, result_of o = Raise e
     /\ (areas = [] -> is_validation e = true /\ trace_of o = [])
     /\ (forall s1 s2 infos t,
           build_service s = (Ok tt, s1) ->
           read_active_areas s1 = (Ok infos, s2, t) ->
           is_validation e = true)
     /\ (forall e0 s1,
           areas <> [] -> build_service s = (Raise e0, s1) -> e = e0)
     /\ (forall s1 e0 s2 t,
           areas <> [] -> build_service s = (Ok tt, s1) ->
           read_active_areas s1 = (Raise e0, s2, t) -> e = e0))
  /\ Forall (fun ev => is_mutation ev = false) (trace_of o).
Proof.
  intros Hbad. cbn zeta.
  destruct areas as [|area rest].
  - split; [|constructor]. eexists. split; [reflexivity|].
    split; [intros _; split; reflexivity|]. split; [reflexivity|].
    split; intros; congruence.
  - destruct Hbad as [Hnil|Hbad]; [discriminate Hnil|].
    pose proof (submit_tickets_prefix area rest nome telefone bairro
                  rede_social email s Hbad) as Hrun.
    cbn zeta in Hrun.
    destruct (build_service s) as [[[]|e] s1] eqn:Hb.
    + pose proof (read_active_areas_no_mutation s1) as Hmut.
      destruct (read_active_areas s1) as [[[infos|e] s2] t] eqn:Hr.
      * destruct Hrun as (e & -> & Hv). split; [|exact Hmut].
        exists e. split; [reflexivity|]. split; [discriminate|].
        split; [auto|]. split; [discriminate|].
        intros ? ? ? ? _ Hb' Hr'. injection Hb' as <-. rewrite Hr in Hr'.
        discriminate Hr'.
      * rewrite Hrun. split; [|exact Hmut].
        exists e. split; [reflexivity|]. split; [discriminate|].
        split; [|split; [discriminate|]].
        -- intros ? ? ? ? Hb' Hr'. injection Hb' as <-. rewrite Hr in Hr'.
           discriminate Hr'.
        -- intros ? ? ? ? _ Hb' Hr'. injection Hb' as <-. rewrite Hr in Hr'.
           now injection Hr' as <- _ _.
    + rewrite Hrun. split; [|constructor].
      exists e. split; [reflexivity|]. split; [discriminate|].
      split; [discriminate|]. split; [|discriminate].
      intros ? ? _ Hb'. now injection Hb' as <- _.
Qed.

End ValidationClaims.

Lemma submit_tickets_invalid_witness :
  let w := Sim.config_only [ ["Área"; "Ativa"]; ["Palco"; "Sim"] ] in
  let o := submit_tickets ["Palco"] (Some "   ") (Some "92981231234")
             (Some "Centro") None None w in
  result_of o = Raise (ValueError "Nome é obrigatório.")
  /\ Forall (fun ev => is_mutation ev = false) (trace_of o)
  /\ Sim.sheets (state_of o) = Sim.sheets w.
Proof.
  cbn zeta.
  destruct (submit_tickets_invalid ["Palco"] (Some "   ") (Some "92981231234")
              (Some "Centro") None None
              (Sim.config_only [ ["Área"; "Ativa"]; ["Palco"; "Sim"] ]))
    as [_ Hmut]; [right; left; vm_compute; reflexivity|].
  split; [vm_compute; reflexivity|]. split; [exact Hmut | vm_compute; reflexivity].
Defined.

(** With a blank name and a configuration table that has no area column the
    failure is the Configuration error, not a Validation error. *)
Lemma submit_tickets_blank_name_bad_table :
  let w := Sim.config_only [ ["Nome"; "Ativa"]; ["Palco"; "Sim"] ] in
  let o := submit_tickets ["Palco"] (Some "   ") (Some "92981231234")
             (Some "Centro") None None w in
  Py.is_empty (format_name_upper (Some "   ")) = true
  /\ result_of o
     = Raise (RuntimeError
         "Coluna 'Área' (ou equivalente) não encontrada na aba 'Nomes'.")
  /\ raised_validation (result_of o) = false.
Proof. repeat split; vm_compute; reflexivity. Qed.

(** ** Submission orchestrator: the batch *)

Lemma cooperative_app t1 t2 :
  cooperative (t1 ++ t2) = cooperative t1 && cooperative t2.
Proof. unfold cooperative. apply forallb_app. Qed.

Lemma appends_of_app t1 t2 : appends_of (t1 ++ t2) = appends_of t1 ++ appends_of t2.
Proof. unfold appends_of. apply omap_app. Qed.

Lemma numbers_of_app t1 t2 : numbers_of (t1 ++ t2) = numbers_of t1 ++ numbers_of t2.
Proof. unfold numbers_of. apply omap_app. Qed.

Lemma ensure_events_quiet title t :
  Forall (is_ensure_event title) t -> appends_of t = [] /\ numbers_of t = [].
Proof.
  induction 1 as [|ev t Hev _ [IH1 IH2]]; [split; reflexivity|].
  destruct ev; cbn in Hev |- *; try contradiction; auto.
Qed.

Lemma exceeded_of_cons limit issued rest :
  exceeded_of limit (issued :: rest)
  = option_list (over_limit limit issued) ++ exceeded_of limit rest.
Proof.
  unfold exceeded_of. simpl. destruct (over_limit limit issued); reflexivity.
Qed.

Section BatchFacts.
Context {S : Type} `{Env S}.

Lemma ensure_cooperative title (s : S) :
  cooperative (trace_of (ensure_area_sheet title s)) = true ->
  result_of (ensure_area_sheet title s) = Ok tt.
Proof.
  unfold ensure_area_sheet, bind, call_spreadsheets_get, call_add_sheet,
    call_values_get, call_values_update, lift_call, ret, trace_of, result_of.
  destruct (spreadsheets_get s) as [[meta|] s1]; cbn [fst snd];
    [|discriminate].
  destruct (_sheet_exists meta title) as [[] ?]; cbn [negb].
  - destruct (values_get _ s1) as [[rng|] s2]; [|discriminate].
    destruct (header_blank _).
    + destruct (values_update _ _ s2) as [[[]|] s3]; [reflexivity|discriminate].
    + reflexivity.
  - destruct (add_sheet title s1) as [[[]|] s2]; [|discriminate].
    destruct (values_update _ _ s2) as [[[]|] s3]; [reflexivity|discriminate].
Qed.

(** A cooperative run of [append_ticket_and_get_number] returns the number
    of its one append. *)
Lemma append_ticket_cooperative title row (s : S) :
  let o := append_ticket_and_get_number title row s in
  cooperative (trace_of o) = true ->
  exists n, result_of o = Ok n
            /\ appends_of (trace_of o) = [(title ++ "!A1", [row])]
            /\ numbers_of (trace_of o) = [n].
Proof.
  cbn zeta. intros Hc.
  pose proof (ensure_area_sheet_events title s) as Hev.
  apply ensure_events_quiet in Hev as [Hq1 Hq2].
  destruct (append_ticket_course title row s)
    as [(err & He & Ho)|(He & tail & Ht & Ha)].
  - rewrite Ho in Hc. unfold trace_of at 1 in Hc. cbn [snd] in Hc.
    apply ensure_cooperative in Hc. congruence.
  - rewrite Ht, cooperative_app in Hc. apply andb_true_iff in Hc as [_ Hc].
    rewrite Ht, appends_of_app, numbers_of_app, Hq1, Hq2. cbn [app].
    destruct Ha as [|ack Hp|ack rowpos r Hp n].
    + discriminate Hc.
    + cbn in Hc. rewrite Hp in Hc. discriminate Hc.
    + destruct r as [[]|]; [|cbn in Hc; rewrite andb_false_r in Hc; discriminate Hc].
      exists n. split; [reflexivity|]. split; [reflexivity|].
      cbn. rewrite Hp. reflexivity.
Qed.

End BatchFacts.

Section BatchLoop.
Context {S : Type} `{Env S}.
Variables (map_area_sheet : gmap str str)
          (map_area_limit : gmap str (option Z))
          (nome_fmt telefone_fmt bairro_fmt rede_social_fmt email_fmt : str).

Let area_step := submit_area map_area_sheet map_area_limit nome_fmt telefone_fmt
                   bairro_fmt rede_social_fmt email_fmt.
Let loop := submit_loop map_area_sheet map_area_limit nome_fmt telefone_fmt
              bairro_fmt rede_social_fmt email_fmt.
Let snapshot := registro_of_attendee map_area_sheet nome_fmt telefone_fmt
                  bairro_fmt rede_social_fmt email_fmt.

(** One iteration: the clock is read, the row appended and numbered, and
    the three lists extended. *)
Lemma submit_area_run acc area (s : S) :
  area_step acc area s =
    match clock s with
    | (ts, s0) =>
        let sheet_title := sheet_title_of map_area_sheet area in
        let row := row_of nome_fmt telefone_fmt rede_social_fmt email_fmt
                     bairro_fmt ts in
        match append_ticket_and_get_number sheet_title row s0 with
        | (Ok senha_num, s1, t) =>
            let reg := mk_registro area sheet_title (Py.str_of_int senha_num)
                         nome_fmt telefone_fmt bairro_fmt rede_social_fmt
                         email_fmt ts in
            (Ok {| resultados := resultados acc ++ [reg];
                   tickets_payload := tickets_payload acc ++ [registro_dict reg];
                   excedidas :=
                     excedidas acc
                     ++ option_list (over_limit (limit_of map_area_limit)
                                       (area, senha_num)) |},
             s1, t)
        | (Raise e, s1, t) => (Raise e, s1, t)
        end
    end.
Proof.
  unfold area_step, submit_area, bind, now_str, ret.
  destruct (clock s) as [ts s0]. cbn zeta.
  destruct (append_ticket_and_get_number _ _ s0) as [[[n|e] s1] t];
    [|reflexivity].
  rewrite app_nil_r. cbn [app]. repeat f_equal.
  unfold over_limit. cbn [fst snd].
  destruct (limit_of map_area_limit area) as [l|]; [|now rewrite app_nil_r].
  destruct (l <? n); [reflexivity | now rewrite app_nil_r].
Qed.

(** The loop over the requested areas, when the store cooperates. *)
Lemma submit_loop_cooperative areas : forall acc (s : S),
  let o := loop areas acc s in
  cooperative (trace_of o) = true ->
  exists acc' regs,
    result_of o = Ok acc'
    /\ resultados acc' = resultados acc ++ regs
    /\ tickets_payload acc' = tickets_payload acc ++ map registro_dict regs
    /\ excedidas acc' =
         excedidas acc
         ++ exceeded_of (limit_of map_area_limit)
              (zip areas (numbers_of (trace_of o)))
    /\ map r_area regs = areas
    /\ map r_senha regs = map Py.str_of_int (numbers_of (trace_of o))
    /\ appends_of (trace_of o)
       = map (fun r => (r_sheet r ++ "!A1", [registro_row r])) regs
    /\ Forall snapshot regs.
Proof.
  induction areas as [|area rest IH]; intros acc s; cbn zeta.
  - intros _. exists acc, []. cbn. rewrite !app_nil_r. repeat split. constructor.
  - unfold loop. cbn [submit_loop]. fold loop. unfold bind.
    fold area_step. rewrite submit_area_run.
    destruct (clock s) as [ts s0]. cbn zeta.
    pose proof (append_ticket_cooperative
                  (sheet_title_of map_area_sheet area)
                  (row_of nome_fmt telefone_fmt rede_social_fmt email_fmt
                     bairro_fmt ts) s0) as Hone.
    cbn zeta in Hone.
    destruct (append_ticket_and_get_number _ _ s0) as [[[n|e] s1] t1].
    + set (acc1 := mk_accum _ _ _).
      specialize (IH acc1 s1). cbn zeta in IH.
      destruct (loop rest acc1 s1) as [[r2 s2] t2].
      unfold trace_of, result_of in *. cbn [fst snd] in *.
      rewrite cooperative_app. intros [Hc1 Hc2]%andb_true_iff.
      destruct (Hone Hc1) as (n' & Hn & Happ & Hnum). injection Hn as <-.
      destruct (IH Hc2) as (acc' & regs & -> & Hres & Hpay & Hexc & Har & Hse & Hap & Hsn).
      exists acc'. eexists (_ :: regs). split; [reflexivity|].
      rewrite Hres, Hpay, Hexc, numbers_of_app, appends_of_app, Happ, Hnum.
      subst acc1. cbn [resultados tickets_payload excedidas app zip zip_with map].
      rewrite <- !app_assoc. cbn [app].
      repeat split.
      * now rewrite exceeded_of_cons.
      * cbn [r_area]. now rewrite Har.
      * cbn [r_senha]. now rewrite Hse.
      * now rewrite Hap.
      * constructor; [|exact Hsn]. repeat split.
    + unfold trace_of, result_of in *. cbn [fst snd] in *.
      intros Hc. destruct (Hone Hc) as (n' & Hn & _). discriminate Hn.
Qed.

End BatchLoop.

(** The formatted phone is a fixed point of the normaliser, which is what
    lets the renderer normalise it again. *)
Lemma local_format_fixpoint d :
  Py.all_str Py.is_digit d = true -> length d = 11%nat ->
  format_phone_number (Some (local_format d)) = Ok (local_format d).
Proof.
  intros Hall Hlen. rewrite format_phone_number_digits.
  assert (Hd : phone_digits (local_format d) = "92" ++ Py.last 9 d).
  { unfold phone_digits. rewrite (local_format_digits d Hall). reflexivity. }
  rewrite Hd.
  do 11 (destruct d as [|? d]; [discriminate Hlen|]).
  destruct d; [|discriminate Hlen]. reflexivity.
Qed.

Lemma format_phone_number_fixpoint telefone tel :
  format_phone_number telefone = Ok tel ->
  format_phone_number (Some tel) = Ok tel.
Proof.
  destruct telefone as [t|]; [|discriminate].
  rewrite format_phone_number_digits.
  destruct (length (phone_digits t) =? 11)%nat eqn:E.
  - intros [= <-]. apply local_format_fixpoint;
      [apply phone_digits_all | now apply Nat.eqb_eq].
  - repeat destruct (Py.is_empty _); discriminate.
Qed.

Section BatchRender.
Context {S : Type} `{Env S}.

Lemma render_registro (pdf : pdf_document) (r : registro) :
  format_phone_number (Some (r_telefone r)) = Ok (r_telefone r) ->
  _render_ticket_page pdf (registro_dict r) =
    match draw_page (registro_page r) with
    | Some e => Raise e
    | None => Ok (pdf ++ [registro_page r])
    end.
Proof.
  intros Htel. unfold registro_page.
  now apply (render_ticket_page_run pdf (registro_dict r) (r_telefone r)).
Qed.

Lemma render_all_registros (regs : list registro) : forall pdf : pdf_document,
  Forall (fun r => format_phone_number (Some (r_telefone r)) = Ok (r_telefone r)) regs ->
  render_all pdf (map registro_dict regs) =
    match first_refusal (map registro_page regs) with
    | Some e => Raise e
    | None => Ok (pdf ++ map registro_page regs)
    end.
Proof.
  induction regs as [|r rest IH]; intros pdf Hall.
  - cbn. now rewrite app_nil_r.
  - inversion Hall as [|? ? Hr Hrest]; subst.
    cbn [map render_all first_refusal]. rewrite (render_registro pdf r Hr).
    destruct (draw_page (registro_page r)); [reflexivity|].
    rewrite (IH _ Hrest). destruct (first_refusal _); [reflexivity|].
    now rewrite <- app_assoc.
Qed.

(** [submit_tickets] on valid input, once the service is built and the
    areas are read: the loop, then the document unless a quota is
    exceeded. *)
Lemma submit_tickets_run area rest nome telefone bairro rede_social email
    (s s1 s2 : S) infos t0 tel :
  build_service s = (Ok tt, s1) ->
  read_active_areas s1 = (Ok infos, s2, t0) ->
  Py.is_empty (format_name_upper nome) = false ->
  format_phone_number telefone = Ok tel ->
  submit_tickets (area :: rest) nome telefone bairro rede_social email s =
    match submit_loop (map_area_sheet_of infos) (map_area_limit_of infos)
            (format_name_upper nome) tel (Py.strip (Py.or_empty bairro))
            (Py.strip (Py.or_empty rede_social)) (Py.strip (Py.or_empty email))
            (area :: rest) (mk_accum [] [] []) s2 with
    | (Ok acc, s3, t) =>
        (match excedidas acc with
         | [] =>
             match generate_tickets_pdf (tickets_payload acc) with
             | Ok pdf_bytes => Ok (resultados acc, Some pdf_bytes, excedidas acc)
             | Raise e => Raise e
             end
         | _ :: _ => Ok (resultados acc, None, excedidas acc)
         end, s3, t0 ++ t)
    | (Raise e, s3, t) => (Raise e, s3, t0 ++ t)
    end.
Proof.
  intros Hb Hr Hn Ht. unfold submit_tickets, bind, _sheets_service.
  rewrite Hb, Hr, Hn, Ht. cbn [app].
  destruct (submit_loop _ _ _ _ _ _ _ _ _ s2) as [[[acc|e] s3] t]; [|reflexivity].
  destruct (excedidas acc).
  - destruct (generate_tickets_pdf _); unfold ret, raise; now rewrite app_nil_r.
  - unfold ret. now rewrite app_nil_r.
Qed.

End BatchRender.

Section BatchClaim.
Context {S : Type} `{Env S}.

Lemma read_active_areas_quiet (s s' : S) r t :
  read_active_areas s = (r, s', t) -> appends_of t = [] /\ numbers_of t = [].
Proof.
  rewrite read_active_areas_run.
  destruct (values_get _ s) as [[v|] s0]; intros [= _ _ <-]; split; reflexivity.
Qed.


End BatchClaim.


(** A submission within the quotas gets its document on the reference
    renderer. *)
Example submit_tickets_document :
  let o := submit_tickets ["A"] (Some "Ana Lima") (Some "92 98123-1234")
             (Some "Centro") None None quota_world in
  exists res page,
    result_of o = Ok (res, Some [page], [])
    /\ pg_senha page = "1" /\ pg_area page = "A"
    /\ pg_qr_payload page = "A|1|ANA LIMA".
Proof. vm_compute. eexists _, _. repeat split. Qed.


(** * Further properties of the module *)

(** ** Decimal texts *)

Ltac eval_digits :=
  repeat match goal with
         | |- context [Py.digit_value ?c] =>
             let v := eval vm_compute in (Py.digit_value c) in
             change (Py.digit_value c) with v
         | |- context [Py.is_digit ?c] =>
             let v := eval vm_compute in (Py.is_digit c) in
             change (Py.is_digit c) with v
         end.

Lemma int_of_uint_text acc d :
  Py.int_of_digits_from acc (Py.str_of_uint d) = uint_value acc d.
Proof.
  revert acc. induction d; intros acc;
    cbn [Py.str_of_uint uint_value Py.int_of_digits_from];
    try reflexivity; eval_digits; rewrite IHd; reflexivity.
Qed.

Lemma uint_value_pos d : forall p,
  uint_value (Z.pos p) d = Z.pos (Pos.of_uint_acc d p).
Proof.
  induction d; intros p; cbn [uint_value Pos.of_uint_acc]; try reflexivity;
    rewrite <- IHd; f_equal; lia.
Qed.

Lemma uint_value_zero d : uint_value 0 d = Z.of_N (Pos.of_uint d).
Proof.
  induction d; cbn [uint_value Pos.of_uint]; try reflexivity;
    try (change (10 * 0 + 0) with 0; exact IHd);
    match goal with
    | |- uint_value ?k _ = _ => change k with (Z.pos (Z.to_pos k))
    end; rewrite uint_value_pos; reflexivity.
Qed.

Lemma uint_text_digits d : Py.all_str Py.is_digit (Py.str_of_uint d) = true.
Proof.
  induction d; cbn [Py.str_of_uint Py.all_str]; eval_digits; auto.
Qed.

(** [int(str(n)) = n], and [str(n)] is made of digits, for [n >= 0]. *)
Lemma str_of_int_digits n :
  0 <= n ->
  Py.all_str Py.is_digit (Py.str_of_int n) = true
  /\ Py.is_empty (Py.str_of_int n) = false
  /\ Py.int_of_digits (Py.str_of_int n) = n.
Proof.
  intros Hn. unfold Py.str_of_int, Py.int_of_digits.
  destruct n as [|p|p]; [repeat split; vm_compute; reflexivity| |lia].
  cbn [Z.to_int].
  pose proof (DecimalPos.Unsigned.of_to p) as Hp.
  destruct (Pos.to_uint p) eqn:E; try discriminate Hp;
    (split; [apply uint_text_digits|]); (split; [reflexivity|]);
    rewrite int_of_uint_text, uint_value_zero, Hp; reflexivity.
Qed.

(** ** Text of the ASCII range *)

Lemma ascii_or_plain c :
  Py.is_ascii c = true \/ (Py.is_upper c = false /\ Py.is_lower c = false).
Proof.
  unfold Py.is_ascii, Py.is_upper, Py.is_lower.
  destruct (c <? 128)%N eqn:E; [now left|right].
  apply N.ltb_ge in E.
  split; apply andb_false_iff; right; apply N.leb_gt; lia.
Qed.

(** A fact about the two case mappings of the ASCII range is checked on
    the 128 characters of the range; the mappings leave the others as they
    are. *)
Lemma ascii_chars_bool (f g : N -> bool) :
  forallb (fun c => Bool.eqb (f c) (g c)) (Unicode.count_from 0 128) = true ->
  (forall c, Py.is_upper c = false -> Py.is_lower c = false -> f c = g c) ->
  forall c, f c = g c.
Proof.
  intros Hall Hrest c. destruct (ascii_or_plain c) as [Hc|[Hup Hlow]]; [|auto].
  apply (ascii_forall _ Hall) in Hc. now apply Bool.eqb_prop in Hc.
Qed.

Ltac by_ascii_cases :=
  apply ascii_chars_bool;
  [ vm_compute; reflexivity
  | intros c Hup Hlow; unfold ascii_lower, ascii_upper;
    rewrite ?Hup, ?Hlow; try reflexivity; try assumption ].

Lemma lower_char_space c : Py.is_space (ascii_lower c) = Py.is_space c.
Proof. revert c. by_ascii_cases. Qed.

Lemma upper_char_space c : Py.is_space (ascii_upper c) = Py.is_space c.
Proof. revert c. by_ascii_cases. Qed.

Lemma lower_char_not_upper c : Py.is_upper (ascii_lower c) = false.
Proof.
  revert c.
  apply (ascii_chars_bool (fun c => Py.is_upper (ascii_lower c)) (fun _ => false));
    [ vm_compute; reflexivity
    | intros c Hup Hlow; unfold ascii_lower; now rewrite Hup ].
Qed.

Lemma ascii_lower_ascii c : Py.is_ascii (ascii_lower c) = Py.is_ascii c.
Proof. revert c. by_ascii_cases. Qed.

Lemma ascii_upper_ascii c : Py.is_ascii (ascii_upper c) = Py.is_ascii c.
Proof. revert c. by_ascii_cases. Qed.

Lemma ascii_chars_eq (f g : N -> N) :
  forallb (fun c => (f c =? g c)%N) (Unicode.count_from 0 128) = true ->
  (forall c, Py.is_ascii c = false -> f c = g c) ->
  forall c, f c = g c.
Proof.
  intros Hall Hrest c. destruct (Py.is_ascii c) eqn:E; [|now apply Hrest].
  apply (ascii_forall _ Hall) in E. now apply N.eqb_eq in E.
Qed.

Lemma not_ascii_plain c :
  Py.is_ascii c = false -> ascii_lower c = c /\ ascii_upper c = c.
Proof.
  intros E. destruct (ascii_or_plain c) as [Ha|[Hup Hlow]]; [congruence|].
  unfold ascii_lower, ascii_upper. now rewrite Hup, Hlow.
Qed.

Lemma lower_char_idem c : ascii_lower (ascii_lower c) = ascii_lower c.
Proof.
  revert c. apply ascii_chars_eq; [vm_compute; reflexivity|].
  intros c E. destruct (not_ascii_plain c E) as [-> _].
  now destruct (not_ascii_plain c E) as [-> _].
Qed.

Lemma lower_upper_char c : ascii_lower (ascii_upper c) = ascii_lower c.
Proof.
  revert c. apply ascii_chars_eq; [vm_compute; reflexivity|].
  intros c E. now destruct (not_ascii_plain c E) as [_ ->].
Qed.

Lemma map_str_compose f g s :
  Py.map_str f (Py.map_str g s) = Py.map_str (fun c => f (g c)) s.
Proof. induction s as [|c r IH]; simpl; [reflexivity | now rewrite IH]. Qed.

Lemma map_str_ext f g s :
  (forall c, f c = g c) -> Py.map_str f s = Py.map_str g s.
Proof. intros E. induction s as [|c r IH]; simpl; [reflexivity | now rewrite E, IH]. Qed.

Lemma all_str_map p f s :
  (forall c, p (f c) = p c) -> Py.all_str p (Py.map_str f s) = Py.all_str p s.
Proof. intros E. induction s as [|c r IH]; simpl; [reflexivity | now rewrite E, IH]. Qed.

Lemma all_str_lstrip p s : Py.all_str p s = true -> Py.all_str p (Py.lstrip s) = true.
Proof.
  induction s as [|c r IH]; [reflexivity|]. cbn [Py.lstrip].
  destruct (Py.is_space c); [|auto]. cbn [Py.all_str].
  intros [_ Hr]%andb_true_iff. auto.
Qed.

Lemma all_str_rstrip p s : Py.all_str p s = true -> Py.all_str p (Py.rstrip s) = true.
Proof.
  induction s as [|c r IH]; [reflexivity|]. cbn [Py.rstrip Py.all_str].
  intros [Hc Hr]%andb_true_iff.
  destruct (Py.is_space c && Py.is_empty (Py.rstrip r)); [reflexivity|].
  cbn [Py.all_str]. now rewrite Hc, (IH Hr).
Qed.

Lemma all_str_strip p s : Py.all_str p s = true -> Py.all_str p (Py.strip s) = true.
Proof. intros Hs. unfold Py.strip. now apply all_str_rstrip, all_str_lstrip. Qed.

(** On a text of the ASCII range the case mappings work character by
    character, there is nothing to decompose and no combining mark. *)
Lemma upper_ascii s : ascii_text s = true -> Py.upper s = Py.map_str ascii_upper s.
Proof.
  unfold ascii_text. induction s as [|c r IH]; [reflexivity|].
  cbn [Py.all_str Py.upper Py.map_str]. intros [Hc Hr]%andb_true_iff.
  rewrite (IH Hr). f_equal.
  apply (ascii_forall (fun c => Py.eqb (Unicode.toupper c) [ascii_upper c])) in Hc;
    [|vm_compute; reflexivity].
  apply eqb_eq in Hc. now rewrite Hc.
Qed.

Lemma lower_from_ascii s : forall before,
  ascii_text s = true -> Py.lower_from before s = Py.map_str ascii_lower s.
Proof.
  unfold ascii_text. induction s as [|c r IH]; intros before; [reflexivity|].
  cbn [Py.all_str Py.lower_from Py.map_str]. intros [Hc Hr]%andb_true_iff.
  rewrite (IH _ Hr).
  apply (ascii_forall
           (fun c => negb (c =? 931)%N
                     && Py.eqb (Unicode.tolower c) [ascii_lower c])) in Hc;
    [|vm_compute; reflexivity].
  apply andb_true_iff in Hc as [Hs Hl]. apply negb_true_iff in Hs.
  apply eqb_eq in Hl. now rewrite Hs, Hl.
Qed.

Lemma lower_ascii s : ascii_text s = true -> Py.lower s = Py.map_str ascii_lower s.
Proof. apply lower_from_ascii. Qed.

Lemma decompose_ascii s : ascii_text s = true -> flat_map Unicode.decompose s = s.
Proof.
  unfold ascii_text. induction s as [|c r IH]; [reflexivity|].
  cbn [Py.all_str flat_map]. intros [Hc Hr]%andb_true_iff.
  rewrite (IH Hr).
  apply (ascii_forall (fun c => Py.eqb (Unicode.decompose c) [c])) in Hc;
    [|vm_compute; reflexivity].
  apply eqb_eq in Hc. now rewrite Hc.
Qed.

Lemma combining_ascii c : Py.is_ascii c = true -> Unicode.combining c = 0%N.
Proof.
  intros Hc.
  apply (ascii_forall (fun c => (Unicode.combining c =? 0)%N)) in Hc;
    [now apply N.eqb_eq in Hc | vm_compute; reflexivity].
Qed.

Lemma canonical_order_ascii s :
  ascii_text s = true -> Unicode.canonical_order s = s.
Proof.
  unfold Unicode.canonical_order. intros Hs.
  assert (Hfold : forall done,
             fold_left (fun done c => Unicode.place c done) s done = rev s ++ done).
  { revert Hs. unfold ascii_text. induction s as [|c r IH]; intros Hs done;
      [reflexivity|].
    cbn [Py.all_str] in Hs. apply andb_true_iff in Hs as [Hc Hr].
    cbn [fold_left rev]. rewrite <- app_assoc. cbn [app].
    rewrite <- (IH Hr). f_equal.
    destruct done as [|p rest]; [reflexivity|]. cbn [Unicode.place].
    now rewrite (combining_ascii c Hc). }
  rewrite Hfold, app_nil_r. apply rev_involutive.
Qed.

Lemma filter_marks_ascii s :
  ascii_text s = true ->
  Py.filter_str (fun ch => (Unicode.combining ch =? 0)%N) s = s.
Proof.
  unfold ascii_text. induction s as [|c r IH]; [reflexivity|].
  cbn [Py.all_str Py.filter_str]. intros [Hc Hr]%andb_true_iff.
  now rewrite (combining_ascii c Hc), (IH Hr).
Qed.

Lemma normalize_ascii s :
  ascii_text s = true ->
  _normalize (Some s) = Py.map_str ascii_lower (Py.strip s).
Proof.
  intros Hs. unfold _normalize, Unicode.nfkd. cbn [Py.or_empty].
  rewrite (decompose_ascii s Hs), (canonical_order_ascii s Hs),
    (filter_marks_ascii s Hs).
  apply lower_ascii. now apply all_str_strip.
Qed.

Lemma ascii_text_normalize s :
  ascii_text s = true -> ascii_text (Py.map_str ascii_lower (Py.strip s)) = true.
Proof.
  intros Hs. unfold ascii_text.
  rewrite (all_str_map _ _ _ ascii_lower_ascii). now apply all_str_strip.
Qed.

Lemma ascii_text_upper s : ascii_text s = true -> ascii_text (Py.upper s) = true.
Proof.
  intros Hs. rewrite (upper_ascii s Hs). unfold ascii_text.
  now rewrite (all_str_map _ _ _ ascii_upper_ascii).
Qed.

Lemma ascii_text_lower s : ascii_text s = true -> ascii_text (Py.lower s) = true.
Proof.
  intros Hs. rewrite (lower_ascii s Hs). unfold ascii_text.
  now rewrite (all_str_map _ _ _ ascii_lower_ascii).
Qed.

Lemma ascii_text_pad s : ascii_text s = true -> ascii_text (" " ++ s ++ " ") = true.
Proof.
  intros Hs. unfold ascii_text in *. cbn [app Py.all_str].
  apply andb_true_iff. split; [reflexivity|]. now apply all_str_app.
Qed.

(** ** Coercions and header matching *)

Lemma normalize_upper s :
  ascii_text s = true -> _normalize (Some (Py.upper s)) = _normalize (Some s).
Proof.
  intros Hs. rewrite (normalize_ascii _ (ascii_text_upper s Hs)), (normalize_ascii s Hs).
  rewrite (upper_ascii s Hs), (strip_map _ upper_char_space), map_str_compose.
  apply map_str_ext, lower_upper_char.
Qed.

Lemma normalize_lower s :
  ascii_text s = true -> _normalize (Some (Py.lower s)) = _normalize (Some s).
Proof.
  intros Hs. rewrite (normalize_ascii _ (ascii_text_lower s Hs)), (normalize_ascii s Hs).
  rewrite (lower_ascii s Hs), (strip_map _ lower_char_space), map_str_compose.
  apply map_str_ext, lower_char_idem.
Qed.

Lemma normalize_strip s :
  ascii_text s = true -> _normalize (Some (Py.strip s)) = _normalize (Some s).
Proof.
  intros Hs. rewrite (normalize_ascii _ (all_str_strip _ _ Hs)), (normalize_ascii s Hs).
  now rewrite strip_idem.
Qed.

Lemma normalize_idem s :
  ascii_text s = true ->
  _normalize (Some (_normalize (Some s))) = _normalize (Some s).
Proof.
  intros Hs. rewrite (normalize_ascii s Hs).
  rewrite (normalize_ascii _ (ascii_text_normalize s Hs)).
  rewrite (strip_map _ lower_char_space), strip_idem, map_str_compose.
  apply map_str_ext, lower_char_idem.
Qed.

Lemma rstrip_pad t : Py.rstrip (t ++ " ") = Py.rstrip t.
Proof.
  induction t as [|c r IH]; [vm_compute; reflexivity|].
  cbn [app Py.rstrip]. now rewrite IH.
Qed.

Lemma strip_pad s : Py.strip (" " ++ s ++ " ") = Py.strip s.
Proof.
  unfold Py.strip.
  replace (Py.lstrip (" " ++ s ++ " ")) with (Py.lstrip (s ++ " "))
    by (cbn [app Py.lstrip];
        now change (Py.is_space 32) with true).
  induction s as [|c r IH]; [vm_compute; reflexivity|].
  cbn [app Py.lstrip].
  destruct (Py.is_space c); [exact IH|].
  change (c :: r ++ " ") with ((c :: r) ++ " "). apply rstrip_pad.
Qed.

Lemma normalize_pad s :
  ascii_text s = true ->
  _normalize (Some (" " ++ s ++ " ")) = _normalize (Some s).
Proof.
  intros Hs. rewrite (normalize_ascii _ (ascii_text_pad s Hs)), (normalize_ascii s Hs).
  now rewrite strip_pad.
Qed.

(** X1. On a text of the ASCII range [_normalize] is idempotent; its result
    has no upper-case letter and no whitespace at either end; and it does
    not see the case or the outer whitespace of its input. *)
Theorem normalize_canonical (s : str) :
  ascii_text s = true ->
  let n := _normalize (Some s) in
  _normalize (Some n) = n
  /\ Py.all_str (fun c => negb (Py.is_upper c)) n = true
  /\ trimmed n = true
  /\ _normalize (Some (Py.upper s)) = n
  /\ _normalize (Some (" " ++ s ++ " ")) = n.
Proof.
  intros Hs. cbn zeta. split; [now apply normalize_idem|]. split; [|split; [|split]].
  - rewrite (normalize_ascii s Hs).
    induction (Py.strip s) as [|c r IH]; simpl; [reflexivity|].
    now rewrite lower_char_not_upper, IH.
  - rewrite (normalize_ascii s Hs). unfold trimmed.
    rewrite (first_char_map _ lower_char_space), (last_char_map _ lower_char_space).
    apply strip_trimmed.
  - now apply normalize_upper.
  - now apply normalize_pad.
Qed.

Lemma normalize_canonical_witness :
  _normalize (Some (Py.upper " Qtd Senhas")) = _normalize (Some " Qtd Senhas")
  /\ _normalize (Some " Qtd Senhas") = "qtd senhas".
Proof.
  destruct (normalize_canonical " Qtd Senhas") as (_ & _ & _ & Hup & _);
    [vm_compute; reflexivity|].
  split; [exact Hup | vm_compute; reflexivity].
Defined.

(** X2. [_truthy] reads a text by its normal form: upper- or lower-casing
    a text of the ASCII range, or trimming it, does not change the answer; a
    boolean is its own answer. *)
Theorem truthy_insensitive (s : str) :
  ascii_text s = true ->
  _truthy (PStr (Py.upper s)) = _truthy (PStr s)
  /\ _truthy (PStr (Py.lower s)) = _truthy (PStr s)
  /\ _truthy (PStr (Py.strip s)) = _truthy (PStr s)
  /\ (forall b, _truthy (PBool b) = b).
Proof.
  intros Hs. unfold _truthy. cbn [py_str].
  now rewrite (normalize_upper s Hs), (normalize_lower s Hs), (normalize_strip s Hs).
Qed.

Lemma truthy_insensitive_witness :
  _truthy (PStr (Py.upper " sim ")) = true /\ _truthy (PStr " sim ") = true.
Proof.
  destruct (truthy_insensitive " sim ") as (Hup & _); [vm_compute; reflexivity|].
  split; [rewrite Hup|]; vm_compute; reflexivity.
Defined.

(** Outside the ASCII range upper-casing may change the answer: the
    dotless [ı] is not an [i], its capital is. *)
Example truthy_dotless_i :
  _truthy (PStr "sım") = false /\ _truthy (PStr (Py.upper "sım")) = true.
Proof. vm_compute. split; reflexivity. Qed.

Lemma parse_positive_int_gt v n : _parse_positive_int v = Some n -> 0 < n.
Proof.
  destruct v as [| |m|s]; unfold _parse_positive_int; try discriminate.
  - destruct (0 <? m) eqn:E; [|discriminate].
    intros [= <-]. now apply Z.ltb_lt.
  - cbn zeta. destruct (Py.is_empty _); [discriminate|].
    destruct (Nat.ltb _ _); [discriminate|].
    destruct (0 <? _) eqn:E; [|discriminate].
    intros [= <-]. now apply Z.ltb_lt.
Qed.

(** X3. What [_parse_positive_int] returns is a positive integer: [None],
    booleans, integers below 1 and texts without a digit or with digits that
    spell zero give no value. *)
Theorem parse_positive_int_positive (v : pyval) (n : Z) :
  _parse_positive_int v = Some n ->
  0 < n /\ v <> PNone /\ (forall b, v <> PBool b) /\ v <> PInt 0 /\ v <> PStr "".
Proof.
  intros Hv. split; [exact (parse_positive_int_gt v n Hv)|].
  repeat split; intros; intros ->; discriminate Hv.
Qed.

Lemma parse_positive_int_positive_witness :
  0 < 120 /\ PStr "Limite: 120" <> PNone.
Proof.
  destruct (parse_positive_int_positive (PStr "Limite: 120") 120) as (H1 & H2 & _);
    [vm_compute; reflexivity|].
  split; [exact H1 | exact H2].
Defined.




(** The digits of another script are read as well. *)
Example parse_positive_int_arabic : _parse_positive_int (PStr "1٣") = Some 13.
Proof. vm_compute. reflexivity. Qed.

Lemma index_of_col_some want norm : forall k i,
  index_of_col want norm k = Some i ->
  (k <= i)%nat
  /\ norm !! (i - k)%nat = Some want
  /\ (forall j, (j < i - k)%nat -> norm !! j <> Some want).
Proof.
  induction norm as [|col rest IH]; intros k i; cbn [index_of_col]; [discriminate|].
  destruct (Py.eqb col want) eqn:E.
  - intros [= <-]. apply eqb_eq in E. subst col.
    rewrite Nat.sub_diag. split; [lia|]. split; [reflexivity|]. intros j Hj. lia.
  - intros Hi. apply IH in Hi as (Hk & Hat & Hmin).
    apply eqb_neq in E.
    replace (i - k)%nat with (S (i - S k)) by lia.
    repeat split; [lia | exact Hat |].
    intros [|j] Hj; cbn; [congruence|]. apply Hmin. lia.
Qed.

Lemma index_of_col_none want norm k :
  index_of_col want norm k = None <-> ~ In want norm.
Proof.
  revert k. induction norm as [|col rest IH]; intros k; cbn [index_of_col In].
  - tauto.
  - destruct (Py.eqb col want) eqn:E.
    + apply eqb_eq in E. split; [discriminate | tauto].
    + apply eqb_neq in E. rewrite IH. tauto.
Qed.

Lemma find_candidate_some norm candidates i :
  find_candidate norm candidates = Some i ->
  exists pre cand post,
    candidates = pre ++ cand :: post
    /\ (forall c, In c pre -> ~ In (_normalize (Some c)) norm)
    /\ norm !! i = Some (_normalize (Some cand))
    /\ (forall j, (j < i)%nat -> norm !! j <> Some (_normalize (Some cand))).
Proof.
  induction candidates as [|want rest IH]; cbn [find_candidate]; [discriminate|].
  destruct (index_of_col (_normalize (Some want)) norm 0) as [idx|] eqn:E.
  - intros [= <-]. apply index_of_col_some in E as (_ & Hat & Hmin).
    rewrite Nat.sub_0_r in Hat, Hmin.
    exists [], want, rest. repeat split; auto; intros c [].
  - intros Hi. apply IH in Hi as (pre & cand & post & -> & Hpre & Hat & Hmin).
    exists (want :: pre), cand, post. repeat split; auto;
      intros c [<-|Hc]; [now apply index_of_col_none in E | auto].
Qed.

Lemma find_candidate_none norm candidates :
  find_candidate norm candidates = None
  <-> forall c, In c candidates -> ~ In (_normalize (Some c)) norm.
Proof.
  induction candidates as [|want rest IH]; cbn [find_candidate In].
  - split; [intros _ c [] | reflexivity].
  - destruct (index_of_col (_normalize (Some want)) norm 0) as [idx|] eqn:E.
    + split; [discriminate|]. intros Hall. exfalso.
      apply index_of_col_some in E as (_ & Hat & _).
      apply (Hall want); [now left|]. rewrite Nat.sub_0_r in Hat.
      apply list_elem_of_In. eapply list_elem_of_lookup_2. exact Hat.
    + apply index_of_col_none in E. rewrite IH. split.
      * intros Hrest c [<-|Hc]; auto.
      * intros Hall c Hc. apply Hall. now right.
Qed.


(** X5. When [_find_col_indexes] finds a column, its index is inside the
    header row; the cell there has the normal form of the first candidate
    that matches any cell of the row (the order of the candidates decides,
    not the order of the columns); and among the cells that match this
    candidate it is the leftmost. *)
Theorem find_col_indexes_sound (header candidates : list str) (i : nat) :
  _find_col_indexes header candidates = Some i ->
  exists cell pre cand post,
    header !! i = Some cell
    /\ candidates = pre ++ cand :: post
    /\ same_column cell cand
    /\ (forall j cell', (j < i)%nat -> header !! j = Some cell' ->
                        ~ same_column cell' cand)
    /\ (forall c cell', In c pre -> In cell' header -> ~ same_column cell' c).
Proof.
  unfold _find_col_indexes. intros Hi.
  apply find_candidate_some in Hi as (pre & cand & post & Hc & Hpre & Hat & Hmin).
  rewrite list_lookup_fmap in Hat.
  destruct (header !! i) as [cell|] eqn:Hcell; [|discriminate Hat].
  injection Hat as Hat.
  exists cell, pre, cand, post. repeat split; auto.
  - intros j cell' Hj Hcell' Hsame. apply (Hmin j Hj).
    rewrite list_lookup_fmap, Hcell'. unfold same_column in Hsame.
    change (Some (_normalize (Some cell')) = Some (_normalize (Some cand))).
    now rewrite Hsame.
  - intros c cell' Hin Hcell' Hsame. apply (Hpre c Hin).
    rewrite <- Hsame. apply in_map_iff. now exists cell'.
Qed.

Lemma find_col_indexes_sound_witness :
  exists cell pre cand post,
    ["Setor"; "Destino"; "ÁREA "] !! 2%nat = Some cell
    /\ area_candidates = pre ++ cand :: post
    /\ same_column cell cand
    /\ (forall j cell', (j < 2)%nat ->
          ["Setor"; "Destino"; "ÁREA "] !! j = Some cell' -> ~ same_column cell' cand)
    /\ (forall c cell', In c pre -> In cell' ["Setor"; "Destino"; "ÁREA "] ->
          ~ same_column cell' c).
Proof.
  apply (find_col_indexes_sound ["Setor"; "Destino"; "ÁREA "] area_candidates 2).
  vm_compute. reflexivity.
Defined.

(** X6. [_find_col_indexes] finds no column exactly when no cell of the
    header row has the normal form of any of the candidates. *)
Theorem find_col_indexes_none (header candidates : list str) :
  _find_col_indexes header candidates = None
  <-> forall cell cand, In cell header -> In cand candidates ->
                        ~ same_column cell cand.
Proof.
  unfold _find_col_indexes. rewrite find_candidate_none. split.
  - intros Hnone cell cand Hcell Hcand Hsame. apply (Hnone cand Hcand).
    rewrite <- Hsame. apply in_map_iff. now exists cell.
  - intros Hnone c Hc Hin. apply in_map_iff in Hin as (cell & Hsame & Hcell).
    exact (Hnone cell c Hcell Hc Hsame).
Qed.

(** An accented header is found by its unaccented candidate and the other
    way round. *)
Example find_col_indexes_accents :
  _find_col_indexes ["Área"] ["Area"] = Some 0%nat
  /\ _find_col_indexes ["Disponivel"] ativa_candidates = Some 0%nat
  /\ _find_col_indexes ["Nome"] area_candidates = None.
Proof. vm_compute. repeat split; reflexivity. Qed.

(** X7. The columns are found whatever the case and the outer whitespace
    of the header cells, for header cells of the ASCII range. *)
Theorem find_col_indexes_insensitive (header candidates : list str) :
  Forall (fun h => ascii_text h = true) header ->
  _find_col_indexes (map Py.upper header) candidates
  = _find_col_indexes header candidates
  /\ _find_col_indexes (map Py.lower header) candidates
     = _find_col_indexes header candidates
  /\ _find_col_indexes (map (fun h => " " ++ h ++ " ") header) candidates
     = _find_col_indexes header candidates.
Proof.
  intros Hascii. rewrite Forall_forall in Hascii.
  unfold _find_col_indexes. rewrite !map_map.
  repeat split; f_equal; apply map_ext_in; intros h Hh;
    apply list_elem_of_In, Hascii in Hh.
  - now apply normalize_upper.
  - now apply normalize_lower.
  - now apply normalize_pad.
Qed.

Lemma find_col_indexes_insensitive_witness :
  _find_col_indexes (map Py.upper ["Destino"; "Setor"]) area_candidates = Some 1%nat.
Proof.
  destruct (find_col_indexes_insensitive ["Destino"; "Setor"] area_candidates)
    as (Hup & _); [repeat constructor|].
  rewrite Hup. vm_compute. reflexivity.
Defined.

(** Outside the ASCII range the case of a header cell can matter: the
    capital of the dotless [ı] is the capital of [i]. *)
Example find_col_indexes_dotless_i :
  _find_col_indexes ["sım"] ["sim"] = None
  /\ _find_col_indexes (map Py.upper ["sım"]) ["sim"] = Some 0%nat.
Proof. vm_compute. split; reflexivity. Qed.

(** ** Column names *)

Lemma column_letter_loop_acc fuel : forall idx letters,
  _column_letter_loop fuel idx letters = letters ++ _column_letter_loop fuel idx [].
Proof.
  induction fuel as [|fuel IH]; intros idx letters; cbn [_column_letter_loop].
  - now rewrite app_nil_r.
  - destruct (0 <? idx); [|now rewrite app_nil_r].
    rewrite IH, (IH _ ([] ++ _)). now rewrite <- app_assoc.
Qed.

Lemma letter_code rem :
  0 <= rem < 26 -> Z.of_N (Z.to_N (65 + rem)) = 65 + rem.
Proof. intros Hr. lia. Qed.

Lemma column_letter_loop_value fuel : forall idx,
  idx <= Z.of_nat fuel ->
  column_value (rev (_column_letter_loop fuel idx [])) = Z.max 0 idx
  /\ Forall (fun c => Py.is_upper c = true) (_column_letter_loop fuel idx []).
Proof.
  induction fuel as [|fuel IH]; intros idx Hf; cbn [_column_letter_loop].
  - split; [cbn; lia | constructor].
  - destruct (0 <? idx) eqn:E; [|apply Z.ltb_ge in E; split; [cbn; lia | constructor]].
    apply Z.ltb_lt in E.
    pose proof (Z.mod_pos_bound (idx - 1) 26 ltac:(lia)) as Hrem.
    pose proof (Z.div_mod (idx - 1) 26 ltac:(lia)) as Hdm.
    assert (Hq : 0 <= (idx - 1) / 26) by (apply Z.div_pos; lia).
    destruct (IH ((idx - 1) / 26) ltac:(lia)) as [Hv Hu].
    rewrite column_letter_loop_acc. cbn [app]. split.
    + cbn [rev]. unfold column_value in *. rewrite fold_left_app. cbn [fold_left].
      rewrite Hv, letter_code by exact Hrem. lia.
    + constructor; [|exact Hu].
      unfold Py.is_upper. pose proof (letter_code _ Hrem) as Hc.
      apply andb_true_iff. split; apply N.leb_le; lia.
Qed.

Lemma all_str_Forall p (l : str) :
  Forall (fun c => p c = true) l -> Py.all_str p l = true.
Proof.
  induction 1 as [|c l Hc _ IH]; cbn; [reflexivity|]. now rewrite Hc, IH.
Qed.

(** X8. The name [_column_letter] gives to the zero-based column [idx] is
    made of the letters A to Z and, read as a number in the bijective base
    26 of spreadsheet columns, is [idx + 1]; below column 0 the name is
    empty. *)
Theorem column_letter_round_trip (idx : Z) :
  column_number (_column_letter idx) = Z.max 0 (idx + 1)
  /\ Py.all_str Py.is_upper (_column_letter idx) = true
  /\ (Py.is_empty (_column_letter idx) = true <-> idx < 0).
Proof.
  unfold _column_letter, column_number. cbn zeta.
  destruct (column_letter_loop_value (Z.to_nat (idx + 1)) (idx + 1) ltac:(lia))
    as [Hv Hu].
  split; [exact Hv|]. split.
  - apply all_str_Forall. apply Forall_forall. intros c Hc.
    rewrite Forall_forall in Hu. apply Hu.
    apply list_elem_of_In, in_rev. now apply list_elem_of_In.
  - unfold column_value in Hv.
    destruct (rev _) as [|c l] eqn:El; cbn [Py.is_empty].
    + cbn in Hv. split; [lia | reflexivity].
    + split; [discriminate|]. intros Hneg. exfalso.
      destruct (Z.to_nat (idx + 1)) eqn:En; [discriminate El|lia].
Qed.

(** ** Area resolver: what it returns and what it issues *)

Lemma area_of_row_well_formed area_idx aba_idx ativa_idx max_idx row a :
  area_of_row area_idx aba_idx ativa_idx max_idx row = Some a ->
  well_formed_area a.
Proof.
  unfold area_of_row.
  set (area := Py.strip (cell_or row (Some area_idx) "")).
  destruct (Py.is_empty area) eqn:Ea; [discriminate|].
  destruct (_truthy _); [|discriminate].
  destruct (Py.is_empty (Py.strip (cell_or row aba_idx area))) eqn:Et;
    intros [= <-]; unfold well_formed_area;
    cbn [ai_area ai_sheet ai_ativa ai_max_senhas];
    (split; [exact Ea|]); (split; [apply strip_trimmed|]);
    (split; [first [exact Ea | exact Et]|]); (split; [apply strip_trimmed|]);
    (split; [reflexivity|]); intros n; apply parse_positive_int_gt.
Qed.

Lemma areas_loop_well_formed area_idx aba_idx ativa_idx max_idx rows : forall acc,
  Forall well_formed_area acc ->
  Forall well_formed_area (areas_loop area_idx aba_idx ativa_idx max_idx rows acc).
Proof.
  induction rows as [|row rest IH]; intros acc Hacc; cbn [areas_loop]; [exact Hacc|].
  destruct (area_of_row _ _ _ _ row) as [a|] eqn:E; apply IH; [|exact Hacc].
  apply Forall_app. split; [exact Hacc|].
  constructor; [|constructor]. exact (area_of_row_well_formed _ _ _ _ _ _ E).
Qed.

Section AreaResolverMore.
Context {S : Type} `{Env S}.

(** X9. Every area [read_active_areas] returns has a name and a destination
    sheet that are not blank and carry no outer whitespace, is marked
    active, and has a maximum that is positive when it has one. *)
Theorem read_active_areas_entries (s : S) (areas : list area_info) :
  result_of (read_active_areas s) = Ok areas ->
  Forall (fun a =>
            Py.is_empty (ai_area a) = false /\ trimmed (ai_area a) = true
            /\ Py.is_empty (ai_sheet a) = false /\ trimmed (ai_sheet a) = true
            /\ ai_ativa a = true
            /\ (forall n, ai_max_senhas a = Some n -> 0 < n)) areas.
Proof.
  rewrite read_active_areas_run.
  destruct (values_get _ s) as [[v|] s']; unfold result_of; cbn [fst];
    [|discriminate].
  unfold active_areas_of_rows.
  destruct (match v with Some rows => rows | None => [] end) as [|header data].
  - intros [= <-]. constructor.
  - destruct (_find_col_indexes header area_candidates) as [i|]; [|discriminate].
    intros [= <-]. apply (areas_loop_well_formed i _ _ _ data []). constructor.
Qed.

(** X10. [read_active_areas] issues one call, the read of the columns A to
    Z of the configuration sheet, and no other; it never lets an [HttpError]
    through: a refused read is raised as a [RuntimeError]; and a sheet
    without values gives the empty list. *)
Theorem read_active_areas_one_read (s : S) :
  let o := read_active_areas s in
  exists r,
    trace_of o = [EvValuesGet "Nomes!A:Z" r]
    /\ result_of o <> Raise HttpError
    /\ (r = None -> exists msg, result_of o = Raise (RuntimeError msg))
    /\ (r = Some None -> result_of o = Ok []).
Proof.
  cbn zeta. rewrite read_active_areas_run.
  change (NOMES_SHEET ++ "!A:Z") with "Nomes!A:Z".
  destruct (values_get "Nomes!A:Z" s) as [[v|] s']; unfold result_of, trace_of;
    cbn [fst snd]; eexists; (split; [reflexivity|]).
  - split; [|split; [discriminate|]].
    + unfold active_areas_of_rows.
      destruct (match v with Some rows => rows | None => [] end) as [|header data];
        [discriminate|].
      destruct (_find_col_indexes header area_candidates); discriminate.
    + intros [= ->]. reflexivity.
  - split; [discriminate|]. split; [eauto | discriminate].
Qed.

End AreaResolverMore.

Lemma read_active_areas_entries_witness :
  Forall (fun a =>
            Py.is_empty (ai_area a) = false /\ trimmed (ai_area a) = true
            /\ Py.is_empty (ai_sheet a) = false /\ trimmed (ai_sheet a) = true
            /\ ai_ativa a = true
            /\ (forall n, ai_max_senhas a = Some n -> 0 < n))
    [ mk_area_info "Palco" "Palco 1" true (Some 30) ].
Proof.
  apply (read_active_areas_entries
           (Sim.config_only [ ["Área"; "Aba"; "Limite"; "Ativa"];
                              [" Palco "; " Palco 1"; "30 senhas"; "sim"];
                              ["Bar"; ""; "0"; "não"] ])).
  vm_compute. reflexivity.
Defined.

(** ** Neighbourhood resolver *)

Lemma neighborhoods_loop_later idx rows : forall acc,
  neighborhoods_loop (S idx) rows acc = acc ++ names_in rows.
Proof.
  revert idx. induction rows as [|row rest IH]; intros idx acc;
    cbn [neighborhoods_loop names_in map List.filter].
  - now rewrite app_nil_r.
  - fold (names_in rest). cbn [Nat.eqb andb].
    destruct (Py.is_empty (first_cell_name row)); cbn [negb].
    + apply IH.
    + rewrite IH, <- app_assoc. reflexivity.
Qed.

Lemma names_in_named rows :
  Forall (fun n => Py.is_empty n = false /\ trimmed n = true) (names_in rows).
Proof.
  unfold names_in. induction rows as [|row rest IH]; cbn [map List.filter];
    [constructor|].
  destruct (Py.is_empty (first_cell_name row)) eqn:E; cbn [negb]; [exact IH|].
  constructor; [|exact IH]. split; [exact E|apply strip_trimmed].
Qed.

Section NeighborhoodClaims.
Context {S : Type} `{Env S}.

(** X11. [read_neighborhoods] returns, in the order of the sheet and with
    repetitions kept, the trimmed first cells that are not blank; the first
    row alone is dropped when it is a header label (its normal form is
    [bairro] or [nome do bairro]), a later row with such a text is kept.  No
    name returned is blank or carries outer whitespace. *)
Theorem read_neighborhoods_rows (s s' : S) (rows : list (list str)) :
  values_get (BAIRROS_SHEET ++ "!A:A") s = (Some (Some rows), s') ->
  let bairros :=
    match rows with
    | [] => []
    | first :: rest =>
        (if is_neighborhood_header (first_cell_name first)
         then [] else names_in [first])
        ++ names_in rest
    end in
  read_neighborhoods s
  = (Ok bairros, s', [EvValuesGet (BAIRROS_SHEET ++ "!A:A") (Some (Some rows))])
  /\ Forall (fun n => Py.is_empty n = false /\ trimmed n = true) bairros.
Proof.
  intros Hget. cbn zeta. split.
  - unfold read_neighborhoods, bind, except_http, call_values_get, lift_call, ret.
    rewrite Hget. cbn [app]. f_equal. f_equal. f_equal.
    destruct rows as [|first rest]; [reflexivity|].
    unfold neighborhoods_of_rows. cbn [neighborhoods_loop].
    unfold names_in at 1. cbn [map List.filter]. unfold is_neighborhood_header.
    destruct (Py.is_empty (first_cell_name first)); cbn [negb Nat.eqb andb].
    + rewrite neighborhoods_loop_later.
      destruct (bool_decide _); reflexivity.
    + destruct (bool_decide _); now rewrite neighborhoods_loop_later.
  - destruct rows as [|first rest]; [constructor|].
    apply Forall_app. split; [|apply names_in_named].
    destruct (is_neighborhood_header _); [constructor | apply names_in_named].
Qed.

(** X12. [read_neighborhoods] issues one read and nothing else, and a
    refused read is raised as a [RuntimeError], never as an [HttpError]; a
    sheet without values gives the empty list. *)
Theorem read_neighborhoods_one_read (s : S) :
  let o := read_neighborhoods s in
  exists r,
    trace_of o = [EvValuesGet "Bairro!A:A" r]
    /\ (r = None -> exists msg, result_of o = Raise (RuntimeError msg))
    /\ (forall v, r = Some v -> exists bairros, result_of o = Ok bairros)
    /\ (r = Some None -> result_of o = Ok []).
Proof.
  cbn zeta.
  unfold read_neighborhoods, bind, except_http, call_values_get, lift_call, ret.
  change (BAIRROS_SHEET ++ "!A:A") with "Bairro!A:A".
  destruct (values_get "Bairro!A:A" s) as [[v|] s']; unfold result_of, trace_of;
    cbn [fst snd app]; eexists; (split; [reflexivity|]).
  - split; [discriminate|]. split; [eauto|]. intros [= ->]. reflexivity.
  - split; [eauto|]. split; discriminate.
Qed.

End NeighborhoodClaims.

Lemma read_neighborhoods_rows_witness :
  result_of (read_neighborhoods
               (Sim.with_sheets (Sim.config_only [])
                  [ ("Bairro", [ ["Nome do Bairro"]; [" Centro "]; [];
                                 ["bairro"]; ["Centro"; "x"] ]) ]))
  = Ok ["Centro"; "bairro"; "Centro"].
Proof.
  edestruct (read_neighborhoods_rows
               (Sim.with_sheets (Sim.config_only [])
                  [ ("Bairro", [ ["Nome do Bairro"]; [" Centro "]; [];
                                 ["bairro"]; ["Centro"; "x"] ]) ]))
    as [Hrun _]; [vm_compute; reflexivity|].
  rewrite Hrun. vm_compute. reflexivity.
Defined.

(** A header with an accent is a header; a cell of no-break spaces is
    blank. *)
Example neighborhoods_accented_header :
  neighborhoods_of_rows [ ["Baírro"]; [[160%N]]; ["Centro"] ] = ["Centro"].
Proof. vm_compute. reflexivity. Qed.

(** ** Sheet provisioning *)

Lemma header_range_eq title : _header_range title = title ++ "!A1:H1".
Proof.
  unfold _header_range.
  change (_column_letter (Z.of_nat (length HEADERS) - 1)) with "H".
  reflexivity.
Qed.

Lemma sheet_exists_in meta title :
  (_sheet_exists meta title).1 = true <-> In title (map sp_title meta).
Proof.
  induction meta as [|props rest IH]; cbn [_sheet_exists map In].
  - split; [discriminate | tauto].
  - destruct (Py.eqb (sp_title props) title) eqn:E.
    + apply eqb_eq in E. cbn. tauto.
    + apply eqb_neq in E. rewrite IH. tauto.
Qed.

Section ProvisioningClaims.
Context {S : Type} `{Env S}.

(** X13. For a sheet that exists, [ensure_area_sheet] never creates a sheet
    and never writes over a populated first row: when the first row read has
    a cell, the run ends after the two reads, with no change to the store;
    only when that row is absent or empty is the header row written, to
    the range A1:H1. *)
Theorem ensure_existing_sheet title (s s1 s2 : S) meta rng :
  spreadsheets_get s = (Some meta, s1) ->
  In title (map sp_title meta) ->
  values_get (title ++ "!1:1") s1 = (Some rng, s2) ->
  let o := ensure_area_sheet title s in
  let reads := [ EvGetSpreadsheet (Some meta);
                 EvValuesGet (title ++ "!1:1") (Some rng) ] in
  ((exists c cs more, rng = Some ((c :: cs) :: more)) ->
     o = (Ok tt, s2, reads))
  /\ ((rng = None \/ rng = Some [] \/ exists more, rng = Some ([] :: more)) ->
      exists r s3,
        values_update (title ++ "!A1:H1") [HEADERS] s2 = (r, s3)
        /\ o = (match r with Some _ => Ok tt | None => Raise HttpError end, s3,
                reads ++ [EvValuesUpdate (title ++ "!A1:H1") [HEADERS] r])).
Proof.
  intros Hmeta Hin Hget. cbn zeta.
  apply sheet_exists_in in Hin.
  unfold ensure_area_sheet, bind, call_spreadsheets_get, call_values_get,
    call_values_update, lift_call, ret.
  rewrite Hmeta. destruct (_sheet_exists meta title) as [ex id].
  cbn [fst] in Hin. subst ex. cbn [negb]. rewrite Hget, header_range_eq.
  split.
  - intros (c & cs & more & ->). reflexivity.
  - intros Hblank.
    assert (Hb : header_blank (match rng with Some v => v | None => [[]] end) = true).
    { destruct Hblank as [->|[->|[more ->]]]; reflexivity. }
    rewrite Hb.
    destruct (values_update _ _ s2) as [[[]|] s3]; eexists _, _;
      (split; [reflexivity|]); reflexivity.
Qed.

(** X14. For a sheet that does not exist, [ensure_area_sheet] creates it and
    then writes the header row to A1:H1, without reading the sheet; when the
    creation is refused the header is not written and the [HttpError] is
    raised. *)
Theorem ensure_missing_sheet title (s s1 : S) meta :
  spreadsheets_get s = (Some meta, s1) ->
  ~ In title (map sp_title meta) ->
  let o := ensure_area_sheet title s in
  match add_sheet title s1 with
  | (None, s2) =>
      o = (Raise HttpError, s2,
           [EvGetSpreadsheet (Some meta); EvAddSheet title None])
  | (Some u, s2) =>
      match values_update (title ++ "!A1:H1") [HEADERS] s2 with
      | (r, s3) =>
          o = (match r with Some _ => Ok tt | None => Raise HttpError end, s3,
               [ EvGetSpreadsheet (Some meta); EvAddSheet title (Some u);
                 EvValuesUpdate (title ++ "!A1:H1") [HEADERS] r ])
      end
  end.
Proof.
  intros Hmeta Hin. cbn zeta.
  rewrite <- sheet_exists_in in Hin.
  unfold ensure_area_sheet, bind, call_spreadsheets_get, call_add_sheet,
    call_values_update, lift_call, ret.
  rewrite Hmeta. destruct (_sheet_exists meta title) as [ex id].
  cbn [fst] in Hin. destruct ex; [contradiction|]. cbn [negb].
  rewrite header_range_eq.
  destruct (add_sheet title s1) as [[u|] s2]; [|reflexivity].
  destruct (values_update _ _ s2) as [[[]|] s3]; reflexivity.
Qed.

(** X15. In every run [append_ticket_and_get_number] issues at most one
    append (there is no retry on any path), exactly one when it returns a
    number; and when [ensure_area_sheet] fails it issues none: its error is
    raised and nothing is appended. *)
Theorem append_ticket_single_append title row (s : S) :
  let o := append_ticket_and_get_number title row s in
  (length (List.filter is_append (trace_of o)) <= 1)%nat
  /\ (forall n, result_of o = Ok n ->
        length (List.filter is_append (trace_of o)) = 1%nat)
  /\ (forall e, result_of (ensure_area_sheet title s) = Raise e ->
        result_of o = Raise e /\ List.filter is_append (trace_of o) = []).
Proof.
  cbn zeta. pose proof (ensure_no_append title s) as Hno.
  destruct (append_ticket_course title row s)
    as [(err & He & Ho)|(He & tail & Ht & Ha)].
  - rewrite Ho. unfold trace_of, result_of in *. cbn [fst snd] in *.
    rewrite Hno. split; [cbn; lia|]. split; [discriminate|].
    intros e' He'. split; [congruence | reflexivity].
  - rewrite Ht, List.filter_app, Hno. cbn [app].
    assert (Hone : length (List.filter is_append tail) = 1%nat)
      by (destruct Ha; reflexivity).
    rewrite Hone. split; [lia|]. split; [reflexivity|].
    intros e' He'. unfold result_of in *. congruence.
Qed.

End ProvisioningClaims.

Lemma ensure_existing_sheet_witness :
  let w := Sim.with_sheets (Sim.config_only [])
             [ ("Palco", [ ["Ticket"; "Quem"]; ["1"; "ANA"] ]) ] in
  result_of (ensure_area_sheet "Palco" w) = Ok tt
  /\ state_of (ensure_area_sheet "Palco" w) = w.
Proof.
  cbn zeta.
  edestruct (ensure_existing_sheet "Palco"
               (Sim.with_sheets (Sim.config_only [])
                  [ ("Palco", [ ["Ticket"; "Quem"]; ["1"; "ANA"] ]) ]))
    as [Hkept _];
    [ vm_compute; reflexivity | vm_compute; auto | vm_compute; reflexivity | ].
  rewrite Hkept; [split; reflexivity|]. eauto.
Defined.

Lemma ensure_missing_sheet_witness :
  Sim.lookup_sheet "Palco"
    (Sim.sheets (state_of (ensure_area_sheet "Palco" (Sim.config_only []))))
  = Some [HEADERS].
Proof.
  pose proof (ensure_missing_sheet "Palco" (Sim.config_only [])
                (Sim.config_only []) _ eq_refl) as Hrun.
  cbn zeta in Hrun. vm_compute in Hrun.
  specialize (Hrun ltac:(intros [E|[]]; discriminate E)).
  vm_compute. reflexivity.
Defined.


(** ** Document renderer: pages *)

Lemma dict_get_insert_ne (data : gmap str (option str)) k v key dflt :
  k <> key -> dict_get (<[k := v]> data) key dflt = dict_get data key dflt.
Proof. intros Hne. unfold dict_get, ticket_data. now rewrite lookup_insert_ne. Qed.

Lemma dict_get_delete_ne (data : gmap str (option str)) k key dflt :
  k <> key -> dict_get (delete k data) key dflt = dict_get data key dflt.
Proof. intros Hne. unfold dict_get, ticket_data. now rewrite lookup_delete_ne. Qed.

Section RendererPages.
Context {S : Type} `{Env S}.

(** X16. The page drawn for a ticket depends on six keys of the dictionary
    only (area, number, name, phone, neighbourhood, timestamp): setting or
    removing any other key, the social handle and the e-mail among them,
    changes neither the page nor whether rendering fails. *)
Theorem render_ticket_page_other_keys (pdf : pdf_document) (data : ticket_data)
    (k : str) (v : option str) :
  ~ In k rendered_keys ->
  _render_ticket_page pdf (<[k := v]> data) = _render_ticket_page pdf data
  /\ _render_ticket_page pdf (delete k data) = _render_ticket_page pdf data.
Proof.
  intros Hk. unfold rendered_keys in Hk. cbn [In] in Hk.
  unfold _render_ticket_page, ticket_page.
  rewrite !dict_get_insert_ne, !dict_get_delete_ne by (intros ->; tauto).
  split; reflexivity.
Qed.

Lemma render_page_ok (pdf : pdf_document) (data : ticket_data) :
  renders data ->
  exists pg, _render_ticket_page pdf data = Ok (pdf ++ [pg])
             /\ pg_senha pg = printed_senha data.
Proof.
  intros (tel & Ht & Hd). unfold _render_ticket_page. rewrite Ht. cbn zeta.
  rewrite Hd. eexists. split; reflexivity.
Qed.

Lemma render_page_refused (pdf : pdf_document) (data : ticket_data) e :
  refused data e -> _render_ticket_page pdf data = Raise e.
Proof.
  unfold _render_ticket_page. intros [Ht|(tel & Ht & Hd)]; rewrite Ht;
    [reflexivity|]. cbn zeta. now rewrite Hd.
Qed.

Lemma render_all_ok (tickets : list ticket_data) : forall pdf : pdf_document,
  Forall renders tickets ->
  exists pages,
    render_all pdf tickets = Ok (pdf ++ pages)
    /\ map pg_senha pages = map printed_senha tickets.
Proof.
  induction tickets as [|t rest IH]; intros pdf Hall.
  - exists []. cbn. now rewrite app_nil_r.
  - inversion Hall as [|? ? Ht Hrest]; subst.
    destruct (render_page_ok pdf t Ht) as (pg & Hpg & Hsenha).
    destruct (IH (pdf ++ [pg]) Hrest) as (pages & Hp & Hs).
    exists (pg :: pages). cbn [render_all map]. rewrite Hpg, Hp, <- app_assoc, Hsenha, Hs.
    split; reflexivity.
Qed.

Lemma render_all_raise (pre : list ticket_data) : forall (pdf : pdf_document) t post e,
  Forall renders pre ->
  refused t e ->
  render_all pdf (pre ++ t :: post) = Raise e.
Proof.
  induction pre as [|p rest IH]; intros pdf t post e Hpre Ht.
  - cbn [app render_all]. now rewrite (render_page_refused pdf t e Ht).
  - inversion Hpre as [|? ? Hp Hrest]; subst.
    destruct (render_page_ok pdf p Hp) as (pg & Hpg & _).
    cbn [app render_all]. rewrite Hpg. now apply IH.
Qed.

(** X17. [generate_tickets_pdf] is all or nothing.  When every ticket of a
    batch that is not empty renders (its phone normalises and the libraries
    draw its page), the document has one page per ticket, in the order of
    the tickets, each with the number of its ticket.  The document of the
    empty batch is the one blank page of the PDF library.  When some ticket
    is refused, by the phone normaliser or by a library, no document is
    produced, whatever the tickets before it: the error is the one of the
    first such ticket.  [generate_ticket_pdf] is the batch of one ticket. *)
Theorem generate_tickets_pdf_all_or_nothing (tickets : list ticket_data) :
  (Forall renders tickets -> tickets <> [] ->
     exists pages, generate_tickets_pdf tickets = Ok pages
                   /\ length pages = length tickets
                   /\ map pg_senha pages = map printed_senha tickets)
  /\ (tickets = [] -> generate_tickets_pdf tickets = Ok [blank_page])
  /\ (forall pre t post e,
        tickets = pre ++ t :: post ->
        Forall renders pre ->
        refused t e ->
        generate_tickets_pdf tickets = Raise e)
  /\ (forall data, generate_ticket_pdf data = generate_tickets_pdf [data]).
Proof.
  unfold generate_tickets_pdf, generate_ticket_pdf, _init_ticket_pdf.
  split; [|split; [|split]].
  - intros Hall Hne. destruct (render_all_ok tickets [] Hall) as (pages & Hp & Hs).
    exists pages. rewrite Hp. cbn [app].
    assert (Hlen : length pages = length tickets)
      by (rewrite <- (length_map pg_senha), Hs; apply length_map).
    split; [|split; [exact Hlen | exact Hs]].
    destruct pages as [|pg pages]; [|reflexivity].
    destruct tickets; [congruence | discriminate Hlen].
  - intros ->. reflexivity.
  - intros pre t post e -> Hpre Ht. now rewrite (render_all_raise pre [] t post e Hpre Ht).
  - intros data. cbn [render_all]. destruct (_render_ticket_page [] data); reflexivity.
Qed.

End RendererPages.

Lemma render_ticket_page_other_keys_witness :
  _render_ticket_page (S := Sim.world) []
    (<["email" := Some "ana@example.com"]> ticket_with_phone_only)
  = _render_ticket_page (S := Sim.world) [] ticket_with_phone_only.
Proof.
  apply (render_ticket_page_other_keys (S := Sim.world) [] ticket_with_phone_only
           "email" (Some "ana@example.com")).
  unfold rendered_keys. cbn [In]. intros H.
  repeat (destruct H as [H|H]; [discriminate H|]). exact H.
Defined.

Lemma generate_tickets_pdf_all_or_nothing_witness :
  (exists pages,
     generate_tickets_pdf (S := Sim.world)
       [ticket_with_phone_only; ticket_with_phone_only] = Ok pages
     /\ length pages = 2%nat)
  /\ generate_tickets_pdf (S := Sim.world)
       [ticket_with_phone_only; ticket_without_phone; ticket_with_phone_only]
     = Raise (ValueError "Telefone é obrigatório.")
  /\ generate_tickets_pdf (S := Sim.world)
       [ticket_with_phone_only; <["senha" := Some " "]> ticket_with_phone_only]
     = Raise (OtherError "IndexError").
Proof.
  split; [|split].
  - destruct (proj1 (generate_tickets_pdf_all_or_nothing (S := Sim.world)
                       [ticket_with_phone_only; ticket_with_phone_only]))
      as (pages & Hp & Hl & _).
    + repeat constructor; exists "(92) 98123-1234"; split; vm_compute; reflexivity.
    + discriminate.
    + exists pages. split; [exact Hp | exact Hl].
  - apply (proj1 (proj2 (proj2 (generate_tickets_pdf_all_or_nothing (S := Sim.world) _)))
             [ticket_with_phone_only] ticket_without_phone [ticket_with_phone_only]).
    + reflexivity.
    + repeat constructor. exists "(92) 98123-1234". split; vm_compute; reflexivity.
    + left. vm_compute. reflexivity.
  - apply (proj1 (proj2 (proj2 (generate_tickets_pdf_all_or_nothing (S := Sim.world) _)))
             [ticket_with_phone_only]
             (<["senha" := Some " "]> ticket_with_phone_only) []).
    + reflexivity.
    + repeat constructor. exists "(92) 98123-1234". split; vm_compute; reflexivity.
    + right. exists "(92) 98123-1234". split; vm_compute; reflexivity.
Defined.

(** ** Submission orchestrator: partial completion and configuration *)

Section PartialCompletion.
Context {S : Type} `{Env S}.


Variables (map_area_sheet : gmap str str)
          (map_area_limit : gmap str (option Z))
          (nome_fmt telefone_fmt bairro_fmt rede_social_fmt email_fmt : str).

Let loop := submit_loop map_area_sheet map_area_limit nome_fmt telefone_fmt
              bairro_fmt rede_social_fmt email_fmt.


End PartialCompletion.

Section PartialCompletionClaim.
Context {S : Type} `{Env S}.


End PartialCompletionClaim.


Lemma map_area_sheet_snoc infos x :
  map_area_sheet_of (infos ++ [x])
  = <[ai_area x := ai_sheet x]> (map_area_sheet_of infos).
Proof. unfold map_area_sheet_of. now rewrite fold_left_app. Qed.

Lemma map_area_limit_snoc infos x :
  map_area_limit_of (infos ++ [x])
  = <[ai_area x := ai_max_senhas x]> (map_area_limit_of infos).
Proof. unfold map_area_limit_of. now rewrite fold_left_app. Qed.

Lemma entries_named_snoc area infos x :
  entries_named area (infos ++ [x])
  = entries_named area infos ++ (if Py.eqb (ai_area x) area then [x] else []).
Proof. unfold entries_named. now rewrite List.filter_app. Qed.

(** X19. When the area list names an area more than once, the last of its
    rows decides both the destination sheet and the maximum; an area that
    the list does not name is written to a sheet of its own name and has no
    maximum. *)
Theorem area_maps_last_row_wins (infos : list area_info) (area : str) :
  map_area_sheet_of infos !! area = ai_sheet <$> last (entries_named area infos)
  /\ map_area_limit_of infos !! area
     = ai_max_senhas <$> last (entries_named area infos)
  /\ (entries_named area infos = [] ->
      sheet_title_of (map_area_sheet_of infos) area = area
      /\ limit_of (map_area_limit_of infos) area = None).
Proof.
  assert (Hmaps :
    map_area_sheet_of infos !! area = ai_sheet <$> last (entries_named area infos)
    /\ map_area_limit_of infos !! area
       = ai_max_senhas <$> last (entries_named area infos)).
  { induction infos as [|x infos IH] using rev_ind; [split; reflexivity|].
    destruct IH as [IH1 IH2].
    rewrite map_area_sheet_snoc, map_area_limit_snoc, entries_named_snoc.
    destruct (Py.eqb (ai_area x) area) eqn:E.
    - apply eqb_eq in E. subst area.
      rewrite !lookup_insert_eq, last_snoc. split; reflexivity.
    - apply eqb_neq in E.
      rewrite !lookup_insert_ne by exact E. rewrite app_nil_r. now split. }
  destruct Hmaps as [H1 H2]. split; [exact H1|]. split; [exact H2|].
  intros Hnone. unfold sheet_title_of, limit_of. rewrite H1, H2, Hnone.
  split; reflexivity.
Qed.

Lemma area_maps_last_row_wins_witness :
  sheet_title_of (map_area_sheet_of
                    [ mk_area_info "A" "Sala 1" true (Some 5);
                      mk_area_info "A" "Sala 2" true None ]) "B" = "B"
  /\ limit_of (map_area_limit_of
                 [ mk_area_info "A" "Sala 1" true (Some 5);
                   mk_area_info "A" "Sala 2" true None ]) "B" = None.
Proof.
  apply (area_maps_last_row_wins
           [ mk_area_info "A" "Sala 1" true (Some 5);
             mk_area_info "A" "Sala 2" true None ] "B").
  vm_compute. reflexivity.
Defined.


(** ** Phone normaliser: what is kept of the input *)

(** X20. Of a phone that normalises, only the last nine digits are kept:
    the result always starts with the area code [(92)], two inputs with the
    same last nine digits give the same text, whatever area code they
    carry; and the result normalises to itself. *)
Theorem format_phone_number_keeps_last_nine (t1 t2 : str) (o1 o2 : str) :
  format_phone_number (Some t1) = Ok o1 ->
  format_phone_number (Some t2) = Ok o2 ->
  Py.take 5 o1 = "(92) "
  /\ format_phone_number (Some o1) = Ok o1
  /\ (Py.last 9 (phone_digits t1) = Py.last 9 (phone_digits t2) -> o1 = o2).
Proof.
  intros H1 H2. pose proof (format_phone_number_fixpoint _ _ H1) as Hfix.
  rewrite format_phone_number_digits in H1, H2.
  destruct (length (phone_digits t1) =? 11)%nat;
    [|repeat destruct (Py.is_empty _); discriminate H1].
  destruct (length (phone_digits t2) =? 11)%nat;
    [|repeat destruct (Py.is_empty _); discriminate H2].
  injection H1 as <-. injection H2 as <-.
  split; [reflexivity|]. split; [exact Hfix|].
  intros Hlast. unfold local_format. now rewrite Hlast.
Qed.

Lemma format_phone_number_keeps_last_nine_witness :
  format_phone_number (Some "(11) 98123-1234") = Ok "(92) 98123-1234"
  /\ format_phone_number (Some "5592981231٣2٤") = Ok "(92) 98123-1٣2٤"
  /\ format_phone_number (Some "(92) 98123-1٣2٤") = Ok "(92) 98123-1٣2٤".
Proof.
  destruct (format_phone_number_keeps_last_nine "5592981231٣2٤" "92981231٣2٤"
              "(92) 98123-1٣2٤" "(92) 98123-1٣2٤")
    as (_ & Hfix & _); [vm_compute; reflexivity | vm_compute; reflexivity |].
  split; [vm_compute; reflexivity|]. split; [vm_compute; reflexivity | exact Hfix].
Defined.

(** ** Single-area submission *)

Lemma rstrip_no_space s :
  Py.all_str (fun c => negb (Py.is_space c)) s = true -> Py.rstrip s = s.
Proof.
  induction s as [|c r IH]; [reflexivity|]. cbn [Py.all_str Py.rstrip].
  intros [Hc Hr]%andb_true_iff. apply negb_true_iff in Hc.
  rewrite Hc, (IH Hr). reflexivity.
Qed.

Lemma strip_digits s : Py.all_str Py.is_digit s = true -> Py.strip s = s.
Proof.
  intros Hd.
  assert (Hns : Py.all_str (fun c => negb (Py.is_space c)) s = true).
  { induction s as [|c r IH]; [reflexivity|]. cbn [Py.all_str] in *.
    apply andb_true_iff in Hd as [Hc Hr].
    now rewrite (digit_not_space _ Hc), (IH Hr). }
  unfold Py.strip. rewrite lstrip_id; [now apply rstrip_no_space|].
  destruct s as [|c r]; [reflexivity|]. cbn [first_char not_space Py.all_str] in *.
  now apply andb_true_iff in Hns as [-> _].
Qed.

Lemma digit_not_sign c :
  Py.is_digit c = true ->
  (c =? Py.ord "-")%N = false /\ (c =? Py.ord "+")%N = false.
Proof.
  intros Hc.
  apply (digit_forall (fun c => negb (c =? Py.ord "-")%N
                                && negb (c =? Py.ord "+")%N)) in Hc;
    [|vm_compute; reflexivity].
  apply andb_true_iff in Hc as [H1 H2].
  now apply negb_true_iff in H1, H2.
Qed.

(** [int(str(n)) = n] for the numbers a ticket can carry. *)
Lemma int_of_str n : 0 <= n -> PyInt.int (Py.str_of_int n) = Ok n.
Proof.
  intros Hn. destruct (str_of_int_digits n Hn) as (Hd & He & Hi).
  unfold PyInt.int. rewrite (strip_digits _ Hd).
  destruct (Py.str_of_int n) as [|c r] eqn:Es; [discriminate He|].
  pose proof Hd as Hd'. cbn [Py.all_str] in Hd'.
  apply andb_true_iff in Hd' as [Hc _].
  destruct (digit_not_sign c Hc) as [-> ->].
  unfold PyInt.unsigned. rewrite Hd. cbn [Py.is_empty negb andb]. now rewrite Hi.
Qed.

Lemma numbers_of_at_least_one t :
  Forall (fun n => 1 <= n) (numbers_of t).
Proof.
  unfold numbers_of. induction t as [|ev t IH]; [constructor|].
  cbn [omap list_omap]. destruct (number_of ev) as [n|] eqn:E; [|exact IH].
  constructor; [|exact IH].
  destruct ev as [| | | |rng values [ack|]]; try discriminate E. cbn in E.
  destruct (row_position _); [|discriminate E]. injection E as <-. lia.
Qed.

Section SingleSubmissionClaim.
Context {S : Type} `{Env S}.

(** The document of one registration. *)
Lemma generate_registro_pdf (r : registro) :
  format_phone_number (Some (r_telefone r)) = Ok (r_telefone r) ->
  generate_tickets_pdf [registro_dict r] =
    match draw_page (registro_page r) with
    | Some e => Raise e
    | None => Ok [registro_page r]
    end.
Proof.
  intros Htel. unfold generate_tickets_pdf, _init_ticket_pdf.
  change [registro_dict r] with (map registro_dict [r]).
  rewrite (render_all_registros [r] [] ltac:(constructor; [exact Htel | constructor])).
  cbn [map first_refusal]. destruct (draw_page (registro_page r)); reflexivity.
Qed.

(** X21. [submit_ticket] on valid input, in a run where the service is
    built, the areas are read and the store cooperates: one row is appended
    to the sheet of the area and numbered [n], at least 1.  When the area has
    a maximum below [n] the call raises a [ValueError] although the row is
    in the sheet.  Otherwise the page of the ticket, with the number [n] and
    the area, is drawn, and the call returns [n] itself and a document of
    that one page, unless a drawing library raises on the page: then the
    call raises that exception, the row being in the sheet. *)
Theorem submit_ticket_outcome area nome telefone bairro rede_social email
    (s s1 s2 : S) infos t0 tel :
  Py.is_empty (format_name_upper nome) = false ->
  format_phone_number telefone = Ok tel ->
  build_service s = (Ok tt, s1) ->
  read_active_areas s1 = (Ok infos, s2, t0) ->
  let o := submit_ticket area nome telefone bairro rede_social email s in
  cooperative (trace_of o) = true ->
  exists n pg,
    numbers_of (trace_of o) = [n]
    /\ 1 <= n
    /\ map fst (appends_of (trace_of o))
       = [sheet_title_of (map_area_sheet_of infos) area ++ "!A1"]
    /\ pg_senha pg = Py.str_of_int n
    /\ pg_area pg = Py.strip area
    /\ let outcome :=
         match draw_page pg with
         | Some e => Raise e
         | None => Ok (n, Some [pg])
         end in
       match limit_of (map_area_limit_of infos) area with
       | Some l =>
           if l <? n
           then exists msg, result_of o = Raise (ValueError msg)
           else result_of o = outcome
       | None => result_of o = outcome
       end.
Proof.
  intros Hn Ht Hb Hr. cbn zeta. unfold submit_ticket, bind.
  rewrite (submit_tickets_run _ _ _ _ _ _ _ _ _ _ _ _ _ Hb Hr Hn Ht).
  destruct (read_active_areas_quiet _ _ _ _ Hr) as [Hq1 Hq2].
  pose proof (submit_loop_cooperative (map_area_sheet_of infos)
                (map_area_limit_of infos) (format_name_upper nome) tel
                (Py.strip (Py.or_empty bairro))
                (Py.strip (Py.or_empty rede_social))
                (Py.strip (Py.or_empty email))
                [area] (mk_accum [] [] []) s2) as Hloop.
  cbn zeta in Hloop.
  destruct (submit_loop _ _ _ _ _ _ _ _ _ s2) as [[racc s3] t].
  unfold trace_of, result_of in *. cbn [fst snd] in *.
  assert (Htr : forall (k : result (list registro * option pdf_document * list excedida)
                            * S * list event),
             k.2 = t0 ++ t ->
             (match k with
              | (Ok a, s4, t1) =>
                  match (let '(resultados, pdf_bytes, excedidas) := a in
                         match resultados with
                         | [] => raise (ValueError "Falha ao gerar a senha.")
                         | first :: _ =>
                             match excedidas with
                             | info :: _ =>
                                 raise (ValueError
                                   ("A área " ++ e_area info
                                    ++ " excedeu o limite de "
                                    ++ Py.str_of_int (e_limite info)
                                    ++ " senhas (atual: "
                                    ++ Py.str_of_int (e_senha info) ++ ")."))
                             | [] =>
                                 match PyInt.int (r_senha first) with
                                 | Ok n => ret (n, pdf_bytes)
                                 | Raise e => raise e
                                 end
                             end
                         end) s4 with
                  | (r, s5, t2) => (r, s5, t1 ++ t2)
                  end
              | (Raise e, s4, t1) => (Raise e, s4, t1)
              end).2 = t0 ++ t).
  { intros [[[[[res pdf] exc]|e] s4] t1] Hk; cbn [snd] in Hk |- *; [|exact Hk].
    destruct res as [|first ?]; [unfold raise; now rewrite app_nil_r|].
    destruct exc; [|unfold raise; now rewrite app_nil_r].
    destruct (PyInt.int _); unfold ret, raise; now rewrite app_nil_r. }
  rewrite Htr by (destruct racc; reflexivity).
  rewrite cooperative_app. intros [_ Hc]%andb_true_iff.
  destruct (Hloop Hc) as (acc & regs & -> & Hres & Hpay & Hexc & Har & Hse & Hap & Hsn).
  cbn [resultados tickets_payload excedidas app] in Hres, Hpay, Hexc.
  rewrite numbers_of_app, appends_of_app, Hq1, Hq2. cbn [app].
  destruct regs as [|r [|r' regs]]; try discriminate Har.
  cbn [map] in Har, Hse, Hap, Hpay. injection Har as Har.
  pose proof (numbers_of_at_least_one t) as Hge.
  destruct (numbers_of t) as [|n [|n' ns]]; try discriminate Hse.
  injection Hse as Hse. inversion Hge as [|? ? Hn1 _]; subst.
  destruct (str_of_int_digits n ltac:(lia)) as (Hdig & _ & _).
  exists n, (registro_page r). split; [reflexivity|]. split; [exact Hn1|].
  rewrite Hap. cbn [map fst].
  inversion Hsn as [|? ? Hsnap _]; subst.
  destruct Hsnap as (Hsheet & _ & Htel & _).
  split; [now rewrite Hsheet|].
  split; [change (pg_senha (registro_page r)) with (Py.strip (r_senha r));
          now rewrite Hse, (strip_digits _ Hdig)|].
  split; [reflexivity|].
  cbn zeta. rewrite Hres, Hpay. rewrite Hexc.
  unfold exceeded_of. cbn [zip zip_with omap list_omap]. unfold over_limit. cbn [fst snd].
  assert (Hphone : format_phone_number (Some (r_telefone r)) = Ok (r_telefone r))
    by (rewrite Htel; exact (format_phone_number_fixpoint _ _ Ht)).
  rewrite (generate_registro_pdf r Hphone).
  assert (Hint : PyInt.int (r_senha r) = Ok n)
    by (rewrite Hse; apply int_of_str; lia).
  destruct (limit_of (map_area_limit_of infos) (r_area r)) as [l|].
  - destruct (l <? n).
    + cbn [fst]. eexists. reflexivity.
    + destruct (draw_page (registro_page r)); [reflexivity|].
      cbn [fst]. now rewrite Hint.
  - destruct (draw_page (registro_page r)); [reflexivity|].
    cbn [fst]. now rewrite Hint.
Qed.

End SingleSubmissionClaim.

Lemma submit_ticket_outcome_witness :
  let o := submit_ticket "B" (Some "Ana Lima") (Some "92 98123-1234")
             (Some "Centro") None None quota_world in
  (exists n, numbers_of (trace_of o) = [n] /\ 1 <= n)
  /\ result_of o
     = Raise (ValueError "A área B excedeu o limite de 1 senhas (atual: 2).")
  /\ Sim.lookup_sheet "B" (Sim.sheets (state_of o))
     = Some [ HEADERS;
              [ "1"; "JOSE"; "(92) 99111-2222"; ""; ""; "Centro";
                "01/03/2025 09:00:00"; "" ];
              [ "2"; "ANA LIMA"; "(92) 98123-1234"; ""; ""; "Centro";
                "01/03/2025 09:30:00"; "" ] ].
Proof.
  cbn zeta. split.
  - edestruct (submit_ticket_outcome "B" (Some "Ana Lima") (Some "92 98123-1234")
                 (Some "Centro") None None quota_world)
      as (n & pg & Hn & Hge & _);
      [ vm_compute; reflexivity | vm_compute; reflexivity
      | vm_compute; reflexivity | vm_compute; reflexivity
      | vm_compute; reflexivity | ].
    exists n. split; [exact Hn | exact Hge].
  - split; vm_compute; reflexivity.
Defined.

(** The row is in the sheet when a drawing library refuses the page. *)
Example submit_ticket_name_outside_latin1 :
  let o := submit_ticket "A" (Some "Łukasz") (Some "92 98123-1234")
             (Some "Centro") None None quota_world in
  result_of o = Raise (OtherError "FPDFUnicodeEncodingException")
  /\ Sim.lookup_sheet "A" (Sim.sheets (state_of o))
     = Some [ HEADERS;
              [ "1"; "ŁUKASZ"; "(92) 98123-1234"; ""; ""; "Centro";
                "01/03/2025 09:30:00"; "" ] ].
Proof. vm_compute. split; reflexivity. Qed.

(** * Properties of the form *)

(** ** Trimming by a set of characters *)

Section StripBy.
Variable p : N -> bool.

Lemma lstrip_by_all q s :
  Py.all_str q s = true -> Py.all_str q (lstrip_by p s) = true.
Proof.
  induction s as [|c r IH]; [reflexivity|]. cbn [lstrip_by].
  destruct (p c); [|auto]. cbn [Py.all_str].
  intros [_ Hr]%andb_true_iff. auto.
Qed.

Lemma rstrip_by_all q s :
  Py.all_str q s = true -> Py.all_str q (rstrip_by p s) = true.
Proof.
  induction s as [|c r IH]; [reflexivity|]. cbn [rstrip_by Py.all_str].
  intros [Hc Hr]%andb_true_iff.
  destruct (p c && Py.is_empty (rstrip_by p r)); [reflexivity|].
  cbn [Py.all_str]. now rewrite Hc, (IH Hr).
Qed.

Lemma lstrip_by_first s :
  match first_char (lstrip_by p s) with Some c => negb (p c) | None => true end = true.
Proof.
  induction s as [|c r IH]; [reflexivity|]. cbn [lstrip_by].
  destruct (p c) eqn:E; [exact IH|]. cbn. now rewrite E.
Qed.

Lemma rstrip_by_first s :
  match first_char s with Some c => negb (p c) | None => true end = true ->
  match first_char (rstrip_by p s) with Some c => negb (p c) | None => true end = true.
Proof.
  destruct s as [|c r]; [reflexivity|]. cbn [first_char rstrip_by].
  intros E. apply negb_true_iff in E. rewrite E. cbn. now rewrite E.
Qed.

Lemma rstrip_by_last s :
  match last_char (rstrip_by p s) with Some c => negb (p c) | None => true end = true.
Proof.
  induction s as [|c r IH]; [reflexivity|]. cbn [rstrip_by].
  destruct (rstrip_by p r) as [|c' r'] eqn:Er.
  - destruct (p c) eqn:E; cbn; [reflexivity | now rewrite E].
  - rewrite andb_false_r. exact IH.
Qed.

Lemma strip_by_clear s : clear_ends p (strip_by p s) = true.
Proof.
  unfold clear_ends, strip_by. rewrite rstrip_by_last, andb_true_r.
  apply rstrip_by_first, lstrip_by_first.
Qed.

Lemma strip_by_all q s :
  Py.all_str q s = true -> Py.all_str q (strip_by p s) = true.
Proof. intros Hq. unfold strip_by. now apply rstrip_by_all, lstrip_by_all. Qed.

End StripBy.

Lemma sub_unsafe_runs_safe s : forall in_run,
  Py.all_str is_name_char (sub_unsafe_runs in_run s) = true.
Proof.
  induction s as [|c r IH]; intros in_run; [reflexivity|]. cbn [sub_unsafe_runs].
  destruct (is_name_char c) eqn:E.
  - cbn [Py.all_str]. now rewrite E, IH.
  - destruct in_run; [apply IH|]. cbn [Py.all_str]. now rewrite IH.
Qed.

(** ** Name of the downloaded document *)

(** X22. Whatever the area names and numbers of the registrations, the name
    of the downloaded document is made of letters, digits, underscores and
    hyphens alone, is not empty, neither starts nor ends with an underscore,
    and is followed by the extension [.pdf]. *)
Theorem file_name_safe (resultados : list registro) :
  Py.all_str is_name_char (safe_name resultados) = true
  /\ Py.is_empty (safe_name resultados) = false
  /\ clear_ends is_underscore (safe_name resultados) = true
  /\ file_name resultados = safe_name resultados ++ ".pdf".
Proof.
  unfold safe_name. cbn zeta.
  destruct (Py.is_empty (strip_by _ _)) eqn:E.
  - split; [reflexivity|]. split; [reflexivity|]. split; [reflexivity|].
    unfold file_name, safe_name. cbn zeta. now rewrite E.
  - split; [apply strip_by_all, sub_unsafe_runs_safe|].
    split; [exact E|]. split; [apply strip_by_clear|].
    unfold file_name, safe_name. cbn zeta. now rewrite E.
Qed.

(** ** Forwarding to the print server *)

(** X23. [enviar_para_impressao] answers [(True, None)] or [(False, reason)],
    never a failure without a reason.  It sends nothing when the server
    address or the token is missing, and otherwise one request: the document
    as it was given, the token, and the address with its trailing slashes
    removed before [/print/pdf] is added.  It answers [True] only when that
    request got a response flagged [ok]. *)
Theorem enviar_para_impressao_outcome {B : Type} (url token : str)
    (post : print_request B -> post_outcome) (pdf_bytes : B) :
  let out := enviar_para_impressao url token post pdf_bytes in
  let base := rstrip_by is_slash url in
  (out.1.1 = true <-> out.1.2 = None)
  /\ (Py.is_empty url = true \/ Py.is_empty token = true ->
      out.2 = [] /\ out.1.1 = false)
  /\ (Py.is_empty url = false -> Py.is_empty token = false ->
      out.2 = [mk_print_request (base ++ "/print/pdf") token "application/pdf"
                 pdf_bytes])
  /\ (out.1.1 = true ->
      exists code text,
        post (mk_print_request (base ++ "/print/pdf") token "application/pdf"
                pdf_bytes) = Responded true code text)
  /\ match last_char base with Some c => negb (is_slash c) | None => true end = true.
Proof.
  cbn zeta. unfold enviar_para_impressao.
  split; [|split; [|split; [|split]]].
  - destruct (Py.is_empty url), (Py.is_empty token); cbn; try (split; discriminate).
    destruct (post _) as [[] ? ?|?]; cbn; split; congruence.
  - intros [-> | ->]; [|rewrite andb_false_r]; cbn; split; reflexivity.
  - intros -> ->. cbn. destruct (post _) as [[] ? ?|?]; reflexivity.
  - destruct (Py.is_empty url), (Py.is_empty token); cbn; try discriminate.
    destruct (post _) as [[] ? ?|?]; cbn; try discriminate. eauto.
  - apply rstrip_by_last.
Qed.

Lemma enviar_para_impressao_outcome_witness :
  let post := fun r : print_request str =>
                if Py.eqb (pr_url r) "http://printer:8080/print/pdf"
                then Responded true 200 "" else Failed "unreachable" in
  enviar_para_impressao "http://printer:8080//" "s3cret" post "%PDF"
  = ((true, None),
     [mk_print_request "http://printer:8080/print/pdf" "s3cret" "application/pdf"
        "%PDF"])
  /\ (enviar_para_impressao "" "s3cret" post "%PDF").2 = [].
Proof.
  cbn zeta.
  set (post := fun r : print_request str =>
                 if Py.eqb (pr_url r) "http://printer:8080/print/pdf"
                 then Responded true 200 "" else Failed "unreachable").
  destruct (enviar_para_impressao_outcome "http://printer:8080//" "s3cret" post "%PDF")
    as (_ & _ & Hsent & _).
  destruct (enviar_para_impressao_outcome "" "s3cret" post "%PDF")
    as (_ & Hnone & _).
  split.
  - specialize (Hsent eq_refl eq_refl). vm_compute. reflexivity.
  - exact (proj1 (Hnone (or_introl eq_refl))).
Defined.

(** * Row positions of ranges in A1 notation *)

Lemma upper_ascii_char c : Py.is_upper c = true -> Py.is_ascii c = true.
Proof.
  unfold Py.is_upper, Py.is_ascii. intros [_ Hc]%andb_true_iff.
  apply N.leb_le in Hc. apply N.ltb_lt. lia.
Qed.

Lemma upper_plain c :
  Py.is_upper c = true ->
  Py.is_digit c = false /\ (c =? Re.newline)%N = false
  /\ (c =? Py.ord "!")%N = false /\ (c =? Py.ord ":")%N = false.
Proof.
  intros Hu. pose proof (upper_ascii_char c Hu) as Ha.
  apply (ascii_forall
           (fun c => implb (Py.is_upper c)
                       (negb (Py.is_digit c) && negb (c =? Re.newline)%N
                        && negb (c =? Py.ord "!")%N
                        && negb (c =? Py.ord ":")%N))) in Ha;
    [|vm_compute; reflexivity].
  rewrite Hu in Ha. cbn [implb] in Ha.
  apply andb_true_iff in Ha as [Ha H4]. apply andb_true_iff in Ha as [Ha H3].
  apply andb_true_iff in Ha as [H1 H2].
  now apply negb_true_iff in H1, H2, H3, H4.
Qed.

Lemma digit_plain c :
  Py.is_digit c = true ->
  (c =? Re.newline)%N = false /\ (c =? Py.ord "!")%N = false
  /\ (c =? Py.ord ":")%N = false.
Proof.
  intros Hc.
  apply (digit_forall
           (fun c => negb (c =? Re.newline)%N && negb (c =? Py.ord "!")%N
                     && negb (c =? Py.ord ":")%N)) in Hc;
    [|vm_compute; reflexivity].
  apply andb_true_iff in Hc as [Hc H3]. apply andb_true_iff in Hc as [H1 H2].
  now apply negb_true_iff in H1, H2, H3.
Qed.

Lemma take_digits_app d rest :
  Py.all_str Py.is_digit d = true ->
  match rest with c :: _ => Py.is_digit c = false | [] => True end ->
  Re.take_digits (d ++ rest) = d /\ Re.drop_digits (d ++ rest) = rest.
Proof.
  intros Hd Hrest. induction d as [|c r IH].
  - cbn [app]. destruct rest as [|c r]; [split; reflexivity|].
    cbn [Re.take_digits Re.drop_digits]. now rewrite Hrest.
  - cbn [Py.all_str] in Hd. apply andb_true_iff in Hd as [Hc Hr].
    destruct (IH Hr) as [IH1 IH2].
    cbn [app Re.take_digits Re.drop_digits].
    now rewrite Hc, IH1, IH2.
Qed.

Lemma lazy_any_column follow col d rest :
  Py.all_str Py.is_upper col = true ->
  Py.all_str Py.is_digit d = true -> Py.is_empty d = false ->
  match rest with c :: _ => Py.is_digit c = false | [] => True end ->
  follow rest = true ->
  Re.lazy_any follow (col ++ d ++ rest) = Some d.
Proof.
  intros Hcol Hd He Hrest Hf. induction col as [|c r IH].
  - cbn [app]. destruct (take_digits_app d rest Hd Hrest) as [Ht Hdr].
    destruct d as [|c r]; [discriminate He|].
    change ((c :: r) ++ rest) with (c :: (r ++ rest)) in *.
    cbn [Re.lazy_any]. unfold Re.group_here. now rewrite Ht, Hdr, Hf.
  - cbn [Py.all_str] in Hcol. apply andb_true_iff in Hcol as [Hc Hr].
    destruct (upper_plain c Hc) as (Hnd & Hnl & _).
    cbn [app Re.lazy_any].
    unfold Re.group_here. cbn [Re.take_digits]. rewrite Hnd. cbn [Py.is_empty].
    rewrite Hnl. now apply IH.
Qed.

Lemma search_title follow title r :
  Py.all_str not_bang title = true ->
  Re.search follow (title ++ Py.ord "!" :: r)
  = match Re.lazy_any follow r with
    | Some d => Some d
    | None => Re.search follow r
    end.
Proof.
  intros Ht. induction title as [|c t IH].
  - cbn [app Re.search]. now rewrite N.eqb_refl.
  - cbn [Py.all_str] in Ht. apply andb_true_iff in Ht as [Hc Hr].
    unfold not_bang in Hc. apply negb_true_iff in Hc.
    cbn [app Re.search]. rewrite Hc. now apply IH.
Qed.

Lemma search_no_bang follow s :
  Py.all_str not_bang s = true -> Re.search follow s = None.
Proof.
  induction s as [|c r IH]; [reflexivity|]. cbn [Py.all_str Re.search].
  intros [Hc Hr]%andb_true_iff. unfold not_bang in Hc. apply negb_true_iff in Hc.
  rewrite Hc. now apply IH.
Qed.

Lemma drop_digits_no_colon s :
  Py.all_str (fun c => negb (c =? Py.ord ":")%N) s = true ->
  Re.follow_colon (Re.drop_digits s) = false.
Proof.
  induction s as [|c r IH]; [reflexivity|]. cbn [Py.all_str Re.drop_digits].
  intros [Hc Hr]%andb_true_iff. apply negb_true_iff in Hc.
  destruct (Py.is_digit c); [now apply IH|]. cbn [Re.follow_colon]. exact Hc.
Qed.

Lemma lazy_any_no_colon s :
  Py.all_str (fun c => negb (c =? Py.ord ":")%N) s = true ->
  Re.lazy_any Re.follow_colon s = None.
Proof.
  induction s as [|c r IH]; [reflexivity|]. intros Hs.
  cbn [Re.lazy_any]. unfold Re.group_here.
  rewrite (drop_digits_no_colon _ Hs).
  cbn [Py.all_str] in Hs. apply andb_true_iff in Hs as [_ Hr].
  rewrite (IH Hr). destruct (Py.is_empty _), (c =? Re.newline)%N; reflexivity.
Qed.

Lemma all_str_impl (p q : N -> bool) s :
  (forall c, p c = true -> q c = true) ->
  Py.all_str p s = true -> Py.all_str q s = true.
Proof.
  intros Hpq. induction s as [|c r IH]; [reflexivity|]. cbn [Py.all_str].
  intros [Hc Hr]%andb_true_iff. now rewrite (Hpq c Hc), IH.
Qed.

(** X24. [row_position] reads the ranges of the A1 notation: for a sheet
    title without [!], a column name in capital letters and a row [n >= 0],
    the range [title!<column><n>:<anything>] and the single cell
    [title!<column><n>] both give the row [n]. *)
Theorem row_position_of_range (title col : str) (n : Z) :
  Py.all_str not_bang title = true ->
  Py.all_str Py.is_upper col = true ->
  0 <= n ->
  (forall rest,
     row_position (title ++ "!" ++ col ++ Py.str_of_int n ++ ":" ++ rest)
     = Some n)
  /\ row_position (title ++ "!" ++ col ++ Py.str_of_int n) = Some n.
Proof.
  intros Ht Hcol Hn. destruct (str_of_int_digits n Hn) as (Hd & He & Hi).
  unfold row_position, search_row. split.
  - intros rest.
    change (title ++ "!" ++ col ++ Py.str_of_int n ++ ":" ++ rest)
      with (title ++ Py.ord "!" :: (col ++ Py.str_of_int n ++ Py.ord ":" :: rest)).
    rewrite (search_title _ _ _ Ht).
    rewrite (lazy_any_column Re.follow_colon col _ (Py.ord ":" :: rest) Hcol Hd He);
      [cbn [fmap option_fmap option_map]; now rewrite Hi
      | vm_compute; reflexivity | apply N.eqb_refl].
  - change (title ++ "!" ++ col ++ Py.str_of_int n)
      with (title ++ Py.ord "!" :: (col ++ Py.str_of_int n)).
    assert (Hplain : forall q : N -> bool,
               (forall c, Py.is_upper c = true -> q c = true) ->
               (forall c, Py.is_digit c = true -> q c = true) ->
               Py.all_str q (col ++ Py.str_of_int n) = true).
    { intros q Hu Hg. apply all_str_app;
        [ exact (all_str_impl Py.is_upper q _ Hu Hcol)
        | exact (all_str_impl Py.is_digit q _ Hg Hd) ]. }
    rewrite !(search_title _ _ _ Ht).
    rewrite lazy_any_no_colon, search_no_bang.
    + replace (col ++ Py.str_of_int n) with (col ++ Py.str_of_int n ++ "")
        by now rewrite app_nil_r.
      rewrite (lazy_any_column Re.follow_end col _ "" Hcol Hd He);
        [cbn [fmap option_fmap option_map]; now rewrite Hi | exact I | reflexivity].
    + apply Hplain; unfold not_bang; intros c Hc; apply negb_true_iff;
        [apply (upper_plain c Hc) | apply (digit_plain c Hc)].
    + apply Hplain; intros c Hc; apply negb_true_iff;
        [apply (upper_plain c Hc) | apply (digit_plain c Hc)].
Qed.

Lemma row_position_of_range_witness :
  row_position "Palco 2!A15:H15" = Some 15 /\ row_position "Palco 2!A15" = Some 15.
Proof.
  destruct (row_position_of_range "Palco 2" "A" 15) as [Hrange Hcell];
    [vm_compute; reflexivity | vm_compute; reflexivity | lia |].
  split; [exact (Hrange "H15") | exact Hcell].
Defined.
